(** * SmartFridge: recipe matching, filtering and shopping suggestions

    A shallow embedding of the matching engine of [recipe_search.py] and of
    the duplicated helpers of [queries/query_handlers.py], followed by the
    properties the specification states about them.

    Conventions of the embedding.
    - A recipe and a filter dictionary are records whose fields are
      [option]s: [None] is an absent key.  [d.get(k, default)] is [get],
      [d[k]] is [subscript], which raises [KeyError] on an absent key.
    - Functions that can raise return a [result]; the [for] loops that
      contain a raising statement are [for_each], which stops at the first
      exception.
    - Strings are ASCII strings and [str.lower] is ASCII case folding.
    - A match percentage is the value of [round(x, 1)], i.e. the binary64
      number nearest to [k / 10] for an integer [k]; it is represented by
      [k], the number of tenths of a percent.  The quotient and the product
      that produce [x] are computed in binary64 ([Float64]). *)

From Stdlib Require Import ZArith List String Ascii Bool Lia Permutation Sorted.
From Stdlib Require Import Floats.SpecFloat.
Import ListNotations.

Local Open Scope string_scope.
Local Open Scope list_scope.
Local Open Scope Z_scope.

(* ================================================================== *)
(** * Part I: the program *)
(* ================================================================== *)

(** ** Binary64 arithmetic as Python performs it *)

Module Float64.

Definition prec : Z := 53.
Definition emax : Z := 1024.

Definition fexp64 : Z -> Z := fexp prec emax.

(** [float(z)] : the conversion applied to the integer operand of
    [float * int]. *)
Definition float_of_int (z : Z) : spec_float :=
  binary_normalize prec emax z 0 false.

(** [a / b] on two non-negative Python integers: the correctly rounded
    quotient.  Division by zero raises [ZeroDivisionError] in Python; the
    only caller guards it with [total > 0], and the model answers NaN
    there. *)
Definition int_true_div (a b : nat) : spec_float :=
  match a, b with
  | _, O => S754_nan
  | O, S _ => S754_zero false
  | S _, S _ =>
      SFdiv prec emax (S754_finite false (Pos.of_nat a) 0)
                      (S754_finite false (Pos.of_nat b) 0)
  end.

Definition mul (x y : spec_float) : spec_float := SFmul prec emax x y.

(** Nearest integer to [n / d], ties to even. *)
Definition half_even (n d : Z) : Z :=
  let q := n / d in
  let r := n mod d in
  match 2 * r ?= d with
  | Lt => q
  | Gt => q + 1
  | Eq => if Z.even q then q else q + 1
  end.

(** [round(x, 1)], as the number of tenths of the result.  Python rounds the
    exact value of [x] to one decimal, ties to even, and returns the
    binary64 nearest to that decimal.  Infinities and NaN (which
    [calculate_match] never produces, see [percentage_float_repr]) map
    to 0. *)
Definition round1 (x : spec_float) : Z :=
  match x with
  | S754_finite s m e =>
      let k := match e with
               | Zneg p => half_even (10 * Zpos m) (2 ^ Zpos p)
               | _ => 10 * Zpos m * 2 ^ e
               end in
      if s then - k else k
  | _ => 0
  end.

(** The float built from a mantissa and an exponent, zero included. *)
Definition SF_of (s : bool) (M E : Z) : spec_float :=
  match M with Zpos p => S754_finite s p E | _ => S754_zero s end.

(** [x] is the non-negative binary64 number [M * 2^E], in canonical form. *)
Definition repr64 (x : spec_float) (M E : Z) : Prop :=
  x = SF_of false M E
  /\ 0 <= M < 2 ^ 53 /\ -1074 <= E <= 971 /\ (-1074 < E -> 2 ^ 52 <= M).

End Float64.

(** ** Strings *)

Definition lower_ascii (c : ascii) : ascii :=
  let n := nat_of_ascii c in
  if ((65 <=? n) && (n <=? 90))%nat then ascii_of_nat (n + 32) else c.

(** [s.lower()] *)
Fixpoint lower (s : string) : string :=
  match s with
  | EmptyString => EmptyString
  | String c rest => String (lower_ascii c) (lower rest)
  end.

(** [x in xs] for a list (or set) of strings *)
Definition contains (xs : list string) (x : string) : bool :=
  existsb (String.eqb x) xs.

(** [x in xs] for a set of recipe ids *)
Definition contains_id (xs : list Z) (x : Z) : bool :=
  existsb (Z.eqb x) xs.

(** ** Exceptions *)

Inductive exn : Type :=
| KeyError (key : string).

Inductive result (A : Type) : Type :=
| Ok (a : A)
| Raise (e : exn).

Arguments Ok {A} a.
Arguments Raise {A} e.

Definition bind {A B} (r : result A) (k : A -> result B) : result B :=
  match r with
  | Ok a => k a
  | Raise e => Raise e
  end.

Notation "x <- c1 ;; c2" := (bind c1 (fun x => c2))
  (at level 61, c1 at next level, right associativity).

(** [d[key]] *)
Definition subscript {A} (key : string) (field : option A) : result A :=
  match field with
  | Some v => Ok v
  | None => Raise (KeyError key)
  end.

(** [d.get(key, default)] *)
Definition get {A} (field : option A) (default : A) : A :=
  match field with
  | Some v => v
  | None => default
  end.

(** [for x in items: body], where [body] may raise. *)
Fixpoint for_each {A S} (body : S -> A -> result S) (items : list A) (s : S)
  : result S :=
  match items with
  | [] => Ok s
  | x :: rest => s' <- body s x ;; for_each body rest s'
  end.

(** ** Stable descending sort: [l.sort(key=..., reverse=True)]

    Python's sort is stable and [reverse=True] keeps the original order of
    elements with equal keys, so the result is determined: every element
    ends up after the elements with a larger key and after the equal-key
    elements that preceded it. *)

Fixpoint insert_desc {A} (key : A -> Z) (x : A) (l : list A) : list A :=
  match l with
  | [] => [x]
  | y :: l' => if key x <? key y then y :: insert_desc key x l' else x :: y :: l'
  end.

Definition sort_desc {A} (key : A -> Z) (l : list A) : list A :=
  fold_right (insert_desc key) [] l.

(** [l[:n]] *)
Definition slice_to {A} (l : list A) (n : Z) : list A :=
  if n <? 0 then firstn (Z.to_nat (Z.of_nat (List.length l) + n)) l
  else firstn (Z.to_nat n) l.

(** ** Data *)

Module Recipe.
Record t : Type := {
  id : option Z;
  name : option string;
  ingredients : option (list string);
  prep_time : option Z;
  cook_time : option Z;
  total_time : option Z;
  servings : option Z;
  skill_level : option string;
  cuisine : option string;
  dietary_tags : option (list string);
  equipment : option (list string)
}.
End Recipe.

Module Filters.
Record t : Type := {
  max_time : option Z;
  skill_level : option string;
  dietary_tags : option (list string);
  cuisine : option string
}.

(** the dictionary [{}] *)
Definition empty : t :=
  {| max_time := None; skill_level := None; dietary_tags := None; cuisine := None |}.

(** [not filters] for a dictionary *)
Definition is_empty (f : t) : bool :=
  match max_time f, skill_level f, dietary_tags f, cuisine f with
  | None, None, None, None => true
  | _, _, _, _ => false
  end.
End Filters.

Module MatchData.
Record t : Type := {
  percentage : Z;          (* tenths of a percent *)
  matched : list string;
  missing : list string
}.
End MatchData.

Module SearchResult.
Record t : Type := {
  id : Z;
  name : string;
  match_percentage : Z;
  matched_ingredients : list string;
  missing_ingredients : list string;
  prep_time : Z;
  cook_time : Z;
  total_time : Z;
  servings : Z;
  skill_level : string;
  cuisine : string;
  dietary_tags : list string;
  equipment : list string
}.
End SearchResult.

Module PartialMatch.
Record t : Type := {
  id : Z;
  name : string;
  match_percentage : Z;
  matched_ingredients : list string;
  missing_ingredients : list string;
  total_time : Z;
  skill_level : string;
  cuisine : string
}.
End PartialMatch.

Module Suggestion.
Record t : Type := {
  name : string;
  unlock_count : Z;
  recipe_names : list string
}.
End Suggestion.

(** ** Truthiness of filter values *)

Definition truthy_int (z : Z) : bool := negb (z =? 0).
Definition truthy_str (s : string) : bool := negb (String.eqb s "").
Definition truthy_list {A} (l : list A) : bool :=
  match l with [] => false | _ :: _ => true end.

(** ** The insertion-ordered dictionary [ingredient_impact] *)

Definition dict (V : Type) : Type := list (string * V).

Definition dict_mem {V} (k : string) (d : dict V) : bool :=
  existsb (fun kv => String.eqb (fst kv) k) d.

(** [d[k] = v]: replaces in place, or appends a new key at the end. *)
Fixpoint dict_set {V} (k : string) (v : V) (d : dict V) : dict V :=
  match d with
  | [] => [(k, v)]
  | (k', v') :: rest =>
      if String.eqb k' k then (k', v) :: rest else (k', v') :: dict_set k v rest
  end.

(** in-place update of the value stored at [k] *)
Fixpoint dict_adjust {V} (k : string) (f : V -> V) (d : dict V) : dict V :=
  match d with
  | [] => []
  | (k', v') :: rest =>
      if String.eqb k' k then (k', f v') :: rest else (k', v') :: dict_adjust k f rest
  end.

(** [list(d.values())] *)
Definition dict_values {V} (d : dict V) : list V := map snd d.

(** ** [recipe_search.py] *)

Module recipe_search.

(** the float [match_count / total * 100] *)
Definition percentage_float (match_count total : nat) : spec_float :=
  Float64.mul (Float64.int_true_div match_count total) (Float64.float_of_int 100).

(** [round((match_count / total * 100) if total > 0 else 0, 1)], in tenths.
    [round(0, 1)] is the integer 0. *)
Definition round_percentage (match_count total : nat) : Z :=
  if (0 <? total)%nat
  then Float64.round1 (percentage_float match_count total)
  else 0.

Definition calculate_match (recipe_ingredients user_ingredients : list string)
  : MatchData.t :=
  let lower_rec_ings := map lower recipe_ingredients in
  let '(matched, missing) :=
    fold_left
      (fun '(matched, missing) recipe_ing =>
         if contains user_ingredients recipe_ing
         then (matched ++ [recipe_ing], missing)
         else (matched, missing ++ [recipe_ing]))
      lower_rec_ings ([], []) in
  let total := List.length lower_rec_ings in
  let match_count := List.length matched in
  {| MatchData.percentage := round_percentage match_count total;
     MatchData.matched := matched;
     MatchData.missing := missing |}.

(** The four checks of [passes_filters], in the order of the source.  Each
    one applies only when its key is present with a truthy value. *)

Definition max_time_ok (recipe : Recipe.t) (filters : Filters.t) : bool :=
  match Filters.max_time filters with
  | Some max_time =>
      if truthy_int max_time
      then negb (max_time <? get (Recipe.total_time recipe) 999)
      else true
  | None => true
  end.

Definition skill_level_ok (recipe : Recipe.t) (filters : Filters.t) : bool :=
  match Filters.skill_level filters with
  | Some skill_level =>
      if truthy_str skill_level
      then String.eqb (lower (get (Recipe.skill_level recipe) "")) (lower skill_level)
      else true
  | None => true
  end.

Definition dietary_tags_ok (recipe : Recipe.t) (filters : Filters.t) : bool :=
  match Filters.dietary_tags filters with
  | Some dietary_tags =>
      if truthy_list dietary_tags
      then
        let recipe_tags := map lower (get (Recipe.dietary_tags recipe) []) in
        let required_tags := map lower dietary_tags in
        forallb (contains recipe_tags) required_tags
      else true
  | None => true
  end.

Definition cuisine_ok (recipe : Recipe.t) (filters : Filters.t) : bool :=
  match Filters.cuisine filters with
  | Some cuisine =>
      if truthy_str cuisine
      then String.eqb (lower (get (Recipe.cuisine recipe) "")) (lower cuisine)
      else true
  | None => true
  end.

Definition passes_filters (recipe : Recipe.t) (filters : option Filters.t) : bool :=
  match filters with
  | None => true
  | Some filters =>
      if Filters.is_empty filters then true
      else if negb (max_time_ok recipe filters) then false
      else if negb (skill_level_ok recipe filters) then false
      else if negb (dietary_tags_ok recipe filters) then false
      else if negb (cuisine_ok recipe filters) then false
      else true
  end.

(** the dictionary appended to [results] *)
Definition search_entry (recipe : Recipe.t) (match_data : MatchData.t)
  : result SearchResult.t :=
  id <- subscript "id" (Recipe.id recipe) ;;
  name <- subscript "name" (Recipe.name recipe) ;;
  Ok {| SearchResult.id := id;
        SearchResult.name := name;
        SearchResult.match_percentage := MatchData.percentage match_data;
        SearchResult.matched_ingredients := MatchData.matched match_data;
        SearchResult.missing_ingredients := MatchData.missing match_data;
        SearchResult.prep_time := get (Recipe.prep_time recipe) 0;
        SearchResult.cook_time := get (Recipe.cook_time recipe) 0;
        SearchResult.total_time := get (Recipe.total_time recipe) 0;
        SearchResult.servings := get (Recipe.servings recipe) 0;
        SearchResult.skill_level := get (Recipe.skill_level recipe) "unknown";
        SearchResult.cuisine := get (Recipe.cuisine recipe) "unknown";
        SearchResult.dietary_tags := get (Recipe.dietary_tags recipe) [];
        SearchResult.equipment := get (Recipe.equipment recipe) [] |}.

(** one iteration of the loop of [search_recipes] *)
Definition search_step (user_ingredients : list string) (filters : option Filters.t)
  (results : list SearchResult.t) (recipe : Recipe.t) : result (list SearchResult.t) :=
  if negb (passes_filters recipe filters) then Ok results
  else
    ingredients <- subscript "ingredients" (Recipe.ingredients recipe) ;;
    let match_data := calculate_match ingredients user_ingredients in
    if 0 <? MatchData.percentage match_data then
      entry <- search_entry recipe match_data ;;
      Ok (results ++ [entry])
    else Ok results.

Definition search_recipes (user_ingredients : list string) (recipes : list Recipe.t)
  (filters : option Filters.t) : result (list SearchResult.t) :=
  results <- for_each (search_step user_ingredients filters) recipes [] ;;
  Ok (sort_desc SearchResult.match_percentage results).

(** the dictionary appended to [partial_matches] *)
Definition partial_entry (id : Z) (recipe : Recipe.t) (match_data : MatchData.t)
  : result PartialMatch.t :=
  name <- subscript "name" (Recipe.name recipe) ;;
  Ok {| PartialMatch.id := id;
        PartialMatch.name := name;
        PartialMatch.match_percentage := MatchData.percentage match_data;
        PartialMatch.matched_ingredients := MatchData.matched match_data;
        PartialMatch.missing_ingredients := MatchData.missing match_data;
        PartialMatch.total_time := get (Recipe.total_time recipe) 0;
        PartialMatch.skill_level := get (Recipe.skill_level recipe) "unknown";
        PartialMatch.cuisine := get (Recipe.cuisine recipe) "unknown" |}.

(** one iteration of the loop of [find_partial_matches]; the threshold is a
    whole number of percent, as at every call site (50, 25, 10). *)
Definition partial_step (user_ingredients : list string) (filters : option Filters.t)
  (min_match_threshold : Z) (exclude_ids : list Z)
  (partial_matches : list PartialMatch.t) (recipe : Recipe.t)
  : result (list PartialMatch.t) :=
  id <- subscript "id" (Recipe.id recipe) ;;
  if contains_id exclude_ids id then Ok partial_matches
  else if negb (passes_filters recipe filters) then Ok partial_matches
  else
    ingredients <- subscript "ingredients" (Recipe.ingredients recipe) ;;
    let match_data := calculate_match ingredients user_ingredients in
    if (10 * min_match_threshold <=? MatchData.percentage match_data)
       && (MatchData.percentage match_data <? 1000) then
      entry <- partial_entry id recipe match_data ;;
      Ok (partial_matches ++ [entry])
    else Ok partial_matches.

Definition find_partial_matches (user_ingredients : list string)
  (recipes : list Recipe.t) (filters : option Filters.t)
  (min_match_threshold : Z) (exclude_ids : option (list Z))
  : result (list PartialMatch.t) :=
  let exclude_ids := match exclude_ids with None => [] | Some ids => ids end in
  partial_matches <-
    for_each (partial_step user_ingredients filters min_match_threshold exclude_ids)
             recipes [] ;;
  Ok (sort_desc PartialMatch.match_percentage partial_matches).

(** one iteration of the strategy-2 loop of [generate_shopping_suggestions]:
    every filtered recipe is taken, whatever its percentage *)
Definition all_step (user_ingredients : list string) (filters : option Filters.t)
  (exclude_ids : list Z)
  (partial_matches : list PartialMatch.t) (recipe : Recipe.t)
  : result (list PartialMatch.t) :=
  id <- subscript "id" (Recipe.id recipe) ;;
  if contains_id exclude_ids id then Ok partial_matches
  else if negb (passes_filters recipe filters) then Ok partial_matches
  else
    ingredients <- subscript "ingredients" (Recipe.ingredients recipe) ;;
    let match_data := calculate_match ingredients user_ingredients in
    entry <- partial_entry id recipe match_data ;;
    Ok (partial_matches ++ [entry]).

(** the body of the inner counting loop *)
Definition count_one (recipe_name : string)
  (ingredient_impact : dict Suggestion.t) (missing_ing : string)
  : dict Suggestion.t :=
  let ingredient_impact :=
    if negb (dict_mem missing_ing ingredient_impact)
    then dict_set missing_ing
           {| Suggestion.name := missing_ing;
              Suggestion.unlock_count := 0;
              Suggestion.recipe_names := [] |}
           ingredient_impact
    else ingredient_impact in
  let ingredient_impact :=
    dict_adjust missing_ing
      (fun s => {| Suggestion.name := Suggestion.name s;
                   Suggestion.unlock_count := Suggestion.unlock_count s + 1;
                   Suggestion.recipe_names := Suggestion.recipe_names s |})
      ingredient_impact in
  dict_adjust missing_ing
    (fun s => {| Suggestion.name := Suggestion.name s;
                 Suggestion.unlock_count := Suggestion.unlock_count s;
                 Suggestion.recipe_names := Suggestion.recipe_names s ++ [recipe_name] |})
    ingredient_impact.

(** the outer counting loop *)
Definition count_missing (partial_matches : list PartialMatch.t)
  : dict Suggestion.t :=
  fold_left
    (fun ingredient_impact recipe =>
       fold_left (count_one (PartialMatch.name recipe))
                 (PartialMatch.missing_ingredients recipe) ingredient_impact)
    partial_matches [].

(** the [if has_matches: ... else: ...] that selects [partial_matches] *)
Definition candidate_recipes (user_ingredients : list string)
  (recipes : list Recipe.t) (filters : option Filters.t)
  (has_matches : bool) (exclude_ids : list Z)
  : result (list PartialMatch.t) :=
  if has_matches then
    partial_matches <-
      find_partial_matches user_ingredients recipes filters 50 (Some exclude_ids) ;;
    match partial_matches with
    | [] => find_partial_matches user_ingredients recipes filters 25 (Some exclude_ids)
    | _ :: _ => Ok partial_matches
    end
  else
    for_each (all_step user_ingredients filters exclude_ids) recipes [].

Definition generate_shopping_suggestions (user_ingredients : list string)
  (recipes : list Recipe.t) (filters : option Filters.t) (top_n : Z)
  (has_matches : bool) (exclude_ids : option (list Z))
  : result (list Suggestion.t) :=
  let exclude_ids := match exclude_ids with None => [] | Some ids => ids end in
  partial_matches <-
    candidate_recipes user_ingredients recipes filters has_matches exclude_ids ;;
  let ingredient_impact := count_missing partial_matches in
  let suggestions := dict_values ingredient_impact in
  let suggestions := sort_desc Suggestion.unlock_count suggestions in
  Ok (slice_to suggestions top_n).

End recipe_search.

(** ** [queries/query_handlers.py]: the duplicated helpers *)

Module query_handlers.

Definition _calculate_match (recipe_ingredients user_ingredients : list string)
  : MatchData.t :=
  let lower_recipe := map lower recipe_ingredients in
  let matched := filter (contains user_ingredients) lower_recipe in
  let missing := filter (fun ing => negb (contains user_ingredients ing)) lower_recipe in
  let total := List.length lower_recipe in
  {| MatchData.percentage := recipe_search.round_percentage (List.length matched) total;
     MatchData.matched := matched;
     MatchData.missing := missing |}.

Definition _passes_filters (recipe : Recipe.t) (filters : Filters.t) : bool :=
  if match Filters.max_time filters with
     | Some max_time => max_time <? get (Recipe.total_time recipe) 999
     | None => false
     end
  then false
  else if match Filters.skill_level filters with
          | Some skill_level =>
              negb (String.eqb (lower (get (Recipe.skill_level recipe) ""))
                               (lower skill_level))
          | None => false
          end
  then false
  else if match Filters.dietary_tags filters with
          | Some dietary_tags =>
              let recipe_tags := map lower (get (Recipe.dietary_tags recipe) []) in
              let required := map lower dietary_tags in
              negb (forallb (contains recipe_tags) required)
          | None => false
          end
  then false
  else if match Filters.cuisine filters with
          | Some cuisine =>
              negb (String.eqb (lower (get (Recipe.cuisine recipe) ""))
                               (lower cuisine))
          | None => false
          end
  then false
  else true.

End query_handlers.

(** ** Vocabulary of the properties *)

(** The options [passes_filters] recognises. *)
Inductive option_key : Type := MaxTime | SkillLevel | DietaryTags | Cuisine.

Definition all_keys : list option_key := [MaxTime; SkillLevel; DietaryTags; Cuisine].

(** The option is active: present with a truthy value. *)
Definition active (f : Filters.t) (k : option_key) : bool :=
  match k with
  | MaxTime => match Filters.max_time f with Some v => truthy_int v | None => false end
  | SkillLevel => match Filters.skill_level f with Some v => truthy_str v | None => false end
  | DietaryTags => match Filters.dietary_tags f with Some v => truthy_list v | None => false end
  | Cuisine => match Filters.cuisine f with Some v => truthy_str v | None => false end
  end.

Definition active_options (f : Filters.t) : list option_key := filter (active f) all_keys.

(** The dictionary [{k: f[k]}] that keeps one option of [f]. *)
Definition only (f : Filters.t) (k : option_key) : Filters.t :=
  match k with
  | MaxTime =>
      {| Filters.max_time := Filters.max_time f; Filters.skill_level := None;
         Filters.dietary_tags := None; Filters.cuisine := None |}
  | SkillLevel =>
      {| Filters.max_time := None; Filters.skill_level := Filters.skill_level f;
         Filters.dietary_tags := None; Filters.cuisine := None |}
  | DietaryTags =>
      {| Filters.max_time := None; Filters.skill_level := None;
         Filters.dietary_tags := Filters.dietary_tags f; Filters.cuisine := None |}
  | Cuisine =>
      {| Filters.max_time := None; Filters.skill_level := None;
         Filters.dietary_tags := None; Filters.cuisine := Filters.cuisine f |}
  end.

(** The check [passes_filters] performs for one option. *)
Definition option_ok (r : Recipe.t) (f : Filters.t) (k : option_key) : bool :=
  match k with
  | MaxTime => recipe_search.max_time_ok r f
  | SkillLevel => recipe_search.skill_level_ok r f
  | DietaryTags => recipe_search.dietary_tags_ok r f
  | Cuisine => recipe_search.cuisine_ok r f
  end.

(** [v] if it is truthy, absent otherwise *)
Definition keep_if {A} (truthy : A -> bool) (field : option A) : option A :=
  match field with
  | Some v => if truthy v then Some v else None
  | None => None
  end.

(** [f] without the options whose value is falsy *)
Definition drop_falsy (f : Filters.t) : Filters.t :=
  {| Filters.max_time := keep_if truthy_int (Filters.max_time f);
     Filters.skill_level := keep_if truthy_str (Filters.skill_level f);
     Filters.dietary_tags := keep_if truthy_list (Filters.dietary_tags f);
     Filters.cuisine := keep_if truthy_str (Filters.cuisine f) |}.

(** Every present option of [f] has a truthy value. *)
Definition all_truthy (f : Filters.t) : bool :=
  match Filters.max_time f with Some v => truthy_int v | None => true end
  && match Filters.skill_level f with Some v => truthy_str v | None => true end
  && match Filters.dietary_tags f with Some v => truthy_list v | None => true end
  && match Filters.cuisine f with Some v => truthy_str v | None => true end.

(** The keys the search functions read with [recipe[...]]. *)
Definition has_required_fields (r : Recipe.t) : bool :=
  match Recipe.id r, Recipe.name r, Recipe.ingredients r with
  | Some _, Some _, Some _ => true
  | _, _, _ => false
  end.

(** The match of a recipe against the user's ingredients. *)
Definition match_of (user_ingredients : list string) (r : Recipe.t) : MatchData.t :=
  recipe_search.calculate_match (get (Recipe.ingredients r) []) user_ingredients.

(** [s] is the entry [search_recipes] builds for [r]. *)
Definition search_entry_of (user_ingredients : list string)
  (r : Recipe.t) (s : SearchResult.t) : Prop :=
  recipe_search.search_entry r (match_of user_ingredients r) = Ok s.

(** The recipes [search_recipes] keeps. *)
Definition search_keeps (user_ingredients : list string)
  (filters : option Filters.t) (r : Recipe.t) : bool :=
  recipe_search.passes_filters r filters
  && (0 <? MatchData.percentage (match_of user_ingredients r)).

(** [p] is the entry [find_partial_matches] builds for [r]. *)
Definition partial_entry_of (user_ingredients : list string)
  (r : Recipe.t) (p : PartialMatch.t) : Prop :=
  exists id, Recipe.id r = Some id
    /\ recipe_search.partial_entry id r (match_of user_ingredients r) = Ok p.

(** The recipes [find_partial_matches] keeps. *)
Definition partial_keeps (user_ingredients : list string)
  (filters : option Filters.t) (min_match_threshold : Z) (exclude_ids : list Z)
  (r : Recipe.t) : bool :=
  negb (contains_id exclude_ids (get (Recipe.id r) 0))
  && recipe_search.passes_filters r filters
  && (10 * min_match_threshold <=? MatchData.percentage (match_of user_ingredients r))
  && (MatchData.percentage (match_of user_ingredients r) <? 1000).

(** [search_recipes] can process [r]: every key it subscripts on the way is
    present.  A recipe that fails the filters is skipped unread; one that
    passes needs [ingredients], and [id] and [name] if it scores above 0. *)
Definition search_readable (user_ingredients : list string)
  (filters : option Filters.t) (r : Recipe.t) : bool :=
  if recipe_search.passes_filters r filters then
    match Recipe.ingredients r with
    | None => false
    | Some ingredients =>
        if 0 <? MatchData.percentage
                  (recipe_search.calculate_match ingredients user_ingredients)
        then match Recipe.id r, Recipe.name r with
             | Some _, Some _ => true
             | _, _ => false
             end
        else true
    end
  else true.

(** [find_partial_matches] can process [r]: it needs [id] in every case,
    [ingredients] if the recipe is neither excluded nor filtered out, and
    [name] if its percentage is in the range. *)
Definition partial_readable (user_ingredients : list string)
  (filters : option Filters.t) (min_match_threshold : Z) (exclude_ids : list Z)
  (r : Recipe.t) : bool :=
  match Recipe.id r with
  | None => false
  | Some id =>
      if contains_id exclude_ids id then true
      else if recipe_search.passes_filters r filters then
        match Recipe.ingredients r with
        | None => false
        | Some ingredients =>
            let p := MatchData.percentage
                       (recipe_search.calculate_match ingredients user_ingredients) in
            if (10 * min_match_threshold <=? p) && (p <? 1000)
            then match Recipe.name r with Some _ => true | None => false end
            else true
        end
      else true
  end.

(** What every entry returned by [find_partial_matches] satisfies, whether
    or not the catalog is well formed. *)
Definition partial_candidate (user : list string) (threshold : Z)
  (p : PartialMatch.t) : Prop :=
  exists ings,
    PartialMatch.match_percentage p
    = MatchData.percentage (recipe_search.calculate_match ings user)
    /\ PartialMatch.missing_ingredients p
       = MatchData.missing (recipe_search.calculate_match ings user)
    /\ 10 * threshold <= PartialMatch.match_percentage p < 1000.

(** A list is in non-increasing order of [key]. *)
Definition sorted_desc {A} (key : A -> Z) (l : list A) : Prop :=
  StronglySorted (fun x y => key y <= key x) l.

(** The (recipe name, missing ingredient) pairs in the order in which the
    counting loops of [generate_shopping_suggestions] visit them. *)
Definition missing_events (candidates : list PartialMatch.t) : list (string * string) :=
  flat_map
    (fun c => map (fun ing => (PartialMatch.name c, ing))
                  (PartialMatch.missing_ingredients c))
    candidates.

(** the visits that concern [ing] *)
Definition events_of (ing : string) (events : list (string * string))
  : list (string * string) :=
  filter (fun ev => String.eqb ing (snd ev)) events.

(** Number of times [ing] occurs in the missing lists of the candidates. *)
Definition occurrences_missing (ing : string) (candidates : list PartialMatch.t) : Z :=
  Z.of_nat (List.length (events_of ing (missing_events candidates))).

(** The recipe names met at those occurrences, in order. *)
Definition names_at_occurrences (ing : string) (candidates : list PartialMatch.t)
  : list string :=
  map fst (events_of ing (missing_events candidates)).

(** Number of candidate recipes that miss [ing]. *)
Definition recipes_missing (ing : string) (candidates : list PartialMatch.t) : Z :=
  Z.of_nat (List.length
    (filter (fun c => contains (PartialMatch.missing_ingredients c) ing) candidates)).

(** The names of those recipes, each once. *)
Definition names_of_recipes_missing (ing : string) (candidates : list PartialMatch.t)
  : list string :=
  map PartialMatch.name
    (filter (fun c => contains (PartialMatch.missing_ingredients c) ing) candidates).

(** The value [ingredient_impact] holds for [ing] after the given visits. *)
Definition summary (ing : string) (events : list (string * string)) : Suggestion.t :=
  {| Suggestion.name := ing;
     Suggestion.unlock_count := Z.of_nat (List.length (events_of ing events));
     Suggestion.recipe_names := map fst (events_of ing events) |}.

(** Invariant of the counting loops. *)
Definition impact_inv (events : list (string * string)) (impact : dict Suggestion.t)
  : Prop :=
  NoDup (map fst impact)
  /\ (forall k, In k (map fst impact) <-> In k (map snd events))
  /\ (forall k s, In (k, s) impact -> s = summary k events).

(** The optional fields of [r] appear in [s] with the defaults of
    [search_recipes]. *)
Definition defaults_applied (r : Recipe.t) (s : SearchResult.t) : Prop :=
  SearchResult.prep_time s = match Recipe.prep_time r with Some v => v | None => 0 end
  /\ SearchResult.cook_time s = match Recipe.cook_time r with Some v => v | None => 0 end
  /\ SearchResult.total_time s = match Recipe.total_time r with Some v => v | None => 0 end
  /\ SearchResult.servings s = match Recipe.servings r with Some v => v | None => 0 end
  /\ SearchResult.skill_level s
     = match Recipe.skill_level r with Some v => v | None => "unknown" end
  /\ SearchResult.cuisine s
     = match Recipe.cuisine r with Some v => v | None => "unknown" end
  /\ SearchResult.dietary_tags s
     = match Recipe.dietary_tags r with Some v => v | None => [] end
  /\ SearchResult.equipment s
     = match Recipe.equipment r with Some v => v | None => [] end.

(** ** Sample data *)

Definition mk_recipe (id : Z) (name : string) (ingredients : list string)
  (total_time : Z) (skill_level cuisine : string) (dietary_tags : list string)
  : Recipe.t :=
  {| Recipe.id := Some id; Recipe.name := Some name;
     Recipe.ingredients := Some ingredients;
     Recipe.prep_time := None; Recipe.cook_time := None;
     Recipe.total_time := Some total_time; Recipe.servings := None;
     Recipe.skill_level := Some skill_level; Recipe.cuisine := Some cuisine;
     Recipe.dietary_tags := Some dietary_tags; Recipe.equipment := None |}.

(** the fixture [sample_recipes] of the test suite *)
Definition sample_recipes : list Recipe.t :=
  [ mk_recipe 1 "Chicken Fried Rice"
      ["chicken"; "rice"; "eggs"; "soy sauce"; "oil"] 25 "beginner" "Asian" [];
    mk_recipe 2 "Grilled Cheese"
      ["bread"; "cheese"; "butter"] 10 "beginner" "American" ["vegetarian"];
    mk_recipe 3 "Veggie Stir-Fry"
      ["broccoli"; "carrots"; "soy sauce"; "garlic"; "oil"] 20 "beginner" "Asian"
      ["vegetarian"; "vegan"] ].

(** three recipes that miss {eggs}, {eggs, oil} and {oil} when the user owns
    rice and bread *)
Definition three_recipes : list Recipe.t :=
  [ mk_recipe 11 "Egg Rice" ["rice"; "eggs"] 15 "beginner" "Asian" [];
    mk_recipe 12 "French Toast" ["rice"; "bread"; "eggs"; "oil"] 20 "beginner"
      "French" [];
    mk_recipe 13 "Fried Bread" ["bread"; "oil"] 5 "beginner" "American" [] ].

(** the dictionary [{}]: a catalog entry with no field at all *)
Definition empty_recipe : Recipe.t :=
  {| Recipe.id := None; Recipe.name := None; Recipe.ingredients := None;
     Recipe.prep_time := None; Recipe.cook_time := None;
     Recipe.total_time := None; Recipe.servings := None;
     Recipe.skill_level := None; Recipe.cuisine := None;
     Recipe.dietary_tags := None; Recipe.equipment := None |}.

(** [{'ingredients': ['salt']}]: an entry without [id] and [name] *)
Definition anonymous_recipe : Recipe.t :=
  {| Recipe.id := None; Recipe.name := None; Recipe.ingredients := Some ["salt"];
     Recipe.prep_time := None; Recipe.cook_time := None;
     Recipe.total_time := None; Recipe.servings := None;
     Recipe.skill_level := None; Recipe.cuisine := None;
     Recipe.dietary_tags := None; Recipe.equipment := None |}.

(** [{'total_time': 30}] *)
Definition half_hour_recipe : Recipe.t :=
  {| Recipe.id := None; Recipe.name := None; Recipe.ingredients := None;
     Recipe.prep_time := None; Recipe.cook_time := None;
     Recipe.total_time := Some 30; Recipe.servings := None;
     Recipe.skill_level := None; Recipe.cuisine := None;
     Recipe.dietary_tags := None; Recipe.equipment := None |}.

(** [{'max_time': 0}] *)
Definition zero_time_filter : Filters.t :=
  {| Filters.max_time := Some 0; Filters.skill_level := None;
     Filters.dietary_tags := None; Filters.cuisine := None |}.

(** a recipe of 2001 ingredients of which the user owns one *)
Definition long_ingredients : list string := repeat "flour" 2000 ++ ["salt"].

(** a recipe that lists one ingredient twice *)
Definition omelette : Recipe.t :=
  mk_recipe 7 "Omelette" ["Egg"; "milk"; "egg"] 10 "beginner" "French" [].

(** the entry [find_partial_matches] builds for [omelette] when the user
    owns milk only *)
Definition omelette_candidate : PartialMatch.t :=
  {| PartialMatch.id := 7; PartialMatch.name := "Omelette";
     PartialMatch.match_percentage := 333;
     PartialMatch.matched_ingredients := ["milk"];
     PartialMatch.missing_ingredients := ["egg"; "egg"];
     PartialMatch.total_time := 10; PartialMatch.skill_level := "beginner";
     PartialMatch.cuisine := "French" |}.

(** [{'max_time': 30, 'skill_level': 'Beginner'}] *)
Definition quick_and_easy : Filters.t :=
  {| Filters.max_time := Some 30; Filters.skill_level := Some "Beginner";
     Filters.dietary_tags := None; Filters.cuisine := None |}.

(* ================================================================== *)
(** * Part I, continued: the rest of the program *)
(* ================================================================== *)

(** ** Text helpers: [str.strip], [str.replace], [str.split], [str.join] *)

(** the ASCII characters [str.isspace] accepts: tab, line feed, vertical
    tab, form feed, carriage return, the four separators 28-31, space *)
Definition is_space (c : ascii) : bool :=
  let n := nat_of_ascii c in
  (((9 <=? n) && (n <=? 13)) || ((28 <=? n) && (n <=? 32)))%nat.

Fixpoint lstrip_chars (cs : list ascii) : list ascii :=
  match cs with
  | [] => []
  | c :: rest => if is_space c then lstrip_chars rest else cs
  end.

Definition strip_chars (cs : list ascii) : list ascii :=
  rev (lstrip_chars (rev (lstrip_chars cs))).

(** [s.strip()] *)
Definition strip (s : string) : string :=
  string_of_list_ascii (strip_chars (list_ascii_of_string s)).

(** A text without leading or trailing space. *)
Definition trimmed (cs : list ascii) : Prop :=
  lstrip_chars cs = cs /\ lstrip_chars (rev cs) = rev cs.

(** [s.replace(old, new)] for one-character [old] and [new] *)
Definition replace_char (old new : ascii) (s : string) : string :=
  string_of_list_ascii
    (map (fun c => if Ascii.eqb c old then new else c) (list_ascii_of_string s)).

Fixpoint split_chars (sep : ascii) (cs : list ascii) : list (list ascii) :=
  match cs with
  | [] => [[]]
  | c :: rest =>
      if Ascii.eqb c sep then [] :: split_chars sep rest
      else match split_chars sep rest with
           | piece :: pieces => (c :: piece) :: pieces
           | [] => [[c]]
           end
  end.

(** [s.split(sep)] for a one-character separator *)
Definition split (sep : ascii) (s : string) : list string :=
  map string_of_list_ascii (split_chars sep (list_ascii_of_string s)).

(** [sep.join(parts)] *)
Fixpoint join (sep : string) (parts : list string) : string :=
  match parts with
  | [] => ""
  | [part] => part
  | part :: rest => part ++ sep ++ join sep rest
  end.

Definition comma : ascii := ","%char.
Definition newline : ascii := ascii_of_nat 10.

(** a set of strings, as the list of its elements: [s.add(x)] *)
Definition set_add (x : string) (s : list string) : list string :=
  if contains s x then s else s ++ [x].

(** ** [recipe_search.py]: the master list, fuzzy matching and parsing *)

Module FuzzyMatch.
Record t : Type := {
  match_ : option string;
  score : Z;
  original : string;
  needs_confirmation : bool
}.
End FuzzyMatch.

Module FuzzyReport.
Record fuzzy : Type := {
  original : string;
  matched : string;
  score : Z
}.
Record t : Type := {
  exact_matches : list string;
  fuzzy_matches : list fuzzy;
  unmatched : list string;
  user_confirmations : list string
}.
End FuzzyReport.

Module recipe_search_io.

Definition build_master_ingredient_list (recipes : list Recipe.t) : list string :=
  fold_left
    (fun master_ingredients recipe =>
       fold_left
         (fun master_ingredients ingredient =>
            set_add (strip (lower ingredient)) master_ingredients)
         (get (Recipe.ingredients recipe) []) master_ingredients)
    recipes [].

(** the list [raw_ingredients] that [parse_ingredients] computes first *)
Definition raw_ingredients (raw_input : string) : list string :=
  let ingredients := split comma (replace_char newline comma raw_input) in
  map (fun ing => lower (strip ing))
      (filter (fun ing => truthy_str (strip ing)) ingredients).

Section Fuzzy.

(** [process.extractOne(query, choices, scorer=fuzz.ratio)] of the
    fuzzywuzzy library: the best choice with its score, or [None]. *)
Variable extractOne : string -> list string -> option (string * Z).

Definition fuzzy_match_ingredient (user_input : string)
  (master_ingredients : list string) (threshold : Z) : FuzzyMatch.t :=
  if contains master_ingredients (lower user_input) then
    {| FuzzyMatch.match_ := Some (lower user_input);
       FuzzyMatch.score := 100;
       FuzzyMatch.original := user_input;
       FuzzyMatch.needs_confirmation := false |}
  else
    let best_match := extractOne (lower user_input) master_ingredients in
    match best_match with
    | Some (best, confidence) =>
        if threshold <=? confidence then
          {| FuzzyMatch.match_ := Some best;
             FuzzyMatch.score := confidence;
             FuzzyMatch.original := user_input;
             FuzzyMatch.needs_confirmation := confidence <? 95 |}
        else
          {| FuzzyMatch.match_ := None;
             FuzzyMatch.score := confidence;
             FuzzyMatch.original := user_input;
             FuzzyMatch.needs_confirmation := false |}
    | None =>
        {| FuzzyMatch.match_ := None;
           FuzzyMatch.score := 0;
           FuzzyMatch.original := user_input;
           FuzzyMatch.needs_confirmation := false |}
    end.

(** [input()]: the next line of the standard input; [None] stands for the
    [EOFError] raised at its end.  What is printed is not modelled. *)
Definition input (stdin : list string) : option (string * list string) :=
  match stdin with
  | [] => None
  | line :: rest => Some (line, rest)
  end.

(** [answer == 'y' or answer == 'yes'] for [answer = input().strip().lower()] *)
Definition said_yes (line : string) : bool :=
  let answer := lower (strip line) in
  String.eqb answer "y" || String.eqb answer "yes".

(** the local variables of the validation loop, and the standard input *)
Record parse_state : Type := {
  cleaned : list string;
  fuzzy_report : FuzzyReport.t;
  unread : list string
}.

Definition add_exact (raw_ing matched : string) (st : parse_state) : parse_state :=
  let report := fuzzy_report st in
  {| cleaned := cleaned st ++ [matched];
     fuzzy_report :=
       {| FuzzyReport.exact_matches := FuzzyReport.exact_matches report ++ [raw_ing];
          FuzzyReport.fuzzy_matches := FuzzyReport.fuzzy_matches report;
          FuzzyReport.unmatched := FuzzyReport.unmatched report;
          FuzzyReport.user_confirmations := FuzzyReport.user_confirmations report |};
     unread := unread st |}.

Definition add_fuzzy (raw_ing matched : string) (score : Z) (confirmed : bool)
  (st : parse_state) : parse_state :=
  let report := fuzzy_report st in
  {| cleaned := cleaned st ++ [matched];
     fuzzy_report :=
       {| FuzzyReport.exact_matches := FuzzyReport.exact_matches report;
          FuzzyReport.fuzzy_matches :=
            FuzzyReport.fuzzy_matches report
            ++ [{| FuzzyReport.original := raw_ing;
                   FuzzyReport.matched := matched;
                   FuzzyReport.score := score |}];
          FuzzyReport.unmatched := FuzzyReport.unmatched report;
          FuzzyReport.user_confirmations :=
            if confirmed then FuzzyReport.user_confirmations report ++ [raw_ing]
            else FuzzyReport.user_confirmations report |};
     unread := unread st |}.

Definition add_unmatched (raw_ing : string) (st : parse_state) : parse_state :=
  let report := fuzzy_report st in
  {| cleaned := cleaned st;
     fuzzy_report :=
       {| FuzzyReport.exact_matches := FuzzyReport.exact_matches report;
          FuzzyReport.fuzzy_matches := FuzzyReport.fuzzy_matches report;
          FuzzyReport.unmatched := FuzzyReport.unmatched report ++ [raw_ing];
          FuzzyReport.user_confirmations := FuzzyReport.user_confirmations report |};
     unread := unread st |}.

Definition keep_as_is (raw_ing : string) (st : parse_state) : parse_state :=
  {| cleaned := cleaned st ++ [raw_ing];
     fuzzy_report := fuzzy_report st;
     unread := unread st |}.

Definition read_line (st : parse_state) : option (string * parse_state) :=
  match input (unread st) with
  | None => None
  | Some (line, rest) =>
      Some (line, {| cleaned := cleaned st;
                     fuzzy_report := fuzzy_report st;
                     unread := rest |})
  end.

(** the [else] branch: no match found *)
Definition not_recognized (interactive : bool) (raw_ing : string)
  (st : parse_state) : option parse_state :=
  let st := add_unmatched raw_ing st in
  if interactive then
    match read_line st with
    | None => None
    | Some (keep, st) =>
        if said_yes keep then Some (keep_as_is raw_ing st) else Some st
    end
  else Some st.

(** one iteration of [for raw_ing in raw_ingredients] *)
Definition validate_step (master_ingredients : list string) (interactive : bool)
  (st : parse_state) (raw_ing : string) : option parse_state :=
  let match_result := fuzzy_match_ingredient raw_ing master_ingredients 80 in
  match FuzzyMatch.match_ match_result with
  | Some matched =>
      if truthy_str matched then
        if FuzzyMatch.score match_result =? 100 then
          Some (add_exact raw_ing matched st)
        else if FuzzyMatch.needs_confirmation match_result && interactive then
          match read_line st with
          | None => None
          | Some (confirmation, st) =>
              if said_yes confirmation
              then Some (add_fuzzy raw_ing matched (FuzzyMatch.score match_result) true st)
              else Some (add_unmatched raw_ing st)
          end
        else
          Some (add_fuzzy raw_ing matched (FuzzyMatch.score match_result) false st)
      else not_recognized interactive raw_ing st
  | None => not_recognized interactive raw_ing st
  end.

Fixpoint validate (master_ingredients : list string) (interactive : bool)
  (raw_ingredients : list string) (st : parse_state) : option parse_state :=
  match raw_ingredients with
  | [] => Some st
  | raw_ing :: rest =>
      match validate_step master_ingredients interactive st raw_ing with
      | None => None
      | Some st => validate master_ingredients interactive rest st
      end
  end.

Definition empty_report : FuzzyReport.t :=
  {| FuzzyReport.exact_matches := [];
     FuzzyReport.fuzzy_matches := [];
     FuzzyReport.unmatched := [];
     FuzzyReport.user_confirmations := [] |}.

(** [parse_ingredients(raw_input, master_ingredients, interactive)], run on
    the given standard input: the returned pair and the input left unread,
    or [None] if the input ends too early.  The report of the call without
    a master list, the dictionary [{}], is [None]. *)
Definition parse_ingredients (raw_input : string)
  (master_ingredients : option (list string)) (interactive : bool)
  (stdin : list string)
  : option (list string * option FuzzyReport.t * list string) :=
  let raw_ingredients := raw_ingredients raw_input in
  match master_ingredients with
  | None => Some (raw_ingredients, None, stdin)
  | Some master_ingredients =>
      match validate master_ingredients interactive raw_ingredients
              {| cleaned := []; fuzzy_report := empty_report; unread := stdin |} with
      | None => None
      | Some st => Some (cleaned st, Some (fuzzy_report st), unread st)
      end
  end.

End Fuzzy.

(** [shown_recipe_ids = set(recipe['id'] for recipe in results)] in [main] *)
Definition shown_recipe_ids (results : list SearchResult.t) : list Z :=
  map SearchResult.id results.

End recipe_search_io.

From Stdlib Require DecimalString DecimalZ.

(** ** Dictionaries, continued *)

(** [d.get(k)] *)
Fixpoint dict_get {V} (k : string) (d : dict V) : option V :=
  match d with
  | [] => None
  | (k', v) :: rest => if String.eqb k' k then Some v else dict_get k rest
  end.

(** [del d[k]] *)
Fixpoint dict_del {V} (k : string) (d : dict V) : dict V :=
  match d with
  | [] => []
  | (k', v) :: rest => if String.eqb k' k then rest else (k', v) :: dict_del k rest
  end.

(** [str(z)] for an integer: its decimal writing *)
Definition str (z : Z) : string :=
  DecimalString.NilZero.string_of_int (Z.to_int z).

(** ** The read model of [queries/query_handlers.py]

    The entries are the dictionaries that the event consumers store. *)

Module PantryItem.
Record t : Type := {
  ingredient_id : string;
  name : string;
  amount : spec_float;
  exp_date : option string
}.
End PantryItem.

Module Favorite.
Record t : Type := {
  id : Z;
  name : string;
  match_percentage : Z;
  matched_ingredients : list string;
  missing_ingredients : list string
}.
End Favorite.

Module QuerySuggestion.
Record t : Type := {
  name : string;
  unlock_count : Z;
  recipes : list string
}.
End QuerySuggestion.

Module Analytics.
Record search : Type := {
  timestamp : string;
  ingredients : list string;
  result_count : Z
}.
Record t : Type := {
  search_count : Z;
  recent_searches : list search
}.
End Analytics.

(** A value of a profile field: the JSON-like values a caller may pass. *)
Inductive value : Type :=
| VNone
| VBool (b : bool)
| VInt (z : Z)
| VStr (s : string)
| VList (l : list string).

Module ReadDb.
Record t : Type := {
  user_profiles : dict (dict value);
  user_pantries : dict (dict PantryItem.t);
  user_favorites : dict (list string);      (* sets of recipe ids *)
  recipe_cache : dict Recipe.t;
  user_analytics : dict Analytics.t
}.

Definition empty : t :=
  {| user_profiles := []; user_pantries := []; user_favorites := [];
     recipe_cache := []; user_analytics := [] |}.
End ReadDb.

(** [if recipe:] for a dictionary: it has a key *)
Definition truthy_recipe (r : Recipe.t) : bool :=
  match Recipe.id r, Recipe.name r, Recipe.ingredients r, Recipe.prep_time r,
        Recipe.cook_time r, Recipe.total_time r, Recipe.servings r,
        Recipe.skill_level r, Recipe.cuisine r, Recipe.dietary_tags r,
        Recipe.equipment r with
  | None, None, None, None, None, None, None, None, None, None, None => false
  | _, _, _, _, _, _, _, _, _, _, _ => true
  end.

Module queries.

(** one iteration of the loop of [_load_base_recipes] *)
Definition cache_recipe (cache : dict Recipe.t) (recipe : Recipe.t)
  : result (dict Recipe.t) :=
  id <- subscript "id" (Recipe.id recipe) ;;
  Ok (dict_set (str id) recipe cache).

(** [_load_base_recipes()], given the recipes of [recipes.json], or [None]
    if the file does not exist.  A recipe without [id] ends the loading with
    a [KeyError] that is not caught; the recipes before it stay cached. *)
Fixpoint load_recipes (recipes : list Recipe.t) (cache : dict Recipe.t)
  : dict Recipe.t * option exn :=
  match recipes with
  | [] => (cache, None)
  | recipe :: rest =>
      match cache_recipe cache recipe with
      | Ok cache => load_recipes rest cache
      | Raise e => (cache, Some e)
      end
  end.

Definition with_recipe_cache (db : ReadDb.t) (cache : dict Recipe.t) : ReadDb.t :=
  {| ReadDb.user_profiles := ReadDb.user_profiles db;
     ReadDb.user_pantries := ReadDb.user_pantries db;
     ReadDb.user_favorites := ReadDb.user_favorites db;
     ReadDb.recipe_cache := cache;
     ReadDb.user_analytics := ReadDb.user_analytics db |}.

Definition _load_base_recipes (file : option (list Recipe.t)) (_read_db : ReadDb.t)
  : ReadDb.t * option exn :=
  match file with
  | Some recipes =>
      let '(cache, raised) := load_recipes recipes (ReadDb.recipe_cache _read_db) in
      (with_recipe_cache _read_db cache, raised)
  | None => (_read_db, None)
  end.

Definition query_user_profile (user_id : string) (_read_db : ReadDb.t)
  : option (dict value) :=
  dict_get user_id (ReadDb.user_profiles _read_db).

Definition query_user_pantry (user_id : string) (_read_db : ReadDb.t)
  : list PantryItem.t :=
  match dict_get user_id (ReadDb.user_pantries _read_db) with
  | None => []
  | Some pantry => dict_values pantry
  end.

Definition query_recipe_by_id (recipe_id : string) (_read_db : ReadDb.t)
  : option Recipe.t :=
  dict_get recipe_id (ReadDb.recipe_cache _read_db).

(** [filters or {}] *)
Definition or_empty (filters : option Filters.t) : Filters.t :=
  match filters with
  | Some filters => if Filters.is_empty filters then Filters.empty else filters
  | None => Filters.empty
  end.

(** one iteration of the loop of [query_recipes_by_ingredients]; the
    dictionary it appends has the keys of the one [search_recipes] builds *)
Definition recipes_step (user_ingredients : list string) (filters : Filters.t)
  (results : list SearchResult.t) (recipe : Recipe.t) : result (list SearchResult.t) :=
  if negb (query_handlers._passes_filters recipe filters) then Ok results
  else
    ingredients <- subscript "ingredients" (Recipe.ingredients recipe) ;;
    let match_data := query_handlers._calculate_match ingredients user_ingredients in
    if 0 <? MatchData.percentage match_data then
      entry <- recipe_search.search_entry recipe match_data ;;
      Ok (results ++ [entry])
    else Ok results.

Definition query_recipes_by_ingredients (ingredient_names : list string)
  (filters : option Filters.t) (_read_db : ReadDb.t) : result (list SearchResult.t) :=
  let filters := or_empty filters in
  let user_ingredients := map (fun ing => strip (lower ing)) ingredient_names in
  results <-
    for_each (recipes_step user_ingredients filters)
             (dict_values (ReadDb.recipe_cache _read_db)) [] ;;
  Ok (sort_desc SearchResult.match_percentage results).

(** one iteration of the loop of [query_user_favorites] *)
Definition favorites_step (recipe_cache : dict Recipe.t) (user_ingredients : list string)
  (favorites : list Favorite.t) (recipe_id : string) : result (list Favorite.t) :=
  match dict_get recipe_id recipe_cache with
  | Some recipe =>
      if truthy_recipe recipe then
        ingredients <- subscript "ingredients" (Recipe.ingredients recipe) ;;
        let match_data := query_handlers._calculate_match ingredients user_ingredients in
        id <- subscript "id" (Recipe.id recipe) ;;
        name <- subscript "name" (Recipe.name recipe) ;;
        Ok (favorites
            ++ [{| Favorite.id := id;
                   Favorite.name := name;
                   Favorite.match_percentage := MatchData.percentage match_data;
                   Favorite.matched_ingredients := MatchData.matched match_data;
                   Favorite.missing_ingredients := MatchData.missing match_data |}])
      else Ok favorites
  | None => Ok favorites
  end.

Definition query_user_favorites (user_id : string) (_read_db : ReadDb.t)
  : result (list Favorite.t) :=
  match dict_get user_id (ReadDb.user_favorites _read_db) with
  | None => Ok []
  | Some recipe_ids =>
      let user_pantry := query_user_pantry user_id _read_db in
      let user_ingredients := map PantryItem.name user_pantry in
      for_each (favorites_step (ReadDb.recipe_cache _read_db) user_ingredients)
               recipe_ids []
  end.

(** the body of the inner loop of [query_shopping_suggestions] *)
Definition impact_step (recipe : Recipe.t)
  (ingredient_impact : dict QuerySuggestion.t) (missing_ing : string)
  : result (dict QuerySuggestion.t) :=
  let ingredient_impact :=
    if negb (dict_mem missing_ing ingredient_impact)
    then dict_set missing_ing
           {| QuerySuggestion.name := missing_ing;
              QuerySuggestion.unlock_count := 0;
              QuerySuggestion.recipes := [] |}
           ingredient_impact
    else ingredient_impact in
  let ingredient_impact :=
    dict_adjust missing_ing
      (fun s => {| QuerySuggestion.name := QuerySuggestion.name s;
                   QuerySuggestion.unlock_count := QuerySuggestion.unlock_count s + 1;
                   QuerySuggestion.recipes := QuerySuggestion.recipes s |})
      ingredient_impact in
  name <- subscript "name" (Recipe.name recipe) ;;
  Ok (dict_adjust missing_ing
        (fun s => {| QuerySuggestion.name := QuerySuggestion.name s;
                     QuerySuggestion.unlock_count := QuerySuggestion.unlock_count s;
                     QuerySuggestion.recipes := QuerySuggestion.recipes s ++ [name] |})
        ingredient_impact).

(** one iteration of the outer loop of [query_shopping_suggestions] *)
Definition suggestions_step (user_ingredients : list string) (filters : Filters.t)
  (ingredient_impact : dict QuerySuggestion.t) (recipe : Recipe.t)
  : result (dict QuerySuggestion.t) :=
  if negb (query_handlers._passes_filters recipe filters) then Ok ingredient_impact
  else
    ingredients <- subscript "ingredients" (Recipe.ingredients recipe) ;;
    let match_data := query_handlers._calculate_match ingredients user_ingredients in
    if (500 <=? MatchData.percentage match_data)
       && (MatchData.percentage match_data <? 1000) then
      for_each (impact_step recipe) (MatchData.missing match_data) ingredient_impact
    else Ok ingredient_impact.

Definition query_shopping_suggestions (user_id : string)
  (filters : option Filters.t) (top_n : Z) (_read_db : ReadDb.t)
  : result (list QuerySuggestion.t) :=
  let filters := or_empty filters in
  let user_pantry := query_user_pantry user_id _read_db in
  let user_ingredients := map PantryItem.name user_pantry in
  ingredient_impact <-
    for_each (suggestions_step user_ingredients filters)
             (dict_values (ReadDb.recipe_cache _read_db)) [] ;;
  let suggestions :=
    sort_desc QuerySuggestion.unlock_count (dict_values ingredient_impact) in
  Ok (slice_to suggestions top_n).

End queries.

(** ** [events/domain_events.py] *)

(** The dictionary [data] of the eight event classes. *)
Inductive event_data : Type :=
| UserCreated (user_id username : string) (dietary_restrictions : list string)
| UserProfileUpdated (user_id : string) (updated_fields : dict value)
| IngredientAdded (user_id ingredient_id ingredient_name : string)
                  (amount : spec_float) (exp_date : option string)
| IngredientRemoved (user_id ingredient_id : string)
| RecipeSearchPerformed (user_id : string) (ingredients : list string)
                        (filters : option Filters.t) (result_count : Z)
| RecipeFavorited (user_id recipe_id recipe_name : string)
| RecipeUnfavorited (user_id recipe_id : string)
| UserAppliancesUpdated (user_id : string) (appliances : list string).

(** the [event_type] each class passes to [DomainEvent.__init__] *)
Definition event_type_of (data : event_data) : string :=
  match data with
  | UserCreated _ _ _ => "USER_CREATED"
  | UserProfileUpdated _ _ => "USER_PROFILE_UPDATED"
  | IngredientAdded _ _ _ _ _ => "INGREDIENT_ADDED"
  | IngredientRemoved _ _ => "INGREDIENT_REMOVED"
  | RecipeSearchPerformed _ _ _ _ => "RECIPE_SEARCH_PERFORMED"
  | RecipeFavorited _ _ _ => "RECIPE_FAVORITED"
  | RecipeUnfavorited _ _ => "RECIPE_UNFAVORITED"
  | UserAppliancesUpdated _ _ => "USER_APPLIANCES_UPDATED"
  end.

(** [data['user_id']]: every event has this key *)
Definition user_id_of (data : event_data) : string :=
  match data with
  | UserCreated user_id _ _ => user_id
  | UserProfileUpdated user_id _ => user_id
  | IngredientAdded user_id _ _ _ _ => user_id
  | IngredientRemoved user_id _ => user_id
  | RecipeSearchPerformed user_id _ _ _ => user_id
  | RecipeFavorited user_id _ _ => user_id
  | RecipeUnfavorited user_id _ => user_id
  | UserAppliancesUpdated user_id _ => user_id
  end.

(** [data['ingredient_id']] *)
Definition ingredient_id_of (data : event_data) : result string :=
  match data with
  | IngredientAdded _ ingredient_id _ _ _ => Ok ingredient_id
  | IngredientRemoved _ ingredient_id => Ok ingredient_id
  | _ => Raise (KeyError "ingredient_id")
  end.

(** [data['recipe_id']] *)
Definition recipe_id_of (data : event_data) : result string :=
  match data with
  | RecipeFavorited _ recipe_id _ => Ok recipe_id
  | RecipeUnfavorited _ recipe_id => Ok recipe_id
  | _ => Raise (KeyError "recipe_id")
  end.

(** An event, as [to_dict] presents it to the subscribers.  The time stamp
    is the text [datetime.utcnow().isoformat()] returned at the creation. *)
Module Event.
Record t : Type := {
  event_type : string;
  data : event_data;
  timestamp : string
}.
End Event.

(** the construction of an event of one of the eight classes at time [now] *)
Definition new_event (data : event_data) (now : string) : Event.t :=
  {| Event.event_type := event_type_of data;
     Event.data := data;
     Event.timestamp := now |}.

(** ** [events/event_bus.py]

    A subscriber is a callback on the event; the subscribers of this
    program act on the read model.  A callback returns the read model as it
    has left it and the exception it has raised, if any. *)

Definition callback : Type := Event.t -> ReadDb.t -> ReadDb.t * option exn.

Module EventBus.
Record t : Type := {
  _subscribers : dict (list callback);
  _event_log : list Event.t
}.

(** [EventBus()] *)
Definition new : t := {| _subscribers := []; _event_log := [] |}.

(** the loop over the callbacks: an exception is printed and dropped *)
Definition notify (callbacks : list callback) (event : Event.t) (read_db : ReadDb.t)
  : ReadDb.t :=
  fold_left (fun read_db callback => fst (callback event read_db)) callbacks read_db.

Definition publish (event : Event.t) (self : t) (read_db : ReadDb.t) : t * ReadDb.t :=
  let self := {| _subscribers := _subscribers self;
                 _event_log := _event_log self ++ [event] |} in
  match dict_get (Event.event_type event) (_subscribers self) with
  | Some callbacks => (self, notify callbacks event read_db)
  | None => (self, read_db)
  end.

(** [self._subscribers[event_type].append(callback)] on a [defaultdict(list)] *)
Definition subscribe (event_type : string) (callback : callback) (self : t) : t :=
  let subscribers :=
    if dict_mem event_type (_subscribers self) then _subscribers self
    else dict_set event_type [] (_subscribers self) in
  {| _subscribers := dict_adjust event_type (fun l => l ++ [callback]) subscribers;
     _event_log := _event_log self |}.

Definition get_event_log (self : t) : list Event.t := _event_log self.

Definition clear_log (self : t) : t :=
  {| _subscribers := _subscribers self; _event_log := [] |}.
End EventBus.

(** ** [consumers/event_consumers.py] *)

Module consumers.

Definition set_user_profiles (v : dict (dict value)) (db : ReadDb.t) : ReadDb.t :=
  {| ReadDb.user_profiles := v;
     ReadDb.user_pantries := ReadDb.user_pantries db;
     ReadDb.user_favorites := ReadDb.user_favorites db;
     ReadDb.recipe_cache := ReadDb.recipe_cache db;
     ReadDb.user_analytics := ReadDb.user_analytics db |}.

Definition set_user_pantries (v : dict (dict PantryItem.t)) (db : ReadDb.t) : ReadDb.t :=
  {| ReadDb.user_profiles := ReadDb.user_profiles db;
     ReadDb.user_pantries := v;
     ReadDb.user_favorites := ReadDb.user_favorites db;
     ReadDb.recipe_cache := ReadDb.recipe_cache db;
     ReadDb.user_analytics := ReadDb.user_analytics db |}.

Definition set_user_favorites (v : dict (list string)) (db : ReadDb.t) : ReadDb.t :=
  {| ReadDb.user_profiles := ReadDb.user_profiles db;
     ReadDb.user_pantries := ReadDb.user_pantries db;
     ReadDb.user_favorites := v;
     ReadDb.recipe_cache := ReadDb.recipe_cache db;
     ReadDb.user_analytics := ReadDb.user_analytics db |}.

Definition set_user_analytics (v : dict Analytics.t) (db : ReadDb.t) : ReadDb.t :=
  {| ReadDb.user_profiles := ReadDb.user_profiles db;
     ReadDb.user_pantries := ReadDb.user_pantries db;
     ReadDb.user_favorites := ReadDb.user_favorites db;
     ReadDb.recipe_cache := ReadDb.recipe_cache db;
     ReadDb.user_analytics := v |}.

(** [d.update(other)] *)
Definition dict_update {V} (other d : dict V) : dict V :=
  fold_left (fun d kv => dict_set (fst kv) (snd kv) d) other d.

(** [s.discard(x)] on a set *)
Definition set_discard (x : string) (s : list string) : list string :=
  filter (fun y => negb (String.eqb y x)) s.

Definition on_user_created : callback := fun event_data read_db =>
  let user_id := user_id_of (Event.data event_data) in
  match Event.data event_data with
  | UserCreated _ username dietary_restrictions =>
      let read_db :=
        set_user_profiles
          (dict_set user_id
             [("user_id", VStr user_id);
              ("username", VStr username);
              ("dietary_restrictions", VList dietary_restrictions);
              ("skill_level", VStr "beginner")]
             (ReadDb.user_profiles read_db))
          read_db in
      let read_db :=
        set_user_pantries (dict_set user_id [] (ReadDb.user_pantries read_db)) read_db in
      let read_db :=
        set_user_favorites (dict_set user_id [] (ReadDb.user_favorites read_db)) read_db in
      (read_db, None)
  | _ => (read_db, Some (KeyError "username"))
  end.

Definition on_user_profile_updated : callback := fun event_data read_db =>
  let user_id := user_id_of (Event.data event_data) in
  if dict_mem user_id (ReadDb.user_profiles read_db) then
    match Event.data event_data with
    | UserProfileUpdated _ updated_fields =>
        (set_user_profiles
           (dict_adjust user_id (dict_update updated_fields)
                        (ReadDb.user_profiles read_db))
           read_db,
         None)
    | _ => (read_db, Some (KeyError "updated_fields"))
    end
  else (read_db, None).

Definition on_ingredient_added : callback := fun event_data read_db =>
  let user_id := user_id_of (Event.data event_data) in
  match ingredient_id_of (Event.data event_data) with
  | Raise e => (read_db, Some e)
  | Ok ingredient_id =>
      let read_db :=
        if negb (dict_mem user_id (ReadDb.user_pantries read_db))
        then set_user_pantries (dict_set user_id [] (ReadDb.user_pantries read_db))
                               read_db
        else read_db in
      match Event.data event_data with
      | IngredientAdded _ _ ingredient_name amount exp_date =>
          (set_user_pantries
             (dict_adjust user_id
                (dict_set ingredient_id
                   {| PantryItem.ingredient_id := ingredient_id;
                      PantryItem.name := lower ingredient_name;
                      PantryItem.amount := amount;
                      PantryItem.exp_date := exp_date |})
                (ReadDb.user_pantries read_db))
             read_db,
           None)
      | _ => (read_db, Some (KeyError "ingredient_name"))
      end
  end.

Definition on_ingredient_removed : callback := fun event_data read_db =>
  let user_id := user_id_of (Event.data event_data) in
  match ingredient_id_of (Event.data event_data) with
  | Raise e => (read_db, Some e)
  | Ok ingredient_id =>
      match dict_get user_id (ReadDb.user_pantries read_db) with
      | Some pantry =>
          if dict_mem ingredient_id pantry then
            (set_user_pantries
               (dict_adjust user_id (dict_del ingredient_id)
                            (ReadDb.user_pantries read_db))
               read_db,
             None)
          else (read_db, None)
      | None => (read_db, None)
      end
  end.

Definition on_recipe_favorited : callback := fun event_data read_db =>
  let user_id := user_id_of (Event.data event_data) in
  match recipe_id_of (Event.data event_data) with
  | Raise e => (read_db, Some e)
  | Ok recipe_id =>
      let read_db :=
        if negb (dict_mem user_id (ReadDb.user_favorites read_db))
        then set_user_favorites (dict_set user_id [] (ReadDb.user_favorites read_db))
                                read_db
        else read_db in
      let read_db :=
        set_user_favorites
          (dict_adjust user_id (set_add recipe_id) (ReadDb.user_favorites read_db))
          read_db in
      match Event.data event_data with
      | RecipeFavorited _ _ recipe_name => (read_db, None)
      | _ => (read_db, Some (KeyError "recipe_name"))
      end
  end.

Definition on_recipe_unfavorited : callback := fun event_data read_db =>
  let user_id := user_id_of (Event.data event_data) in
  match recipe_id_of (Event.data event_data) with
  | Raise e => (read_db, Some e)
  | Ok recipe_id =>
      if dict_mem user_id (ReadDb.user_favorites read_db) then
        (set_user_favorites
           (dict_adjust user_id (set_discard recipe_id) (ReadDb.user_favorites read_db))
           read_db,
         None)
      else (read_db, None)
  end.

(** [l.pop(0)] on a list that is not empty *)
Definition pop_first {A} (l : list A) : list A := tl l.

Definition on_recipe_search_performed : callback := fun event_data read_db =>
  let user_id := user_id_of (Event.data event_data) in
  let read_db :=
    if negb (dict_mem user_id (ReadDb.user_analytics read_db))
    then set_user_analytics
           (dict_set user_id
              {| Analytics.search_count := 0; Analytics.recent_searches := [] |}
              (ReadDb.user_analytics read_db))
           read_db
    else read_db in
  let read_db :=
    set_user_analytics
      (dict_adjust user_id
         (fun a => {| Analytics.search_count := Analytics.search_count a + 1;
                      Analytics.recent_searches := Analytics.recent_searches a |})
         (ReadDb.user_analytics read_db))
      read_db in
  match Event.data event_data with
  | RecipeSearchPerformed _ ingredients _ result_count =>
      let read_db :=
        set_user_analytics
          (dict_adjust user_id
             (fun a =>
                {| Analytics.search_count := Analytics.search_count a;
                   Analytics.recent_searches :=
                     Analytics.recent_searches a
                     ++ [{| Analytics.timestamp := Event.timestamp event_data;
                            Analytics.ingredients := ingredients;
                            Analytics.result_count := result_count |}] |})
             (ReadDb.user_analytics read_db))
          read_db in
      let read_db :=
        set_user_analytics
          (dict_adjust user_id
             (fun a =>
                if (10 <? List.length (Analytics.recent_searches a))%nat
                then {| Analytics.search_count := Analytics.search_count a;
                        Analytics.recent_searches :=
                          pop_first (Analytics.recent_searches a) |}
                else a)
             (ReadDb.user_analytics read_db))
          read_db in
      (read_db, None)
  | _ => (read_db, Some (KeyError "ingredients"))
  end.

(** [setup_event_consumers()], on the bus it is given *)
Definition setup_event_consumers (event_bus : EventBus.t) : EventBus.t :=
  let event_bus := EventBus.subscribe "USER_CREATED" on_user_created event_bus in
  let event_bus :=
    EventBus.subscribe "USER_PROFILE_UPDATED" on_user_profile_updated event_bus in
  let event_bus := EventBus.subscribe "INGREDIENT_ADDED" on_ingredient_added event_bus in
  let event_bus :=
    EventBus.subscribe "INGREDIENT_REMOVED" on_ingredient_removed event_bus in
  let event_bus := EventBus.subscribe "RECIPE_FAVORITED" on_recipe_favorited event_bus in
  let event_bus :=
    EventBus.subscribe "RECIPE_UNFAVORITED" on_recipe_unfavorited event_bus in
  EventBus.subscribe "RECIPE_SEARCH_PERFORMED" on_recipe_search_performed event_bus.

End consumers.

(** ** [commands/command_handlers.py]

    The handlers act on the write database, on the global event bus and,
    through the subscribers of the bus, on the read model.  The text that
    [str(uuid.uuid4())] returns and the time stamp of the event are
    arguments of the model. *)

Module User.
Record t : Type := {
  user_id : string;
  username : string;
  password : string;
  dietary_restrictions : value;
  skill_level : value
}.
End User.

Module WriteDb.
Record t : Type := {
  users : dict User.t;
  user_ingredients : dict (dict PantryItem.t);
  favorites : dict (list string);            (* sets of recipe ids *)
  appliances : dict (list string)
}.

Definition empty : t :=
  {| users := []; user_ingredients := []; favorites := []; appliances := [] |}.
End WriteDb.

Module World.
Record t : Type := {
  _write_db : WriteDb.t;
  _read_db : ReadDb.t;
  _event_bus : EventBus.t
}.
End World.

(** The dictionary a handler returns; an absent key is [None]. *)
Module Response.
Record t : Type := {
  success : bool;
  user_id : option string;
  ingredient_id : option string;
  message : option string
}.

Definition failure (message : string) : t :=
  {| success := false; user_id := None; ingredient_id := None;
     message := Some message |}.

Definition done (message : string) : t :=
  {| success := true; user_id := None; ingredient_id := None;
     message := Some message |}.
End Response.

Module commands.

Definition set_users (v : dict User.t) (db : WriteDb.t) : WriteDb.t :=
  {| WriteDb.users := v;
     WriteDb.user_ingredients := WriteDb.user_ingredients db;
     WriteDb.favorites := WriteDb.favorites db;
     WriteDb.appliances := WriteDb.appliances db |}.

Definition set_user_ingredients (v : dict (dict PantryItem.t)) (db : WriteDb.t)
  : WriteDb.t :=
  {| WriteDb.users := WriteDb.users db;
     WriteDb.user_ingredients := v;
     WriteDb.favorites := WriteDb.favorites db;
     WriteDb.appliances := WriteDb.appliances db |}.

Definition set_favorites (v : dict (list string)) (db : WriteDb.t) : WriteDb.t :=
  {| WriteDb.users := WriteDb.users db;
     WriteDb.user_ingredients := WriteDb.user_ingredients db;
     WriteDb.favorites := v;
     WriteDb.appliances := WriteDb.appliances db |}.

Definition set_appliances (v : dict (list string)) (db : WriteDb.t) : WriteDb.t :=
  {| WriteDb.users := WriteDb.users db;
     WriteDb.user_ingredients := WriteDb.user_ingredients db;
     WriteDb.favorites := WriteDb.favorites db;
     WriteDb.appliances := v |}.

(** [event_bus.publish(event)] from a handler that has left the write
    database as [write_db] *)
Definition publish (event : Event.t) (write_db : WriteDb.t) (world : World.t)
  : World.t :=
  let '(event_bus, read_db) :=
    EventBus.publish event (World._event_bus world) (World._read_db world) in
  {| World._write_db := write_db;
     World._read_db := read_db;
     World._event_bus := event_bus |}.

Definition handle_create_user (uuid4 now : string)
  (username password : string) (dietary_restrictions : option (list string))
  (world : World.t) : Response.t * World.t :=
  let _write_db := World._write_db world in
  if negb (truthy_str username) || negb (truthy_str password) then
    (Response.failure "Username and password required", world)
  else if existsb (fun user => String.eqb (User.username user) username)
                  (dict_values (WriteDb.users _write_db)) then
    (Response.failure "Username already exists", world)
  else
    let user_id := uuid4 in
    let dietary_restrictions := get dietary_restrictions [] in
    let _write_db :=
      set_users
        (dict_set user_id
           {| User.user_id := user_id;
              User.username := username;
              User.password := password;
              User.dietary_restrictions := VList dietary_restrictions;
              User.skill_level := VStr "beginner" |}
           (WriteDb.users _write_db))
        _write_db in
    let event := new_event (UserCreated user_id username dietary_restrictions) now in
    ({| Response.success := true;
        Response.user_id := Some user_id;
        Response.ingredient_id := None;
        Response.message := Some ("User " ++ username ++ " created successfully")%string |},
     publish event _write_db world).

(** [user[field] = value] for one of the allowed fields *)
Definition set_field (field : string) (v : value) (user : User.t) : User.t :=
  if String.eqb field "dietary_restrictions" then
    {| User.user_id := User.user_id user;
       User.username := User.username user;
       User.password := User.password user;
       User.dietary_restrictions := v;
       User.skill_level := User.skill_level user |}
  else
    {| User.user_id := User.user_id user;
       User.username := User.username user;
       User.password := User.password user;
       User.dietary_restrictions := User.dietary_restrictions user;
       User.skill_level := v |}.

Definition allowed_fields : list string := ["dietary_restrictions"; "skill_level"].

(** the loop over [updates.items()]: the user and [updated_fields] *)
Definition apply_updates (updates : dict value) (user : User.t)
  : User.t * dict value :=
  fold_left
    (fun '(user, updated_fields) '(field, v) =>
       if contains allowed_fields field
       then (set_field field v user, dict_set field v updated_fields)
       else (user, updated_fields))
    updates (user, []).

Definition handle_update_user_profile (now : string)
  (user_id : string) (updates : dict value)
  (world : World.t) : Response.t * World.t :=
  let _write_db := World._write_db world in
  match dict_get user_id (WriteDb.users _write_db) with
  | None => (Response.failure "User not found", world)
  | Some user =>
      let '(user, updated_fields) := apply_updates updates user in
      match updated_fields with
      | [] => (Response.failure "No valid fields to update", world)
      | _ :: _ =>
          let _write_db :=
            set_users (dict_set user_id user (WriteDb.users _write_db)) _write_db in
          let event := new_event (UserProfileUpdated user_id updated_fields) now in
          (Response.done "Profile updated successfully",
           publish event _write_db world)
      end
  end.

Definition handle_add_ingredient (uuid4 now : string)
  (user_id ingredient_name : string) (amount : spec_float) (exp_date : option string)
  (world : World.t) : Response.t * World.t :=
  let _write_db := World._write_db world in
  if negb (dict_mem user_id (WriteDb.users _write_db)) then
    (Response.failure "User not found", world)
  else if negb (truthy_str ingredient_name) then
    (Response.failure "Ingredient name required", world)
  else
    let _write_db :=
      if negb (dict_mem user_id (WriteDb.user_ingredients _write_db))
      then set_user_ingredients
             (dict_set user_id [] (WriteDb.user_ingredients _write_db)) _write_db
      else _write_db in
    let ingredient_id := uuid4 in
    let _write_db :=
      set_user_ingredients
        (dict_adjust user_id
           (dict_set ingredient_id
              {| PantryItem.ingredient_id := ingredient_id;
                 PantryItem.name := lower ingredient_name;
                 PantryItem.amount := amount;
                 PantryItem.exp_date := exp_date |})
           (WriteDb.user_ingredients _write_db))
        _write_db in
    let event :=
      new_event (IngredientAdded user_id ingredient_id ingredient_name amount exp_date)
                now in
    ({| Response.success := true;
        Response.user_id := None;
        Response.ingredient_id := Some ingredient_id;
        Response.message := Some ("Added " ++ ingredient_name ++ " to pantry")%string |},
     publish event _write_db world).

Definition handle_remove_ingredient (now : string)
  (user_id ingredient_id : string)
  (world : World.t) : Response.t * World.t :=
  let _write_db := World._write_db world in
  if negb (dict_mem user_id (WriteDb.users _write_db)) then
    (Response.failure "User not found", world)
  else
    match dict_get user_id (WriteDb.user_ingredients _write_db) with
    | None => (Response.failure "Ingredient not found", world)
    | Some pantry =>
        if negb (dict_mem ingredient_id pantry) then
          (Response.failure "Ingredient not found", world)
        else
          let _write_db :=
            set_user_ingredients
              (dict_adjust user_id (dict_del ingredient_id)
                           (WriteDb.user_ingredients _write_db))
              _write_db in
          let event := new_event (IngredientRemoved user_id ingredient_id) now in
          (Response.done "Ingredient removed from pantry",
           publish event _write_db world)
    end.

Definition handle_favorite_recipe (now : string)
  (user_id recipe_id recipe_name : string)
  (world : World.t) : Response.t * World.t :=
  let _write_db := World._write_db world in
  if negb (dict_mem user_id (WriteDb.users _write_db)) then
    (Response.failure "User not found", world)
  else
    let _write_db :=
      if negb (dict_mem user_id (WriteDb.favorites _write_db))
      then set_favorites (dict_set user_id [] (WriteDb.favorites _write_db)) _write_db
      else _write_db in
    if contains (get (dict_get user_id (WriteDb.favorites _write_db)) []) recipe_id then
      ({| Response.success := false; Response.user_id := None;
          Response.ingredient_id := None;
          Response.message := Some "Recipe already favorited" |},
       {| World._write_db := _write_db;
          World._read_db := World._read_db world;
          World._event_bus := World._event_bus world |})
    else
      let _write_db :=
        set_favorites
          (dict_adjust user_id (set_add recipe_id) (WriteDb.favorites _write_db))
          _write_db in
      let event := new_event (RecipeFavorited user_id recipe_id recipe_name) now in
      (Response.done ("Added " ++ recipe_name ++ " to favorites")%string,
       publish event _write_db world).

Definition handle_unfavorite_recipe (now : string)
  (user_id recipe_id : string)
  (world : World.t) : Response.t * World.t :=
  let _write_db := World._write_db world in
  if negb (dict_mem user_id (WriteDb.users _write_db)) then
    (Response.failure "User not found", world)
  else
    match dict_get user_id (WriteDb.favorites _write_db) with
    | None => (Response.failure "Recipe not in favorites", world)
    | Some favorites =>
        if negb (contains favorites recipe_id) then
          (Response.failure "Recipe not in favorites", world)
        else
          let _write_db :=
            set_favorites
              (dict_adjust user_id (consumers.set_discard recipe_id)
                           (WriteDb.favorites _write_db))
              _write_db in
          let event := new_event (RecipeUnfavorited user_id recipe_id) now in
          (Response.done "Recipe removed from favorites",
           publish event _write_db world)
    end.

Definition handle_update_appliances (now : string)
  (user_id : string) (appliances : list string)
  (world : World.t) : Response.t * World.t :=
  let _write_db := World._write_db world in
  if negb (dict_mem user_id (WriteDb.users _write_db)) then
    (Response.failure "User not found", world)
  else
    let _write_db :=
      set_appliances (dict_set user_id appliances (WriteDb.appliances _write_db))
                     _write_db in
    let event := new_event (UserAppliancesUpdated user_id appliances) now in
    (Response.done "Appliances updated successfully",
     publish event _write_db world).

Definition handle_log_recipe_search (now : string)
  (user_id : string) (ingredients : list string) (filters : option Filters.t)
  (result_count : Z)
  (world : World.t) : Response.t * World.t :=
  let event :=
    new_event (RecipeSearchPerformed user_id ingredients filters result_count) now in
  ({| Response.success := true; Response.user_id := None;
      Response.ingredient_id := None; Response.message := None |},
   publish event (World._write_db world) world).

End commands.

(** ** Vocabulary of the further properties *)

(** [c in s] for a character *)
Definition has_char (c : ascii) (s : string) : Prop :=
  In c (list_ascii_of_string s).

(** The ingredients a report accounts for: the exact matches, the
    originals of the fuzzy matches and the unmatched ones. *)
Definition accounted (report : FuzzyReport.t) : list string :=
  FuzzyReport.exact_matches report
  ++ map FuzzyReport.original (FuzzyReport.fuzzy_matches report)
  ++ FuzzyReport.unmatched report.

(** The step from [st] to [st'] files [x] in exactly one list of the
    report, adds at most one ingredient to [cleaned], keeps the confirmed
    ingredients among the fuzzy matches and reads at most one line, none
    when the run is not interactive. *)
Definition files_one (interactive : bool) (x : string)
  (st st' : recipe_search_io.parse_state) : Prop :=
  (forall done,
      Permutation (accounted (recipe_search_io.fuzzy_report st)) done ->
      Permutation (accounted (recipe_search_io.fuzzy_report st')) (done ++ [x]))
  /\ (List.length (recipe_search_io.cleaned st')
      <= S (List.length (recipe_search_io.cleaned st)))%nat
  /\ (incl (FuzzyReport.user_confirmations (recipe_search_io.fuzzy_report st))
           (map FuzzyReport.original
                (FuzzyReport.fuzzy_matches (recipe_search_io.fuzzy_report st))) ->
      incl (FuzzyReport.user_confirmations (recipe_search_io.fuzzy_report st'))
           (map FuzzyReport.original
                (FuzzyReport.fuzzy_matches (recipe_search_io.fuzzy_report st'))))
  /\ exists consumed,
       recipe_search_io.unread st = consumed ++ recipe_search_io.unread st'
       /\ (List.length consumed <= 1)%nat
       /\ (interactive = false -> consumed = []).

(** the report that lists every ingredient as an exact match *)
Definition all_exact (ingredients : list string) : FuzzyReport.t :=
  {| FuzzyReport.exact_matches := ingredients;
     FuzzyReport.fuzzy_matches := [];
     FuzzyReport.unmatched := [];
     FuzzyReport.user_confirmations := [] |}.

(** a library call that finds nothing *)
Definition no_suggestion (query : string) (choices : list string)
  : option (string * Z) := None.

(** the entry has the key [id] *)
Definition has_id (r : Recipe.t) : bool :=
  match Recipe.id r with Some _ => true | None => false end.

(** The recipes the second strategy of [generate_shopping_suggestions]
    keeps: those that are not excluded and pass the filters. *)
Definition all_keeps (filters : option Filters.t) (exclude_ids : list Z)
  (r : Recipe.t) : bool :=
  negb (contains_id exclude_ids (get (Recipe.id r) 0))
  && recipe_search.passes_filters r filters.

(** The second strategy can process [r]: it needs [id] in every case, and
    [ingredients] and [name] if the recipe is neither excluded nor filtered
    out. *)
Definition all_readable (filters : option Filters.t) (exclude_ids : list Z)
  (r : Recipe.t) : bool :=
  match Recipe.id r with
  | None => false
  | Some id =>
      if contains_id exclude_ids id then true
      else if recipe_search.passes_filters r filters then
        match Recipe.ingredients r, Recipe.name r with
        | Some _, Some _ => true
        | _, _ => false
        end
      else true
  end.

(** the user's ingredients that are written in lower case *)
Definition lower_case_only (user_ingredients : list string) : list string :=
  filter (fun u => String.eqb (lower u) u) user_ingredients.

(** a recipe whose first ingredient is followed by a space *)
Definition toast : Recipe.t :=
  mk_recipe 21 "Toast" ["Bread "; "butter"] 5 "beginner" "American" [].

(** the catalog of the tests, loaded into an empty read model *)
Definition sample_db : ReadDb.t :=
  fst (queries._load_base_recipes (Some sample_recipes) ReadDb.empty).

(** a pantry entry of one unit without expiry date *)
Definition pantry_item (ingredient_id name : string) : PantryItem.t :=
  {| PantryItem.ingredient_id := ingredient_id;
     PantryItem.name := name;
     PantryItem.amount := Float64.float_of_int 1;
     PantryItem.exp_date := None |}.

(** a read model: the given catalog, and one user who owns the given
    ingredients *)
Definition db_of (catalog : list Recipe.t) (user_id : string)
  (pantry : list (string * string)) : ReadDb.t :=
  {| ReadDb.user_profiles := [];
     ReadDb.user_pantries :=
       [(user_id, map (fun entry => (fst entry, pantry_item (fst entry) (snd entry)))
                      pantry)];
     ReadDb.user_favorites := [];
     ReadDb.recipe_cache :=
       fst (queries.load_recipes catalog []);
     ReadDb.user_analytics := [] |}.

(** [f] is the entry [query_user_favorites] builds for the cached recipe
    stored under [recipe_id]. *)
Definition favorite_entry_of (recipe_cache : dict Recipe.t)
  (user_ingredients : list string) (recipe_id : string) (f : Favorite.t) : Prop :=
  exists r ingredients,
    dict_get recipe_id recipe_cache = Some r
    /\ Recipe.ingredients r = Some ingredients
    /\ Recipe.id r = Some (Favorite.id f)
    /\ Recipe.name r = Some (Favorite.name f)
    /\ Favorite.match_percentage f
       = MatchData.percentage (query_handlers._calculate_match ingredients user_ingredients)
    /\ Favorite.matched_ingredients f
       = MatchData.matched (query_handlers._calculate_match ingredients user_ingredients)
    /\ Favorite.missing_ingredients f
       = MatchData.missing (query_handlers._calculate_match ingredients user_ingredients).

(** the favourite ids under which the cache holds a non-empty recipe *)
Definition cached (recipe_cache : dict Recipe.t) (recipe_id : string) : bool :=
  match dict_get recipe_id recipe_cache with
  | Some r => truthy_recipe r
  | None => false
  end.

(** [query_user_favorites] can process the favourite [recipe_id]: a cached,
    non-empty recipe needs its [ingredients], [id] and [name]. *)
Definition favorite_readable (recipe_cache : dict Recipe.t) (recipe_id : string) : bool :=
  match dict_get recipe_id recipe_cache with
  | Some r => if truthy_recipe r then has_required_fields r else true
  | None => true
  end.

(** the dictionary with [f] applied to every value *)
Definition dict_map {V W} (f : V -> W) (d : dict V) : dict W :=
  map (fun kv => (fst kv, f (snd kv))) d.

(** the suggestion of the query side, with the field names of
    [generate_shopping_suggestions] *)
Definition to_suggestion (s : QuerySuggestion.t) : Suggestion.t :=
  {| Suggestion.name := QuerySuggestion.name s;
     Suggestion.unlock_count := QuerySuggestion.unlock_count s;
     Suggestion.recipe_names := QuerySuggestion.recipes s |}.

(** The recipes [query_shopping_suggestions] draws its suggestions from:
    they pass the filters and match at 50 percent or more, but not fully. *)
Definition half_matched (user_ingredients : list string) (filters : Filters.t)
  (r : Recipe.t) : bool :=
  query_handlers._passes_filters r filters
  && (500 <=? MatchData.percentage (match_of user_ingredients r))
  && (MatchData.percentage (match_of user_ingredients r) <? 1000).

(** A call of one of the eight command handlers. *)
Inductive command : Type :=
| CreateUser (username password : string) (dietary_restrictions : option (list string))
| UpdateUserProfile (user_id : string) (updates : dict value)
| AddIngredient (user_id ingredient_name : string) (amount : spec_float)
                (exp_date : option string)
| RemoveIngredient (user_id ingredient_id : string)
| FavoriteRecipe (user_id recipe_id recipe_name : string)
| UnfavoriteRecipe (user_id recipe_id : string)
| UpdateAppliances (user_id : string) (appliances : list string)
| LogRecipeSearch (user_id : string) (ingredients : list string)
                  (filters : option Filters.t) (result_count : Z).

(** The call, with the identifier [uuid.uuid4()] would return and the time
    of the event. *)
Definition handle (uuid4 now : string) (c : command) (world : World.t)
  : Response.t * World.t :=
  match c with
  | CreateUser username password dietary_restrictions =>
      commands.handle_create_user uuid4 now username password dietary_restrictions world
  | UpdateUserProfile user_id updates =>
      commands.handle_update_user_profile now user_id updates world
  | AddIngredient user_id ingredient_name amount exp_date =>
      commands.handle_add_ingredient uuid4 now user_id ingredient_name amount exp_date
                                     world
  | RemoveIngredient user_id ingredient_id =>
      commands.handle_remove_ingredient now user_id ingredient_id world
  | FavoriteRecipe user_id recipe_id recipe_name =>
      commands.handle_favorite_recipe now user_id recipe_id recipe_name world
  | UnfavoriteRecipe user_id recipe_id =>
      commands.handle_unfavorite_recipe now user_id recipe_id world
  | UpdateAppliances user_id appliances =>
      commands.handle_update_appliances now user_id appliances world
  | LogRecipeSearch user_id ingredients filters result_count =>
      commands.handle_log_recipe_search now user_id ingredients filters result_count
                                        world
  end.

(** The program after its start: empty databases but for the recipe cache,
    and the bus with the consumers of [setup_event_consumers]. *)
Definition started (recipe_cache : dict Recipe.t) : World.t :=
  {| World._write_db := WriteDb.empty;
     World._read_db := queries.with_recipe_cache ReadDb.empty recipe_cache;
     World._event_bus := consumers.setup_event_consumers EventBus.new |}.

(** The identifier drawn for a new user is not the one of a user. *)
Definition fresh_for (uuid4 : string) (c : command) (world : World.t) : Prop :=
  match c with
  | CreateUser _ _ _ =>
      dict_mem uuid4 (WriteDb.users (World._write_db world)) = false
  | _ => True
  end.

(** The worlds the program reaches by calls of the command handlers. *)
Inductive reachable : World.t -> Prop :=
| reachable_started (recipe_cache : dict Recipe.t) :
    reachable (started recipe_cache)
| reachable_handle (world : World.t) (uuid4 now : string) (c : command) :
    reachable world -> fresh_for uuid4 c world ->
    reachable (snd (handle uuid4 now c world)).

(** What the read model shows of a user: everything but the password. *)
Definition public_profile (user : User.t) : dict value :=
  [("user_id", VStr (User.user_id user));
   ("username", VStr (User.username user));
   ("dietary_restrictions", User.dietary_restrictions user);
   ("skill_level", User.skill_level user)].

(** The read model mirrors the write database: the same users with their
    public profiles, for every user the same pantry, entry by entry, and
    the same set of favourites. *)
Definition consistent (world : World.t) : Prop :=
  let write_db := World._write_db world in
  let read_db := World._read_db world in
  forall user_id,
    dict_get user_id (ReadDb.user_profiles read_db)
    = option_map public_profile (dict_get user_id (WriteDb.users write_db))
    /\ get (dict_get user_id (ReadDb.user_pantries read_db)) []
       = get (dict_get user_id (WriteDb.user_ingredients write_db)) []
    /\ forall recipe_id,
         In recipe_id (get (dict_get user_id (ReadDb.user_favorites read_db)) [])
         <-> In recipe_id (get (dict_get user_id (WriteDb.favorites write_db)) []).

(** The bus has the subscriptions of [setup_event_consumers], and no other. *)
Definition wired (world : World.t) : Prop :=
  EventBus._subscribers (World._event_bus world)
  = EventBus._subscribers (consumers.setup_event_consumers EventBus.new).

(** The write database is keyed by the users: every user is stored under
    its own identifier, and pantries and favourites belong to users. *)
Definition keyed (world : World.t) : Prop :=
  let write_db := World._write_db world in
  (forall user_id user,
      dict_get user_id (WriteDb.users write_db) = Some user ->
      User.user_id user = user_id)
  /\ (forall user_id,
        dict_mem user_id (WriteDb.user_ingredients write_db) = true ->
        dict_mem user_id (WriteDb.users write_db) = true)
  /\ (forall user_id,
        dict_mem user_id (WriteDb.favorites write_db) = true ->
        dict_mem user_id (WriteDb.users write_db) = true).

(** What the consumers of [setup_event_consumers] make of an event. *)
Definition consumed (event : Event.t) (read_db : ReadDb.t) : ReadDb.t :=
  match Event.data event with
  | UserCreated _ _ _ => fst (consumers.on_user_created event read_db)
  | UserProfileUpdated _ _ => fst (consumers.on_user_profile_updated event read_db)
  | IngredientAdded _ _ _ _ _ => fst (consumers.on_ingredient_added event read_db)
  | IngredientRemoved _ _ => fst (consumers.on_ingredient_removed event read_db)
  | RecipeSearchPerformed _ _ _ _ =>
      fst (consumers.on_recipe_search_performed event read_db)
  | RecipeFavorited _ _ _ => fst (consumers.on_recipe_favorited event read_db)
  | RecipeUnfavorited _ _ => fst (consumers.on_recipe_unfavorited event read_db)
  | UserAppliancesUpdated _ _ => read_db
  end.

(** the program after ann has registered and put eggs in her pantry; the
    identifiers drawn are [u-1] and [i-1] *)
Definition ann_with_eggs : World.t :=
  snd (handle "i-1" "2024-01-02T09:00:00" (AddIngredient "u-1" "Eggs"
         (Float64.float_of_int 1) None)
        (snd (handle "u-1" "2024-01-01T09:00:00" (CreateUser "ann" "secret" None)
                (started [])))).

(** a subscriber that counts the events it sees in the analytics of the
    user [audit], and raises *)
Definition failing_subscriber : callback := fun event read_db =>
  (fst (consumers.on_recipe_search_performed
          (new_event (RecipeSearchPerformed "audit" [] None 0) (Event.timestamp event))
          read_db),
   Some (KeyError "audit")).

(** the program after ann has registered, with the sample catalog cached *)
Definition ann_with_catalog : World.t :=
  snd (handle "u-1" "2024-01-01T09:00:00" (CreateUser "ann" "secret" None)
         (started (fst (queries.load_recipes sample_recipes [])))).

(** The usernames of the registered users. *)
Definition usernames (world : World.t) : list string :=
  map User.username (dict_values (WriteDb.users (World._write_db world))).

(** [l[-n:]] for a positive [n]: the last [n] elements *)
Definition last_n {A} (n : nat) (l : list A) : list A :=
  skipn (List.length l - n) l.

(** A logged search: the time, the ingredients, the filters and the number
    of results. *)
Definition logged_search : Type :=
  (string * list string * option Filters.t * Z)%type.

(** the calls of [handle_log_recipe_search] for one user, in order *)
Definition log_searches (user_id : string) (searches : list logged_search)
  (world : World.t) : World.t :=
  fold_left
    (fun world '(now, ingredients, filters, result_count) =>
       snd (commands.handle_log_recipe_search now user_id ingredients filters
              result_count world))
    searches world.

(** the analytics of a user who has not searched yet *)
Definition no_analytics : Analytics.t :=
  {| Analytics.search_count := 0; Analytics.recent_searches := [] |}.

(** the analytics of [user_id] in the read model *)
Definition analytics_of (user_id : string) (world : World.t) : Analytics.t :=
  get (dict_get user_id (ReadDb.user_analytics (World._read_db world))) no_analytics.

(** eleven searches of ann, at the times 01 to 11 *)
Definition eleven_searches : list logged_search :=
  map (fun now => (now, ["eggs"], None, 3))
      ["01"; "02"; "03"; "04"; "05"; "06"; "07"; "08"; "09"; "10"; "11"].

(** the entry of [recent_searches] for a logged search *)
Definition analytics_entry (s : logged_search) : Analytics.search :=
  let '(now, ingredients, _, result_count) := s in
  {| Analytics.timestamp := now;
     Analytics.ingredients := ingredients;
     Analytics.result_count := result_count |}.

(** An ingredient as [parse_ingredients] produces them: not empty, without
    surrounding space, in lower case, free of the two separators. *)
Definition normalised (x : string) : Prop :=
  x <> "" /\ strip x = x /\ lower x = x
  /\ ~ has_char comma x /\ ~ has_char newline x.

(* ================================================================== *)
(** * Part II: properties *)
(* ================================================================== *)

(** ** Binary64 rounding

    [binary_round_aux] rounds a located mantissa to the format.  The facts
    below are what the percentage needs: the result lies between any two
    representable numbers that enclose the exact value
    ([binary_round_aux_sandwich]), for the integer quotient
    ([SFdiv_int_sandwich]) and for the product by one hundred
    ([mul100_sandwich]); and [round1] is monotone with respect to the
    value ([round1_le], [round1_ge]).  Values are compared as multiples of
    [2^-1074], the smallest positive binary64 number. *)

Module Float64Facts.
Import Float64.

Lemma digits2_pos_size (p : positive) : digits2_pos p = Pos.size p.
Proof. induction p; simpl; congruence. Qed.

Lemma Zdigits2_bounds (p : positive) :
  2 ^ (Zpos (digits2_pos p) - 1) <= Zpos p < 2 ^ Zpos (digits2_pos p).
Proof.
  rewrite digits2_pos_size. split.
  - pose proof (Pos.size_le p) as H.
    assert (Hs : Zpos (Pos.size p) = Z.succ (Zpos (Pos.size p) - 1)) by lia.
    assert (H2 : 2 ^ Zpos (Pos.size p) <= 2 * Zpos p).
    { change 2 with (Zpos 2) at 1. rewrite <- Pos2Z.inj_pow. lia. }
    rewrite Hs in H2 at 1. rewrite Z.pow_succ_r in H2 by lia. lia.
  - pose proof (Pos.size_gt p) as H.
    change 2 with (Zpos 2). rewrite <- Pos2Z.inj_pow. lia.
Qed.

Lemma iter_pos_nat {A} (f : A -> A) (p : positive) (x : A) :
  iter_pos f p x = Nat.iter (Pos.to_nat p) f x.
Proof.
  revert x. induction p as [p IH | p IH |]; intros x.
  - change (iter_pos f p~1 x) with (iter_pos f p (iter_pos f p (f x))).
    rewrite !IH, Pos2Nat.inj_xI, <- Nat.iter_succ_r, <- Nat.iter_add.
    f_equal. lia.
  - change (iter_pos f p~0 x) with (iter_pos f p (iter_pos f p x)).
    rewrite !IH, Pos2Nat.inj_xO, <- Nat.iter_add. f_equal. lia.
  - reflexivity.
Qed.

Lemma shr_1_m (r : shr_record) : 0 <= shr_m r -> shr_m (shr_1 r) = shr_m r / 2.
Proof.
  destruct r as [m r s]; simpl. intros Hm. rewrite <- Z.div2_div.
  destruct m as [| p | p]; [reflexivity | | lia].
  destruct p; reflexivity.
Qed.

Lemma shr_1_exact (m : Z) :
  0 <= m -> m mod 2 = 0 ->
  shr_1 (Build_shr_record m false false) = Build_shr_record (m / 2) false false.
Proof.
  intros Hm Hmod. rewrite Zmod_odd in Hmod. rewrite <- Z.div2_div.
  destruct m as [| p | p]; [reflexivity | | lia].
  destruct p; simpl in *; try discriminate; reflexivity.
Qed.

Lemma iter_shr_1_m (n : nat) (r : shr_record) :
  0 <= shr_m r -> shr_m (Nat.iter n shr_1 r) = shr_m r / 2 ^ Z.of_nat n.
Proof.
  intros Hm. induction n as [| n IH].
  - simpl. now rewrite Z.div_1_r.
  - rewrite Nat.iter_succ, shr_1_m.
    + rewrite IH, Nat2Z.inj_succ, Z.pow_succ_r by lia.
      rewrite Z.div_div by lia. f_equal. lia.
    + rewrite IH. apply Z.div_pos; lia.
Qed.

Lemma iter_shr_1_exact (n : nat) (m : Z) :
  0 <= m -> m mod 2 ^ Z.of_nat n = 0 ->
  Nat.iter n shr_1 (Build_shr_record m false false)
  = Build_shr_record (m / 2 ^ Z.of_nat n) false false.
Proof.
  intros Hm. induction n as [| n IH]; intros Hmod.
  - simpl. now rewrite Z.div_1_r.
  - rewrite Nat2Z.inj_succ, Z.pow_succ_r in * by lia.
    assert (Hp : 0 < 2 ^ Z.of_nat n) by (apply Z.pow_pos_nonneg; lia).
    apply Z.mod_divide in Hmod; [| lia]. destruct Hmod as [k Hk].
    rewrite Nat.iter_succ, IH.
    + rewrite shr_1_exact.
      * f_equal. rewrite Z.div_div by lia. f_equal. lia.
      * apply Z.div_pos; lia.
      * subst m. replace (k * (2 * 2 ^ Z.of_nat n)) with (k * 2 * 2 ^ Z.of_nat n) by lia.
        rewrite Z.div_mul by lia. apply Z.mod_mul. lia.
    + subst m. replace (k * (2 * 2 ^ Z.of_nat n)) with (k * 2 * 2 ^ Z.of_nat n) by lia.
      apply Z.mod_mul. lia.
Qed.

Lemma shr_m_of_loc m l : shr_m (shr_record_of_loc m l) = m.
Proof. destruct l as [| []]; reflexivity. Qed.

Lemma iter_shr_1_loc_m (n : nat) (m : Z) (l : location) :
  0 <= m ->
  shr_m (Nat.iter n shr_1 (shr_record_of_loc m l)) = m / 2 ^ Z.of_nat n.
Proof. intros Hm. rewrite iter_shr_1_m; rewrite shr_m_of_loc; auto. Qed.

(** [shr] by [n] bits divides the mantissa by [2^n] and keeps an exact
    location exact when nothing is shifted out. *)
Lemma shr_spec (m e n : Z) (l : location) :
  0 <= m -> 0 <= n ->
  exists r, shr (shr_record_of_loc m l) e n = (r, e + n)
    /\ shr_m r = m / 2 ^ n
    /\ (l = loc_Exact -> m mod 2 ^ n = 0 -> loc_of_shr_record r = loc_Exact).
Proof.
  intros Hm Hn. destruct n as [| p | p]; [| | lia].
  - exists (shr_record_of_loc m l). simpl. rewrite Z.add_0_r, Z.div_1_r, shr_m_of_loc.
    repeat split. intros ->. reflexivity.
  - exists (iter_pos shr_1 p (shr_record_of_loc m l)). unfold shr.
    rewrite iter_pos_nat. split; [reflexivity |].
    rewrite <- (positive_nat_Z p). split.
    + now apply iter_shr_1_loc_m.
    + intros -> Hmod. simpl shr_record_of_loc. now rewrite iter_shr_1_exact.
Qed.

Lemma round_nearest_even_range m l :
  m <= round_nearest_even m l <= m + 1
  /\ (l = loc_Exact -> round_nearest_even m l = m).
Proof.
  destruct l as [| []]; simpl; try (destruct (Z.even m)); split; try lia; auto; discriminate.
Qed.

Lemma pow2_pos k : 0 <= k -> 0 < 2 ^ k.
Proof. intros. apply Z.pow_pos_nonneg; lia. Qed.

Lemma pow2_split a b : 0 <= a -> 0 <= b -> 2 ^ (a + b) = 2 ^ a * 2 ^ b.
Proof. intros. apply Z.pow_add_r; lia. Qed.

Lemma Zdigits2_nonneg_bounds m :
  0 <= m -> (m = 0 /\ Zdigits2 m = 0) \/ (0 < Zdigits2 m /\ 2 ^ (Zdigits2 m - 1) <= m < 2 ^ Zdigits2 m).
Proof.
  intros Hm. destruct m as [| p | p]; [left; auto | right | lia].
  simpl. split; [lia | apply Zdigits2_bounds].
Qed.

Lemma fexp64_eq k : fexp64 k = Z.max (k - 53) (-1074).
Proof. reflexivity. Qed.

(** Shifting a [d]-digit mantissa down to the exponent of the format leaves
    at most 53 digits, and exactly 53 above the subnormal range. *)
Lemma round_arith (m d e n m1 : Z) :
  0 <= m -> 0 <= n ->
  ((m = 0 /\ d = 0) \/ (0 < d /\ 2 ^ (d - 1) <= m < 2 ^ d)) ->
  e + n = Z.max (d + e - 53) (-1074) ->
  m1 = m / 2 ^ n ->
  0 <= m1 < 2 ^ 53
  /\ (-1074 < e + n -> 2 ^ 52 <= m1).
Proof.
  intros Hm Hn Hd HE ->.
  assert (Hpn : 0 < 2 ^ n) by now apply pow2_pos.
  split; [split|].
  - apply Z.div_pos; lia.
  - apply Z.div_lt_upper_bound; [lia|].
    destruct Hd as [[-> ->] | [Hd0 [Hlo Hhi]]].
    + assert (0 < 2 ^ 53) by (now apply pow2_pos). nia.
    + destruct (Z_le_gt_dec d 53) as [Hle | Hgt].
      * assert (2 ^ d <= 2 ^ 53) by (apply Z.pow_le_mono_r; lia). nia.
      * assert (2 ^ d <= 2 ^ (n + 53)) by (apply Z.pow_le_mono_r; lia).
        rewrite pow2_split in * by lia. lia.
  - intros Hgt.
    destruct Hd as [[-> ->] | [Hd0 [Hlo Hhi]]]; [lia|].
    assert (n = d - 53) by lia. subst n.
    apply Z.div_le_lower_bound; [lia|].
    replace (d - 1) with ((d - 53) + 52) in Hlo by lia.
    rewrite pow2_split in Hlo by lia. lia.
Qed.

(** Rounding stays between representable bounds.  The located mantissa
    [(m, e, l)] stands for a real [x] with [m * 2^e <= x < (m + 1) * 2^e],
    [l] telling whether [x = m * 2^e].  If [A * 2^ea <= x <= B * 2^eb] for
    mantissas [A], [B] below [2^53] and exponents of the format, the
    rounded result is a canonical float [M * 2^E] (or zero) within the same
    bounds; the inequalities are stated at the scale [2^e]. *)
Lemma binary_round_aux_sandwich (s : bool) (m e : Z) (l : location) (A ea B eb : Z) :
  0 <= m ->
  e <= fexp64 (Zdigits2 m + e) ->
  0 <= A < 2 ^ 53 -> e <= ea -> -1074 <= ea ->
  0 <= B < 2 ^ 53 -> e <= eb -> -1074 <= eb <= 971 ->
  A * 2 ^ (ea - e) <= m ->
  (m < B * 2 ^ (eb - e) \/ (m = B * 2 ^ (eb - e) /\ l = loc_Exact)) ->
  exists M E,
    binary_round_aux prec emax s m e l = SF_of s M E
    /\ 0 <= M < 2 ^ 53 /\ -1074 <= E <= 971 /\ (-1074 < E -> 2 ^ 52 <= M)
    /\ e <= E
    /\ A * 2 ^ (ea - e) <= M * 2 ^ (E - e) <= B * 2 ^ (eb - e).
Proof.
  intros Hm He HA Hea Hea' HB Heb Heb' Hlo Hhi.
  set (E := fexp64 (Zdigits2 m + e)) in *.
  set (n := E - e).
  assert (Hn : 0 <= n) by (unfold n; lia).
  assert (HEn : e + n = E) by (unfold n; lia).
  pose proof (Zdigits2_nonneg_bounds m Hm) as Hd.
  destruct (shr_spec m e n l Hm Hn) as (r1 & Hshr & Hm1 & Hex).
  set (m1 := shr_m r1) in *.
  destruct (round_arith m (Zdigits2 m) e n m1 Hm Hn Hd) as [Hm1r Hnorm];
    [rewrite HEn; unfold E; now rewrite fexp64_eq | exact Hm1 |].
  rewrite HEn in Hnorm.
  pose proof (round_nearest_even_range m1 (loc_of_shr_record r1)) as [Hrne Hrne_ex].
  set (m2 := round_nearest_even m1 (loc_of_shr_record r1)) in *.
  assert (Hpn : 0 < 2 ^ n) by now apply pow2_pos.
  assert (Hdm : m1 * 2 ^ n <= m < (m1 + 1) * 2 ^ n).
  { rewrite Hm1. pose proof (Z.div_mod m (2 ^ n)) as Hdiv.
    pose proof (Z.mod_pos_bound m (2 ^ n) Hpn). lia. }
  assert (HEmin : -1074 <= E) by (unfold E; rewrite fexp64_eq; lia).
  (* upper bound *)
  assert (Hup : E <= eb /\ m2 * 2 ^ n <= B * 2 ^ (eb - e)).
  { destruct (Z_lt_ge_dec eb E) as [Hlt | Hge].
    - exfalso. assert (H52 : 2 ^ 52 <= m1) by (apply Hnorm; lia).
      assert (Hle : 2 ^ (eb - e) * 2 <= 2 ^ n).
      { replace 2 with (2 ^ 1) at 2 by reflexivity. rewrite <- pow2_split by lia.
        apply Z.pow_le_mono_r; unfold n; lia. }
      assert (Hpe : 0 < 2 ^ (eb - e)) by (apply pow2_pos; lia).
      change (2 ^ 52) with 4503599627370496 in *.
      change (2 ^ 53) with 9007199254740992 in *. nia.
    - split; [lia|].
      replace (eb - e) with ((eb - E) + n) in * by (unfold n; lia).
      rewrite pow2_split in * by lia.
      assert (Hpk : 0 < 2 ^ (eb - E)) by (apply pow2_pos; lia).
      destruct Hhi as [Hlt | [Heq Hl]].
      + assert (m1 < B * 2 ^ (eb - E)) by nia. nia.
      + assert (Hmod : m mod 2 ^ n = 0).
        { rewrite Heq, Z.mul_assoc. apply Z.mod_mul. lia. }
        unfold m2. rewrite Hex by assumption. simpl.
        rewrite Hm1, Heq, Z.mul_assoc, Z.div_mul by lia. lia. }
  destruct Hup as [HEeb Hup].
  (* lower bound *)
  assert (Hlow : A * 2 ^ (ea - e) <= m1 * 2 ^ n).
  { destruct (Z_lt_ge_dec ea E) as [Hlt | Hge].
    - assert (H52 : 2 ^ 52 <= m1) by (apply Hnorm; lia).
      assert (Hle : 2 ^ (ea - e) * 2 <= 2 ^ n).
      { replace 2 with (2 ^ 1) at 2 by reflexivity. rewrite <- pow2_split by lia.
        apply Z.pow_le_mono_r; unfold n; lia. }
      assert (Hpe : 0 < 2 ^ (ea - e)) by (apply pow2_pos; lia).
      change (2 ^ 52) with 4503599627370496 in *.
      change (2 ^ 53) with 9007199254740992 in *. nia.
    - replace (ea - e) with ((ea - E) + n) in * by (unfold n; lia).
      rewrite pow2_split in * by lia.
      assert (Hpk : 0 < 2 ^ (ea - E)) by (apply pow2_pos; lia).
      assert (A * 2 ^ (ea - E) <= m1); [| nia].
      rewrite Hm1. apply Z.div_le_lower_bound; lia. }
  (* the second normalisation *)
  unfold binary_round_aux, shr_fexp. fold fexp64. fold E. fold n.
  rewrite Hshr, HEn. fold m1. fold m2.
  change (2 ^ 53) with 9007199254740992 in *.
  change (2 ^ 52) with 4503599627370496 in *.
  assert (Hm2 : m2 = 0 \/ 0 < m2 < 9007199254740992 \/ m2 = 9007199254740992) by lia.
  destruct Hm2 as [Hz | [Hmid | Htop]].
  - exists 0, E. rewrite Hz in *. change (Zdigits2 0) with 0.
    assert (Hs : fexp64 (0 + E) - E <= 0) by (rewrite fexp64_eq; lia).
    destruct (fexp64 (0 + E) - E) eqn:Hfe; [| lia |];
      cbn -[Z.mul Z.pow Z.leb Z.sub Z.add]; (repeat split; try lia; unfold n in *; nia).
  - exists m2, E. destruct m2 as [| p | p]; try lia.
    assert (Hdp : Zpos (digits2_pos p) <= 53).
    { pose proof (Zdigits2_bounds p) as [Hl _].
      destruct (Z_le_gt_dec (Zpos (digits2_pos p)) 53); [assumption|].
      assert (2 ^ 53 <= 2 ^ (Zpos (digits2_pos p) - 1)) by (apply Z.pow_le_mono_r; lia).
      change (2 ^ 53) with 9007199254740992 in *. lia. }
    change (Zdigits2 (Zpos p)) with (Zpos (digits2_pos p)).
    assert (Hs : fexp64 (Zpos (digits2_pos p) + E) - E <= 0) by (rewrite fexp64_eq; lia).
    assert (Hb : (E <=? emax - prec) = true) by (apply Z.leb_le; unfold emax, prec; lia).
    destruct (fexp64 (Zpos (digits2_pos p) + E) - E) eqn:Hfe; [| lia |];
      cbn -[Z.mul Z.pow Z.leb Z.sub Z.add];
      rewrite Hb; (repeat split; try lia; unfold n in *; nia).
  - exists 4503599627370496, (E + 1). rewrite Htop in *.
    change (Zdigits2 9007199254740992) with 54.
    assert (Hs : fexp64 (54 + E) - E = 1) by (rewrite fexp64_eq; lia).
    rewrite Hs.
    assert (HEb : E < eb).
    { destruct (Z_lt_ge_dec E eb); [assumption | exfalso].
      assert (eb = E) by lia. subst eb. fold n in Hup. nia. }
    assert (Hb : (E + 1 <=? emax - prec) = true) by (apply Z.leb_le; unfold emax, prec; lia).
    cbn -[Z.mul Z.pow Z.leb Z.sub Z.add]. rewrite Hb.
    replace (E + 1 - e) with (1 + n) by (unfold n; lia).
    rewrite pow2_split by lia. change (2 ^ 1) with 2.
    repeat split; try lia; nia.
Qed.

(** An inequality between scaled mantissas does not depend on the scale. *)
Lemma rescale (X Y p q e c : Z) :
  e <= p -> e <= q -> c <= p -> c <= q ->
  X * 2 ^ (p - e) <= Y * 2 ^ (q - e) ->
  X * 2 ^ (p - c) <= Y * 2 ^ (q - c).
Proof.
  intros Hp Hq Hcp Hcq H.
  destruct (Z_le_gt_dec e c) as [Hec | Hec].
  - replace (p - e) with ((p - c) + (c - e)) in H by lia.
    replace (q - e) with ((q - c) + (c - e)) in H by lia.
    rewrite !pow2_split in H by lia.
    assert (0 < 2 ^ (c - e)) by (apply pow2_pos; lia). nia.
  - replace (p - c) with ((p - e) + (e - c)) by lia.
    replace (q - c) with ((q - e) + (e - c)) by lia.
    rewrite !pow2_split by lia.
    assert (0 < 2 ^ (e - c)) by (apply pow2_pos; lia). nia.
Qed.

Lemma new_location_zero (b : Z) : new_location b 0 = loc_Exact.
Proof. unfold new_location. destruct (Z.even b); reflexivity. Qed.

Lemma digits_ge_53 (q : Z) : 2 ^ 52 <= q -> 53 <= Zdigits2 q.
Proof.
  intros Hq. destruct q as [| p | p]; try (change (2 ^ 52) with 4503599627370496 in Hq; lia).
  simpl. pose proof (Zdigits2_bounds p) as [_ Hhi].
  destruct (Z_le_gt_dec 53 (Zpos (digits2_pos p))); [assumption|].
  assert (2 ^ Zpos (digits2_pos p) <= 2 ^ 52) by (apply Z.pow_le_mono_r; lia). lia.
Qed.

(** The correctly rounded quotient of two positive integers [a <= b]
    stays between representable bounds of the exact quotient:
    [A * 2^ea <= a / b <= B * 2^eb]. *)
Lemma SFdiv_int_sandwich (a b : positive) (A ea B eb : Z) :
  (a <= b)%positive ->
  0 <= A < 2 ^ 53 -> -53 <= ea <= 0 ->
  0 <= B < 2 ^ 53 -> -53 <= eb <= 0 ->
  A * Zpos b <= Zpos a * 2 ^ (- ea) ->
  Zpos a * 2 ^ (- eb) <= B * Zpos b ->
  exists M E,
    repr64 (SFdiv prec emax (S754_finite false a 0) (S754_finite false b 0)) M E
    /\ A * 2 ^ (ea + 1074) <= M * 2 ^ (E + 1074) <= B * 2 ^ (eb + 1074).
Proof.
  intros Hab HA Hea HB Heb Hlo Hhi.
  unfold SFdiv, SFdiv_core_binary.
  change (Zdigits2 (Zpos a)) with (Zpos (digits2_pos a)).
  change (Zdigits2 (Zpos b)) with (Zpos (digits2_pos b)).
  pose proof (Zdigits2_bounds a) as [Ha1 Ha2].
  pose proof (Zdigits2_bounds b) as [Hb1 Hb2].
  set (d1 := Zpos (digits2_pos a)) in *. set (d2 := Zpos (digits2_pos b)) in *.
  assert (Hd : d1 <= d2).
  { destruct (Z_le_gt_dec d1 d2); [assumption|].
    assert (2 ^ d2 <= 2 ^ (d1 - 1)) by (apply Z.pow_le_mono_r; lia). lia. }
  fold fexp64. rewrite fexp64_eq.
  set (e' := Z.min (Z.max (d1 + 0 - (d2 + 0) - 53) (-1074)) (0 - 0)).
  assert (He' : e' = Z.max (d1 - d2 - 53) (-1074)) by (unfold e'; lia).
  assert (He'r : -1074 <= e' <= -53) by lia.
  assert (Hs : 0 - 0 - e' = Zpos (Z.to_pos (- e'))) by (rewrite Z2Pos.id; lia).
  (* the shift is positive, so the [match] selects [Z.shiftl] *)
  rewrite Hs. cbv beta iota. rewrite <- Hs.
  replace (0 - 0 - e') with (- e') by lia.
  rewrite Z.shiftl_mul_pow2 by lia.
  set (m' := Zpos a * 2 ^ (- e')).
  assert (Hpe : 0 < 2 ^ (- e')) by (apply pow2_pos; lia).
  pose proof (Z_div_mod m' (Zpos b) eq_refl) as Hdm.
  destruct (Z.div_eucl m' (Zpos b)) as [q r]. destruct Hdm as [Hdm Hr].
  assert (Hq0 : 0 <= q) by nia.
  (* the quotient carries enough digits *)
  assert (Hcanon : e' <= fexp64 (Zdigits2 q + e')).
  { rewrite fexp64_eq. destruct (Z.eq_dec e' (-1074)) as [-> | Hne]; [lia|].
    assert (He'' : - e' = 53 + (d2 - d1)) by lia.
    assert (H52 : 2 ^ 52 <= q).
    { assert (Hm' : 2 ^ 52 * 2 ^ d2 <= m').
      { unfold m'. rewrite He''. rewrite <- pow2_split by lia.
        replace (52 + d2) with ((d1 - 1) + (53 + (d2 - d1))) by lia.
        rewrite pow2_split by lia. nia. }
      assert (Hp52 : 0 < 2 ^ 52) by reflexivity.
      destruct (Z_le_gt_dec (2 ^ 52) q); [assumption|]. nia. }
    pose proof (digits_ge_53 q H52). lia. }
  assert (HA' : A * 2 ^ (ea - e') <= q).
  { replace (ea - e') with ((- e') + ea) by lia.
    destruct (Z_le_gt_dec (A * 2 ^ (- e' + ea)) q); [assumption | exfalso].
    assert (Hx : 2 ^ (- e') = 2 ^ (- e' + ea) * 2 ^ (- ea)).
    { rewrite <- pow2_split by lia. f_equal. lia. }
    assert (0 < 2 ^ (- e' + ea)) by (apply pow2_pos; lia).
    assert (0 < 2 ^ (- ea)) by (apply pow2_pos; lia).
    unfold m' in Hdm. rewrite Hx in Hdm. nia. }
  assert (HB' : q < B * 2 ^ (eb - e') \/ (q = B * 2 ^ (eb - e') /\ new_location (Zpos b) r = loc_Exact)).
  { replace (eb - e') with ((- e') + eb) by lia.
    assert (Hx : 2 ^ (- e') = 2 ^ (- e' + eb) * 2 ^ (- eb)).
    { rewrite <- pow2_split by lia. f_equal. lia. }
    assert (0 < 2 ^ (- e' + eb)) by (apply pow2_pos; lia).
    assert (0 < 2 ^ (- eb)) by (apply pow2_pos; lia).
    unfold m' in Hdm. rewrite Hx in Hdm.
    destruct (Z_lt_ge_dec q (B * 2 ^ (- e' + eb))) as [Hlt | Hge]; [now left | right].
    assert (Hqe : q = B * 2 ^ (- e' + eb)) by nia.
    split; [assumption|].
    assert (r = 0) by nia. subst r. apply new_location_zero. }
  destruct (binary_round_aux_sandwich false q e' (new_location (Zpos b) r) A ea B eb)
    as (M & E & Hres & HM & HE & Hnorm & HeE & Hbnd); try assumption; try lia.
  exists M, E. split; [repeat split; assumption || lia |].
  split.
  - apply (rescale A M ea E e' (-1074)); lia.
  - apply (rescale M B E eb e' (-1074)); lia.
Qed.

Lemma float_of_int_100 : float_of_int 100 = S754_finite false 7036874417766400 (-46).
Proof. reflexivity. Qed.

(** The product of a canonical non-negative float by [float(100)] stays
    between one hundred times representable bounds of the float. *)
Lemma mul100_sandwich (x : spec_float) (M E A ea B eb : Z) :
  repr64 x M E ->
  0 <= A < 2 ^ 48 -> 0 <= B < 2 ^ 48 ->
  -1074 <= ea -> ea <= eb -> eb <= ea + 48 -> eb <= 960 ->
  A * 2 ^ (ea + 1074) <= M * 2 ^ (E + 1074) <= B * 2 ^ (eb + 1074) ->
  exists M' E',
    repr64 (SFmul prec emax x (float_of_int 100)) M' E'
    /\ 25 * A * 2 ^ (ea + 2 + 1074) <= M' * 2 ^ (E' + 1074) <= 25 * B * 2 ^ (eb + 2 + 1074).
Proof.
  intros (Hx & HM & HE & Hnorm) HA HB Hea Heab Heba Heb Hbnd.
  rewrite float_of_int_100. subst x.
  change (2 ^ 48) with 281474976710656 in *.
  change (2 ^ 53) with 9007199254740992 in *.
  change (2 ^ 52) with 4503599627370496 in *.
  destruct M as [| mx | mx]; [| | lia].
  - (* zero times one hundred *)
    exists 0, (-1074). cbn [SF_of SFmul xorb]. unfold repr64.
    change (2 ^ 53) with 9007199254740992. change (2 ^ 52) with 4503599627370496.
    assert (0 < 2 ^ (ea + 1074)) by (apply pow2_pos; lia).
    assert (0 <= 2 ^ (eb + 2 + 1074)) by (apply Z.pow_nonneg; lia).
    assert (HA0 : A = 0) by nia. subst A.
    repeat split; try lia; try reflexivity; nia.
  - cbn [SF_of SFmul xorb].
    assert (HEeb : E <= ea + 48).
    { destruct (Z.eq_dec E (-1074)) as [-> | Hne]; [lia|].
      assert (H52 : 4503599627370496 <= Zpos mx) by (apply Hnorm; lia).
      destruct (Z_le_gt_dec E eb); [lia | exfalso].
      replace (E + 1074) with ((E - eb) + (eb + 1074)) in Hbnd by lia.
      rewrite (pow2_split (E - eb) (eb + 1074)) in Hbnd by lia.
      assert (0 < 2 ^ (eb + 1074)) by (apply pow2_pos; lia).
      assert (1 <= 2 ^ (E - eb)) by (pose proof (pow2_pos (E - eb)); lia).
      assert (4503599627370496 <= Zpos mx * 2 ^ (E - eb)) by nia.
      destruct Hbnd as [_ Hbnd]. rewrite Z.mul_assoc in Hbnd. nia. }
    set (m := Zpos (mx * 7036874417766400)).
    assert (Hm : m = Zpos mx * 7036874417766400) by reflexivity.
    set (e := E + -46).
    assert (Hcanon : e <= fexp64 (Zdigits2 m + e)).
    { rewrite fexp64_eq.
      assert (H52 : 2 ^ 52 <= m) by (change (2 ^ 52) with 4503599627370496; lia).
      pose proof (digits_ge_53 m H52). lia. }
    destruct Hbnd as [Hlo Hhi].
    assert (Hlo' : 25 * A * 2 ^ (ea + 2 - e) <= m).
    { rewrite Hm. replace 7036874417766400 with (25 * 2 ^ 48) by reflexivity.
      assert (Hr := rescale A (Zpos mx) ea E (-1074) (E - 48)).
      replace (ea - -1074) with (ea + 1074) in Hr by lia.
      replace (E - -1074) with (E + 1074) in Hr by lia.
      replace (E - (E - 48)) with 48 in Hr by lia.
      replace (ea + 2 - e) with (ea - (E - 48)) by (unfold e; lia).
      specialize (Hr ltac:(lia) ltac:(lia) ltac:(lia) ltac:(lia) Hlo). nia. }
    assert (Hhi' : m <= 25 * B * 2 ^ (eb + 2 - e)).
    { rewrite Hm. replace 7036874417766400 with (25 * 2 ^ 48) by reflexivity.
      assert (Hr := rescale (Zpos mx) B E eb (-1074) (E - 48)).
      replace (eb - -1074) with (eb + 1074) in Hr by lia.
      replace (E - -1074) with (E + 1074) in Hr by lia.
      replace (E - (E - 48)) with 48 in Hr by lia.
      replace (eb + 2 - e) with (eb - (E - 48)) by (unfold e; lia).
      specialize (Hr ltac:(lia) ltac:(lia) ltac:(lia) ltac:(lia) Hhi). nia. }
    destruct (binary_round_aux_sandwich false m e loc_Exact (25 * A) (ea + 2) (25 * B) (eb + 2))
      as (M' & E' & Hres & HM' & HE' & Hnorm' & HeE & Hbnd');
      try assumption; try (change (2 ^ 53) with 9007199254740992; unfold e; lia).
    { destruct (Z_lt_ge_dec m (25 * B * 2 ^ (eb + 2 - e))); [now left | right; split; [lia | reflexivity]]. }
    exists M', E'. split; [repeat split; assumption || lia |].
    split.
    + apply (rescale (25 * A) M' (ea + 2) E' e (-1074)); unfold e in *; lia.
    + apply (rescale M' (25 * B) E' (eb + 2) e (-1074)); unfold e in *; lia.
Qed.

(** [half_even n d] is the quotient or its successor, on the side of the
    remainder. *)
Lemma half_even_spec (n d : Z) :
  0 <= n -> 0 < d ->
  let q := n / d in let r := n mod d in
  n = d * q + r /\ 0 <= r < d /\ 0 <= q
  /\ ((half_even n d = q /\ 2 * r <= d) \/ (half_even n d = q + 1 /\ d <= 2 * r)).
Proof.
  intros Hn Hd q r.
  pose proof (Z.div_mod n d ltac:(lia)) as Hdm.
  pose proof (Z.mod_pos_bound n d Hd) as Hr.
  assert (Hq : 0 <= q) by (apply Z.div_pos; lia).
  repeat split; try assumption; try lia.
  unfold half_even. fold q r.
  destruct (Z.compare_spec (2 * r) d); [destruct (Z.even q) | |]; lia.
Qed.

Lemma half_even_le (n d k : Z) : 0 <= n -> 0 < d -> n <= k * d -> half_even n d <= k.
Proof.
  intros Hn Hd Hk. destruct (half_even_spec n d Hn Hd) as (Hdm & Hr & Hq & [[-> H] | [-> H]]); nia.
Qed.

Lemma half_even_ge (n d k : Z) : 0 <= n -> 0 < d -> k * d <= n -> k <= half_even n d.
Proof.
  intros Hn Hd Hk. destruct (half_even_spec n d Hn Hd) as (Hdm & Hr & Hq & [[-> H] | [-> H]]); nia.
Qed.

Lemma half_even_zero (n d : Z) : 0 <= n -> 0 < d -> 2 * n < d -> half_even n d = 0.
Proof.
  intros Hn Hd Hk. destruct (half_even_spec n d Hn Hd) as (Hdm & Hr & Hq & [[-> H] | [-> H]]); nia.
Qed.

Lemma half_even_pos (n d : Z) : 0 <= n -> 0 < d -> d < 2 * n -> 1 <= half_even n d.
Proof.
  intros Hn Hd Hk. destruct (half_even_spec n d Hn Hd) as (Hdm & Hr & Hq & [[-> H] | [-> H]]); nia.
Qed.

(** [round1] on a canonical float, by sign of the exponent, with the link
    to the value in units of [2^-1074]. *)
Lemma round1_repr (y : spec_float) (M E : Z) :
  repr64 y M E ->
  (0 <= E /\ round1 y = 10 * M * 2 ^ E /\ M * 2 ^ (E + 1074) = M * 2 ^ E * 2 ^ 1074)
  \/ (E < 0 /\ round1 y = half_even (10 * M) (2 ^ (- E))
      /\ 2 ^ 1074 = 2 ^ (E + 1074) * 2 ^ (- E)).
Proof.
  intros (-> & HM & HE & _).
  destruct (Z_le_gt_dec 0 E) as [HE0 | HE0]; [left | right]; split; try lia; split.
  - destruct M as [| m | m]; [reflexivity | | lia].
    cbn [SF_of round1]. destruct E; try lia; reflexivity.
  - rewrite pow2_split by lia. lia.
  - destruct M as [| m | m]; [| | lia].
    + cbn [SF_of round1]. symmetry. apply half_even_zero; lia.
    + cbn [SF_of round1]. destruct E; try lia; reflexivity.
  - rewrite <- pow2_split by lia. f_equal. lia.
Qed.


Lemma round1_le (y : spec_float) (M E C : Z) :
  repr64 y M E -> M * 2 ^ (E + 1074) <= C * 2 ^ 1074 -> round1 y <= 10 * C.
Proof.
  intros Hy H. assert (Hp : 0 < 2 ^ 1074) by (now apply pow2_pos).
  assert (HM : 0 <= M /\ -1074 <= E) by (destruct Hy as (_ & ? & ? & _); lia).
  destruct (round1_repr y M E Hy) as [(HE0 & -> & Hu) | (HE0 & -> & Hu)].
  - rewrite Hu in H. nia.
  - assert (0 < 2 ^ (E + 1074)) by (apply pow2_pos; lia).
    assert (0 < 2 ^ (- E)) by (apply pow2_pos; lia).
    apply half_even_le; try lia. rewrite Hu in H. nia.
Qed.

Lemma round1_ge (y : spec_float) (M E C : Z) :
  repr64 y M E -> C * 2 ^ 1074 <= M * 2 ^ (E + 1074) -> 10 * C <= round1 y.
Proof.
  intros Hy H. assert (Hp : 0 < 2 ^ 1074) by (now apply pow2_pos).
  assert (HM : 0 <= M /\ -1074 <= E) by (destruct Hy as (_ & ? & ? & _); lia).
  destruct (round1_repr y M E Hy) as [(HE0 & -> & Hu) | (HE0 & -> & Hu)].
  - rewrite Hu in H. nia.
  - assert (0 < 2 ^ (E + 1074)) by (apply pow2_pos; lia).
    assert (0 < 2 ^ (- E)) by (apply pow2_pos; lia).
    apply half_even_ge; try lia. rewrite Hu in H. nia.
Qed.

Lemma round1_zero (y : spec_float) (M E : Z) :
  repr64 y M E -> 20 * (M * 2 ^ (E + 1074)) < 2 ^ 1074 -> round1 y = 0.
Proof.
  intros Hy H. assert (Hp : 0 < 2 ^ 1074) by (now apply pow2_pos).
  assert (HM : 0 <= M /\ -1074 <= E) by (destruct Hy as (_ & ? & ? & _); lia).
  destruct (round1_repr y M E Hy) as [(HE0 & -> & Hu) | (HE0 & -> & Hu)].
  - rewrite Hu in H. assert (0 < 2 ^ E) by (now apply pow2_pos). nia.
  - assert (0 < 2 ^ (E + 1074)) by (apply pow2_pos; lia).
    assert (0 < 2 ^ (- E)) by (apply pow2_pos; lia).
    apply half_even_zero; try lia. rewrite Hu in H. nia.
Qed.

Lemma round1_pos (y : spec_float) (M E : Z) :
  repr64 y M E -> 2 ^ 1074 < 20 * (M * 2 ^ (E + 1074)) -> 1 <= round1 y.
Proof.
  intros Hy H. assert (Hp : 0 < 2 ^ 1074) by (now apply pow2_pos).
  assert (HM : 0 <= M /\ -1074 <= E) by (destruct Hy as (_ & ? & ? & _); lia).
  destruct (round1_repr y M E Hy) as [(HE0 & -> & Hu) | (HE0 & -> & Hu)].
  - rewrite Hu in H. assert (0 < 2 ^ E) by (now apply pow2_pos). nia.
  - assert (0 < 2 ^ (E + 1074)) by (apply pow2_pos; lia).
    assert (0 < 2 ^ (- E)) by (apply pow2_pos; lia).
    apply half_even_pos; try lia. rewrite Hu in H. nia.
Qed.

End Float64Facts.

(** ** The rounded percentage *)

Module PercentageFacts.
Import Float64 Float64Facts recipe_search.

Lemma round_percentage_unfold (a b : nat) :
  (0 < b)%nat ->
  recipe_search.round_percentage a b = round1 (percentage_float a b).
Proof.
  intros Hb. unfold recipe_search.round_percentage.
  destruct (Nat.ltb_spec 0 b); [reflexivity | lia].
Qed.

Lemma int_true_div_pos (a b : nat) :
  (0 < a)%nat -> (0 < b)%nat ->
  int_true_div a b
  = SFdiv prec emax (S754_finite false (Pos.of_nat a) 0)
                    (S754_finite false (Pos.of_nat b) 0).
Proof. intros Ha Hb. destruct a, b; try lia; reflexivity. Qed.

Lemma Zpos_of_nat (n : nat) : (0 < n)%nat -> Zpos (Pos.of_nat n) = Z.of_nat n.
Proof. intros Hn. lia. Qed.

(** Enclosure of the float percentage between [25 * A * 2^(ea+2)] and
    [25 * B * 2^(eb+2)] when the exact quotient lies between [A * 2^ea] and
    [B * 2^eb]. *)
Lemma percentage_float_sandwich (a b : nat) (A ea B eb : Z) :
  (0 < a <= b)%nat ->
  0 <= A < 2 ^ 48 -> 0 <= B < 2 ^ 48 ->
  -53 <= ea -> ea <= eb -> eb <= 0 -> eb <= ea + 48 ->
  A * Z.of_nat b <= Z.of_nat a * 2 ^ (- ea) ->
  Z.of_nat a * 2 ^ (- eb) <= B * Z.of_nat b ->
  exists M E,
    repr64 (percentage_float a b) M E
    /\ 25 * A * 2 ^ (ea + 2 + 1074) <= M * 2 ^ (E + 1074) <= 25 * B * 2 ^ (eb + 2 + 1074).
Proof.
  intros Hab HA HB Hea Heab Heb Heba Hlo Hhi.
  unfold percentage_float. rewrite int_true_div_pos by lia.
  assert (H48 : 2 ^ 48 < 2 ^ 53) by reflexivity.
  assert (Hle : (Pos.of_nat a <= Pos.of_nat b)%positive) by lia.
  rewrite <- (Zpos_of_nat a), <- (Zpos_of_nat b) in Hlo, Hhi by lia.
  destruct (SFdiv_int_sandwich (Pos.of_nat a) (Pos.of_nat b) A ea B eb
              Hle ltac:(lia) ltac:(lia) ltac:(lia) ltac:(lia) Hlo Hhi)
    as (M & E & Hrepr & Hbnd).
  apply (mul100_sandwich _ M E A ea B eb); try assumption; lia.
Qed.

(** The float percentage is a canonical finite number between 0 and 100:
    neither NaN nor an infinity reaches [round1]. *)
Lemma percentage_float_repr (a b : nat) :
  (a <= b)%nat -> (0 < b)%nat ->
  exists M E,
    repr64 (percentage_float a b) M E /\ M * 2 ^ (E + 1074) <= 100 * 2 ^ 1074.
Proof.
  intros Hab Hb. destruct (Nat.eq_dec a 0) as [-> | Ha].
  - exists 0, (-1074). destruct b; [lia|]. split; [| lia].
    unfold repr64. repeat split; lia.
  - destruct (percentage_float_sandwich a b 0 0 1 0) as (M & E & Hrepr & Hbnd);
      try lia; try (change (2 ^ 48) with 281474976710656; lia).
    exists M, E. split; [assumption|].
    destruct Hbnd as [_ Hbnd]. change (0 + 2 + 1074) with (2 + 1074) in Hbnd.
    rewrite (pow2_split 2 1074) in Hbnd by lia. change (2 ^ 2) with 4 in Hbnd. lia.
Qed.

Lemma round_percentage_range (a b : nat) :
  (a <= b)%nat -> 0 <= recipe_search.round_percentage a b <= 1000.
Proof.
  intros Hab. destruct (Nat.eq_dec b 0) as [-> | Hb]; [cbn; lia|].
  rewrite round_percentage_unfold by lia.
  destruct (percentage_float_repr a b) as (M & E & Hrepr & Hbnd); try lia.
  split.
  - change 0 with (10 * 0) at 1. apply (round1_ge _ M E); [assumption|].
    destruct Hrepr as (_ & HM & HE & _).
    assert (0 <= 2 ^ (E + 1074)) by (apply Z.pow_nonneg; lia). nia.
  - change 1000 with (10 * 100). now apply (round1_le _ M E).
Qed.

Lemma round_percentage_no_match (b : nat) : recipe_search.round_percentage 0 b = 0.
Proof. destruct b; reflexivity. Qed.

Lemma round_percentage_no_total (a : nat) : recipe_search.round_percentage a 0 = 0.
Proof. reflexivity. Qed.

(** A recipe whose ingredients are all owned scores exactly 100. *)
Lemma round_percentage_full (b : nat) :
  (0 < b)%nat -> recipe_search.round_percentage b b = 1000.
Proof.
  intros Hb. rewrite round_percentage_unfold by lia.
  destruct (percentage_float_sandwich b b 1 0 1 0) as (M & E & Hrepr & Hbnd);
    try lia; try (change (2 ^ 48) with 281474976710656; lia).
  change (0 + 2 + 1074) with (2 + 1074) in Hbnd.
  rewrite (pow2_split 2 1074) in Hbnd by lia. change (2 ^ 2) with 4 in Hbnd.
  apply Z.le_antisymm.
  - change 1000 with (10 * 100). apply (round1_le _ M E); [assumption | lia].
  - change 1000 with (10 * 100). apply (round1_ge _ M E); [assumption | lia].
Qed.

(** At least one owned ingredient in 1999 is enough to score above zero. *)
Lemma round_percentage_pos (a b : nat) :
  (0 < a <= b)%nat -> (b <= 1999 * a)%nat ->
  1 <= recipe_search.round_percentage a b.
Proof.
  intros Hab Hb. rewrite round_percentage_unfold by lia.
  destruct (percentage_float_sandwich a b 1049 (-21) 1 0) as (M & E & Hrepr & Hbnd);
    try lia; try (change (2 ^ 48) with 281474976710656; lia).
  apply (round1_pos _ M E); [assumption|].
  destruct Hbnd as [Hbnd _]. change (-21 + 2 + 1074) with (1055) in Hbnd.
  replace (2 ^ 1074) with (2 ^ 19 * 2 ^ 1055) by (rewrite <- pow2_split by lia; reflexivity).
  change (2 ^ 19) with 524288.
  assert (0 < 2 ^ 1055) by (apply pow2_pos; lia). lia.
Qed.

(** Fewer than one owned ingredient in 2001 rounds to zero. *)
Lemma round_percentage_rounds_to_zero (a b : nat) :
  (2001 * a <= b)%nat -> recipe_search.round_percentage a b = 0.
Proof.
  intros Hb. destruct (Nat.eq_dec a 0) as [-> | Ha]; [apply round_percentage_no_match|].
  rewrite round_percentage_unfold by lia.
  destruct (percentage_float_sandwich a b 0 (-22) 2097 (-22)) as (M & E & Hrepr & Hbnd);
    try lia; try (change (2 ^ 48) with 281474976710656; lia).
  apply (round1_zero _ M E); [assumption|].
  destruct Hbnd as [_ Hbnd]. change (-22 + 2 + 1074) with (1054) in Hbnd.
  replace (2 ^ 1074) with (2 ^ 20 * 2 ^ 1054) by (rewrite <- pow2_split by lia; reflexivity).
  change (2 ^ 20) with 1048576.
  assert (0 < 2 ^ 1054) by (apply pow2_pos; lia). lia.
Qed.

End PercentageFacts.

(** ** Lists, sorting and loops *)

Lemma filter_split_length {A} (p : A -> bool) (l : list A) :
  (List.length (filter p l) + List.length (filter (fun x => negb (p x)) l)
   = List.length l)%nat.
Proof.
  induction l as [| x l IH]; [reflexivity|].
  simpl. destruct (p x); simpl; lia.
Qed.

Lemma filter_nil_none {A} (p : A -> bool) (l : list A) :
  filter p l = [] -> filter (fun x => negb (p x)) l = l.
Proof.
  induction l as [| x l IH]; [reflexivity|].
  simpl. destruct (p x); simpl; [discriminate|].
  intros H. f_equal. auto.
Qed.

Lemma insert_desc_perm {A} (key : A -> Z) (x : A) (l : list A) :
  Permutation (insert_desc key x l) (x :: l).
Proof.
  induction l as [| y l IH]; simpl; [reflexivity|].
  destruct (key x <? key y); [| reflexivity].
  rewrite IH. apply perm_swap.
Qed.

Lemma sort_desc_perm {A} (key : A -> Z) (l : list A) :
  Permutation (sort_desc key l) l.
Proof.
  induction l as [| x l IH]; simpl; [reflexivity|].
  rewrite insert_desc_perm. now constructor.
Qed.

Lemma insert_desc_sorted {A} (key : A -> Z) (x : A) (l : list A) :
  sorted_desc key l -> sorted_desc key (insert_desc key x l).
Proof.
  unfold sorted_desc. induction l as [| y l IH]; intros Hs; simpl.
  - repeat constructor.
  - apply StronglySorted_inv in Hs as [Hs Hy].
    destruct (Z.ltb_spec (key x) (key y)) as [Hlt | Hge].
    + constructor; [auto|].
      rewrite insert_desc_perm. constructor; [lia | assumption].
    + constructor; [constructor; assumption|].
      constructor; [lia|].
      eapply Forall_impl; [| exact Hy]. cbn. intros z Hz. lia.
Qed.

Lemma sort_desc_sorted {A} (key : A -> Z) (l : list A) :
  sorted_desc key (sort_desc key l).
Proof.
  induction l as [| x l IH]; simpl; [constructor|].
  now apply insert_desc_sorted.
Qed.

Lemma sort_desc_nil {A} (key : A -> Z) (l : list A) :
  sort_desc key l = [] -> l = [].
Proof.
  intros H. pose proof (sort_desc_perm key l) as Hp. rewrite H in Hp.
  now apply Permutation_nil in Hp.
Qed.

Lemma slice_to_incl {A} (l : list A) (n : Z) (x : A) :
  In x (slice_to l n) -> In x l.
Proof.
  unfold slice_to. destruct (n <? 0); intros H;
    match type of H with In _ (firstn ?k _) =>
      rewrite <- (firstn_skipn k l); apply in_or_app; left; exact H
    end.
Qed.

Lemma slice_to_nonempty {A} (l : list A) (n : Z) :
  1 <= n -> l <> [] -> slice_to l n <> [].
Proof.
  intros Hn Hl. unfold slice_to.
  destruct (Z.ltb_spec n 0); [lia|].
  destruct l as [| x l]; [contradiction|].
  destruct (Z.to_nat n) eqn:Hz; [lia|]. simpl. discriminate.
Qed.

Lemma forallb_pointwise {A} (p q : A -> bool) (l : list A) :
  (forall x, p x = q x) -> forallb p l = forallb q l.
Proof.
  intros Hpq. induction l as [| x l IH]; [reflexivity|].
  simpl. now rewrite Hpq, IH.
Qed.

Lemma for_each_app {A S} (body : S -> A -> result S) (l1 l2 : list A) (s : S) :
  for_each body (l1 ++ l2) s = s' <- for_each body l1 s ;; for_each body l2 s'.
Proof.
  revert s. induction l1 as [| x l1 IH]; intros s; simpl; [reflexivity|].
  destruct (body s x); simpl; auto.
Qed.

(** ** [calculate_match] *)

Lemma calculate_match_loop (user : list string) (l matched missing : list string) :
  fold_left
    (fun '(matched, missing) recipe_ing =>
       if contains user recipe_ing
       then (matched ++ [recipe_ing], missing)
       else (matched, missing ++ [recipe_ing]))
    l (matched, missing)
  = (matched ++ filter (contains user) l,
     missing ++ filter (fun ing => negb (contains user ing)) l).
Proof.
  revert matched missing. induction l as [| x l IH]; intros matched missing; simpl.
  - now rewrite !app_nil_r.
  - destruct (contains user x); simpl; rewrite IH, <- app_assoc; reflexivity.
Qed.

(** The loop of the script and the comprehensions of the query handler
    compute the same record. *)
Lemma calculate_match_eq (ings user : list string) :
  recipe_search.calculate_match ings user = query_handlers._calculate_match ings user.
Proof.
  unfold recipe_search.calculate_match, query_handlers._calculate_match.
  rewrite calculate_match_loop. reflexivity.
Qed.

Lemma calculate_match_matched (ings user : list string) :
  MatchData.matched (recipe_search.calculate_match ings user)
  = filter (contains user) (map lower ings).
Proof. rewrite calculate_match_eq. reflexivity. Qed.

Lemma calculate_match_missing (ings user : list string) :
  MatchData.missing (recipe_search.calculate_match ings user)
  = filter (fun ing => negb (contains user ing)) (map lower ings).
Proof. rewrite calculate_match_eq. reflexivity. Qed.

Lemma calculate_match_percentage (ings user : list string) :
  MatchData.percentage (recipe_search.calculate_match ings user)
  = recipe_search.round_percentage
      (List.length (MatchData.matched (recipe_search.calculate_match ings user)))
      (List.length ings).
Proof. rewrite calculate_match_eq. cbn. now rewrite length_map. Qed.

Lemma calculate_match_lengths (ings user : list string) :
  (List.length (MatchData.matched (recipe_search.calculate_match ings user))
   + List.length (MatchData.missing (recipe_search.calculate_match ings user))
   = List.length ings)%nat.
Proof.
  rewrite calculate_match_matched, calculate_match_missing, filter_split_length.
  apply length_map.
Qed.

(** A recipe below 100% misses at least one ingredient. *)
Lemma calculate_match_partial_missing (ings user : list string) :
  0 < MatchData.percentage (recipe_search.calculate_match ings user) < 1000 ->
  MatchData.missing (recipe_search.calculate_match ings user) <> [].
Proof.
  intros Hp Hnil. pose proof (calculate_match_lengths ings user) as Hlen.
  rewrite calculate_match_percentage in Hp. rewrite Hnil in Hlen. simpl in Hlen.
  rewrite Nat.add_0_r in Hlen. rewrite Hlen in Hp.
  destruct (Nat.eq_dec (List.length ings) 0) as [H0 | H0].
  - rewrite H0 in Hp. cbn in Hp. lia.
  - rewrite PercentageFacts.round_percentage_full in Hp by lia. lia.
Qed.

(** ** [passes_filters] *)

Lemma passes_filters_and (r : Recipe.t) (f : Filters.t) :
  recipe_search.passes_filters r (Some f)
  = recipe_search.max_time_ok r f && recipe_search.skill_level_ok r f
    && recipe_search.dietary_tags_ok r f && recipe_search.cuisine_ok r f.
Proof.
  unfold recipe_search.passes_filters.
  destruct (Filters.is_empty f) eqn:Hempty.
  - unfold Filters.is_empty in Hempty.
    unfold recipe_search.max_time_ok, recipe_search.skill_level_ok,
      recipe_search.dietary_tags_ok, recipe_search.cuisine_ok.
    destruct (Filters.max_time f), (Filters.skill_level f),
      (Filters.dietary_tags f), (Filters.cuisine f); try discriminate; reflexivity.
  - destruct (recipe_search.max_time_ok r f), (recipe_search.skill_level_ok r f),
      (recipe_search.dietary_tags_ok r f), (recipe_search.cuisine_ok r f); reflexivity.
Qed.

Lemma passes_filters_all_keys (r : Recipe.t) (f : Filters.t) :
  recipe_search.passes_filters r (Some f) = forallb (option_ok r f) all_keys.
Proof.
  rewrite passes_filters_and. cbn. rewrite andb_true_r, !andb_assoc. reflexivity.
Qed.

(** Alone in the dictionary, an option is checked exactly as in company. *)
Lemma passes_filters_only (r : Recipe.t) (f : Filters.t) (k : option_key) :
  recipe_search.passes_filters r (Some (only f k)) = option_ok r f k.
Proof.
  rewrite passes_filters_and.
  destruct k; cbn;
    unfold recipe_search.max_time_ok, recipe_search.skill_level_ok,
      recipe_search.dietary_tags_ok, recipe_search.cuisine_ok; cbn;
    rewrite ?andb_true_r; reflexivity.
Qed.

Lemma option_ok_inactive (r : Recipe.t) (f : Filters.t) (k : option_key) :
  active f k = false -> option_ok r f k = true.
Proof.
  destruct k; cbn;
    unfold recipe_search.max_time_ok, recipe_search.skill_level_ok,
      recipe_search.dietary_tags_ok, recipe_search.cuisine_ok;
    [destruct (Filters.max_time f) | destruct (Filters.skill_level f)
    | destruct (Filters.dietary_tags f) | destruct (Filters.cuisine f)];
    try reflexivity; intros ->; reflexivity.
Qed.

(** [passes_filters] is the conjunction of the single-option verdicts over
    any list of options that covers the active ones, in any order and with
    any repetition. *)
Lemma passes_filters_covering (r : Recipe.t) (f : Filters.t) (ks : list option_key) :
  (forall k, active f k = true -> In k ks) ->
  recipe_search.passes_filters r (Some f)
  = forallb (fun k => recipe_search.passes_filters r (Some (only f k))) ks.
Proof.
  intros Hcover. rewrite passes_filters_all_keys.
  rewrite (forallb_pointwise _ (option_ok r f) ks) by (intros k; apply passes_filters_only).
  apply eq_true_iff_eq. rewrite !forallb_forall. split; intros H k Hk.
  - destruct (active f k) eqn:Hact; [| now apply option_ok_inactive].
    apply H. destruct k; cbn; auto 6.
  - destruct (active f k) eqn:Hact; [| now apply option_ok_inactive].
    apply H. now apply Hcover.
Qed.

Lemma keep_if_check {A} (truthy : A -> bool) (field : option A) (check : A -> bool) :
  match keep_if truthy field with
  | Some v => if truthy v then check v else true
  | None => true
  end
  = match field with
    | Some v => if truthy v then check v else true
    | None => true
    end.
Proof.
  destruct field as [v |]; [| reflexivity]. unfold keep_if.
  destruct (truthy v) eqn:Ht; [now rewrite Ht | reflexivity].
Qed.

Lemma passes_filters_drop_falsy (r : Recipe.t) (f : Filters.t) :
  recipe_search.passes_filters r (Some (drop_falsy f))
  = recipe_search.passes_filters r (Some f).
Proof.
  rewrite !passes_filters_and.
  unfold recipe_search.max_time_ok, recipe_search.skill_level_ok,
    recipe_search.dietary_tags_ok, recipe_search.cuisine_ok, drop_falsy. cbn.
  rewrite (keep_if_check truthy_int (Filters.max_time f)
             (fun v => negb (v <? get (Recipe.total_time r) 999))).
  rewrite (keep_if_check truthy_str (Filters.skill_level f)
             (fun v => String.eqb (lower (get (Recipe.skill_level r) "")) (lower v))).
  rewrite (keep_if_check truthy_list (Filters.dietary_tags f)
             (fun v => forallb (contains (map lower (get (Recipe.dietary_tags r) [])))
                         (map lower v))).
  rewrite (keep_if_check truthy_str (Filters.cuisine f)
             (fun v => String.eqb (lower (get (Recipe.cuisine r) "")) (lower v))).
  reflexivity.
Qed.

(** The two copies of the filter agree on dictionaries whose present
    options are all truthy. *)
Lemma passes_filters_copies_agree_on_truthy (r : Recipe.t) (f : Filters.t) :
  all_truthy f = true ->
  query_handlers._passes_filters r f = recipe_search.passes_filters r (Some f).
Proof.
  intros Ht. rewrite passes_filters_and.
  unfold all_truthy in Ht. apply andb_prop in Ht as [Ht H4].
  apply andb_prop in Ht as [Ht H3]. apply andb_prop in Ht as [H1 H2].
  unfold query_handlers._passes_filters, recipe_search.max_time_ok,
    recipe_search.skill_level_ok, recipe_search.dietary_tags_ok,
    recipe_search.cuisine_ok.
  destruct (Filters.max_time f) as [v1 |]; [rewrite H1 |];
  destruct (Filters.skill_level f) as [v2 |]; try rewrite H2;
  destruct (Filters.dietary_tags f) as [v3 |]; try rewrite H3;
  destruct (Filters.cuisine f) as [v4 |]; try rewrite H4; cbn;
  repeat match goal with
         | |- context [?a <? ?b] => destruct (a <? b); cbn
         | |- context [String.eqb ?a ?b] => destruct (String.eqb a b); cbn
         | |- context [forallb ?p ?l] => destruct (forallb p l); cbn
         end; reflexivity.
Qed.

(** ** The loops of [search_recipes] and [find_partial_matches] *)

(** closes the cases in which an iteration leaves the accumulator as it is *)
Ltac nothing_appended :=
  exists []; rewrite app_nil_r; split; [reflexivity | constructor].

Lemma has_required_fields_search_readable (user : list string)
  (filters : option Filters.t) (r : Recipe.t) :
  has_required_fields r = true -> search_readable user filters r = true.
Proof.
  unfold has_required_fields, search_readable.
  destruct (Recipe.id r), (Recipe.name r), (Recipe.ingredients r); try discriminate.
  intros _. destruct (recipe_search.passes_filters r filters); [| reflexivity].
  now destruct (0 <? _).
Qed.

Lemma has_required_fields_partial_readable (user : list string)
  (filters : option Filters.t) (threshold : Z) (exclude : list Z) (r : Recipe.t) :
  has_required_fields r = true -> partial_readable user filters threshold exclude r = true.
Proof.
  unfold has_required_fields, partial_readable.
  destruct (Recipe.id r), (Recipe.name r), (Recipe.ingredients r); try discriminate.
  intros _. destruct (contains_id exclude z); [reflexivity|].
  destruct (recipe_search.passes_filters r filters); [| reflexivity].
  cbv zeta. now destruct (_ && _).
Qed.

Lemma search_step_spec (user : list string) (filters : option Filters.t)
  (acc : list SearchResult.t) (r : Recipe.t) :
  search_readable user filters r = true ->
  exists es,
    recipe_search.search_step user filters acc r = Ok (acc ++ es)
    /\ Forall2 (search_entry_of user) (filter (search_keeps user filters) [r]) es.
Proof.
  unfold search_readable, recipe_search.search_step. cbn [filter].
  unfold search_keeps, match_of.
  destruct (recipe_search.passes_filters r filters); cbn [negb andb];
    [| intros _; nothing_appended].
  destruct (Recipe.ingredients r) as [ings |] eqn:Hings; [| discriminate].
  cbn [get subscript bind].
  destruct (0 <? MatchData.percentage (recipe_search.calculate_match ings user));
    [| intros _; nothing_appended].
  destruct (Recipe.id r) as [id |] eqn:Hid; [| discriminate].
  destruct (Recipe.name r) as [name |] eqn:Hname; [| discriminate].
  intros _. unfold recipe_search.search_entry at 1. rewrite Hid, Hname.
  cbn [subscript bind]. eexists. split; [reflexivity|]. constructor; [| constructor].
  unfold search_entry_of, match_of, recipe_search.search_entry.
  rewrite Hid, Hname, Hings. reflexivity.
Qed.

Lemma search_step_raises (user : list string) (filters : option Filters.t)
  (acc : list SearchResult.t) (r : Recipe.t) :
  search_readable user filters r = false ->
  exists e, recipe_search.search_step user filters acc r = Raise e.
Proof.
  unfold search_readable, recipe_search.search_step.
  destruct (recipe_search.passes_filters r filters); cbn [negb]; [| discriminate].
  destruct (Recipe.ingredients r) as [ings |]; cbn [subscript bind]; [| eauto].
  destruct (0 <? MatchData.percentage (recipe_search.calculate_match ings user));
    [| discriminate].
  unfold recipe_search.search_entry.
  destruct (Recipe.id r) as [id |]; cbn [subscript bind]; [| eauto].
  destruct (Recipe.name r) as [name |]; cbn [subscript bind]; [discriminate | eauto].
Qed.

Lemma search_loop_spec (user : list string) (filters : option Filters.t)
  (catalog : list Recipe.t) :
  Forall (fun r => search_readable user filters r = true) catalog ->
  forall acc, exists es,
    for_each (recipe_search.search_step user filters) catalog acc = Ok (acc ++ es)
    /\ Forall2 (search_entry_of user) (filter (search_keeps user filters) catalog) es.
Proof.
  induction 1 as [| r catalog Hr Hrest IH]; intros acc.
  - nothing_appended.
  - destruct (search_step_spec user filters acc r Hr) as (es1 & Hstep & Hes1).
    destruct (IH (acc ++ es1)) as (es2 & Hloop & Hes2).
    exists (es1 ++ es2). cbn [for_each]. rewrite Hstep. cbn [bind].
    rewrite Hloop, app_assoc. split; [reflexivity|].
    change (r :: catalog) with ([r] ++ catalog). rewrite filter_app.
    now apply Forall2_app.
Qed.

Lemma search_loop_returns (user : list string) (filters : option Filters.t)
  (catalog : list Recipe.t) :
  forall acc res,
    for_each (recipe_search.search_step user filters) catalog acc = Ok res ->
    Forall (fun r => search_readable user filters r = true) catalog.
Proof.
  induction catalog as [| r catalog IH]; intros acc res Hloop; [constructor|].
  cbn [for_each] in Hloop.
  destruct (search_readable user filters r) eqn:Hr.
  - destruct (recipe_search.search_step user filters acc r) as [acc' |];
      [| discriminate].
    constructor; [assumption | eapply IH; exact Hloop].
  - destruct (search_step_raises user filters acc r Hr) as (e & He).
    rewrite He in Hloop. discriminate.
Qed.

Lemma partial_step_spec (user : list string) (filters : option Filters.t)
  (threshold : Z) (exclude : list Z) (acc : list PartialMatch.t) (r : Recipe.t) :
  partial_readable user filters threshold exclude r = true ->
  exists es,
    recipe_search.partial_step user filters threshold exclude acc r = Ok (acc ++ es)
    /\ Forall2 (partial_entry_of user)
         (filter (partial_keeps user filters threshold exclude) [r]) es.
Proof.
  unfold partial_readable, recipe_search.partial_step. cbn [filter].
  unfold partial_keeps, match_of.
  destruct (Recipe.id r) as [id |] eqn:Hid; [| discriminate].
  cbn [get subscript bind].
  destruct (contains_id exclude id); cbn [negb andb]; [intros _; nothing_appended|].
  destruct (recipe_search.passes_filters r filters); cbn [negb andb];
    [| intros _; nothing_appended].
  destruct (Recipe.ingredients r) as [ings |] eqn:Hings; [| discriminate].
  cbn [get subscript bind]. cbv zeta.
  destruct ((10 * threshold <=? MatchData.percentage (recipe_search.calculate_match ings user))
            && (MatchData.percentage (recipe_search.calculate_match ings user) <? 1000));
    [| intros _; nothing_appended].
  destruct (Recipe.name r) as [name |] eqn:Hname; [| discriminate].
  intros _. unfold recipe_search.partial_entry at 1. rewrite Hname.
  cbn [subscript bind]. eexists. split; [reflexivity|]. constructor; [| constructor].
  exists id. split; [assumption|].
  unfold match_of, recipe_search.partial_entry. rewrite Hname, Hings. reflexivity.
Qed.

Lemma partial_step_raises (user : list string) (filters : option Filters.t)
  (threshold : Z) (exclude : list Z) (acc : list PartialMatch.t) (r : Recipe.t) :
  partial_readable user filters threshold exclude r = false ->
  exists e, recipe_search.partial_step user filters threshold exclude acc r = Raise e.
Proof.
  unfold partial_readable, recipe_search.partial_step.
  destruct (Recipe.id r) as [id |]; cbn [subscript bind]; [| eauto].
  destruct (contains_id exclude id); [discriminate|].
  destruct (recipe_search.passes_filters r filters); cbn [negb]; [| discriminate].
  destruct (Recipe.ingredients r) as [ings |]; cbn [subscript bind]; [| eauto].
  cbv zeta.
  destruct ((10 * threshold <=? MatchData.percentage (recipe_search.calculate_match ings user))
            && (MatchData.percentage (recipe_search.calculate_match ings user) <? 1000));
    [| discriminate].
  unfold recipe_search.partial_entry.
  destruct (Recipe.name r) as [name |]; cbn [subscript bind]; [discriminate | eauto].
Qed.

Lemma partial_loop_spec (user : list string) (filters : option Filters.t)
  (threshold : Z) (exclude : list Z) (catalog : list Recipe.t) :
  Forall (fun r => partial_readable user filters threshold exclude r = true) catalog ->
  forall acc, exists es,
    for_each (recipe_search.partial_step user filters threshold exclude) catalog acc
    = Ok (acc ++ es)
    /\ Forall2 (partial_entry_of user)
         (filter (partial_keeps user filters threshold exclude) catalog) es.
Proof.
  induction 1 as [| r catalog Hr Hrest IH]; intros acc.
  - nothing_appended.
  - destruct (partial_step_spec user filters threshold exclude acc r Hr)
      as (es1 & Hstep & Hes1).
    destruct (IH (acc ++ es1)) as (es2 & Hloop & Hes2).
    exists (es1 ++ es2). cbn [for_each]. rewrite Hstep. cbn [bind].
    rewrite Hloop, app_assoc. split; [reflexivity|].
    change (r :: catalog) with ([r] ++ catalog). rewrite filter_app.
    now apply Forall2_app.
Qed.

Lemma partial_loop_returns (user : list string) (filters : option Filters.t)
  (threshold : Z) (exclude : list Z) (catalog : list Recipe.t) :
  forall acc res,
    for_each (recipe_search.partial_step user filters threshold exclude) catalog acc
    = Ok res ->
    Forall (fun r => partial_readable user filters threshold exclude r = true) catalog.
Proof.
  induction catalog as [| r catalog IH]; intros acc res Hloop; [constructor|].
  cbn [for_each] in Hloop.
  destruct (partial_readable user filters threshold exclude r) eqn:Hr.
  - destruct (recipe_search.partial_step user filters threshold exclude acc r)
      as [acc' |]; [| discriminate].
    constructor; [assumption | eapply IH; exact Hloop].
  - destruct (partial_step_raises user filters threshold exclude acc r Hr) as (e & He).
    rewrite He in Hloop. discriminate.
Qed.

Lemma partial_step_inv (user : list string) (filters : option Filters.t)
  (threshold : Z) (exclude : list Z) (acc res : list PartialMatch.t) (r : Recipe.t) :
  recipe_search.partial_step user filters threshold exclude acc r = Ok res ->
  Forall (partial_candidate user threshold) acc ->
  Forall (partial_candidate user threshold) res.
Proof.
  unfold recipe_search.partial_step. intros Hstep Hacc.
  destruct (Recipe.id r) as [id |]; [| discriminate]. cbn [subscript bind] in Hstep.
  destruct (contains_id exclude id); [now inversion Hstep; subst|].
  destruct (recipe_search.passes_filters r filters); cbn [negb] in Hstep;
    [| now inversion Hstep; subst].
  destruct (Recipe.ingredients r) as [ings |]; [| discriminate].
  cbn [subscript bind] in Hstep.
  destruct (10 * threshold <=? MatchData.percentage (recipe_search.calculate_match ings user))
    eqn:Hlo; cbn [andb] in Hstep; [| now inversion Hstep; subst].
  destruct (MatchData.percentage (recipe_search.calculate_match ings user) <? 1000)
    eqn:Hhi; [| now inversion Hstep; subst].
  unfold recipe_search.partial_entry in Hstep.
  destruct (Recipe.name r) as [name |]; [| discriminate].
  cbn [subscript bind] in Hstep. inversion Hstep; subst. clear Hstep.
  apply Forall_app. split; [assumption|]. constructor; [| constructor].
  apply Z.leb_le in Hlo. apply Z.ltb_lt in Hhi.
  exists ings. cbn [PartialMatch.match_percentage PartialMatch.missing_ingredients].
  repeat split; lia.
Qed.

Lemma partial_loop_inv (user : list string) (filters : option Filters.t)
  (threshold : Z) (exclude : list Z) (catalog : list Recipe.t) :
  forall acc res,
    for_each (recipe_search.partial_step user filters threshold exclude) catalog acc
    = Ok res ->
    Forall (partial_candidate user threshold) acc ->
    Forall (partial_candidate user threshold) res.
Proof.
  induction catalog as [| r catalog IH]; intros acc res Hloop Hacc.
  - inversion Hloop; subst. assumption.
  - cbn [for_each] in Hloop.
    destruct (recipe_search.partial_step user filters threshold exclude acc r)
      as [acc' |] eqn:Hstep; [| discriminate].
    cbn [bind] in Hloop. eapply IH; [exact Hloop|].
    eapply partial_step_inv; eassumption.
Qed.

Lemma find_partial_matches_candidates (user : list string) (catalog : list Recipe.t)
  (filters : option Filters.t) (threshold : Z) (exclude : option (list Z))
  (res : list PartialMatch.t) :
  recipe_search.find_partial_matches user catalog filters threshold exclude = Ok res ->
  Forall (partial_candidate user threshold) res.
Proof.
  unfold recipe_search.find_partial_matches. intros H.
  match type of H with (bind ?loop _ = _) => destruct loop as [pm |] eqn:Hloop end;
    [| discriminate].
  cbn [bind] in H. inversion H; subst. clear H.
  rewrite sort_desc_perm.
  eapply partial_loop_inv; [exact Hloop | constructor].
Qed.

(** A candidate at a positive threshold misses at least one ingredient. *)
Lemma partial_candidate_missing (user : list string) (threshold : Z) (p : PartialMatch.t) :
  0 < threshold -> partial_candidate user threshold p ->
  PartialMatch.missing_ingredients p <> [].
Proof.
  intros Ht (ings & Hpct & Hmiss & Hrange). rewrite Hmiss.
  apply calculate_match_partial_missing. lia.
Qed.

(** ** The counting loops of [generate_shopping_suggestions] *)

Lemma dict_mem_in {V} (k : string) (d : dict V) :
  dict_mem k d = true <-> In k (map fst d).
Proof.
  unfold dict_mem. rewrite existsb_exists, in_map_iff. split.
  - intros (kv & Hin & Heq). apply String.eqb_eq in Heq. eauto.
  - intros (kv & Heq & Hin). exists kv. split; [assumption|]. now apply String.eqb_eq.
Qed.

Lemma dict_mem_false {V} (k : string) (d : dict V) :
  dict_mem k d = false <-> ~ In k (map fst d).
Proof.
  rewrite <- dict_mem_in. destruct (dict_mem k d); split; congruence.
Qed.

Lemma dict_set_fresh {V} (k : string) (v : V) (d : dict V) :
  dict_mem k d = false -> dict_set k v d = d ++ [(k, v)].
Proof.
  induction d as [| [k' v'] d IH]; [reflexivity|].
  cbn. destruct (String.eqb k' k); [discriminate|].
  cbn. intros H. now rewrite IH.
Qed.

Lemma dict_adjust_app_fresh {V} (k : string) (f : V -> V) (v : V) (d : dict V) :
  dict_mem k d = false -> dict_adjust k f (d ++ [(k, v)]) = d ++ [(k, f v)].
Proof.
  induction d as [| [k' v'] d IH]; cbn.
  - now rewrite String.eqb_refl.
  - destruct (String.eqb k' k); [discriminate|].
    cbn. intros H. now rewrite IH.
Qed.

Lemma dict_adjust_keys {V} (k : string) (f : V -> V) (d : dict V) :
  map fst (dict_adjust k f d) = map fst d.
Proof.
  induction d as [| [k' v'] d IH]; [reflexivity|].
  cbn. destruct (String.eqb k' k); cbn; [reflexivity | now rewrite IH].
Qed.

Lemma dict_adjust_in {V} (k : string) (f : V -> V) (d : dict V) (k' : string) (v' : V) :
  NoDup (map fst d) ->
  In (k', v') (dict_adjust k f d) ->
  (k' <> k /\ In (k', v') d) \/ (k' = k /\ exists v, In (k, v) d /\ v' = f v).
Proof.
  induction d as [| [k0 v0] d IH]; [contradiction|].
  cbn. intros Hnd Hin. apply NoDup_cons_iff in Hnd as [Hk0 Hnd].
  destruct (String.eqb_spec k0 k) as [-> | Hne].
  - destruct Hin as [Heq | Hin].
    + inversion Heq; subst. right. split; [reflexivity|]. exists v0. auto.
    + left. split; [| now right].
      intros ->. apply Hk0. apply in_map_iff. exists (k, v'). auto.
  - destruct Hin as [Heq | Hin].
    + inversion Heq; subst. left. auto.
    + destruct (IH Hnd Hin) as [[Hne' Hin'] | [-> (v & Hin' & ->)]].
      * left. auto.
      * right. split; [reflexivity|]. exists v. auto.
Qed.

Lemma events_of_snoc (k rn ing : string) (events : list (string * string)) :
  events_of k (events ++ [(rn, ing)])
  = events_of k events ++ (if String.eqb k ing then [(rn, ing)] else []).
Proof. unfold events_of. rewrite filter_app. reflexivity. Qed.

Lemma events_of_absent (k : string) (events : list (string * string)) :
  ~ In k (map snd events) -> events_of k events = [].
Proof.
  intros Hk. unfold events_of. induction events as [| [rn ing] events IH];
    [reflexivity|].
  cbn. destruct (String.eqb_spec k ing) as [-> | Hne].
  - exfalso. apply Hk. now left.
  - apply IH. intros H. apply Hk. now right.
Qed.

Lemma count_one_inv (rn ing : string) (events : list (string * string))
  (impact : dict Suggestion.t) :
  impact_inv events impact ->
  impact_inv (events ++ [(rn, ing)]) (recipe_search.count_one rn impact ing).
Proof.
  intros (Hnd & Hkeys & Hsum). unfold recipe_search.count_one.
  destruct (dict_mem ing impact) eqn:Hmem; cbn [negb].
  - (* the ingredient already has an entry *)
    apply dict_mem_in in Hmem.
    repeat split.
    + now rewrite !dict_adjust_keys.
    + rewrite !dict_adjust_keys, map_app, in_app_iff, <- Hkeys. cbn. tauto.
    + rewrite !dict_adjust_keys, map_app, in_app_iff, <- Hkeys. cbn.
      intros [H | [<- | []]]; assumption.
    + intros k s Hin.
      apply dict_adjust_in in Hin; [| now rewrite dict_adjust_keys].
      destruct Hin as [[Hne Hin] | [-> (s1 & Hin & ->)]].
      * apply dict_adjust_in in Hin; [| assumption].
        destruct Hin as [[_ Hin] | [Heq _]]; [| contradiction].
        rewrite (Hsum _ _ Hin). unfold summary. rewrite events_of_snoc.
        destruct (String.eqb_spec k ing); [contradiction|]. now rewrite app_nil_r.
      * apply dict_adjust_in in Hin; [| assumption].
        destruct Hin as [[Hne _] | [_ (s0 & Hin & ->)]]; [contradiction|].
        rewrite (Hsum _ _ Hin). unfold summary. cbn.
        rewrite events_of_snoc, String.eqb_refl, length_app, map_app. cbn.
        f_equal. lia.
  - (* first visit of the ingredient *)
    pose proof Hmem as Hfresh. apply dict_mem_false in Hfresh.
    rewrite dict_set_fresh by assumption.
    rewrite !dict_adjust_app_fresh by assumption. cbn.
    repeat split.
    + rewrite map_app. cbn. apply NoDup_app; [assumption | repeat constructor; auto |].
      intros k Hk [<- | []]. contradiction.
    + rewrite !map_app, !in_app_iff, <- Hkeys. cbn. tauto.
    + rewrite !map_app, !in_app_iff, <- Hkeys. cbn. tauto.
    + intros k s Hin. apply in_app_or in Hin as [Hin | [Heq | []]].
      * rewrite (Hsum _ _ Hin). unfold summary. rewrite events_of_snoc.
        destruct (String.eqb_spec k ing) as [-> | Hne]; [| now rewrite app_nil_r].
        exfalso. apply Hfresh. apply in_map_iff. exists (ing, summary ing events).
        split; [reflexivity|]. now rewrite <- (Hsum _ _ Hin).
      * inversion Heq; subst. unfold summary.
        rewrite events_of_snoc, String.eqb_refl.
        rewrite events_of_absent by (rewrite <- Hkeys; assumption). reflexivity.
Qed.

Lemma count_events_inv (events : list (string * string)) :
  impact_inv events
    (fold_left (fun impact ev => recipe_search.count_one (fst ev) impact (snd ev))
               events []).
Proof.
  induction events as [| [rn ing] events IH] using rev_ind.
  - repeat split; cbn; try tauto; constructor.
  - rewrite fold_left_app. cbn. now apply count_one_inv.
Qed.

Lemma count_missing_events (candidates : list PartialMatch.t) :
  recipe_search.count_missing candidates
  = fold_left (fun impact ev => recipe_search.count_one (fst ev) impact (snd ev))
              (missing_events candidates) [].
Proof.
  unfold recipe_search.count_missing, missing_events. generalize (@nil (string * Suggestion.t)).
  induction candidates as [| c candidates IH]; intros impact; [reflexivity|].
  cbn [fold_left flat_map]. rewrite fold_left_app, IH. f_equal.
  generalize impact. induction (PartialMatch.missing_ingredients c) as [| ing l IHl];
    intros impact'; [reflexivity|]. cbn. apply IHl.
Qed.

Lemma count_missing_inv (candidates : list PartialMatch.t) :
  impact_inv (missing_events candidates) (recipe_search.count_missing candidates).
Proof. rewrite count_missing_events. apply count_events_inv. Qed.

Lemma missing_events_ingredients (candidates : list PartialMatch.t) :
  map snd (missing_events candidates)
  = flat_map PartialMatch.missing_ingredients candidates.
Proof.
  unfold missing_events. induction candidates as [| c candidates IH]; [reflexivity|].
  cbn. rewrite map_app, IH, map_map. cbn. now rewrite map_id.
Qed.

Lemma events_of_one_recipe (ing rn : string) (l : list string) :
  NoDup l ->
  events_of ing (map (fun i => (rn, i)) l)
  = if contains l ing then [(rn, ing)] else [].
Proof.
  unfold events_of, contains. induction 1 as [| x l Hx Hnd IH]; [reflexivity|].
  cbn. destruct (String.eqb_spec ing x) as [<- | Hne]; cbn.
  - rewrite IH. destruct (existsb (String.eqb ing) l) eqn:Hex; [| reflexivity].
    exfalso. apply Hx. apply existsb_exists in Hex as (y & Hy & Heq).
    apply String.eqb_eq in Heq. now subst.
  - exact IH.
Qed.

Lemma events_of_cons (ing : string) (c : PartialMatch.t)
  (candidates : list PartialMatch.t) :
  events_of ing (missing_events (c :: candidates))
  = events_of ing (map (fun i => (PartialMatch.name c, i))
                       (PartialMatch.missing_ingredients c))
    ++ events_of ing (missing_events candidates).
Proof. unfold events_of, missing_events. cbn. now rewrite filter_app. Qed.

(** When no candidate lists a missing ingredient twice, occurrences and
    recipes coincide. *)
Lemma occurrences_without_repeats (ing : string) (candidates : list PartialMatch.t) :
  Forall (fun c => NoDup (PartialMatch.missing_ingredients c)) candidates ->
  occurrences_missing ing candidates = recipes_missing ing candidates
  /\ names_at_occurrences ing candidates = names_of_recipes_missing ing candidates.
Proof.
  unfold occurrences_missing, recipes_missing, names_at_occurrences,
    names_of_recipes_missing.
  induction 1 as [| c candidates Hc Hrest [IHn IHs]]; [split; reflexivity|].
  rewrite events_of_cons, events_of_one_recipe by assumption.
  cbn [filter].
  destruct (contains (PartialMatch.missing_ingredients c) ing); cbn.
  - split; [lia | now f_equal].
  - split; assumption.
Qed.

(** What [generate_shopping_suggestions] returns for each ingredient: one
    count and one recipe name per occurrence in the candidates' missing
    lists. *)
Lemma suggestions_count_occurrences (user : list string) (recipes : list Recipe.t)
  (filters : option Filters.t) (top_n : Z) (has_matches : bool)
  (exclude_ids : option (list Z)) (candidates : list PartialMatch.t)
  (suggestions : list Suggestion.t) :
  recipe_search.candidate_recipes user recipes filters has_matches
    (match exclude_ids with None => [] | Some ids => ids end) = Ok candidates ->
  recipe_search.generate_shopping_suggestions user recipes filters top_n has_matches
    exclude_ids = Ok suggestions ->
  forall s, In s suggestions ->
    In (Suggestion.name s) (flat_map PartialMatch.missing_ingredients candidates)
    /\ Suggestion.unlock_count s = occurrences_missing (Suggestion.name s) candidates
    /\ Suggestion.recipe_names s = names_at_occurrences (Suggestion.name s) candidates.
Proof.
  intros Hcands Hgen s Hs. unfold recipe_search.generate_shopping_suggestions in Hgen.
  rewrite Hcands in Hgen. cbn [bind] in Hgen. inversion Hgen; subst. clear Hgen.
  apply slice_to_incl in Hs.
  apply (Permutation_in _ (sort_desc_perm _ _)) in Hs.
  unfold dict_values in Hs. apply in_map_iff in Hs as ([k s'] & Heq & Hin).
  cbn in Heq. subst s'.
  destruct (count_missing_inv candidates) as (_ & Hkeys & Hsum).
  pose proof (Hsum _ _ Hin) as Hs. subst s. cbn.
  repeat split. rewrite <- missing_events_ingredients, <- Hkeys.
  apply in_map_iff. exists (k, summary k (missing_events candidates)). auto.
Qed.

Lemma suggestions_nonempty (user : list string) (recipes : list Recipe.t)
  (filters : option Filters.t) (top_n : Z) (has_matches : bool)
  (exclude_ids : option (list Z)) (candidates : list PartialMatch.t) :
  recipe_search.candidate_recipes user recipes filters has_matches
    (match exclude_ids with None => [] | Some ids => ids end) = Ok candidates ->
  1 <= top_n ->
  flat_map PartialMatch.missing_ingredients candidates <> [] ->
  exists suggestions,
    recipe_search.generate_shopping_suggestions user recipes filters top_n has_matches
      exclude_ids = Ok suggestions
    /\ suggestions <> [].
Proof.
  intros Hcands Hn Hmiss. unfold recipe_search.generate_shopping_suggestions.
  rewrite Hcands. cbn [bind]. eexists. split; [reflexivity|].
  apply slice_to_nonempty; [assumption|]. intros Hnil.
  apply sort_desc_nil in Hnil. unfold dict_values in Hnil. apply map_eq_nil in Hnil.
  destruct (count_missing_inv candidates) as (_ & Hkeys & _).
  rewrite Hnil in Hkeys. rewrite missing_events_ingredients in Hkeys.
  destruct (flat_map PartialMatch.missing_ingredients candidates) as [| x l];
    [contradiction|].
  apply (Hkeys x). now left.
Qed.

Lemma find_partial_matches_exclude (user : list string) (recipes : list Recipe.t)
  (filters : option Filters.t) (threshold : Z) (exclude_ids : option (list Z)) :
  recipe_search.find_partial_matches user recipes filters threshold
    (Some (match exclude_ids with None => [] | Some ids => ids end))
  = recipe_search.find_partial_matches user recipes filters threshold exclude_ids.
Proof. destruct exclude_ids; reflexivity. Qed.

Lemma search_entry_of_fields (user : list string) (r : Recipe.t) (s : SearchResult.t) :
  search_entry_of user r s ->
  Recipe.id r = Some (SearchResult.id s)
  /\ Recipe.name r = Some (SearchResult.name s)
  /\ SearchResult.match_percentage s = MatchData.percentage (match_of user r)
  /\ SearchResult.matched_ingredients s = MatchData.matched (match_of user r)
  /\ SearchResult.missing_ingredients s = MatchData.missing (match_of user r)
  /\ defaults_applied r s.
Proof.
  unfold search_entry_of, recipe_search.search_entry, defaults_applied.
  destruct (Recipe.id r) as [id |]; [| discriminate].
  destruct (Recipe.name r) as [name |]; [| discriminate].
  cbn [subscript bind]. intros H. inversion H; subst. clear H. cbn.
  repeat split.
Qed.

Lemma Forall2_filter_left {A B} (R : A -> B -> Prop) (p : A -> bool) (Q : B -> Prop)
  (l : list A) (es : list B) :
  (forall a b, p a = true -> R a b -> Q b) ->
  Forall2 R (filter p l) es -> Forall Q es.
Proof.
  intros HQ H. remember (filter p l) as kept eqn:Hkept.
  assert (Hall : Forall (fun a => p a = true) kept).
  { subst kept. apply Forall_forall. intros a Ha. now apply filter_In in Ha. }
  clear Hkept. induction H as [| a b kept es Hab _ IH]; constructor.
  - inversion Hall; subst. eauto.
  - inversion Hall; subst. auto.
Qed.

Lemma Forall2_filter_source {A B} (R : A -> B -> Prop) (p : A -> bool)
  (l : list A) (es : list B) :
  Forall2 R (filter p l) es ->
  Forall (fun b => exists a, In a l /\ p a = true /\ R a b) es.
Proof.
  intros H. remember (filter p l) as kept eqn:Hkept.
  assert (Hall : Forall (fun a => In a l /\ p a = true) kept).
  { subst kept. apply Forall_forall. intros a Ha. now apply filter_In in Ha. }
  clear Hkept. induction H as [| a b kept es Hab _ IH]; constructor.
  - inversion Hall; subst. exists a. tauto.
  - inversion Hall; subst. auto.
Qed.

(* ================================================================== *)
(** * Part III: the claims of the specification *)
(* ================================================================== *)

(** ** Worked examples from the test suite *)

Example test_partial_match :
  recipe_search.calculate_match ["chicken"; "rice"; "soy sauce"; "garlic"]
                                ["chicken"; "rice"]
  = {| MatchData.percentage := 500;
       MatchData.matched := ["chicken"; "rice"];
       MatchData.missing := ["soy sauce"; "garlic"] |}.
Proof. vm_compute. reflexivity. Qed.

Example test_case_insensitive_matching :
  MatchData.percentage
    (recipe_search.calculate_match ["CHICKEN"; "Rice"; "SOY SAUCE"]
                                   ["chicken"; "rice"; "soy sauce"]) = 1000.
Proof. vm_compute. reflexivity. Qed.

Example test_one_third :
  MatchData.percentage
    (recipe_search.calculate_match ["bread"; "cheese"; "butter"] ["bread"]) = 333.
Proof. vm_compute. reflexivity. Qed.

Example test_search_no_matches :
  recipe_search.search_recipes ["pineapple"; "coconut"; "mango"] sample_recipes None
  = Ok [].
Proof. vm_compute. reflexivity. Qed.

Example test_search_returns_sorted_results :
  option_map (map SearchResult.match_percentage)
    (match recipe_search.search_recipes ["soy sauce"; "garlic"; "oil"] sample_recipes None
     with Ok results => Some results | Raise _ => None end)
  = Some [600; 400].
Proof. vm_compute. reflexivity. Qed.

Example scenario_unlock_counts :
  recipe_search.generate_shopping_suggestions ["rice"; "bread"] three_recipes None 5
    true None
  = Ok [ {| Suggestion.name := "eggs"; Suggestion.unlock_count := 2;
            Suggestion.recipe_names := ["Egg Rice"; "French Toast"] |};
         {| Suggestion.name := "oil"; Suggestion.unlock_count := 2;
            Suggestion.recipe_names := ["French Toast"; "Fried Bread"] |} ].
Proof. vm_compute. reflexivity. Qed.

(** 1 / 2000 * 100 is slightly above 0.05 in binary64 and rounds to 0.1,
    where exact decimal arithmetic would round the tie to 0.0. *)
Example one_in_two_thousand : recipe_search.round_percentage 1 2000 = 1.
Proof. vm_compute. reflexivity. Qed.

Example one_in_2001 : recipe_search.round_percentage 1 2001 = 0.
Proof. vm_compute. reflexivity. Qed.

Example search_recipes_on_an_empty_entry :
  recipe_search.search_recipes ["salt"] [empty_recipe] None
  = Raise (KeyError "ingredients").
Proof. vm_compute. reflexivity. Qed.

(** ** C1: bounds of the match percentage *)

(** C1, counterexample.  A recipe of 2001 ingredients of which the user owns
    one: the percentage rounds to 0.0 although [matched] is not empty and
    the recipe is not empty, so "percentage == 0 iff matched is empty or
    total == 0" fails. *)
Lemma zero_percentage_despite_a_match :
  let md := recipe_search.calculate_match long_ingredients ["salt"] in
  MatchData.percentage md = 0
  /\ MatchData.matched md = ["salt"]
  /\ List.length long_ingredients = 2001%nat
  /\ ~ (MatchData.percentage md = 0
        <-> MatchData.matched md = [] \/ List.length long_ingredients = 0%nat).
Proof.
  assert (H : MatchData.percentage (recipe_search.calculate_match long_ingredients ["salt"]) = 0
              /\ MatchData.matched (recipe_search.calculate_match long_ingredients ["salt"]) = ["salt"]
              /\ List.length long_ingredients = 2001%nat)
    by (vm_compute; repeat split).
  destruct H as (Hp & Hm & Hl). cbv zeta. repeat split; try assumption.
  intros [Himp _]. destruct (Himp Hp) as [Hnil | Hlen].
  - rewrite Hm in Hnil. discriminate.
  - rewrite Hl in Hlen. discriminate.
Qed.

(** C1, as amended.  For every recipe ingredient list and user ingredient
    set, both copies of [calculate_match] return the same record, its
    percentage lies between 0 and 100 (0 and 1000 tenths), and it is 0
    whenever [matched] is empty or the recipe has no ingredient.  A
    non-empty [matched] gives a percentage above 0 as long as the recipe has
    at most 1999 ingredients per matched one, and rounding to one decimal
    gives 0 once it has 2001 or more per matched one. *)
Theorem match_percentage_bounds (recipe_ingredients user_ingredients : list string) :
  let md := recipe_search.calculate_match recipe_ingredients user_ingredients in
  let total := List.length recipe_ingredients in
  let match_count := List.length (MatchData.matched md) in
  query_handlers._calculate_match recipe_ingredients user_ingredients = md
  /\ 0 <= MatchData.percentage md <= 1000
  /\ (MatchData.matched md = [] \/ total = 0%nat -> MatchData.percentage md = 0)
  /\ (MatchData.matched md <> [] -> (total <= 1999 * match_count)%nat ->
      0 < MatchData.percentage md)
  /\ ((2001 * match_count <= total)%nat -> MatchData.percentage md = 0).
Proof.
  cbv zeta. pose proof (calculate_match_lengths recipe_ingredients user_ingredients) as Hlen.
  rewrite calculate_match_percentage.
  set (md := recipe_search.calculate_match recipe_ingredients user_ingredients) in *.
  split; [symmetry; apply calculate_match_eq|].
  split; [apply PercentageFacts.round_percentage_range; lia|].
  split; [| split].
  - intros [Hnil | Htot].
    + rewrite Hnil. apply PercentageFacts.round_percentage_no_match.
    + rewrite Htot. apply PercentageFacts.round_percentage_no_total.
  - intros Hne Hle.
    assert (0 < List.length (MatchData.matched md))%nat.
    { destruct (MatchData.matched md); [contradiction | cbn; lia]. }
    pose proof (PercentageFacts.round_percentage_pos
                  (List.length (MatchData.matched md)) (List.length recipe_ingredients)).
    lia.
  - apply PercentageFacts.round_percentage_rounds_to_zero.
Qed.

(** ** C2: matched and missing partition the recipe's ingredients *)

(** C2.  For every recipe ingredient list (duplicates and mixed case
    included) and user ingredient set, both copies of [calculate_match]
    return the lowercased ingredients that the user owns as [matched] and
    the others as [missing], each in recipe order and as many times as it
    occurs, so that the two lengths add up to the length of the recipe. *)
Theorem calculate_match_partition (recipe_ingredients user_ingredients : list string) :
  let md := recipe_search.calculate_match recipe_ingredients user_ingredients in
  let lowered := map lower recipe_ingredients in
  query_handlers._calculate_match recipe_ingredients user_ingredients = md
  /\ MatchData.matched md = filter (contains user_ingredients) lowered
  /\ MatchData.missing md
     = filter (fun ing => negb (contains user_ingredients ing)) lowered
  /\ (List.length (MatchData.matched md) + List.length (MatchData.missing md)
      = List.length recipe_ingredients)%nat
  /\ (forall ing,
        (List.length (filter (String.eqb ing) (MatchData.matched md))
         + List.length (filter (String.eqb ing) (MatchData.missing md))
         = List.length (filter (String.eqb ing) lowered))%nat)
  /\ (forall ing, In ing lowered ->
        (In ing (MatchData.matched md) <-> contains user_ingredients ing = true)
        /\ (In ing (MatchData.missing md) <-> contains user_ingredients ing = false)).
Proof.
  cbv zeta.
  rewrite calculate_match_matched, calculate_match_missing.
  split; [symmetry; apply calculate_match_eq|].
  split; [reflexivity|]. split; [reflexivity|].
  split; [rewrite filter_split_length; apply length_map|].
  split.
  - intros ing. induction (map lower recipe_ingredients) as [| x l IH]; [reflexivity|].
    cbn. destruct (contains user_ingredients x); cbn;
      destruct (String.eqb ing x); cbn; lia.
  - intros ing Hin. rewrite !filter_In. split; split.
    + tauto.
    + tauto.
    + intros [_ H]. now apply negb_true_iff in H.
    + intros H. split; [assumption|]. now apply negb_true_iff.
Qed.

(** ** C3: [search_recipes] *)

Lemma search_recipes_returns_iff (user_ingredients : list string)
  (catalog : list Recipe.t) (filters : option Filters.t) :
  (exists results,
     recipe_search.search_recipes user_ingredients catalog filters = Ok results)
  <-> Forall (fun r => search_readable user_ingredients filters r = true) catalog.
Proof.
  unfold recipe_search.search_recipes. split.
  - intros (results & Hres).
    destruct (for_each _ catalog []) as [entries |] eqn:Hloop; [| discriminate].
    eapply search_loop_returns; exact Hloop.
  - intros Hread.
    destruct (search_loop_spec user_ingredients filters catalog Hread [])
      as (entries & Hloop & _).
    rewrite Hloop. cbn [bind]. eauto.
Qed.

Lemma search_recipes_entries (user_ingredients : list string)
  (catalog : list Recipe.t) (filters : option Filters.t)
  (results : list SearchResult.t) :
  recipe_search.search_recipes user_ingredients catalog filters = Ok results ->
  exists entries,
    Forall2 (search_entry_of user_ingredients)
      (filter (search_keeps user_ingredients filters) catalog) entries
    /\ results = sort_desc SearchResult.match_percentage entries.
Proof.
  intros Hres.
  assert (Hread : Forall (fun r => search_readable user_ingredients filters r = true)
                    catalog) by (apply search_recipes_returns_iff; eauto).
  destruct (search_loop_spec user_ingredients filters catalog Hread [])
    as (entries & Hloop & Hentries).
  unfold recipe_search.search_recipes in Hres. rewrite Hloop in Hres.
  cbn [bind app] in Hres. inversion Hres; subst. eauto.
Qed.

(** C3.  For every user ingredient set, catalog and filter criteria,
    [search_recipes] returns a list whenever the catalog entries carry the
    keys it subscripts, and whenever it returns, the result holds the
    entries of exactly those catalog recipes that pass [passes_filters] and
    whose percentage is above 0: it is the stable descending sort of these
    entries taken in catalog order, hence a permutation of them, in
    non-increasing order of [match_percentage]. *)
Theorem search_recipes_selects_and_sorts (user_ingredients : list string)
  (catalog : list Recipe.t) (filters : option Filters.t) :
  (Forall (fun r => has_required_fields r = true) catalog ->
   exists results,
     recipe_search.search_recipes user_ingredients catalog filters = Ok results)
  /\ (forall results,
        recipe_search.search_recipes user_ingredients catalog filters = Ok results ->
        exists entries,
          Forall2 (search_entry_of user_ingredients)
            (filter (search_keeps user_ingredients filters) catalog) entries
          /\ results = sort_desc SearchResult.match_percentage entries
          /\ Permutation results entries
          /\ sorted_desc SearchResult.match_percentage results
          /\ Forall (fun s => 0 < SearchResult.match_percentage s) results).
Proof.
  split.
  - intros Hwf. apply search_recipes_returns_iff.
    eapply Forall_impl; [| exact Hwf].
    intros r. apply has_required_fields_search_readable.
  - intros results Hres.
    destruct (search_recipes_entries _ _ _ _ Hres) as (entries & Hentries & ->).
    exists entries. repeat split; try assumption.
    + apply sort_desc_perm.
    + apply sort_desc_sorted.
    + rewrite sort_desc_perm.
      eapply Forall2_filter_left; [| exact Hentries].
      intros r s Hkeep Hrs. cbn beta.
      apply search_entry_of_fields in Hrs as (_ & _ & -> & _).
      unfold search_keeps in Hkeep. apply andb_prop in Hkeep as [_ Hpos].
      now apply Z.ltb_lt.
Qed.

(** ** C8: [find_partial_matches] *)

Lemma find_partial_matches_returns_iff (user_ingredients : list string)
  (catalog : list Recipe.t) (filters : option Filters.t)
  (min_match_threshold : Z) (exclude_ids : option (list Z)) :
  (exists results,
     recipe_search.find_partial_matches user_ingredients catalog filters
       min_match_threshold exclude_ids = Ok results)
  <-> Forall (fun r => partial_readable user_ingredients filters min_match_threshold
                         (match exclude_ids with None => [] | Some ids => ids end) r
                       = true)
             catalog.
Proof.
  unfold recipe_search.find_partial_matches. split.
  - intros (results & Hres).
    destruct (for_each _ catalog []) as [entries |] eqn:Hloop; [| discriminate].
    eapply partial_loop_returns; exact Hloop.
  - intros Hread.
    destruct (partial_loop_spec user_ingredients filters min_match_threshold _
                catalog Hread []) as (entries & Hloop & _).
    rewrite Hloop. cbn [bind]. eauto.
Qed.

(** C8.  For every user ingredient set, catalog, filter criteria, threshold
    and set of excluded ids, [find_partial_matches] returns a list whenever
    the catalog entries carry the keys it subscripts, and whenever it
    returns, the result holds the entries of exactly those catalog recipes
    whose id is not excluded, that pass [passes_filters] and whose
    percentage [p] satisfies [min_match_threshold <= p < 100], sorted by
    percentage descending. *)
Theorem find_partial_matches_selects_and_sorts (user_ingredients : list string)
  (catalog : list Recipe.t) (filters : option Filters.t)
  (min_match_threshold : Z) (exclude_ids : option (list Z)) :
  (Forall (fun r => has_required_fields r = true) catalog ->
   exists results,
     recipe_search.find_partial_matches user_ingredients catalog filters
       min_match_threshold exclude_ids = Ok results)
  /\ (forall results,
        recipe_search.find_partial_matches user_ingredients catalog filters
          min_match_threshold exclude_ids = Ok results ->
        exists entries,
          Forall2 (partial_entry_of user_ingredients)
            (filter (partial_keeps user_ingredients filters min_match_threshold
                       (match exclude_ids with None => [] | Some ids => ids end))
                    catalog)
            entries
          /\ results = sort_desc PartialMatch.match_percentage entries
          /\ Permutation results entries
          /\ sorted_desc PartialMatch.match_percentage results
          /\ Forall (fun p => 10 * min_match_threshold
                              <= PartialMatch.match_percentage p < 1000)
               results).
Proof.
  split.
  - intros Hwf. apply find_partial_matches_returns_iff.
    eapply Forall_impl; [| exact Hwf].
    intros r. apply has_required_fields_partial_readable.
  - intros results Hres.
    assert (Hread : Forall (fun r => partial_readable user_ingredients filters
                                       min_match_threshold
                                       (match exclude_ids with None => [] | Some ids => ids end)
                                       r = true) catalog)
      by (apply find_partial_matches_returns_iff; eauto).
    destruct (partial_loop_spec user_ingredients filters min_match_threshold _
                catalog Hread []) as (entries & Hloop & Hentries).
    pose proof (find_partial_matches_candidates _ _ _ _ _ _ Hres) as Hcand.
    unfold recipe_search.find_partial_matches in Hres. rewrite Hloop in Hres.
    cbn [bind app] in Hres. inversion Hres; subst. clear Hres.
    exists entries. repeat split; try assumption.
    + apply sort_desc_perm.
    + apply sort_desc_sorted.
    + eapply Forall_impl; [| exact Hcand].
      intros p (ings & _ & _ & Hrange). exact Hrange.
Qed.

(** ** C4: the fallback from threshold 50 to threshold 25 *)

(** C4.  If [find_partial_matches] returns no candidate at threshold 50 and
    at least one at threshold 25, then [generate_shopping_suggestions] with
    [has_matches = True] and [top_n >= 1] returns a non-empty list, and
    every ingredient it suggests is a missing ingredient of one of the
    threshold-25 candidates. *)
Theorem suggestions_fall_back_to_threshold_25 (user_ingredients : list string)
  (catalog : list Recipe.t) (filters : option Filters.t) (top_n : Z)
  (exclude_ids : option (list Z)) (candidates : list PartialMatch.t) :
  1 <= top_n ->
  recipe_search.find_partial_matches user_ingredients catalog filters 50 exclude_ids
  = Ok [] ->
  recipe_search.find_partial_matches user_ingredients catalog filters 25 exclude_ids
  = Ok candidates ->
  candidates <> [] ->
  exists suggestions,
    recipe_search.generate_shopping_suggestions user_ingredients catalog filters
      top_n true exclude_ids = Ok suggestions
    /\ suggestions <> []
    /\ forall s, In s suggestions ->
         exists c, In c candidates
           /\ In (Suggestion.name s) (PartialMatch.missing_ingredients c).
Proof.
  intros Hn H50 H25 Hne.
  assert (Hcands : recipe_search.candidate_recipes user_ingredients catalog filters true
                     (match exclude_ids with None => [] | Some ids => ids end)
                   = Ok candidates).
  { unfold recipe_search.candidate_recipes.
    rewrite !find_partial_matches_exclude, H50. cbn [bind]. exact H25. }
  assert (Hmiss : flat_map PartialMatch.missing_ingredients candidates <> []).
  { apply find_partial_matches_candidates in H25.
    destruct candidates as [| c candidates]; [contradiction|].
    apply Forall_inv in H25. apply partial_candidate_missing in H25; [| lia].
    cbn. destruct (PartialMatch.missing_ingredients c); [contradiction | discriminate]. }
  destruct (suggestions_nonempty _ _ _ top_n _ _ _ Hcands Hn Hmiss)
    as (suggestions & Hgen & Hnonempty).
  exists suggestions. repeat split; try assumption.
  intros s Hs.
  destruct (suggestions_count_occurrences _ _ _ _ _ _ _ _ Hcands Hgen s Hs) as (Hin & _).
  apply in_flat_map in Hin as (c & Hc & Hing). eauto.
Qed.

Lemma suggestions_fall_back_to_threshold_25_witness :
  1 <= 5
  /\ recipe_search.find_partial_matches ["milk"] [omelette] None 50 None = Ok []
  /\ recipe_search.find_partial_matches ["milk"] [omelette] None 25 None
     = Ok [omelette_candidate]
  /\ [omelette_candidate] <> []
  /\ exists suggestions,
       recipe_search.generate_shopping_suggestions ["milk"] [omelette] None 5 true None
       = Ok suggestions
       /\ suggestions <> []
       /\ forall s, In s suggestions ->
            exists c, In c [omelette_candidate]
              /\ In (Suggestion.name s) (PartialMatch.missing_ingredients c).
Proof.
  assert (Hn : 1 <= 5) by lia.
  assert (H50 : recipe_search.find_partial_matches ["milk"] [omelette] None 50 None = Ok [])
    by (vm_compute; reflexivity).
  assert (H25 : recipe_search.find_partial_matches ["milk"] [omelette] None 25 None
                = Ok [omelette_candidate]) by (vm_compute; reflexivity).
  assert (Hne : [omelette_candidate] <> []) by discriminate.
  repeat (split; [assumption|]).
  exact (suggestions_fall_back_to_threshold_25 ["milk"] [omelette] None 5 None
           [omelette_candidate] Hn H50 H25 Hne).
Defined.

(** ** C5: the unlock count *)

(** C5, on the failing input.  The catalog holds one recipe, "Omelette",
    whose ingredient list names egg twice; the user owns milk.  The recipe
    is the only candidate (33.3%, threshold 25) and is one recipe that
    misses egg, yet the suggestion for egg has [unlock_count = 2] and lists
    "Omelette" twice. *)
Theorem unlock_count_counts_a_repeated_ingredient_twice :
  recipe_search.candidate_recipes ["milk"] [omelette] None true []
  = Ok [omelette_candidate]
  /\ recipes_missing "egg" [omelette_candidate] = 1
  /\ names_of_recipes_missing "egg" [omelette_candidate] = ["Omelette"]
  /\ recipe_search.generate_shopping_suggestions ["milk"] [omelette] None 5 true None
     = Ok [ {| Suggestion.name := "egg";
               Suggestion.unlock_count := 2;
               Suggestion.recipe_names := ["Omelette"; "Omelette"] |} ].
Proof. vm_compute. repeat split. Qed.

(** What the code computes in general, and where it meets the claim: every
    returned suggestion counts the occurrences of its ingredient in the
    candidates' missing lists, which is the number of candidate recipes
    missing it when no candidate repeats a missing ingredient. *)
Lemma unlock_count_without_repeats (user : list string) (recipes : list Recipe.t)
  (filters : option Filters.t) (top_n : Z) (has_matches : bool)
  (exclude_ids : option (list Z)) (candidates : list PartialMatch.t)
  (suggestions : list Suggestion.t) :
  recipe_search.candidate_recipes user recipes filters has_matches
    (match exclude_ids with None => [] | Some ids => ids end) = Ok candidates ->
  recipe_search.generate_shopping_suggestions user recipes filters top_n has_matches
    exclude_ids = Ok suggestions ->
  Forall (fun c => NoDup (PartialMatch.missing_ingredients c)) candidates ->
  forall s, In s suggestions ->
    Suggestion.unlock_count s = recipes_missing (Suggestion.name s) candidates
    /\ Suggestion.recipe_names s = names_of_recipes_missing (Suggestion.name s) candidates.
Proof.
  intros Hcands Hgen Hnd s Hs.
  destruct (suggestions_count_occurrences _ _ _ _ _ _ _ _ Hcands Hgen s Hs)
    as (_ & Hcount & Hnames).
  destruct (occurrences_without_repeats (Suggestion.name s) candidates Hnd) as [Hn Hr].
  split; congruence.
Qed.

(** ** C6: the two copies of the filter evaluator *)

(** C6, on the failing input.  For the recipe [{'total_time': 30}] and the
    criteria [{'max_time': 0}] the script's [passes_filters] answers True
    (a falsy option is skipped) and the query handler's [_passes_filters]
    answers False (30 > 0): the two copies disagree. *)
Theorem filter_copies_disagree_on_zero_max_time :
  recipe_search.passes_filters half_hour_recipe (Some zero_time_filter) = true
  /\ query_handlers._passes_filters half_hour_recipe zero_time_filter = false.
Proof. split; reflexivity. Qed.

(** ** C7: AND-composition of the filter options *)

(** C7.  For every recipe and every criteria dictionary with at least two
    active options, [passes_filters] on the whole dictionary is the
    conjunction of [passes_filters] on each active option taken alone,
    whatever the order in which the options are enumerated. *)
Theorem passes_filters_and_composition (r : Recipe.t) (criteria : Filters.t)
  (options : list option_key) :
  (2 <= List.length (active_options criteria))%nat ->
  Permutation options (active_options criteria) ->
  recipe_search.passes_filters r (Some criteria)
  = forallb (fun k => recipe_search.passes_filters r (Some (only criteria k))) options.
Proof.
  intros _ Hperm. apply passes_filters_covering. intros k Hk.
  apply (Permutation_in _ (Permutation_sym Hperm)).
  unfold active_options. apply filter_In. split; [| assumption].
  destruct k; cbn; auto.
Qed.

Lemma passes_filters_and_composition_witness :
  (2 <= List.length (active_options quick_and_easy))%nat
  /\ Permutation [SkillLevel; MaxTime] (active_options quick_and_easy)
  /\ recipe_search.passes_filters half_hour_recipe (Some quick_and_easy)
     = forallb (fun k => recipe_search.passes_filters half_hour_recipe
                           (Some (only quick_and_easy k)))
               [SkillLevel; MaxTime].
Proof.
  assert (H2 : (2 <= List.length (active_options quick_and_easy))%nat)
    by (vm_compute; lia).
  assert (Hp : Permutation [SkillLevel; MaxTime] (active_options quick_and_easy))
    by (vm_compute; apply perm_swap).
  repeat (split; [assumption|]).
  exact (passes_filters_and_composition half_hour_recipe quick_and_easy
           [SkillLevel; MaxTime] H2 Hp).
Defined.

(** ** C9: malformed catalog entries *)

(** C9, counterexample.  On the catalog [[{'ingredients': ['salt']}]],
    whose single entry lacks [id] and [name], [search_recipes] raises
    [KeyError('id')] when the user owns salt: it does not return a result
    list for every catalog. *)
Lemma search_recipes_raises_on_an_entry_without_id :
  recipe_search.search_recipes ["salt"] [anonymous_recipe] None
  = Raise (KeyError "id")
  /\ ~ (forall user catalog filters,
          exists results, recipe_search.search_recipes user catalog filters = Ok results).
Proof.
  assert (H : recipe_search.search_recipes ["salt"] [anonymous_recipe] None
              = Raise (KeyError "id")) by (vm_compute; reflexivity).
  split; [exact H|].
  intros Hall. destruct (Hall ["salt"] [anonymous_recipe] None) as (results & Hres).
  rewrite H in Hres. discriminate Hres.
Qed.

(** C9, as amended.  For every catalog, [search_recipes] returns a
    (possibly empty) result list without raising exactly when every entry
    that passes the filters has [ingredients] and, if its percentage is
    above 0, [id] and [name]; in particular whenever all entries carry
    [id], [name] and [ingredients], whatever optional fields they lack.
    Every returned entry comes from a catalog recipe with its absent
    optional fields defaulted: times and servings to 0, skill level and
    cuisine to "unknown", dietary tags and equipment to the empty list. *)
Theorem search_recipes_defaults_optional_fields (user_ingredients : list string)
  (catalog : list Recipe.t) (filters : option Filters.t) :
  ((exists results,
      recipe_search.search_recipes user_ingredients catalog filters = Ok results)
   <-> Forall (fun r => search_readable user_ingredients filters r = true) catalog)
  /\ (Forall (fun r => has_required_fields r = true) catalog ->
      exists results,
        recipe_search.search_recipes user_ingredients catalog filters = Ok results)
  /\ (forall results,
        recipe_search.search_recipes user_ingredients catalog filters = Ok results ->
        Forall (fun s => exists r, In r catalog
                           /\ Recipe.id r = Some (SearchResult.id s)
                           /\ Recipe.name r = Some (SearchResult.name s)
                           /\ defaults_applied r s)
          results).
Proof.
  split; [apply search_recipes_returns_iff|]. split.
  - intros Hwf. apply search_recipes_returns_iff.
    eapply Forall_impl; [| exact Hwf].
    intros r. apply has_required_fields_search_readable.
  - intros results Hres.
    destruct (search_recipes_entries _ _ _ _ Hres) as (entries & Hentries & ->).
    rewrite sort_desc_perm. apply Forall2_filter_source in Hentries.
    eapply Forall_impl; [| exact Hentries].
    intros s (r & Hin & _ & Hrs). exists r.
    apply search_entry_of_fields in Hrs as (Hid & Hname & _ & _ & _ & Hdef). auto.
Qed.

(** ** C10: falsy option values *)

(** C10.  [passes_filters] treats a falsy option value as an absent option:
    removing every option whose value is 0, the empty string or the empty
    list from the criteria does not change its verdict, and a dictionary
    that holds only such a value passes every recipe; in particular
    [{'max_time': 0}] passes whatever the recipe's [total_time]. *)
Theorem passes_filters_ignores_falsy_options (r : Recipe.t) :
  (forall criteria,
     recipe_search.passes_filters r (Some criteria)
     = recipe_search.passes_filters r (Some (drop_falsy criteria)))
  /\ recipe_search.passes_filters r (Some zero_time_filter) = true
  /\ recipe_search.passes_filters r
       (Some {| Filters.max_time := None; Filters.skill_level := Some "";
                Filters.dietary_tags := None; Filters.cuisine := None |}) = true
  /\ recipe_search.passes_filters r
       (Some {| Filters.max_time := None; Filters.skill_level := None;
                Filters.dietary_tags := Some []; Filters.cuisine := None |}) = true
  /\ recipe_search.passes_filters r
       (Some {| Filters.max_time := None; Filters.skill_level := None;
                Filters.dietary_tags := None; Filters.cuisine := Some "" |}) = true.
Proof.
  split; [intros criteria; symmetry; apply passes_filters_drop_falsy|].
  repeat split.
Qed.

(* ================================================================== *)
(** * Part IV: further properties of the code *)
(* ================================================================== *)

(** ** Characters and text helpers *)

Lemma lower_ascii_idempotent (c : ascii) : lower_ascii (lower_ascii c) = lower_ascii c.
Proof. destruct c as [[] [] [] [] [] [] [] []]; reflexivity. Qed.

Lemma is_space_lower_ascii (c : ascii) : is_space (lower_ascii c) = is_space c.
Proof. destruct c as [[] [] [] [] [] [] [] []]; reflexivity. Qed.

Lemma lower_ascii_comma (c : ascii) : lower_ascii c = comma -> c = comma.
Proof. destruct c as [[] [] [] [] [] [] [] []]; cbv; congruence. Qed.

Lemma lower_ascii_newline (c : ascii) : lower_ascii c = newline -> c = newline.
Proof. destruct c as [[] [] [] [] [] [] [] []]; cbv; congruence. Qed.

Lemma lower_chars (s : string) :
  list_ascii_of_string (lower s) = map lower_ascii (list_ascii_of_string s).
Proof. induction s as [| c s IH]; cbn; [reflexivity | now rewrite IH]. Qed.

Lemma lower_idempotent (s : string) : lower (lower s) = lower s.
Proof.
  induction s as [| c s IH]; cbn; [reflexivity|].
  now rewrite lower_ascii_idempotent, IH.
Qed.

Lemma chars_inj (s t : string) :
  list_ascii_of_string s = list_ascii_of_string t -> s = t.
Proof.
  intros H. rewrite <- (string_of_list_ascii_of_string s), H.
  apply string_of_list_ascii_of_string.
Qed.

Lemma chars_append (s t : string) :
  list_ascii_of_string (s ++ t)%string
  = list_ascii_of_string s ++ list_ascii_of_string t.
Proof. induction s as [| c s IH]; cbn; [reflexivity | now rewrite IH]. Qed.

(** [lstrip_chars] removes a run of spaces at the front and nothing else. *)
Lemma lstrip_chars_split (cs : list ascii) :
  exists spaces,
    cs = spaces ++ lstrip_chars cs
    /\ forallb is_space spaces = true
    /\ (forall c rest, lstrip_chars cs = c :: rest -> is_space c = false).
Proof.
  induction cs as [| c cs (spaces & Heq & Hsp & Hhead)]; cbn.
  - exists []. repeat split. discriminate.
  - destruct (is_space c) eqn:Hc.
    + exists (c :: spaces). cbn. rewrite Hc, Hsp. repeat split; [now f_equal | assumption].
    + exists []. repeat split. intros c' rest Heq'. now inversion Heq'; subst.
Qed.

Lemma lstrip_chars_fixed (cs : list ascii) :
  (forall c rest, cs = c :: rest -> is_space c = false) -> lstrip_chars cs = cs.
Proof.
  destruct cs as [| c cs]; [reflexivity|]. intros H. cbn.
  now rewrite (H c cs eq_refl).
Qed.

Lemma lstrip_chars_idempotent (cs : list ascii) :
  lstrip_chars (lstrip_chars cs) = lstrip_chars cs.
Proof.
  destruct (lstrip_chars_split cs) as (_ & _ & _ & Hhead).
  now apply lstrip_chars_fixed.
Qed.

Lemma lstrip_chars_spaces (spaces cs : list ascii) :
  forallb is_space spaces = true -> lstrip_chars (spaces ++ cs) = lstrip_chars cs.
Proof.
  induction spaces as [| c spaces IH]; [reflexivity|].
  cbn. intros H. apply andb_prop in H as [Hc Hrest]. rewrite Hc. auto.
Qed.

Lemma lstrip_chars_map_lower (cs : list ascii) :
  lstrip_chars (map lower_ascii cs) = map lower_ascii (lstrip_chars cs).
Proof.
  induction cs as [| c cs IH]; [reflexivity|].
  cbn. rewrite is_space_lower_ascii. destruct (is_space c); [assumption | reflexivity].
Qed.

Lemma strip_chars_map_lower (cs : list ascii) :
  strip_chars (map lower_ascii cs) = map lower_ascii (strip_chars cs).
Proof.
  unfold strip_chars.
  now rewrite lstrip_chars_map_lower, <- map_rev, lstrip_chars_map_lower, map_rev.
Qed.

Lemma strip_chars_trimmed (cs : list ascii) : trimmed (strip_chars cs).
Proof.
  unfold trimmed, strip_chars. rewrite rev_involutive, lstrip_chars_idempotent.
  split; [| reflexivity].
  destruct (lstrip_chars_split cs) as (_ & _ & _ & Hhead).
  destruct (lstrip_chars_split (rev (lstrip_chars cs))) as (spaces & Heq & _ & _).
  set (a := lstrip_chars cs) in *. set (b := lstrip_chars (rev a)) in *.
  apply lstrip_chars_fixed. intros c rest Hc.
  assert (Ha : a = rev b ++ rev spaces).
  { rewrite <- rev_app_distr, <- Heq. symmetry. apply rev_involutive. }
  rewrite Hc in Ha. cbn in Ha. eapply Hhead. exact Ha.
Qed.

Lemma strip_chars_fixed (cs : list ascii) : trimmed cs -> strip_chars cs = cs.
Proof.
  intros [Hl Hr]. unfold strip_chars. now rewrite Hl, Hr, rev_involutive.
Qed.

Lemma strip_chars_incl (cs : list ascii) (c : ascii) :
  In c (strip_chars cs) -> In c cs.
Proof.
  unfold strip_chars. intros H. apply in_rev in H.
  destruct (lstrip_chars_split (rev (lstrip_chars cs))) as (sp1 & Heq1 & _).
  destruct (lstrip_chars_split cs) as (sp2 & Heq2 & _).
  rewrite Heq2. apply in_or_app. right. apply in_rev. rewrite Heq1.
  apply in_or_app. now right.
Qed.

Lemma strip_chars_leading_space (c : ascii) (cs : list ascii) :
  is_space c = true -> strip_chars (c :: cs) = strip_chars cs.
Proof. intros Hc. unfold strip_chars. cbn. now rewrite Hc. Qed.

Lemma strip_idempotent (s : string) : strip (strip s) = strip s.
Proof.
  unfold strip. rewrite list_ascii_of_string_of_list_ascii.
  f_equal. apply strip_chars_fixed, strip_chars_trimmed.
Qed.

Lemma strip_lower (s : string) : strip (lower s) = lower (strip s).
Proof.
  apply chars_inj. unfold strip.
  rewrite !lower_chars, !list_ascii_of_string_of_list_ascii.
  apply strip_chars_map_lower.
Qed.

Lemma lower_nonempty (s : string) : lower s = "" -> s = "".
Proof. destruct s; [reflexivity | discriminate]. Qed.

Lemma truthy_str_spec (s : string) : truthy_str s = true <-> s <> "".
Proof.
  unfold truthy_str. destruct (String.eqb_spec s ""); cbn; split; congruence.
Qed.

(** No piece of a split contains the separator. *)
Lemma split_chars_no_sep (sep : ascii) (cs piece : list ascii) :
  In piece (split_chars sep cs) -> ~ In sep piece.
Proof.
  revert piece. induction cs as [| c cs IH]; cbn; intros piece Hin.
  - destruct Hin as [<- | []]. auto.
  - destruct (Ascii.eqb_spec c sep) as [-> | Hne].
    + destruct Hin as [<- | Hin]; auto.
    + destruct (split_chars sep cs) as [| p ps]; cbn in Hin.
      * destruct Hin as [<- | []]. intros [H | []]. congruence.
      * destruct Hin as [<- | Hin].
        -- intros [H | H]; [congruence |]. apply (IH p); [now left | assumption].
        -- apply IH. now right.
Qed.

Lemma split_chars_nonempty (sep : ascii) (cs : list ascii) : split_chars sep cs <> [].
Proof.
  destruct cs as [| c cs]; cbn; [discriminate|].
  destruct (Ascii.eqb c sep); [discriminate|].
  destruct (split_chars sep cs); discriminate.
Qed.

(** Splitting a text that holds no separator gives the text itself; a
    separator ends the first piece. *)
Lemma split_chars_piece (sep : ascii) (piece rest : list ascii) :
  ~ In sep piece ->
  split_chars sep (piece ++ sep :: rest) = piece :: split_chars sep rest.
Proof.
  induction piece as [| c piece IH]; cbn; intros Hno.
  - now rewrite Ascii.eqb_refl.
  - destruct (Ascii.eqb_spec c sep) as [-> | Hne]; [exfalso; auto|].
    rewrite IH by auto. reflexivity.
Qed.

Lemma split_chars_whole (sep : ascii) (piece : list ascii) :
  ~ In sep piece -> split_chars sep piece = [piece].
Proof.
  induction piece as [| c piece IH]; cbn; intros Hno; [reflexivity|].
  destruct (Ascii.eqb_spec c sep) as [-> | Hne]; [exfalso; auto|].
  rewrite IH by auto. reflexivity.
Qed.

Lemma split_chars_incl (sep : ascii) (cs piece : list ascii) (c : ascii) :
  In piece (split_chars sep cs) -> In c piece -> In c cs.
Proof.
  revert piece. induction cs as [| c0 cs IH]; cbn; intros piece Hin Hc.
  - destruct Hin as [<- | []]. exact Hc.
  - destruct (Ascii.eqb c0 sep).
    + destruct Hin as [<- | Hin]; [destruct Hc | right; eauto].
    + destruct (split_chars sep cs) as [| p ps]; cbn in Hin.
      * destruct Hin as [<- | []]. destruct Hc as [-> | []]. now left.
      * destruct Hin as [<- | Hin].
        -- destruct Hc as [-> | Hc]; [now left | right; apply (IH p); [now left | exact Hc]].
        -- right. apply (IH piece); [now right | exact Hc].
Qed.

Lemma replace_char_chars (old new : ascii) (s : string) :
  list_ascii_of_string (replace_char old new s)
  = map (fun c => if Ascii.eqb c old then new else c) (list_ascii_of_string s).
Proof. unfold replace_char. apply list_ascii_of_string_of_list_ascii. Qed.

Lemma replace_char_removes (old new : ascii) (s : string) :
  new <> old -> ~ has_char old (replace_char old new s).
Proof.
  intros Hne. unfold has_char. rewrite replace_char_chars. intros H.
  apply in_map_iff in H as (c & Hc & _).
  destruct (Ascii.eqb_spec c old); congruence.
Qed.

Lemma replace_char_absent (old new : ascii) (s : string) :
  ~ has_char old s -> replace_char old new s = s.
Proof.
  intros Hno. apply chars_inj. rewrite replace_char_chars.
  unfold has_char in Hno. induction (list_ascii_of_string s) as [| c cs IH]; cbn.
  - reflexivity.
  - destruct (Ascii.eqb_spec c old) as [-> | _]; [exfalso; apply Hno; now left|].
    f_equal. apply IH. intros H. apply Hno. now right.
Qed.

Lemma has_char_append (c : ascii) (s t : string) :
  has_char c (s ++ t) <-> has_char c s \/ has_char c t.
Proof. unfold has_char. rewrite chars_append. apply in_app_iff. Qed.

Lemma split_in (sep : ascii) (s piece : string) :
  In piece (split sep s) ->
  ~ has_char sep piece /\ forall c, has_char c piece -> has_char c s.
Proof.
  unfold split, has_char. intros H. apply in_map_iff in H as (cs & <- & Hcs).
  rewrite list_ascii_of_string_of_list_ascii. split.
  - eapply split_chars_no_sep; eassumption.
  - intros c. eapply split_chars_incl; eassumption.
Qed.

Lemma strip_has_char (c : ascii) (s : string) : has_char c (strip s) -> has_char c s.
Proof.
  unfold has_char, strip. rewrite list_ascii_of_string_of_list_ascii.
  apply strip_chars_incl.
Qed.

Lemma lower_has_char (c : ascii) (s : string) :
  has_char c (lower s) -> exists c', has_char c' s /\ lower_ascii c' = c.
Proof.
  unfold has_char. rewrite lower_chars. intros H.
  apply in_map_iff in H as (c' & Hc' & Hin). eauto.
Qed.

(** What [parse_ingredients] keeps of a piece of the input. *)
Lemma raw_ingredients_in (raw x : string) :
  In x (recipe_search_io.raw_ingredients raw) <->
  exists ing,
    In ing (split comma (replace_char newline comma raw))
    /\ strip ing <> "" /\ x = lower (strip ing).
Proof.
  unfold recipe_search_io.raw_ingredients. rewrite in_map_iff. split.
  - intros (ing & <- & Hin). apply filter_In in Hin as [Hin Ht].
    apply truthy_str_spec in Ht. eauto.
  - intros (ing & Hin & Ht & ->). exists ing. split; [reflexivity|].
    apply filter_In. split; [assumption | now apply truthy_str_spec].
Qed.

Lemma raw_ingredients_normalised_in (raw x : string) :
  In x (recipe_search_io.raw_ingredients raw) -> normalised x.
Proof.
  intros H. apply raw_ingredients_in in H as (ing & Hin & Ht & ->).
  apply split_in in Hin as [Hsep Hsub].
  repeat split.
  - intros H. apply lower_nonempty in H. contradiction.
  - now rewrite strip_lower, strip_idempotent.
  - apply lower_idempotent.
  - intros H. apply lower_has_char in H as (c & Hc & Hlow).
    apply lower_ascii_comma in Hlow. subst c.
    apply Hsep. now apply strip_has_char.
  - intros H. apply lower_has_char in H as (c & Hc & Hlow).
    apply lower_ascii_newline in Hlow. subst c.
    apply strip_has_char, Hsub in Hc.
    revert Hc. apply replace_char_removes. discriminate.
Qed.

Lemma join_has_char (c : ascii) (sep : string) (parts : list string) :
  has_char c (join sep parts) ->
  has_char c sep \/ exists part, In part parts /\ has_char c part.
Proof.
  induction parts as [| x rest IH]; cbn.
  - intros [].
  - destruct rest as [| y rest].
    + intros H. right. exists x. split; [now left | assumption].
    + intros H. apply has_char_append in H as [H | H].
      * right. exists x. split; [now left | assumption].
      * apply has_char_append in H as [H | H]; [now left|].
        destruct (IH H) as [Hsep | (part & Hin & Hc)]; [now left|].
        right. exists part. split; [now right | assumption].
Qed.

(** Splitting a [", "]-joined text gives the parts back, each but the first
    behind one space. *)
Lemma split_chars_join (x : string) (rest : list string) :
  Forall (fun y => ~ has_char comma y) (x :: rest) ->
  split_chars comma (list_ascii_of_string (join ", " (x :: rest)))
  = list_ascii_of_string x
    :: map (fun y => " "%char :: list_ascii_of_string y) rest.
Proof.
  revert x. induction rest as [| y rest IH]; intros x Hno.
  - cbn. apply split_chars_whole. now inversion Hno.
  - change (join ", " (x :: y :: rest))
      with (x ++ ", " ++ join ", " (y :: rest))%string.
    rewrite chars_append.
    change (list_ascii_of_string (", " ++ join ", " (y :: rest)))
      with (comma :: " "%char :: list_ascii_of_string (join ", " (y :: rest))).
    inversion Hno as [| ? ? Hx Hrest]; subst.
    rewrite split_chars_piece by exact Hx.
    f_equal.
    change (split_chars comma (" "%char :: ?l))
      with (match split_chars comma l with
            | piece :: pieces => (" "%char :: piece) :: pieces
            | [] => [[" "%char]]
            end).
    now rewrite (IH y Hrest).
Qed.

Lemma split_join (x : string) (rest : list string) :
  Forall (fun y => ~ has_char comma y) (x :: rest) ->
  split comma (join ", " (x :: rest)) = x :: map (String " "%char) rest.
Proof.
  intros Hno. unfold split. rewrite (split_chars_join x rest Hno). cbn [map].
  rewrite string_of_list_ascii_of_string. f_equal.
  rewrite map_map. apply map_ext. intros y. cbn.
  now rewrite string_of_list_ascii_of_string.
Qed.

Lemma strip_leading_space (s : string) : strip (String " "%char s) = strip s.
Proof.
  unfold strip. cbn [list_ascii_of_string].
  now rewrite strip_chars_leading_space.
Qed.

(** Parsing the [", "]-joined text of normalised ingredients gives them
    back. *)
Lemma raw_ingredients_join (xs : list string) :
  Forall normalised xs ->
  recipe_search_io.raw_ingredients (join ", " xs) = xs.
Proof.
  intros Hn. unfold recipe_search_io.raw_ingredients.
  rewrite replace_char_absent.
  2:{ intros H. apply join_has_char in H as [H | (x & Hin & Hc)].
      - cbv in H. destruct H as [H | [H | []]]; discriminate.
      - rewrite Forall_forall in Hn. destruct (Hn x Hin) as (_ & _ & _ & _ & Hnl).
        contradiction. }
  destruct xs as [| x rest]; [reflexivity|].
  rewrite split_join.
  2:{ eapply Forall_impl; [| exact Hn]. intros y (_ & _ & _ & Hc & _). exact Hc. }
  inversion Hn as [| ? ? (Hne & Hs & Hl & _) Hrest]; subst.
  cbn [filter map]. rewrite Hs.
  destruct (truthy_str x) eqn:Ht; [| apply truthy_str_spec in Hne; congruence].
  cbn [map]. rewrite Hs, Hl. f_equal.
  clear -Hrest. induction Hrest as [| y rest (Hne & Hs & Hl & _) _ IH]; [reflexivity|].
  cbn [filter map]. rewrite strip_leading_space, Hs.
  destruct (truthy_str y) eqn:Ht; [| apply truthy_str_spec in Hne; congruence].
  cbn [map]. rewrite strip_leading_space, Hs, Hl. now f_equal.
Qed.

Lemma lstrip_chars_nil (cs : list ascii) :
  lstrip_chars cs = [] <-> forallb is_space cs = true.
Proof.
  split.
  - intros H. destruct (lstrip_chars_split cs) as (spaces & Heq & Hsp & _).
    rewrite H, app_nil_r in Heq. now rewrite Heq.
  - intros H. rewrite <- (app_nil_r cs). now rewrite lstrip_chars_spaces.
Qed.

Lemma forallb_rev {A} (p : A -> bool) (l : list A) :
  forallb p (rev l) = forallb p l.
Proof.
  induction l as [| x l IH]; [reflexivity|].
  cbn. rewrite forallb_app, IH. cbn. rewrite andb_true_r. apply andb_comm.
Qed.

Lemma strip_chars_nil (cs : list ascii) :
  strip_chars cs = [] <-> forallb is_space cs = true.
Proof.
  unfold strip_chars. split.
  - intros H. apply (f_equal (@rev ascii)) in H. rewrite rev_involutive in H.
    cbn in H. apply lstrip_chars_nil in H. rewrite forallb_rev in H.
    destruct (lstrip_chars_split cs) as (_ & _ & _ & Hhead).
    destruct (lstrip_chars cs) as [| c rest] eqn:Hl.
    + now apply lstrip_chars_nil.
    + cbn in H. rewrite (Hhead c rest eq_refl) in H. discriminate.
  - intros H. apply lstrip_chars_nil in H. now rewrite H.
Qed.

Lemma strip_empty (s : string) :
  strip s = "" <-> forall c, has_char c s -> is_space c = true.
Proof.
  unfold strip, has_char. rewrite <- forallb_forall, <- strip_chars_nil.
  split.
  - intros H. apply (f_equal list_ascii_of_string) in H.
    now rewrite list_ascii_of_string_of_list_ascii in H.
  - intros H. now rewrite H.
Qed.

(** Every character of a text is the separator or lies in a piece. *)
Lemma split_chars_cover (sep : ascii) (cs : list ascii) (c : ascii) :
  In c cs -> c = sep \/ exists piece, In piece (split_chars sep cs) /\ In c piece.
Proof.
  induction cs as [| c0 cs IH]; cbn; [intros []|].
  intros [-> | Hin].
  - destruct (Ascii.eqb_spec c sep) as [-> | Hne]; [now left | right].
    destruct (split_chars sep cs) as [| p ps].
    + exists [c]. split; now left.
    + exists (c :: p). split; now left.
  - destruct (IH Hin) as [-> | (piece & Hp & Hc)]; [now left | right].
    destruct (Ascii.eqb c0 sep).
    + exists piece. split; [now right | assumption].
    + destruct (split_chars sep cs) as [| p ps]; [destruct Hp|].
      destruct Hp as [-> | Hp].
      * exists (c0 :: piece). split; [now left | now right].
      * exists piece. split; [now right | assumption].
Qed.

Lemma split_cover (sep : ascii) (s : string) (c : ascii) :
  has_char c s -> c = sep \/ exists piece, In piece (split sep s) /\ has_char c piece.
Proof.
  unfold has_char, split. intros H.
  destruct (split_chars_cover sep _ c H) as [-> | (piece & Hp & Hc)]; [now left | right].
  exists (string_of_list_ascii piece). split.
  - apply in_map_iff. eauto.
  - now rewrite list_ascii_of_string_of_list_ascii.
Qed.

Lemma replace_char_has_char (old new c : ascii) (s : string) :
  has_char c (replace_char old new s) <->
  (c <> old /\ has_char c s) \/ (c = new /\ has_char old s).
Proof.
  unfold has_char. rewrite replace_char_chars, in_map_iff. split.
  - intros (c' & Hc' & Hin). destruct (Ascii.eqb_spec c' old) as [Heq | Hne].
    + right. subst. now split.
    + left. subst. now split.
  - intros [[Hne Hin] | [-> Hin]].
    + exists c. split; [| assumption]. destruct (Ascii.eqb_spec c old); congruence.
    + exists old. split; [| assumption]. now rewrite Ascii.eqb_refl.
Qed.

Lemma is_space_newline : is_space newline = true.
Proof. reflexivity. Qed.

(** ** [parse_ingredients] *)

(** X1 - [parse_ingredients], without a master list, returns normalised
    ingredients only: none is empty, none has leading or trailing
    whitespace, none has an upper-case letter, and none contains a comma
    or a line feed. *)
Theorem raw_ingredients_normalised (raw_input : string) :
  Forall normalised (recipe_search_io.raw_ingredients raw_input).
Proof.
  apply Forall_forall. intros x. apply raw_ingredients_normalised_in.
Qed.

(** X2 - Round trip: joining the parsed ingredients with [", "], as [main]
    does for display, and parsing the text again gives the same list. *)
Theorem raw_ingredients_round_trip (raw_input : string) :
  recipe_search_io.raw_ingredients
    (join ", " (recipe_search_io.raw_ingredients raw_input))
  = recipe_search_io.raw_ingredients raw_input.
Proof.
  apply raw_ingredients_join. apply Forall_forall.
  intros x. apply raw_ingredients_normalised_in.
Qed.

(** X3 - [parse_ingredients] returns the empty list exactly for the inputs
    made of whitespace and commas only (the empty input among them). *)
Theorem raw_ingredients_empty_iff (raw_input : string) :
  recipe_search_io.raw_ingredients raw_input = []
  <-> forall c, has_char c raw_input -> is_space c = true \/ c = comma.
Proof.
  split.
  - intros Hnil c Hc.
    destruct (Ascii.eqb_spec c newline) as [-> | Hne]; [left; reflexivity|].
    assert (Hc' : has_char c (replace_char newline comma raw_input)).
    { apply replace_char_has_char. left. now split. }
    apply (split_cover comma) in Hc' as [-> | (piece & Hp & Hcp)]; [now right | left].
    destruct (String.eqb_spec (strip piece) "") as [He | Hne'].
    + rewrite strip_empty in He. now apply He.
    + assert (Hin : In (lower (strip piece))
                       (recipe_search_io.raw_ingredients raw_input)).
      { apply raw_ingredients_in. eauto. }
      rewrite Hnil in Hin. destruct Hin.
  - intros Hall.
    destruct (recipe_search_io.raw_ingredients raw_input) as [| x rest] eqn:Hp;
      [reflexivity | exfalso].
    assert (Hin : In x (recipe_search_io.raw_ingredients raw_input))
      by (rewrite Hp; now left).
    apply raw_ingredients_in in Hin as (ing & Hin & Hne & _).
    apply Hne, strip_empty. intros c Hc.
    apply split_in in Hin as [Hsep Hsub].
    assert (Hcomma : c <> comma) by (intros ->; contradiction).
    apply Hsub, replace_char_has_char in Hc as [[_ Hc] | [Hc _]]; [| contradiction].
    destruct (Hall c Hc) as [Hs | Hs]; [assumption | contradiction].
Qed.

(** ** [fuzzy_match_ingredient] and the validation loop of [parse_ingredients] *)

Lemma validate_invariant (extractOne : string -> list string -> option (string * Z))
  (P : list string -> recipe_search_io.parse_state -> Prop)
  (master : list string) (interactive : bool) :
  (forall done st x st',
      P done st ->
      recipe_search_io.validate_step extractOne master interactive st x = Some st' ->
      P (done ++ [x]) st') ->
  forall l done st st',
    P done st ->
    recipe_search_io.validate extractOne master interactive l st = Some st' ->
    P (done ++ l) st'.
Proof.
  intros Hstep. induction l as [| x l IH]; cbn; intros done st st' HP Hv.
  - rewrite app_nil_r. now inversion Hv; subst.
  - destruct (recipe_search_io.validate_step extractOne master interactive st x)
      as [st1 |] eqn:Hs; [| discriminate].
    replace (done ++ x :: l) with ((done ++ [x]) ++ l) by now rewrite <- app_assoc.
    eapply IH; [| exact Hv]. eapply Hstep; eassumption.
Qed.

Lemma read_line_spec (st : recipe_search_io.parse_state) (line : string)
  (st' : recipe_search_io.parse_state) :
  recipe_search_io.read_line st = Some (line, st') ->
  recipe_search_io.cleaned st' = recipe_search_io.cleaned st
  /\ recipe_search_io.fuzzy_report st' = recipe_search_io.fuzzy_report st
  /\ recipe_search_io.unread st = line :: recipe_search_io.unread st'.
Proof.
  unfold recipe_search_io.read_line, recipe_search_io.input.
  destruct (recipe_search_io.unread st) as [| l rest] eqn:Hu; [discriminate|].
  intros H. inversion H; subst. cbn. auto.
Qed.

Lemma read_line_some (st : recipe_search_io.parse_state) :
  recipe_search_io.unread st <> [] ->
  exists line st', recipe_search_io.read_line st = Some (line, st').
Proof.
  unfold recipe_search_io.read_line, recipe_search_io.input.
  destruct (recipe_search_io.unread st) as [| l rest]; [congruence|]. eauto.
Qed.

Lemma perm_insert {A} (x : A) (l1 l2 done : list A) :
  Permutation (l1 ++ l2) done -> Permutation (l1 ++ x :: l2) (done ++ [x]).
Proof.
  intros H. rewrite <- Permutation_middle, <- Permutation_cons_append.
  now constructor.
Qed.

Lemma accounted_add_exact (raw_ing matched : string) (st : recipe_search_io.parse_state)
  (done : list string) :
  Permutation (accounted (recipe_search_io.fuzzy_report st)) done ->
  Permutation
    (accounted (recipe_search_io.fuzzy_report (recipe_search_io.add_exact raw_ing matched st)))
    (done ++ [raw_ing]).
Proof.
  unfold accounted. cbn. rewrite <- app_assoc. cbn. apply perm_insert.
Qed.

Lemma accounted_add_fuzzy (raw_ing matched : string) (score : Z) (confirmed : bool)
  (st : recipe_search_io.parse_state) (done : list string) :
  Permutation (accounted (recipe_search_io.fuzzy_report st)) done ->
  Permutation
    (accounted (recipe_search_io.fuzzy_report
                  (recipe_search_io.add_fuzzy raw_ing matched score confirmed st)))
    (done ++ [raw_ing]).
Proof.
  unfold accounted. cbn. intros H. rewrite map_app, <- app_assoc. cbn.
  rewrite app_assoc. apply perm_insert. now rewrite <- app_assoc.
Qed.

Lemma accounted_add_unmatched (raw_ing : string) (st : recipe_search_io.parse_state)
  (done : list string) :
  Permutation (accounted (recipe_search_io.fuzzy_report st)) done ->
  Permutation
    (accounted (recipe_search_io.fuzzy_report (recipe_search_io.add_unmatched raw_ing st)))
    (done ++ [raw_ing]).
Proof.
  unfold accounted. cbn. intros H. rewrite !app_assoc.
  apply Permutation_app_tail. now rewrite <- app_assoc.
Qed.

Lemma files_one_exact (interactive : bool) (x matched : string)
  (st : recipe_search_io.parse_state) :
  files_one interactive x st (recipe_search_io.add_exact x matched st).
Proof.
  repeat split.
  - intros done. apply accounted_add_exact.
  - cbn. rewrite length_app. cbn. lia.
  - cbn. auto.
  - exists []. cbn. repeat split. lia.
Qed.

Lemma files_one_fuzzy (interactive : bool) (x matched : string) (score : Z)
  (confirmed : bool) (st : recipe_search_io.parse_state) :
  files_one interactive x st
    (recipe_search_io.add_fuzzy x matched score confirmed st).
Proof.
  repeat split.
  - intros done. apply accounted_add_fuzzy.
  - cbn. rewrite length_app. cbn. lia.
  - cbn. intros Hi. rewrite map_app. cbn. destruct confirmed.
    + apply incl_app; [apply incl_appl; exact Hi | apply incl_appr, incl_refl].
    + apply incl_appl. exact Hi.
  - exists []. cbn. repeat split. lia.
Qed.

Lemma files_one_unmatched (interactive : bool) (x : string)
  (st : recipe_search_io.parse_state) :
  files_one interactive x st (recipe_search_io.add_unmatched x st).
Proof.
  repeat split.
  - intros done. apply accounted_add_unmatched.
  - cbn. lia.
  - cbn. auto.
  - exists []. cbn. repeat split. lia.
Qed.

(** Reading a line, or keeping the ingredient as typed, before or after the
    filing does not change what is filed. *)
Lemma files_one_after_read (x line : string)
  (st st1 st' : recipe_search_io.parse_state) :
  recipe_search_io.read_line st = Some (line, st1) ->
  files_one true x st1 st' -> recipe_search_io.unread st1 = recipe_search_io.unread st' ->
  files_one true x st st'.
Proof.
  intros Hr (Hp & Hc & Hi & _) Hu. apply read_line_spec in Hr as (Rc & Rr & Ru).
  rewrite Rc, Rr in *. repeat split; try assumption.
  exists [line]. rewrite Ru, Hu. cbn. repeat split; [lia | discriminate].
Qed.

Lemma not_recognized_spec (interactive : bool) (x : string)
  (st st' : recipe_search_io.parse_state) :
  recipe_search_io.not_recognized interactive x st = Some st' ->
  files_one interactive x st st'.
Proof.
  unfold recipe_search_io.not_recognized. destruct interactive.
  - destruct (recipe_search_io.read_line (recipe_search_io.add_unmatched x st))
      as [[keep st1] |] eqn:Hr; [| discriminate].
    apply read_line_spec in Hr as (Rc & Rr & Ru). cbn in Rc, Rr, Ru.
    destruct (files_one_unmatched true x st) as (Hp & _ & Hi & _). cbn in Hp, Hi.
    intros H.
    assert (Hst' : recipe_search_io.fuzzy_report st' = recipe_search_io.fuzzy_report st1
                   /\ recipe_search_io.unread st' = recipe_search_io.unread st1
                   /\ (List.length (recipe_search_io.cleaned st')
                       <= S (List.length (recipe_search_io.cleaned st1)))%nat).
    { destruct (recipe_search_io.said_yes keep);
        inversion H; subst; cbn; rewrite ?length_app; cbn; repeat split; lia. }
    destruct Hst' as (Hr' & Hu' & Hc').
    repeat split.
    + rewrite Hr', Rr. exact Hp.
    + rewrite Rc in Hc'. exact Hc'.
    + rewrite Hr', Rr. exact Hi.
    + exists [keep]. rewrite Hu', Ru. cbn. repeat split; [lia | discriminate].
  - intros H. inversion H; subst. apply files_one_unmatched.
Qed.

Lemma validate_step_spec (extractOne : string -> list string -> option (string * Z))
  (master : list string) (interactive : bool)
  (st st' : recipe_search_io.parse_state) (x : string) :
  recipe_search_io.validate_step extractOne master interactive st x = Some st' ->
  files_one interactive x st st'.
Proof.
  unfold recipe_search_io.validate_step.
  destruct (FuzzyMatch.match_ _) as [matched |]; [| apply not_recognized_spec].
  destruct (truthy_str matched); [| apply not_recognized_spec].
  destruct (FuzzyMatch.score _ =? 100).
  { intros H. inversion H; subst. apply files_one_exact. }
  destruct (FuzzyMatch.needs_confirmation _); cbn [andb].
  2:{ intros H. inversion H; subst. apply files_one_fuzzy. }
  destruct interactive.
  2:{ intros H. inversion H; subst. apply files_one_fuzzy. }
  destruct (recipe_search_io.read_line st) as [[confirmation st1] |] eqn:Hr;
    [| discriminate].
  destruct (recipe_search_io.said_yes confirmation); intros H; inversion H; subst.
  - eapply files_one_after_read; [exact Hr | apply files_one_fuzzy | reflexivity].
  - eapply files_one_after_read; [exact Hr | apply files_one_unmatched | reflexivity].
Qed.

Lemma not_recognized_returns (interactive : bool) (x : string)
  (st : recipe_search_io.parse_state) :
  interactive = false \/ recipe_search_io.unread st <> [] ->
  exists st', recipe_search_io.not_recognized interactive x st = Some st'.
Proof.
  unfold recipe_search_io.not_recognized. intros [-> | Hu]; [eauto|].
  destruct interactive; [| eauto].
  destruct (read_line_some (recipe_search_io.add_unmatched x st) Hu)
    as (line & st1 & ->).
  destruct (recipe_search_io.said_yes line); eauto.
Qed.

Lemma validate_step_returns (extractOne : string -> list string -> option (string * Z))
  (master : list string) (interactive : bool)
  (st : recipe_search_io.parse_state) (x : string) :
  interactive = false \/ recipe_search_io.unread st <> [] ->
  exists st', recipe_search_io.validate_step extractOne master interactive st x = Some st'.
Proof.
  intros Hu. unfold recipe_search_io.validate_step.
  destruct (FuzzyMatch.match_ _) as [matched |]; [| now apply not_recognized_returns].
  destruct (truthy_str matched); [| now apply not_recognized_returns].
  destruct (FuzzyMatch.score _ =? 100); [eauto|].
  destruct (FuzzyMatch.needs_confirmation _); cbn [andb]; [| eauto].
  destruct interactive; [| eauto].
  destruct Hu as [Hu | Hu]; [discriminate|].
  destruct (read_line_some st Hu) as (line & st1 & ->).
  destruct (recipe_search_io.said_yes line); eauto.
Qed.

Lemma validate_returns (extractOne : string -> list string -> option (string * Z))
  (master : list string) (interactive : bool) (l : list string) :
  forall st,
    interactive = false \/ (List.length l <= List.length (recipe_search_io.unread st))%nat ->
    exists st', recipe_search_io.validate extractOne master interactive l st = Some st'.
Proof.
  induction l as [| x l IH]; intros st Hu; cbn; [eauto|].
  destruct (validate_step_returns extractOne master interactive st x) as (st1 & Hs).
  { destruct Hu as [Hu | Hu]; [now left | right].
    cbn in Hu. destruct (recipe_search_io.unread st); [cbn in Hu; lia | discriminate]. }
  rewrite Hs. apply IH.
  destruct Hu as [Hu | Hu]; [now left | right].
  apply validate_step_spec in Hs as (_ & _ & _ & consumed & Hc & Hlen & _).
  rewrite Hc, length_app in Hu. cbn in Hu. lia.
Qed.

(** What the validation loop has established once it has processed the
    ingredients [done]. *)
Lemma validate_spec (extractOne : string -> list string -> option (string * Z))
  (master : list string) (interactive : bool) (l : list string)
  (st0 st' : recipe_search_io.parse_state) :
  recipe_search_io.cleaned st0 = [] ->
  recipe_search_io.fuzzy_report st0 = recipe_search_io.empty_report ->
  recipe_search_io.validate extractOne master interactive l st0 = Some st' ->
  Permutation (accounted (recipe_search_io.fuzzy_report st')) l
  /\ (List.length (recipe_search_io.cleaned st') <= List.length l)%nat
  /\ incl (FuzzyReport.user_confirmations (recipe_search_io.fuzzy_report st'))
          (map FuzzyReport.original
               (FuzzyReport.fuzzy_matches (recipe_search_io.fuzzy_report st')))
  /\ exists consumed,
       recipe_search_io.unread st0 = consumed ++ recipe_search_io.unread st'
       /\ (List.length consumed <= List.length l)%nat
       /\ (interactive = false -> consumed = []).
Proof.
  intros Hc0 Hr0 Hv.
  apply (validate_invariant extractOne
           (fun done st =>
              Permutation (accounted (recipe_search_io.fuzzy_report st)) done
              /\ (List.length (recipe_search_io.cleaned st) <= List.length done)%nat
              /\ incl (FuzzyReport.user_confirmations (recipe_search_io.fuzzy_report st))
                      (map FuzzyReport.original
                           (FuzzyReport.fuzzy_matches (recipe_search_io.fuzzy_report st)))
              /\ exists consumed,
                   recipe_search_io.unread st0 = consumed ++ recipe_search_io.unread st
                   /\ (List.length consumed <= List.length done)%nat
                   /\ (interactive = false -> consumed = []))
           master interactive) with (done := []) (l := l) (st := st0) (st' := st').
  - intros done st x st1 (Hp & Hc & Hi & consumed & Hu & Hlen & Hni) Hs.
    apply validate_step_spec in Hs as (Hp' & Hc' & Hi' & consumed' & Hu' & Hlen' & Hni').
    rewrite length_app. cbn. repeat split; auto; try lia.
    exists (consumed ++ consumed'). rewrite <- app_assoc, <- Hu', length_app.
    repeat split; [assumption | lia |].
    intros Hf. now rewrite Hni, Hni'.
  - rewrite Hc0, Hr0. cbn. repeat split; auto.
    + apply incl_refl.
    + exists []. repeat split. cbn. lia.
  - exact Hv.
Qed.

(** X4 - [parse_ingredients] with a master list, for every behaviour of the
    fuzzy-matching library.  It returns when the run is not interactive or
    when the standard input holds one line per ingredient.  What it returns
    accounts for every parsed ingredient exactly once (as exact match, as
    fuzzy match or as unmatched), keeps at most one cleaned ingredient per
    parsed one, lists the confirmed ingredients among the fuzzy matches, and
    has read at most one line per ingredient, none when not interactive. *)
Theorem parse_ingredients_accounts_for_every_ingredient
  (extractOne : string -> list string -> option (string * Z))
  (raw_input : string) (master_ingredients : list string)
  (interactive : bool) (stdin : list string) :
  let raw_ingredients := recipe_search_io.raw_ingredients raw_input in
  (interactive = false \/ (List.length raw_ingredients <= List.length stdin)%nat ->
   exists returned,
     recipe_search_io.parse_ingredients extractOne raw_input
       (Some master_ingredients) interactive stdin = Some returned)
  /\ (forall cleaned fuzzy_report rest,
        recipe_search_io.parse_ingredients extractOne raw_input
          (Some master_ingredients) interactive stdin
        = Some (cleaned, fuzzy_report, rest) ->
        exists report,
          fuzzy_report = Some report
          /\ Permutation (accounted report) raw_ingredients
          /\ (List.length cleaned <= List.length raw_ingredients)%nat
          /\ incl (FuzzyReport.user_confirmations report)
                  (map FuzzyReport.original (FuzzyReport.fuzzy_matches report))
          /\ exists consumed,
               stdin = consumed ++ rest
               /\ (List.length consumed <= List.length raw_ingredients)%nat
               /\ (interactive = false -> consumed = [])).
Proof.
  intros raw_ingredients. unfold recipe_search_io.parse_ingredients.
  fold raw_ingredients. split.
  - intros Hu.
    destruct (validate_returns extractOne master_ingredients interactive raw_ingredients
                {| recipe_search_io.cleaned := [];
                   recipe_search_io.fuzzy_report := recipe_search_io.empty_report;
                   recipe_search_io.unread := stdin |} Hu) as (st' & ->).
    eauto.
  - intros cleaned fuzzy_report rest.
    destruct (recipe_search_io.validate _ _ _ _ _) as [st' |] eqn:Hv; [| discriminate].
    intros H. inversion H; subst. eexists. split; [reflexivity|].
    apply validate_spec in Hv; [exact Hv | reflexivity | reflexivity].
Qed.

Lemma validate_step_exact (extractOne : string -> list string -> option (string * Z))
  (master : list string) (interactive : bool)
  (st : recipe_search_io.parse_state) (x : string) :
  contains master x = true -> lower x = x -> x <> "" ->
  recipe_search_io.validate_step extractOne master interactive st x
  = Some (recipe_search_io.add_exact x x st).
Proof.
  intros Hin Hl Hne. unfold recipe_search_io.validate_step,
    recipe_search_io.fuzzy_match_ingredient.
  rewrite Hl, Hin. cbn.
  apply truthy_str_spec in Hne. now rewrite Hne.
Qed.

Lemma validate_all_exact (extractOne : string -> list string -> option (string * Z))
  (master : list string) (interactive : bool) (l : list string) :
  Forall (fun x => contains master x = true /\ lower x = x /\ x <> "") l ->
  forall cleaned exact fuzzy unmatched confirmations unread,
    recipe_search_io.validate extractOne master interactive l
      {| recipe_search_io.cleaned := cleaned;
         recipe_search_io.fuzzy_report :=
           {| FuzzyReport.exact_matches := exact;
              FuzzyReport.fuzzy_matches := fuzzy;
              FuzzyReport.unmatched := unmatched;
              FuzzyReport.user_confirmations := confirmations |};
         recipe_search_io.unread := unread |}
    = Some {| recipe_search_io.cleaned := cleaned ++ l;
              recipe_search_io.fuzzy_report :=
                {| FuzzyReport.exact_matches := exact ++ l;
                   FuzzyReport.fuzzy_matches := fuzzy;
                   FuzzyReport.unmatched := unmatched;
                   FuzzyReport.user_confirmations := confirmations |};
              recipe_search_io.unread := unread |}.
Proof.
  induction 1 as [| x l (Hin & Hl & Hne) _ IH]; intros; cbn.
  - now rewrite !app_nil_r.
  - rewrite validate_step_exact by assumption.
    unfold recipe_search_io.add_exact. cbn. rewrite IH, <- !app_assoc. reflexivity.
Qed.

(** X5 - If every parsed ingredient is in the master list, then
    [parse_ingredients] accepts them all as exact matches, in order,
    whatever the fuzzy-matching library would answer, and asks nothing:
    the standard input is left untouched, also in interactive mode. *)
Theorem parse_ingredients_known_ingredients
  (extractOne : string -> list string -> option (string * Z))
  (raw_input : string) (master_ingredients : list string)
  (interactive : bool) (stdin : list string) :
  Forall (fun x => contains master_ingredients x = true)
         (recipe_search_io.raw_ingredients raw_input) ->
  recipe_search_io.parse_ingredients extractOne raw_input
    (Some master_ingredients) interactive stdin
  = Some (recipe_search_io.raw_ingredients raw_input,
          Some (all_exact (recipe_search_io.raw_ingredients raw_input)),
          stdin).
Proof.
  intros Hknown. unfold recipe_search_io.parse_ingredients,
    recipe_search_io.empty_report.
  rewrite validate_all_exact; [reflexivity|].
  apply Forall_forall. intros x Hx.
  destruct (raw_ingredients_normalised_in raw_input x Hx) as (Hne & _ & Hl & _).
  rewrite Forall_forall in Hknown. auto.
Qed.

Lemma parse_ingredients_known_ingredients_witness :
  Forall (fun x => contains ["bread"; "eggs"] x = true)
         (recipe_search_io.raw_ingredients "Eggs, Bread")
  /\ recipe_search_io.parse_ingredients no_suggestion "Eggs, Bread"
       (Some ["bread"; "eggs"]) true []
     = Some (recipe_search_io.raw_ingredients "Eggs, Bread",
             Some (all_exact (recipe_search_io.raw_ingredients "Eggs, Bread")),
             []).
Proof.
  split.
  - vm_compute. repeat constructor.
  - apply (parse_ingredients_known_ingredients no_suggestion "Eggs, Bread"
             ["bread"; "eggs"] true []).
    vm_compute. repeat constructor.
Defined.

(** ** [build_master_ingredient_list] *)

Lemma contains_in (xs : list string) (x : string) :
  contains xs x = true <-> In x xs.
Proof.
  unfold contains. rewrite existsb_exists. split.
  - intros (y & Hy & Heq). apply String.eqb_eq in Heq. now subst.
  - intros H. exists x. split; [assumption | apply String.eqb_refl].
Qed.

Lemma contains_not_in (xs : list string) (x : string) :
  contains xs x = false <-> ~ In x xs.
Proof.
  rewrite <- contains_in. destruct (contains xs x); split; congruence.
Qed.

Lemma contains_id_in (xs : list Z) (x : Z) :
  contains_id xs x = true <-> In x xs.
Proof.
  unfold contains_id. rewrite existsb_exists. split.
  - intros (y & Hy & Heq). apply Z.eqb_eq in Heq. now subst.
  - intros H. exists x. split; [assumption | apply Z.eqb_refl].
Qed.

Lemma set_add_in (x y : string) (s : list string) :
  In y (set_add x s) <-> y = x \/ In y s.
Proof.
  unfold set_add. destruct (contains s x) eqn:Hc.
  - apply contains_in in Hc. split; [auto | intros [-> | H]; assumption].
  - rewrite in_app_iff. cbn. split; [intros [H | [H | []]]; auto | intros [-> | H]; auto].
Qed.

Lemma set_add_nodup (x : string) (s : list string) : NoDup s -> NoDup (set_add x s).
Proof.
  unfold set_add. destruct (contains s x) eqn:Hc; [auto|].
  intros H. apply contains_not_in in Hc.
  apply NoDup_rev in H. rewrite <- (rev_involutive (s ++ [x])), rev_app_distr.
  apply NoDup_rev. cbn. constructor; [| assumption]. now rewrite <- in_rev.
Qed.

Lemma add_ingredients_spec (ingredients master : list string) :
  let master' :=
    fold_left (fun master_ingredients ingredient =>
                 set_add (strip (lower ingredient)) master_ingredients)
              ingredients master in
  (NoDup master -> NoDup master')
  /\ forall x, In x master' <->
       In x master \/ exists ingredient, In ingredient ingredients
                                         /\ x = strip (lower ingredient).
Proof.
  revert master. induction ingredients as [| i l IH]; intros master; cbn.
  - split; [auto|]. intros x. split; [auto | intros [H | (? & [] & _)]; exact H].
  - destruct (IH (set_add (strip (lower i)) master)) as [Hnd Hin]. split.
    + intros H. apply Hnd, set_add_nodup, H.
    + intros x. rewrite Hin, set_add_in. split.
      * intros [[-> | H] | (ing & Hing & ->)]; eauto.
      * intros [H | (ing & [<- | Hing] & ->)]; eauto.
Qed.

Lemma build_master_spec (recipes : list Recipe.t) (master : list string) :
  let master' :=
    fold_left
      (fun master_ingredients recipe =>
         fold_left
           (fun master_ingredients ingredient =>
              set_add (strip (lower ingredient)) master_ingredients)
           (get (Recipe.ingredients recipe) []) master_ingredients)
      recipes master in
  (NoDup master -> NoDup master')
  /\ forall x, In x master' <->
       In x master
       \/ exists recipe ingredient,
            In recipe recipes
            /\ In ingredient (get (Recipe.ingredients recipe) [])
            /\ x = strip (lower ingredient).
Proof.
  revert master. induction recipes as [| r l IH]; intros master; cbn.
  - split; [auto|]. intros x. split; [auto | intros [H | (? & ? & [] & _)]; exact H].
  - destruct (add_ingredients_spec (get (Recipe.ingredients r) []) master) as [Hnd1 Hin1].
    cbn in Hnd1, Hin1.
    destruct (IH (fold_left
                    (fun master_ingredients ingredient =>
                       set_add (strip (lower ingredient)) master_ingredients)
                    (get (Recipe.ingredients r) []) master)) as [Hnd Hin].
    split; [auto|].
    intros x. rewrite Hin, Hin1. split.
    + intros [[H | (ing & Hing & ->)] | (r' & ing & Hr & Hing & ->)]; eauto 8.
    + intros [H | (r' & ing & [<- | Hr] & Hing & ->)]; eauto 8.
Qed.

(** X6 - The master list is the set of the catalog's ingredients in lower
    case and without surrounding whitespace: it holds exactly those, each
    once.  A recipe without the key [ingredients] contributes nothing and
    raises nothing. *)
Theorem build_master_ingredient_list_spec (recipes : list Recipe.t) :
  NoDup (recipe_search_io.build_master_ingredient_list recipes)
  /\ forall x,
       In x (recipe_search_io.build_master_ingredient_list recipes)
       <-> exists recipe ingredient,
             In recipe recipes
             /\ In ingredient (get (Recipe.ingredients recipe) [])
             /\ x = strip (lower ingredient).
Proof.
  destruct (build_master_spec recipes []) as [Hnd Hin]. cbn in Hnd, Hin.
  split; [apply Hnd; constructor|].
  intros x. unfold recipe_search_io.build_master_ingredient_list.
  rewrite Hin. split; [intros [[] | H]; exact H | auto].
Qed.

(** ** A full score *)

Lemma half_even_below (n d k : Z) :
  0 <= n -> 0 < d -> 2 * n < (2 * k + 1) * d -> Float64.half_even n d <= k.
Proof.
  intros Hn Hd Hk.
  destruct (Float64Facts.half_even_spec n d Hn Hd)
    as (Hdm & Hr & Hq & [[-> H] | [-> H]]); nia.
Qed.

(** A float below [k + 1/2] tenths rounds to [k] tenths at most. *)
Lemma round1_below (y : spec_float) (M E k : Z) :
  Float64.repr64 y M E ->
  20 * (M * 2 ^ (E + 1074)) < (2 * k + 1) * 2 ^ 1074 ->
  Float64.round1 y <= k.
Proof.
  intros Hy H. assert (Hp : 0 < 2 ^ 1074) by (now apply Float64Facts.pow2_pos).
  assert (HM : 0 <= M /\ -1074 <= E) by (destruct Hy as (_ & ? & ? & _); lia).
  destruct (Float64Facts.round1_repr y M E Hy) as [(HE0 & -> & Hu) | (HE0 & -> & Hu)].
  - rewrite Hu in H. assert (0 < 2 ^ E) by (now apply Float64Facts.pow2_pos). nia.
  - assert (0 < 2 ^ (E + 1074)) by (apply Float64Facts.pow2_pos; lia).
    assert (0 < 2 ^ (- E)) by (apply Float64Facts.pow2_pos; lia).
    apply half_even_below; try lia. rewrite Hu in H. nia.
Qed.

(** With at most 1999 ingredients, one missing ingredient keeps the score
    under 100. *)
Lemma round_percentage_below_full (a b : nat) :
  (a < b)%nat -> (b <= 1999)%nat -> recipe_search.round_percentage a b <= 999.
Proof.
  intros Hab Hb. destruct (Nat.eq_dec a 0) as [-> | Ha].
  - rewrite PercentageFacts.round_percentage_no_match. lia.
  - rewrite PercentageFacts.round_percentage_unfold by lia.
    destruct (PercentageFacts.percentage_float_sandwich a b 0 (-22) 4192206 (-22))
      as (M & E & Hrepr & Hbnd);
      try lia; try (change (2 ^ 48) with 281474976710656; lia);
      try (change (2 ^ (- -22)) with 4194304; lia).
    apply (round1_below _ M E); [assumption|].
    destruct Hbnd as [_ Hbnd]. change (-22 + 2 + 1074) with (1054) in Hbnd.
    replace (2 ^ 1074) with (2 ^ 20 * 2 ^ 1054)
      by (rewrite <- Float64Facts.pow2_split by lia; reflexivity).
    change (2 ^ 20) with 1048576.
    assert (0 < 2 ^ 1054) by (apply Float64Facts.pow2_pos; lia). lia.
Qed.

Lemma round_percentage_full_iff (a b : nat) :
  (a <= b)%nat -> (b <= 1999)%nat ->
  (recipe_search.round_percentage a b = 1000 <-> (0 < b)%nat /\ a = b).
Proof.
  intros Hab Hb. split.
  - intros H. destruct (Nat.eq_dec b 0) as [-> | Hb0]; [cbn in H; lia|].
    split; [lia|]. destruct (Nat.eq_dec a b) as [| Hne]; [assumption|].
    pose proof (round_percentage_below_full a b ltac:(lia) Hb). lia.
  - intros [Hb0 ->]. now apply PercentageFacts.round_percentage_full.
Qed.

(** X7 - For a recipe of at most 1999 ingredients, the match percentage is
    100 exactly when the recipe has an ingredient and none is missing.
    (Beyond that size the float rounding breaks the equivalence: 1999
    owned ingredients of 2000 already round to 100.0.) *)
Theorem calculate_match_full_score_iff (recipe_ingredients user_ingredients : list string) :
  (List.length recipe_ingredients <= 1999)%nat ->
  let md := recipe_search.calculate_match recipe_ingredients user_ingredients in
  MatchData.percentage md = 1000
  <-> recipe_ingredients <> [] /\ MatchData.missing md = [].
Proof.
  intros Hlen md. unfold md. rewrite calculate_match_percentage.
  pose proof (calculate_match_lengths recipe_ingredients user_ingredients) as Hl.
  rewrite round_percentage_full_iff by lia. split.
  - intros [Hpos Heq]. split.
    + destruct recipe_ingredients; [cbn in Hpos; lia | discriminate].
    + apply length_zero_iff_nil. lia.
  - intros [Hne Hmiss]. rewrite Hmiss in Hl. cbn in Hl. split; [| lia].
    destruct recipe_ingredients; [congruence | cbn; lia].
Qed.

Lemma calculate_match_full_score_iff_witness :
  (List.length ["bread"; "cheese"; "butter"] <= 1999)%nat
  /\ (MatchData.percentage
        (recipe_search.calculate_match ["bread"; "cheese"; "butter"]
                                       ["butter"; "bread"; "cheese"]) = 1000
      <-> ["bread"; "cheese"; "butter"] <> []
          /\ MatchData.missing
               (recipe_search.calculate_match ["bread"; "cheese"; "butter"]
                                              ["butter"; "bread"; "cheese"]) = []).
Proof.
  split.
  - cbn. lia.
  - apply (calculate_match_full_score_iff ["bread"; "cheese"; "butter"]
             ["butter"; "bread"; "cheese"]).
    cbn. lia.
Defined.

(** 1999 owned ingredients of 2000 round to 100.0. *)
Example one_missing_in_two_thousand : recipe_search.round_percentage 1999 2000 = 1000.
Proof. vm_compute. reflexivity. Qed.

(** ** Matching is exact on the user's side *)

Lemma lowered_in_lower_case_only (user : list string) (x : string) :
  lower x = x -> contains (lower_case_only user) x = contains user x.
Proof.
  intros Hx. apply eq_true_iff_eq. rewrite !contains_in. unfold lower_case_only.
  rewrite filter_In. split; [tauto|]. intros H. split; [assumption|].
  rewrite Hx. apply String.eqb_refl.
Qed.

(** X8 - [calculate_match] lowers the recipe's ingredients but not the
    user's: a user ingredient that is not written in lower case matches
    nothing, so that the result is the one for the lower-case user
    ingredients alone. *)
Theorem calculate_match_ignores_user_ingredients_not_in_lower_case
  (recipe_ingredients user_ingredients : list string) :
  recipe_search.calculate_match recipe_ingredients user_ingredients
  = recipe_search.calculate_match recipe_ingredients (lower_case_only user_ingredients).
Proof.
  rewrite !calculate_match_eq. unfold query_handlers._calculate_match.
  assert (Hm : filter (contains (lower_case_only user_ingredients))
                      (map lower recipe_ingredients)
               = filter (contains user_ingredients) (map lower recipe_ingredients)).
  { apply filter_ext_in. intros x Hx. apply in_map_iff in Hx as (i & <- & _).
    apply lowered_in_lower_case_only, lower_idempotent. }
  assert (Hn : filter (fun ing => negb (contains (lower_case_only user_ingredients) ing))
                      (map lower recipe_ingredients)
               = filter (fun ing => negb (contains user_ingredients ing))
                        (map lower recipe_ingredients)).
  { apply filter_ext_in. intros x Hx. apply in_map_iff in Hx as (i & <- & _).
    f_equal. apply lowered_in_lower_case_only, lower_idempotent. }
  now rewrite Hm, Hn.
Qed.

(** X9 - The master list strips the catalog's ingredients, [calculate_match]
    does not.  A recipe ingredient written with leading or trailing
    whitespace is therefore a known ingredient (its stripped form is in the
    master list) that no stripped user ingredient ever matches: it is
    always reported missing. *)
Theorem padded_ingredient_is_known_but_always_missing
  (recipes : list Recipe.t) (recipe : Recipe.t)
  (ingredients user_ingredients : list string) (ingredient : string) :
  In recipe recipes ->
  Recipe.ingredients recipe = Some ingredients ->
  In ingredient ingredients ->
  strip (lower ingredient) <> lower ingredient ->
  Forall (fun x => strip x = x) user_ingredients ->
  contains (recipe_search_io.build_master_ingredient_list recipes)
           (strip (lower ingredient)) = true
  /\ In (lower ingredient)
        (MatchData.missing (recipe_search.calculate_match ingredients user_ingredients)).
Proof.
  intros Hr Hings Hin Hpad Huser. split.
  - apply contains_in.
    destruct (build_master_spec recipes []) as [_ Hm]. cbn in Hm.
    apply Hm. right. exists recipe, ingredient. rewrite Hings. auto.
  - rewrite calculate_match_missing. apply filter_In. split.
    + now apply in_map.
    + apply negb_true_iff, contains_not_in. intros Hu.
      rewrite Forall_forall in Huser. specialize (Huser _ Hu). contradiction.
Qed.

Lemma padded_ingredient_is_known_but_always_missing_witness :
  In toast [toast]
  /\ Recipe.ingredients toast = Some ["Bread "; "butter"]
  /\ In "Bread " ["Bread "; "butter"]
  /\ strip (lower "Bread ") <> lower "Bread "
  /\ Forall (fun x => strip x = x) ["bread"; "butter"]
  /\ contains (recipe_search_io.build_master_ingredient_list [toast])
              (strip (lower "Bread ")) = true
  /\ In (lower "Bread ")
        (MatchData.missing
           (recipe_search.calculate_match ["Bread "; "butter"] ["bread"; "butter"])).
Proof.
  assert (H1 : In toast [toast]) by (now left).
  assert (H2 : Recipe.ingredients toast = Some ["Bread "; "butter"]) by reflexivity.
  assert (H3 : In "Bread " ["Bread "; "butter"]) by (now left).
  assert (H4 : strip (lower "Bread ") <> lower "Bread ") by (vm_compute; discriminate).
  assert (H5 : Forall (fun x => strip x = x) ["bread"; "butter"])
    by (repeat constructor).
  split; [exact H1 | split; [exact H2 | split; [exact H3 | split; [exact H4 |
    split; [exact H5 |]]]]].
  exact (padded_ingredient_is_known_but_always_missing [toast] toast
           ["Bread "; "butter"] ["bread"; "butter"] "Bread " H1 H2 H3 H4 H5).
Defined.

(** ** The suggestions shown after a search *)

Lemma Forall2_in_left {A B} (R : A -> B -> Prop) (l : list A) (l' : list B) (a : A) :
  Forall2 R l l' -> In a l -> exists b, In b l' /\ R a b.
Proof.
  induction 1 as [| x y l l' Hxy _ IH]; [intros []|].
  intros [<- | Hin].
  - exists y. split; [now left | assumption].
  - destruct (IH Hin) as (b & Hb & HR). exists b. split; [now right | assumption].
Qed.

(** Every recipe a search keeps has its [id] among the ids of the results. *)
Lemma search_keeps_shown (user : list string) (catalog : list Recipe.t)
  (filters : option Filters.t) (results : list SearchResult.t) (r : Recipe.t) :
  recipe_search.search_recipes user catalog filters = Ok results ->
  In r catalog -> search_keeps user filters r = true ->
  exists id, Recipe.id r = Some id
             /\ contains_id (recipe_search_io.shown_recipe_ids results) id = true.
Proof.
  intros Hs Hin Hk.
  destruct (search_recipes_entries user catalog filters results Hs)
    as (entries & Hf2 & ->).
  assert (Hin' : In r (filter (search_keeps user filters) catalog))
    by (apply filter_In; auto).
  destruct (Forall2_in_left _ _ _ r Hf2 Hin') as (s & Hs' & Hrs).
  apply search_entry_of_fields in Hrs as (Hid & _).
  exists (SearchResult.id s). split; [assumption|].
  apply contains_id_in. unfold recipe_search_io.shown_recipe_ids.
  apply in_map. eapply Permutation_in; [| exact Hs'].
  symmetry. apply sort_desc_perm.
Qed.

(** With the shown recipes excluded, one iteration of [find_partial_matches]
    appends nothing: it only reads the key [id]. *)
Lemma partial_step_after_search (user : list string) (filters : option Filters.t)
  (threshold : Z) (shown : list Z) (acc : list PartialMatch.t) (r : Recipe.t) :
  1 <= threshold ->
  search_readable user filters r = true ->
  (search_keeps user filters r = true ->
   exists id, Recipe.id r = Some id /\ contains_id shown id = true) ->
  recipe_search.partial_step user filters threshold shown acc r
  = if has_id r then Ok acc else Raise (KeyError "id").
Proof.
  intros Ht Hread Hshown.
  unfold recipe_search.partial_step, has_id, search_readable, search_keeps, match_of in *.
  destruct (Recipe.id r) as [id |]; cbn -[Z.mul]; [| reflexivity].
  destruct (contains_id shown id) eqn:Hc; [reflexivity|].
  destruct (recipe_search.passes_filters r filters); cbn -[Z.mul]; [| reflexivity].
  destruct (Recipe.ingredients r) as [ings |]; [| discriminate]. cbn -[Z.mul] in *.
  set (p := MatchData.percentage (recipe_search.calculate_match ings user)) in *.
  destruct ((10 * threshold <=? p) && (p <? 1000)) eqn:Hrange; [| reflexivity].
  exfalso. apply andb_prop in Hrange as [Hlo _]. apply Z.leb_le in Hlo.
  destruct Hshown as (id' & Hid & Hc'); [apply Z.ltb_lt; lia|].
  inversion Hid; subst. congruence.
Qed.

Lemma partial_loop_after_search (user : list string) (filters : option Filters.t)
  (threshold : Z) (shown : list Z) (catalog : list Recipe.t) (acc : list PartialMatch.t) :
  1 <= threshold ->
  Forall (fun r => search_readable user filters r = true) catalog ->
  (forall r, In r catalog -> search_keeps user filters r = true ->
             exists id, Recipe.id r = Some id /\ contains_id shown id = true) ->
  for_each (recipe_search.partial_step user filters threshold shown) catalog acc
  = if forallb has_id catalog then Ok acc else Raise (KeyError "id").
Proof.
  intros Ht Hread. induction Hread as [| r l Hr _ IH]; intros Hshown; cbn.
  - reflexivity.
  - rewrite partial_step_after_search; auto.
    2:{ intros Hk. apply Hshown; [now left | assumption]. }
    destruct (has_id r); cbn; [| reflexivity].
    apply IH. intros r' Hin. apply Hshown. now right.
Qed.

Lemma find_partial_matches_after_search (user : list string) (catalog : list Recipe.t)
  (filters : option Filters.t) (results : list SearchResult.t) (threshold : Z) :
  recipe_search.search_recipes user catalog filters = Ok results ->
  1 <= threshold ->
  recipe_search.find_partial_matches user catalog filters threshold
    (Some (recipe_search_io.shown_recipe_ids results))
  = if forallb has_id catalog then Ok [] else Raise (KeyError "id").
Proof.
  intros Hs Ht. unfold recipe_search.find_partial_matches.
  rewrite partial_loop_after_search; auto.
  - destruct (forallb has_id catalog); reflexivity.
  - apply search_recipes_returns_iff. eauto.
  - intros r Hin Hk. eapply search_keeps_shown; eassumption.
Qed.

(** X10 - The suggestion branch of [main] shows nothing.  After
    [search_recipes] has returned, [find_partial_matches] and the first
    strategy of [generate_shopping_suggestions], called as [main] calls them
    with the ids of the results excluded, return the empty list for every
    threshold of at least 1 percent and every [top_n], because a recipe that
    passes the filters with a positive percentage is among the results.
    The one other outcome is the [KeyError] for a catalog entry without
    [id], a key that the search itself reads only for the recipes it keeps. *)
Theorem suggestions_after_a_search_are_empty (user_ingredients : list string)
  (recipes : list Recipe.t) (filters : option Filters.t)
  (results : list SearchResult.t) (min_match_threshold top_n : Z) :
  recipe_search.search_recipes user_ingredients recipes filters = Ok results ->
  1 <= min_match_threshold ->
  let shown_recipe_ids := Some (recipe_search_io.shown_recipe_ids results) in
  recipe_search.find_partial_matches user_ingredients recipes filters
    min_match_threshold shown_recipe_ids
  = (if forallb has_id recipes then Ok [] else Raise (KeyError "id"))
  /\ recipe_search.generate_shopping_suggestions user_ingredients recipes filters
       top_n true shown_recipe_ids
     = (if forallb has_id recipes then Ok [] else Raise (KeyError "id")).
Proof.
  intros Hs Ht shown. unfold shown. split.
  - now apply find_partial_matches_after_search.
  - unfold recipe_search.generate_shopping_suggestions, recipe_search.candidate_recipes.
    rewrite (find_partial_matches_after_search _ _ _ _ 50 Hs) by lia.
    rewrite (find_partial_matches_after_search _ _ _ _ 25 Hs) by lia.
    destruct (forallb has_id recipes); cbn; [| reflexivity].
    unfold slice_to. destruct (top_n <? 0); now rewrite firstn_nil.
Qed.

Lemma suggestions_after_a_search_are_empty_witness :
  recipe_search.search_recipes ["soy sauce"; "garlic"; "oil"] sample_recipes None
  = Ok (match recipe_search.search_recipes ["soy sauce"; "garlic"; "oil"]
                sample_recipes None with
        | Ok results => results
        | Raise _ => []
        end)
  /\ 1 <= 50
  /\ recipe_search.generate_shopping_suggestions ["soy sauce"; "garlic"; "oil"]
       sample_recipes None 5 true
       (Some (recipe_search_io.shown_recipe_ids
                (match recipe_search.search_recipes ["soy sauce"; "garlic"; "oil"]
                         sample_recipes None with
                 | Ok results => results
                 | Raise _ => []
                 end)))
     = Ok [].
Proof.
  assert (H1 : recipe_search.search_recipes ["soy sauce"; "garlic"; "oil"]
                 sample_recipes None
               = Ok (match recipe_search.search_recipes ["soy sauce"; "garlic"; "oil"]
                             sample_recipes None with
                     | Ok results => results
                     | Raise _ => []
                     end)) by (vm_compute; reflexivity).
  assert (H2 : 1 <= 50) by lia.
  split; [exact H1 | split; [exact H2 |]].
  exact (proj2 (suggestions_after_a_search_are_empty ["soy sauce"; "garlic"; "oil"]
                  sample_recipes None _ 50 5 H1 H2)).
Defined.

(** ** The second strategy of [generate_shopping_suggestions] *)

Lemma all_step_spec (user : list string) (filters : option Filters.t)
  (exclude : list Z) (acc : list PartialMatch.t) (r : Recipe.t) :
  all_readable filters exclude r = true ->
  exists es,
    recipe_search.all_step user filters exclude acc r = Ok (acc ++ es)
    /\ Forall2 (partial_entry_of user) (filter (all_keeps filters exclude) [r]) es.
Proof.
  unfold all_readable, recipe_search.all_step. cbn [filter].
  unfold all_keeps, match_of.
  destruct (Recipe.id r) as [id |] eqn:Hid; [| discriminate].
  cbn [get subscript bind].
  destruct (contains_id exclude id); cbn [negb andb]; [intros _; nothing_appended|].
  destruct (recipe_search.passes_filters r filters); cbn [negb andb];
    [| intros _; nothing_appended].
  destruct (Recipe.ingredients r) as [ings |] eqn:Hings; [| discriminate].
  destruct (Recipe.name r) as [name |] eqn:Hname; [| discriminate].
  intros _. cbn [get subscript bind]. cbv zeta.
  unfold recipe_search.partial_entry at 1. rewrite Hname.
  cbn [subscript bind]. eexists. split; [reflexivity|]. constructor; [| constructor].
  exists id. split; [assumption|].
  unfold match_of, recipe_search.partial_entry. rewrite Hname, Hings. reflexivity.
Qed.

Lemma all_step_raises (user : list string) (filters : option Filters.t)
  (exclude : list Z) (acc : list PartialMatch.t) (r : Recipe.t) :
  all_readable filters exclude r = false ->
  exists e, recipe_search.all_step user filters exclude acc r = Raise e.
Proof.
  unfold all_readable, recipe_search.all_step.
  destruct (Recipe.id r) as [id |]; cbn [subscript bind]; [| eauto].
  destruct (contains_id exclude id); [discriminate|].
  destruct (recipe_search.passes_filters r filters); cbn [negb]; [| discriminate].
  destruct (Recipe.ingredients r) as [ings |]; cbn [subscript bind]; [| eauto].
  cbv zeta. unfold recipe_search.partial_entry.
  destruct (Recipe.name r) as [name |]; cbn [subscript bind]; [discriminate | eauto].
Qed.

Lemma all_loop_spec (user : list string) (filters : option Filters.t)
  (exclude : list Z) (catalog : list Recipe.t) :
  Forall (fun r => all_readable filters exclude r = true) catalog ->
  forall acc, exists es,
    for_each (recipe_search.all_step user filters exclude) catalog acc = Ok (acc ++ es)
    /\ Forall2 (partial_entry_of user) (filter (all_keeps filters exclude) catalog) es.
Proof.
  induction 1 as [| r catalog Hr Hrest IH]; intros acc.
  - nothing_appended.
  - destruct (all_step_spec user filters exclude acc r Hr) as (es1 & Hstep & Hes1).
    destruct (IH (acc ++ es1)) as (es2 & Hloop & Hes2).
    exists (es1 ++ es2). cbn [for_each]. rewrite Hstep. cbn [bind].
    rewrite Hloop, app_assoc. split; [reflexivity|].
    change (r :: catalog) with ([r] ++ catalog). rewrite filter_app.
    now apply Forall2_app.
Qed.

Lemma all_loop_returns (user : list string) (filters : option Filters.t)
  (exclude : list Z) (catalog : list Recipe.t) :
  forall acc res,
    for_each (recipe_search.all_step user filters exclude) catalog acc = Ok res ->
    Forall (fun r => all_readable filters exclude r = true) catalog.
Proof.
  induction catalog as [| r catalog IH]; intros acc res Hloop; [constructor|].
  cbn [for_each] in Hloop.
  destruct (all_readable filters exclude r) eqn:Hr.
  - destruct (recipe_search.all_step user filters exclude acc r)
      as [acc' |]; [| discriminate].
    constructor; [assumption | eapply IH; exact Hloop].
  - destruct (all_step_raises user filters exclude acc r Hr) as (e & He).
    rewrite He in Hloop. discriminate.
Qed.

(** X11 - The second strategy of [generate_shopping_suggestions]
    ([has_matches=False]) returns exactly when every catalog entry has its
    [id] and every entry that is neither excluded nor filtered out has its
    [ingredients] and [name].  Its candidates are then all those entries, in
    catalog order and whatever their match percentage, and every suggestion
    counts the occurrences of its ingredient in their missing lists. *)
Theorem suggestions_for_no_match_count_over_all_filtered_recipes
  (user_ingredients : list string) (recipes : list Recipe.t)
  (filters : option Filters.t) (top_n : Z) (exclude_ids : option (list Z)) :
  let excluded := match exclude_ids with None => [] | Some ids => ids end in
  (Forall (fun r => all_readable filters excluded r = true) recipes
   <-> exists suggestions,
         recipe_search.generate_shopping_suggestions user_ingredients recipes filters
           top_n false exclude_ids = Ok suggestions)
  /\ (forall suggestions,
        recipe_search.generate_shopping_suggestions user_ingredients recipes filters
          top_n false exclude_ids = Ok suggestions ->
        exists candidates,
          Forall2 (partial_entry_of user_ingredients)
                  (filter (all_keeps filters excluded) recipes) candidates
          /\ forall s, In s suggestions ->
               In (Suggestion.name s)
                  (flat_map PartialMatch.missing_ingredients candidates)
               /\ Suggestion.unlock_count s
                  = occurrences_missing (Suggestion.name s) candidates
               /\ Suggestion.recipe_names s
                  = names_at_occurrences (Suggestion.name s) candidates).
Proof.
  intros excluded. split; [split |].
  - intros Hall.
    destruct (all_loop_spec user_ingredients filters excluded recipes Hall [])
      as (cands & Hloop & _).
    unfold recipe_search.generate_shopping_suggestions, recipe_search.candidate_recipes.
    fold excluded. rewrite Hloop. cbn [bind]. eauto.
  - intros (suggestions & Hs).
    unfold recipe_search.generate_shopping_suggestions, recipe_search.candidate_recipes in Hs.
    fold excluded in Hs.
    destruct (for_each _ recipes []) as [cands |] eqn:Hloop; [| discriminate].
    eapply all_loop_returns. exact Hloop.
  - intros suggestions Hs.
    assert (Hc : exists candidates,
               recipe_search.candidate_recipes user_ingredients recipes filters false
                 excluded = Ok candidates).
    { unfold recipe_search.generate_shopping_suggestions in Hs. fold excluded in Hs.
      destruct (recipe_search.candidate_recipes _ _ _ _ _) as [c |]; [eauto | discriminate]. }
    destruct Hc as (candidates & Hc). exists candidates. split.
    + unfold recipe_search.candidate_recipes in Hc.
      pose proof (all_loop_returns _ _ _ _ _ _ Hc) as Hall.
      destruct (all_loop_spec user_ingredients filters excluded recipes Hall [])
        as (es & Hloop & Hes).
      rewrite Hloop in Hc. inversion Hc; subst. exact Hes.
    + eapply suggestions_count_occurrences; eassumption.
Qed.

(** ** The shape of the suggestions *)

Lemma slice_to_firstn {A} (l : list A) (n : Z) :
  exists k, slice_to l n = firstn k l.
Proof. unfold slice_to. destruct (n <? 0); eauto. Qed.

Lemma sorted_desc_firstn {A} (key : A -> Z) (k : nat) (l : list A) :
  sorted_desc key l -> sorted_desc key (firstn k l).
Proof.
  unfold sorted_desc. revert k. induction l as [| x l IH]; intros k H.
  - rewrite firstn_nil. constructor.
  - destruct k; [constructor|]. cbn. inversion H as [| ? ? Hs Hx]; subst.
    constructor; [now apply IH|].
    apply Forall_forall. intros y Hy. rewrite Forall_forall in Hx.
    apply Hx. rewrite <- (firstn_skipn k l). apply in_or_app. now left.
Qed.

Lemma NoDup_firstn_of {A} (k : nat) (l : list A) : NoDup l -> NoDup (firstn k l).
Proof.
  intros H. rewrite <- (firstn_skipn k l) in H. now apply NoDup_app_remove_r in H.
Qed.

Lemma impact_names (events : list (string * string)) (impact : dict Suggestion.t) :
  impact_inv events impact ->
  map Suggestion.name (dict_values impact) = map fst impact.
Proof.
  intros (_ & _ & Hsum). unfold dict_values. rewrite map_map.
  apply map_ext_in. intros [k s] Hin. cbn. now rewrite (Hsum k s Hin).
Qed.

Lemma impact_counts (events : list (string * string)) (impact : dict Suggestion.t)
  (s : Suggestion.t) :
  impact_inv events impact -> In s (dict_values impact) ->
  1 <= Suggestion.unlock_count s
  /\ Suggestion.unlock_count s = Z.of_nat (List.length (Suggestion.recipe_names s)).
Proof.
  intros (_ & Hkeys & Hsum) Hin. unfold dict_values in Hin.
  apply in_map_iff in Hin as ([k s'] & Heq & Hin). cbn in Heq. subst s'.
  rewrite (Hsum k s Hin). cbn. rewrite length_map. split; [| reflexivity].
  assert (Hk : In k (map snd events)).
  { apply Hkeys. apply in_map_iff. exists (k, s). auto. }
  apply in_map_iff in Hk as ([rn ing] & Heq & Hev). cbn in Heq. subst ing.
  assert (Hin' : In (rn, k) (events_of k events)).
  { unfold events_of. apply filter_In. split; [assumption | apply String.eqb_refl]. }
  destruct (events_of k events); [destruct Hin' | cbn; lia].
Qed.

(** X12 - Whatever [generate_shopping_suggestions] returns is a ranking: the
    suggestions are in non-increasing order of [unlock_count], no ingredient
    is suggested twice, there are at most [top_n] of them when [top_n] is not
    negative, and every suggestion has a positive [unlock_count] equal to
    the number of its [recipe_names]. *)
Theorem suggestions_are_a_ranking (user_ingredients : list string)
  (recipes : list Recipe.t) (filters : option Filters.t) (top_n : Z)
  (has_matches : bool) (exclude_ids : option (list Z))
  (suggestions : list Suggestion.t) :
  recipe_search.generate_shopping_suggestions user_ingredients recipes filters top_n
    has_matches exclude_ids = Ok suggestions ->
  sorted_desc Suggestion.unlock_count suggestions
  /\ NoDup (map Suggestion.name suggestions)
  /\ (0 <= top_n -> Z.of_nat (List.length suggestions) <= top_n)
  /\ Forall (fun s => 1 <= Suggestion.unlock_count s
                      /\ Suggestion.unlock_count s
                         = Z.of_nat (List.length (Suggestion.recipe_names s)))
            suggestions.
Proof.
  unfold recipe_search.generate_shopping_suggestions.
  destruct (recipe_search.candidate_recipes _ _ _ _ _) as [candidates |];
    [| discriminate].
  cbn [bind]. intros H. inversion H as [Hs]. clear H.
  pose proof (count_missing_inv candidates) as Hinv.
  set (impact := recipe_search.count_missing candidates) in *.
  set (sorted := sort_desc Suggestion.unlock_count (dict_values impact)).
  destruct (slice_to_firstn sorted top_n) as (k & Hk).
  repeat split.
  - rewrite Hk. apply sorted_desc_firstn, sort_desc_sorted.
  - rewrite Hk, <- firstn_map. apply NoDup_firstn_of.
    eapply Permutation_NoDup.
    + apply Permutation_map. symmetry. apply sort_desc_perm.
    + rewrite (impact_names _ _ Hinv). now destruct Hinv.
  - intros Hn. unfold slice_to.
    destruct (Z.ltb_spec top_n 0) as [Hneg | _]; [lia|].
    pose proof (firstn_le_length (Z.to_nat top_n) sorted). 
    assert (List.length (firstn (Z.to_nat top_n) sorted) <= Z.to_nat top_n)%nat
      by (rewrite length_firstn; lia).
    lia.
  - apply Forall_forall. intros s Hin.
    apply slice_to_incl in Hin.
    apply (impact_counts _ _ _ Hinv).
    eapply Permutation_in; [apply sort_desc_perm | exact Hin].
Qed.

Lemma suggestions_are_a_ranking_witness :
  let suggestions :=
    [ {| Suggestion.name := "eggs"; Suggestion.unlock_count := 2;
         Suggestion.recipe_names := ["Egg Rice"; "French Toast"] |} ] in
  recipe_search.generate_shopping_suggestions ["rice"; "bread"] three_recipes None 1
    true None
  = Ok suggestions
  /\ sorted_desc Suggestion.unlock_count suggestions
  /\ NoDup (map Suggestion.name suggestions)
  /\ (0 <= 1 -> Z.of_nat (List.length suggestions) <= 1)
  /\ Forall (fun s => 1 <= Suggestion.unlock_count s
                      /\ Suggestion.unlock_count s
                         = Z.of_nat (List.length (Suggestion.recipe_names s)))
            suggestions.
Proof.
  intros suggestions.
  assert (H : recipe_search.generate_shopping_suggestions ["rice"; "bread"]
                three_recipes None 1 true None
              = Ok suggestions)
    by (vm_compute; reflexivity).
  split; [exact H |].
  exact (suggestions_are_a_ranking ["rice"; "bread"] three_recipes None 1
           true None suggestions H).
Defined.

(** ** Partial matches and search results *)

Lemma partial_entry_of_fields (user : list string) (r : Recipe.t) (p : PartialMatch.t) :
  partial_entry_of user r p ->
  Recipe.id r = Some (PartialMatch.id p)
  /\ Recipe.name r = Some (PartialMatch.name p)
  /\ PartialMatch.match_percentage p = MatchData.percentage (match_of user r)
  /\ PartialMatch.matched_ingredients p = MatchData.matched (match_of user r)
  /\ PartialMatch.missing_ingredients p = MatchData.missing (match_of user r)
  /\ PartialMatch.total_time p = get (Recipe.total_time r) 0
  /\ PartialMatch.skill_level p = get (Recipe.skill_level r) "unknown"
  /\ PartialMatch.cuisine p = get (Recipe.cuisine r) "unknown".
Proof.
  intros (id & Hid & He). unfold recipe_search.partial_entry in He.
  destruct (Recipe.name r) as [name |]; [| discriminate].
  cbn in He. inversion He; subst. cbn. repeat split. assumption.
Qed.

Lemma find_partial_matches_sources (user : list string) (catalog : list Recipe.t)
  (filters : option Filters.t) (threshold : Z) (exclude : option (list Z))
  (partial : list PartialMatch.t) (p : PartialMatch.t) :
  recipe_search.find_partial_matches user catalog filters threshold exclude = Ok partial ->
  In p partial ->
  exists r, In r catalog
    /\ partial_keeps user filters threshold
         (match exclude with None => [] | Some ids => ids end) r = true
    /\ partial_entry_of user r p.
Proof.
  unfold recipe_search.find_partial_matches.
  set (excl := match exclude with None => [] | Some ids => ids end).
  destruct (for_each _ catalog []) as [es |] eqn:Hloop; [| discriminate].
  cbn [bind]. intros H Hin. inversion H; subst. clear H.
  pose proof (partial_loop_returns _ _ _ _ _ _ _ Hloop) as Hread.
  destruct (partial_loop_spec user filters threshold excl catalog Hread [])
    as (es' & Hloop' & Hes).
  rewrite Hloop in Hloop'. inversion Hloop'; subst. cbn in Hin.
  apply Forall2_filter_source in Hes. rewrite Forall_forall in Hes.
  apply Hes. eapply Permutation_in; [apply sort_desc_perm | exact Hin].
Qed.

(** X13 - Every partial match is a search result.  When no recipe is
    excluded and the threshold is at least 1 percent, each entry that
    [find_partial_matches] returns describes a recipe that [search_recipes]
    returns too, with the same id, name, percentage, matched and missing
    ingredients and the same time, skill level and cuisine. *)
Theorem partial_matches_are_search_results (user_ingredients : list string)
  (recipes : list Recipe.t) (filters : option Filters.t) (min_match_threshold : Z)
  (results : list SearchResult.t) (partial_matches : list PartialMatch.t) :
  recipe_search.search_recipes user_ingredients recipes filters = Ok results ->
  recipe_search.find_partial_matches user_ingredients recipes filters
    min_match_threshold None = Ok partial_matches ->
  1 <= min_match_threshold ->
  forall p, In p partial_matches ->
    exists s, In s results
      /\ SearchResult.id s = PartialMatch.id p
      /\ SearchResult.name s = PartialMatch.name p
      /\ SearchResult.match_percentage s = PartialMatch.match_percentage p
      /\ SearchResult.matched_ingredients s = PartialMatch.matched_ingredients p
      /\ SearchResult.missing_ingredients s = PartialMatch.missing_ingredients p
      /\ SearchResult.total_time s = PartialMatch.total_time p
      /\ SearchResult.skill_level s = PartialMatch.skill_level p
      /\ SearchResult.cuisine s = PartialMatch.cuisine p.
Proof.
  intros Hs Hp Ht p Hin.
  destruct (find_partial_matches_sources _ _ _ _ _ _ _ Hp Hin) as (r & Hr & Hk & Hrp).
  destruct (search_recipes_entries _ _ _ _ Hs) as (entries & Hf2 & ->).
  assert (Hkeep : search_keeps user_ingredients filters r = true).
  { unfold partial_keeps in Hk. unfold search_keeps.
    apply andb_prop in Hk as [Hk _]. apply andb_prop in Hk as [Hk Hlo].
    apply andb_prop in Hk as [_ Hpass]. rewrite Hpass. cbn.
    apply Z.leb_le in Hlo. apply Z.ltb_lt. lia. }
  assert (Hin' : In r (filter (search_keeps user_ingredients filters) recipes))
    by (apply filter_In; auto).
  destruct (Forall2_in_left _ _ _ r Hf2 Hin') as (s & Hs' & Hrs).
  exists s. split.
  { eapply Permutation_in; [symmetry; apply sort_desc_perm | exact Hs']. }
  apply search_entry_of_fields in Hrs
    as (Hid & Hname & Hpct & Hmat & Hmis & _ & _ & Htime & _ & Hskill & Hcuis & _).
  apply partial_entry_of_fields in Hrp
    as (Hid' & Hname' & Hpct' & Hmat' & Hmis' & Htime' & Hskill' & Hcuis').
  rewrite Hid in Hid'. rewrite Hname in Hname'.
  inversion Hid'. inversion Hname'.
  rewrite Hpct, Hmat, Hmis, Htime, Hskill, Hcuis, Hpct', Hmat', Hmis', Htime',
    Hskill', Hcuis'.
  unfold get. repeat split;
    try (destruct (Recipe.total_time r); reflexivity);
    try (destruct (Recipe.skill_level r); reflexivity);
    try (destruct (Recipe.cuisine r); reflexivity).
Qed.

Lemma partial_matches_are_search_results_witness :
  let results :=
    match recipe_search.search_recipes ["bread"; "cheese"] sample_recipes None with
    | Ok results => results
    | Raise _ => []
    end in
  let partial_matches :=
    match recipe_search.find_partial_matches ["bread"; "cheese"] sample_recipes None
            50 None with
    | Ok partial_matches => partial_matches
    | Raise _ => []
    end in
  recipe_search.search_recipes ["bread"; "cheese"] sample_recipes None = Ok results
  /\ recipe_search.find_partial_matches ["bread"; "cheese"] sample_recipes None 50 None
     = Ok partial_matches
  /\ 1 <= 50
  /\ partial_matches <> []
  /\ forall p, In p partial_matches ->
       exists s, In s results
         /\ SearchResult.id s = PartialMatch.id p
         /\ SearchResult.name s = PartialMatch.name p
         /\ SearchResult.match_percentage s = PartialMatch.match_percentage p
         /\ SearchResult.matched_ingredients s = PartialMatch.matched_ingredients p
         /\ SearchResult.missing_ingredients s = PartialMatch.missing_ingredients p
         /\ SearchResult.total_time s = PartialMatch.total_time p
         /\ SearchResult.skill_level s = PartialMatch.skill_level p
         /\ SearchResult.cuisine s = PartialMatch.cuisine p.
Proof.
  intros results partial_matches.
  assert (H1 : recipe_search.search_recipes ["bread"; "cheese"] sample_recipes None
               = Ok results) by (vm_compute; reflexivity).
  assert (H2 : recipe_search.find_partial_matches ["bread"; "cheese"] sample_recipes
                 None 50 None = Ok partial_matches) by (vm_compute; reflexivity).
  assert (H3 : 1 <= 50) by lia.
  assert (H4 : partial_matches <> []) by (vm_compute; discriminate).
  split; [exact H1 | split; [exact H2 | split; [exact H3 | split; [exact H4 |]]]].
  exact (partial_matches_are_search_results ["bread"; "cheese"] sample_recipes None 50
           results partial_matches H1 H2 H3).
Defined.

(** ** Dictionaries and [str] *)

Lemma str_inj (z1 z2 : Z) : str z1 = str z2 -> z1 = z2.
Proof.
  assert (Hback : forall z,
             option_map Z.of_int (DecimalString.NilZero.int_of_string (str z)) = Some z).
  { intros z. unfold str.
    destruct (Z.to_int z) as [u | u] eqn:Hz.
    - destruct u as [| u | u | u | u | u | u | u | u | u | u]; cbn [option_map].
      1:{ rewrite DecimalString.NilZero.isi_posnil. cbn.
          rewrite <- (DecimalZ.of_to z), Hz. reflexivity. }
      all: rewrite DecimalString.NilZero.isi by discriminate; cbn [option_map];
        now rewrite <- Hz, DecimalZ.of_to.
    - destruct u as [| u | u | u | u | u | u | u | u | u | u]; cbn [option_map].
      1:{ rewrite DecimalString.NilZero.isi_negnil. cbn.
          rewrite <- (DecimalZ.of_to z), Hz. reflexivity. }
      all: rewrite DecimalString.NilZero.isi by discriminate; cbn [option_map];
        now rewrite <- Hz, DecimalZ.of_to. }
  intros H. pose proof (Hback z1) as H1. rewrite H, Hback in H1. now inversion H1.
Qed.

Lemma dict_get_in {V} (k : string) (d : dict V) (v : V) :
  dict_get k d = Some v -> In (k, v) d.
Proof.
  induction d as [| [k' v'] d IH]; cbn; [discriminate|].
  destruct (String.eqb_spec k' k) as [-> | _].
  - intros H. inversion H; subst. now left.
  - intros H. right. auto.
Qed.

Lemma dict_get_mem {V} (k : string) (d : dict V) :
  dict_mem k d = match dict_get k d with Some _ => true | None => false end.
Proof.
  induction d as [| [k' v'] d IH]; cbn; [reflexivity|].
  destruct (String.eqb k' k); [reflexivity | exact IH].
Qed.

Lemma dict_get_set {V} (k k' : string) (v : V) (d : dict V) :
  dict_get k' (dict_set k v d) = if String.eqb k k' then Some v else dict_get k' d.
Proof.
  induction d as [| [k0 v0] d IH]; cbn.
  - reflexivity.
  - destruct (String.eqb_spec k0 k) as [-> | Hne]; cbn.
    + destruct (String.eqb k k'); reflexivity.
    + destruct (String.eqb_spec k0 k') as [-> | Hne'].
      * destruct (String.eqb_spec k k'); [congruence | reflexivity].
      * exact IH.
Qed.

Lemma dict_get_del {V} (k k' : string) (d : dict V) :
  NoDup (map fst d) ->
  dict_get k' (dict_del k d) = if String.eqb k k' then None else dict_get k' d.
Proof.
  induction d as [| [k0 v0] d IH]; cbn; intros Hnd.
  - now destruct (String.eqb k k').
  - inversion Hnd as [| ? ? Hnotin Hnd']; subst.
    destruct (String.eqb_spec k0 k) as [-> | Hne]; cbn.
    + destruct (String.eqb_spec k k') as [<- | _]; [| reflexivity].
      destruct (dict_get k d) eqn:Hg; [| reflexivity].
      exfalso. apply Hnotin. apply dict_get_in in Hg.
      apply in_map_iff. exists (k, v). auto.
    + destruct (String.eqb_spec k0 k') as [-> | Hne'].
      * destruct (String.eqb_spec k k'); [congruence | reflexivity].
      * now apply IH.
Qed.

Lemma dict_set_keys {V} (k : string) (v : V) (d : dict V) :
  map fst (dict_set k v d) = if dict_mem k d then map fst d else map fst d ++ [k].
Proof.
  unfold dict_mem. induction d as [| [k0 v0] d IH]; cbn; [reflexivity|].
  destruct (String.eqb k0 k); cbn; [reflexivity|].
  rewrite IH. now destruct (existsb _ d).
Qed.

Lemma dict_set_nodup {V} (k : string) (v : V) (d : dict V) :
  NoDup (map fst d) -> NoDup (map fst (dict_set k v d)).
Proof.
  intros H. rewrite dict_set_keys. destruct (dict_mem k d) eqn:Hm; [assumption|].
  apply dict_mem_false in Hm.
  apply NoDup_rev in H. rewrite <- (rev_involutive (map fst d ++ [k])), rev_app_distr.
  apply NoDup_rev. cbn. constructor; [| assumption]. now rewrite <- in_rev.
Qed.

Lemma dict_del_keys {V} (k : string) (d : dict V) (k' : string) :
  In k' (map fst (dict_del k d)) -> In k' (map fst d).
Proof.
  induction d as [| [k0 v0] d IH]; cbn; [auto|].
  destruct (String.eqb k0 k); cbn; [auto|]. intros [H | H]; auto.
Qed.

Lemma dict_del_nodup {V} (k : string) (d : dict V) :
  NoDup (map fst d) -> NoDup (map fst (dict_del k d)).
Proof.
  induction d as [| [k0 v0] d IH]; cbn; intros H; [assumption|].
  inversion H as [| ? ? Hnotin Hnd]; subst.
  destruct (String.eqb k0 k); cbn; [assumption|].
  constructor; [| auto]. intros Hin. apply Hnotin. eapply dict_del_keys. exact Hin.
Qed.

Lemma for_each_ext {A S} (f g : S -> A -> result S) (l : list A) (s : S) :
  (forall s x, In x l -> f s x = g s x) -> for_each f l s = for_each g l s.
Proof.
  revert s. induction l as [| x l IH]; intros s H; cbn; [reflexivity|].
  rewrite (H s x) by (now left). destruct (g s x); cbn; [| reflexivity].
  apply IH. intros s' y Hy. apply H. now right.
Qed.

(** ** The queries of [query_handlers.py] *)

Lemma or_empty_some (f : Filters.t) : queries.or_empty (Some f) = f.
Proof.
  unfold queries.or_empty, Filters.is_empty, Filters.empty.
  destruct f as [[?|] [?|] [?|] [?|]]; reflexivity.
Qed.

Lemma recipes_step_search_step (user : list string) (filters : option Filters.t)
  (acc : list SearchResult.t) (r : Recipe.t) :
  (forall f, filters = Some f -> all_truthy f = true) ->
  queries.recipes_step user (queries.or_empty filters) acc r
  = recipe_search.search_step user filters acc r.
Proof.
  intros Ht. unfold queries.recipes_step, recipe_search.search_step.
  assert (Hp : query_handlers._passes_filters r (queries.or_empty filters)
               = recipe_search.passes_filters r filters).
  { destruct filters as [f |]; [| reflexivity].
    rewrite or_empty_some. apply passes_filters_copies_agree_on_truthy. now apply Ht. }
  rewrite Hp. destruct (recipe_search.passes_filters r filters); [| reflexivity].
  cbn [negb]. destruct (Recipe.ingredients r) as [ings |]; [| reflexivity].
  cbn [subscript bind]. now rewrite <- calculate_match_eq.
Qed.

(** X14 - The query side searches like the command-line program.  When
    every filter option that is present has a truthy value (or no filter is
    given), [query_recipes_by_ingredients] returns, or raises, exactly what
    [search_recipes] does on the cached recipes, in cache order, for the
    ingredient names lowered and stripped. *)
Theorem query_recipes_by_ingredients_is_search_recipes
  (ingredient_names : list string) (filters : option Filters.t)
  (_read_db : ReadDb.t) :
  (forall f, filters = Some f -> all_truthy f = true) ->
  queries.query_recipes_by_ingredients ingredient_names filters _read_db
  = recipe_search.search_recipes
      (map (fun ing => strip (lower ing)) ingredient_names)
      (dict_values (ReadDb.recipe_cache _read_db)) filters.
Proof.
  intros Ht. unfold queries.query_recipes_by_ingredients, recipe_search.search_recipes.
  f_equal. apply for_each_ext. intros s x _. now apply recipes_step_search_step.
Qed.

Lemma query_recipes_by_ingredients_is_search_recipes_witness :
  (forall f, Some quick_and_easy = Some f -> all_truthy f = true)
  /\ queries.query_recipes_by_ingredients [" Bread"; "CHEESE "] (Some quick_and_easy)
       sample_db
     = recipe_search.search_recipes
         (map (fun ing => strip (lower ing)) [" Bread"; "CHEESE "])
         (dict_values (ReadDb.recipe_cache sample_db)) (Some quick_and_easy).
Proof.
  assert (H : forall f, Some quick_and_easy = Some f -> all_truthy f = true).
  { intros f Hf. inversion Hf; subst. reflexivity. }
  split; [exact H |].
  exact (query_recipes_by_ingredients_is_search_recipes [" Bread"; "CHEESE "]
           (Some quick_and_easy) sample_db H).
Defined.

(** the query on the sample catalog finds the grilled cheese *)
Example query_recipes_by_ingredients_sample :
  option_map (map SearchResult.name)
    (match queries.query_recipes_by_ingredients [" Bread"; "CHEESE "]
             (Some quick_and_easy) sample_db with
     | Ok results => Some results
     | Raise _ => None
     end)
  = Some ["Grilled Cheese"].
Proof. vm_compute. reflexivity. Qed.

Lemma load_recipes_fold (recipes : list Recipe.t) (cache : dict Recipe.t) :
  Forall (fun r => has_id r = true) recipes ->
  queries.load_recipes recipes cache
  = (fold_left (fun cache r => dict_set (str (get (Recipe.id r) 0)) r cache)
               recipes cache,
     None).
Proof.
  intros H. revert cache. induction H as [| r l Hr _ IH]; intros cache; cbn.
  - reflexivity.
  - unfold queries.cache_recipe, has_id in *.
    destruct (Recipe.id r) as [id |]; [| discriminate]. cbn. apply IH.
Qed.

Lemma load_recipes_other_key (recipes : list Recipe.t) (cache : dict Recipe.t)
  (k : string) :
  (forall r, In r recipes -> str (get (Recipe.id r) 0) <> k) ->
  dict_get k (fold_left (fun cache r => dict_set (str (get (Recipe.id r) 0)) r cache)
                        recipes cache)
  = dict_get k cache.
Proof.
  revert cache. induction recipes as [| r l IH]; intros cache H; cbn; [reflexivity|].
  rewrite IH by (intros r' Hr'; apply H; now right).
  rewrite dict_get_set.
  destruct (String.eqb_spec (str (get (Recipe.id r) 0)) k) as [Heq | _]; [| reflexivity].
  exfalso. apply (H r); [now left | assumption].
Qed.

(** X15 - Loading and looking up.  If every recipe of [recipes.json] has an
    [id], [_load_base_recipes] raises nothing, and [query_recipe_by_id]
    called with the decimal writing of an id returns the last recipe of the
    file that has this id. *)
Theorem query_recipe_by_id_after_load (before after : list Recipe.t)
  (recipe : Recipe.t) (id : Z) (_read_db : ReadDb.t) :
  Forall (fun r => has_id r = true) (before ++ recipe :: after) ->
  Recipe.id recipe = Some id ->
  (forall r, In r after -> Recipe.id r <> Some id) ->
  let loaded := queries._load_base_recipes (Some (before ++ recipe :: after)) _read_db in
  snd loaded = None
  /\ queries.query_recipe_by_id (str id) (fst loaded) = Some recipe.
Proof.
  intros Hids Hid Hlast. cbn zeta. unfold queries._load_base_recipes.
  rewrite load_recipes_fold by assumption. cbn [fst snd]. split; [reflexivity|].
  unfold queries.query_recipe_by_id, queries.with_recipe_cache. cbn.
  rewrite fold_left_app. cbn [fold_left].
  rewrite load_recipes_other_key.
  - rewrite dict_get_set, Hid. cbn. now rewrite String.eqb_refl.
  - intros r Hr Heq. apply Forall_app in Hids as [_ Hids].
    inversion Hids as [| ? ? _ Hafter]; subst.
    rewrite Forall_forall in Hafter. specialize (Hafter r Hr).
    unfold has_id in Hafter. destruct (Recipe.id r) as [id' |] eqn:Hid'; [| discriminate].
    cbn in Heq. apply str_inj in Heq. subst id'. now apply (Hlast r).
Qed.

Lemma query_recipe_by_id_after_load_witness :
  Forall (fun r => has_id r = true) ([toast] ++ omelette :: sample_recipes)
  /\ Recipe.id omelette = Some 7
  /\ (forall r, In r sample_recipes -> Recipe.id r <> Some 7)
  /\ snd (queries._load_base_recipes (Some ([toast] ++ omelette :: sample_recipes))
            ReadDb.empty) = None
  /\ queries.query_recipe_by_id (str 7)
       (fst (queries._load_base_recipes (Some ([toast] ++ omelette :: sample_recipes))
               ReadDb.empty))
     = Some omelette.
Proof.
  assert (H1 : Forall (fun r => has_id r = true) ([toast] ++ omelette :: sample_recipes))
    by (repeat constructor).
  assert (H2 : Recipe.id omelette = Some 7) by reflexivity.
  assert (H3 : forall r, In r sample_recipes -> Recipe.id r <> Some 7).
  { intros r [<- | [<- | [<- | []]]]; discriminate. }
  split; [exact H1 | split; [exact H2 | split; [exact H3 |]]].
  exact (query_recipe_by_id_after_load [toast] sample_recipes omelette 7 ReadDb.empty
           H1 H2 H3).
Defined.

Lemma favorites_step_spec (cache : dict Recipe.t) (user : list string)
  (acc : list Favorite.t) (rid : string) :
  favorite_readable cache rid = true ->
  exists es,
    queries.favorites_step cache user acc rid = Ok (acc ++ es)
    /\ Forall2 (favorite_entry_of cache user) (filter (cached cache) [rid]) es.
Proof.
  unfold favorite_readable, queries.favorites_step, cached. cbn [filter].
  destruct (dict_get rid cache) as [r |] eqn:Hg; [| intros _; nothing_appended].
  destruct (truthy_recipe r); [| intros _; nothing_appended].
  unfold has_required_fields.
  destruct (Recipe.id r) as [id |] eqn:Hid; [| discriminate].
  destruct (Recipe.name r) as [name |] eqn:Hname; [| discriminate].
  destruct (Recipe.ingredients r) as [ings |] eqn:Hings; [| discriminate].
  intros _. cbn [subscript bind]. eexists. split; [reflexivity|].
  constructor; [| constructor].
  exists r, ings. cbn. repeat split; assumption.
Qed.

Lemma favorites_step_raises (cache : dict Recipe.t) (user : list string)
  (acc : list Favorite.t) (rid : string) :
  favorite_readable cache rid = false ->
  exists e, queries.favorites_step cache user acc rid = Raise e.
Proof.
  unfold favorite_readable, queries.favorites_step.
  destruct (dict_get rid cache) as [r |]; [| discriminate].
  destruct (truthy_recipe r); [| discriminate].
  unfold has_required_fields.
  destruct (Recipe.ingredients r) as [ings |]; cbn [subscript bind].
  - destruct (Recipe.id r) as [id |]; cbn [subscript bind]; [| eauto].
    destruct (Recipe.name r) as [name |]; cbn [subscript bind]; [discriminate | eauto].
  - eauto.
Qed.

Lemma favorites_loop_spec (cache : dict Recipe.t) (user : list string)
  (ids : list string) :
  Forall (fun rid => favorite_readable cache rid = true) ids ->
  forall acc, exists es,
    for_each (queries.favorites_step cache user) ids acc = Ok (acc ++ es)
    /\ Forall2 (favorite_entry_of cache user) (filter (cached cache) ids) es.
Proof.
  induction 1 as [| rid ids Hr Hrest IH]; intros acc.
  - nothing_appended.
  - destruct (favorites_step_spec cache user acc rid Hr) as (es1 & Hstep & Hes1).
    destruct (IH (acc ++ es1)) as (es2 & Hloop & Hes2).
    exists (es1 ++ es2). cbn [for_each]. rewrite Hstep. cbn [bind].
    rewrite Hloop, app_assoc. split; [reflexivity|].
    change (rid :: ids) with ([rid] ++ ids). rewrite filter_app.
    now apply Forall2_app.
Qed.

Lemma favorites_loop_returns (cache : dict Recipe.t) (user : list string)
  (ids : list string) :
  forall acc res,
    for_each (queries.favorites_step cache user) ids acc = Ok res ->
    Forall (fun rid => favorite_readable cache rid = true) ids.
Proof.
  induction ids as [| rid ids IH]; intros acc res Hloop; [constructor|].
  cbn [for_each] in Hloop.
  destruct (favorite_readable cache rid) eqn:Hr.
  - destruct (queries.favorites_step cache user acc rid) as [acc' |]; [| discriminate].
    constructor; [assumption | eapply IH; exact Hloop].
  - destruct (favorites_step_raises cache user acc rid Hr) as (e & He).
    rewrite He in Hloop. discriminate.
Qed.

(** X16 - [query_user_favorites].  For a user without a favourites entry in
    the read model the answer is the empty list.  Otherwise the query
    returns exactly when every favourite that is cached (as a non-empty
    recipe) has its [ingredients], [id] and [name]; the answer then lists,
    in the order in which the favourites are enumerated, one entry per
    cached favourite, matched against the names in the user's pantry, and
    skips the favourites that are not cached. *)
Theorem query_user_favorites_spec (user_id : string) (_read_db : ReadDb.t) :
  let recipe_cache := ReadDb.recipe_cache _read_db in
  let user_ingredients :=
    map PantryItem.name (queries.query_user_pantry user_id _read_db) in
  match dict_get user_id (ReadDb.user_favorites _read_db) with
  | None => queries.query_user_favorites user_id _read_db = Ok []
  | Some recipe_ids =>
      (Forall (fun rid => favorite_readable recipe_cache rid = true) recipe_ids
       <-> exists favorites,
             queries.query_user_favorites user_id _read_db = Ok favorites)
      /\ forall favorites,
           queries.query_user_favorites user_id _read_db = Ok favorites ->
           Forall2 (favorite_entry_of recipe_cache user_ingredients)
                   (filter (cached recipe_cache) recipe_ids) favorites
  end.
Proof.
  intros cache user. unfold queries.query_user_favorites. fold cache user.
  destruct (dict_get user_id (ReadDb.user_favorites _read_db)) as [ids |];
    [| reflexivity].
  split; [split |].
  - intros Hall. destruct (favorites_loop_spec cache user ids Hall []) as (es & -> & _).
    eauto.
  - intros (favs & Hq). eapply favorites_loop_returns. exact Hq.
  - intros favs Hq. pose proof (favorites_loop_returns _ _ _ _ _ Hq) as Hall.
    destruct (favorites_loop_spec cache user ids Hall []) as (es & Hloop & Hes).
    rewrite Hq in Hloop. inversion Hloop; subst. exact Hes.
Qed.

(** ** [query_shopping_suggestions] *)

Lemma dict_mem_map {V W} (f : V -> W) (k : string) (d : dict V) :
  dict_mem k (dict_map f d) = dict_mem k d.
Proof.
  unfold dict_mem, dict_map. induction d as [| [k' v] d IH]; cbn; [reflexivity|].
  now rewrite IH.
Qed.

Lemma dict_set_map {V W} (f : V -> W) (k : string) (v : V) (d : dict V) :
  dict_map f (dict_set k v d) = dict_set k (f v) (dict_map f d).
Proof.
  unfold dict_map. induction d as [| [k' v'] d IH]; cbn; [reflexivity|].
  destruct (String.eqb k' k); cbn; [reflexivity | now rewrite IH].
Qed.

Lemma dict_adjust_map {V W} (f : V -> W) (g : V -> V) (g' : W -> W)
  (k : string) (d : dict V) :
  (forall v, f (g v) = g' (f v)) ->
  dict_map f (dict_adjust k g d) = dict_adjust k g' (dict_map f d).
Proof.
  intros H. unfold dict_map. induction d as [| [k' v'] d IH]; cbn; [reflexivity|].
  destruct (String.eqb k' k); cbn; [now rewrite H | now rewrite IH].
Qed.

Lemma dict_values_map {V W} (f : V -> W) (d : dict V) :
  dict_values (dict_map f d) = map f (dict_values d).
Proof. unfold dict_values, dict_map. rewrite !map_map. reflexivity. Qed.

Lemma dict_map_keys {V W} (f : V -> W) (d : dict V) :
  map fst (dict_map f d) = map fst d.
Proof. unfold dict_map. rewrite map_map. reflexivity. Qed.

(** The counting step of the query side is the one of
    [generate_shopping_suggestions], up to the name of the field. *)
Lemma impact_step_count_one (r : Recipe.t) (name : string)
  (impact : dict QuerySuggestion.t) (ing : string) :
  Recipe.name r = Some name ->
  exists impact',
    queries.impact_step r impact ing = Ok impact'
    /\ dict_map to_suggestion impact'
       = recipe_search.count_one name (dict_map to_suggestion impact) ing.
Proof.
  intros Hname. unfold queries.impact_step. rewrite Hname. cbn [subscript bind].
  eexists. split; [reflexivity|].
  unfold recipe_search.count_one. rewrite dict_mem_map.
  rewrite (dict_adjust_map to_suggestion _
             (fun s => {| Suggestion.name := Suggestion.name s;
                          Suggestion.unlock_count := Suggestion.unlock_count s;
                          Suggestion.recipe_names := Suggestion.recipe_names s ++ [name] |}))
    by reflexivity.
  rewrite (dict_adjust_map to_suggestion _
             (fun s => {| Suggestion.name := Suggestion.name s;
                          Suggestion.unlock_count := Suggestion.unlock_count s + 1;
                          Suggestion.recipe_names := Suggestion.recipe_names s |}))
    by reflexivity.
  destruct (dict_mem ing impact); cbn [negb]; [reflexivity|].
  now rewrite dict_set_map.
Qed.

Lemma impact_loop_count (r : Recipe.t) (missing : list string) :
  forall impact impact',
    for_each (queries.impact_step r) missing impact = Ok impact' ->
    dict_map to_suggestion impact'
    = fold_left (fun i ev => recipe_search.count_one (fst ev) i (snd ev))
        (map (fun ing => (get (Recipe.name r) "", ing)) missing)
        (dict_map to_suggestion impact)
    /\ (missing <> [] -> exists name, Recipe.name r = Some name).
Proof.
  induction missing as [| ing missing IH]; intros impact impact' H; cbn in *.
  - inversion H; subst. split; [reflexivity | congruence].
  - destruct (Recipe.name r) as [name |] eqn:Hname.
    + destruct (impact_step_count_one r name impact ing Hname) as (i1 & Hs & Hsim).
      rewrite Hs in H. cbn [bind] in H. apply IH in H as [H _].
      split; [| eauto]. rewrite H. cbn. now rewrite Hsim.
    + unfold queries.impact_step in H. rewrite Hname in H. discriminate.
Qed.

(** The events the query side counts come from half-matched recipes. *)
Lemma suggestions_loop_count (user : list string) (filters : Filters.t)
  (catalog : list Recipe.t) :
  forall impact impact',
    for_each (queries.suggestions_step user filters) catalog impact = Ok impact' ->
    exists events,
      dict_map to_suggestion impact'
      = fold_left (fun i ev => recipe_search.count_one (fst ev) i (snd ev))
          events (dict_map to_suggestion impact)
      /\ Forall (fun ev => exists r,
                   In r catalog /\ half_matched user filters r = true
                   /\ In (snd ev) (MatchData.missing (match_of user r)))
                events.
Proof.
  induction catalog as [| r catalog IH]; intros impact impact' H; cbn in H.
  - inversion H; subst. exists []. split; [reflexivity | constructor].
  - destruct (queries.suggestions_step user filters impact r) as [i1 |] eqn:Hs;
      [| discriminate].
    cbn [bind] in H. apply IH in H as (events2 & Heq2 & Hev2).
    assert (Hstep : exists events1,
               dict_map to_suggestion i1
               = fold_left (fun i ev => recipe_search.count_one (fst ev) i (snd ev))
                   events1 (dict_map to_suggestion impact)
               /\ Forall (fun ev => half_matched user filters r = true
                                   /\ In (snd ev) (MatchData.missing (match_of user r)))
                         events1).
    { unfold queries.suggestions_step in Hs.
      destruct (query_handlers._passes_filters r filters) eqn:Hp; cbn [negb] in Hs.
      2:{ inversion Hs; subst. exists []. split; [reflexivity | constructor]. }
      destruct (Recipe.ingredients r) as [ings |] eqn:Hings; [| discriminate].
      cbn [subscript bind] in Hs. cbv zeta in Hs.
      destruct ((500 <=? _) && (_ <? 1000)) eqn:Hrange.
      2:{ inversion Hs; subst. exists []. split; [reflexivity | constructor]. }
      apply impact_loop_count in Hs as [Hs _]. eexists. split; [exact Hs|].
      apply Forall_forall. intros ev Hev. apply in_map_iff in Hev as (ing & <- & Hing).
      cbn [snd]. unfold half_matched, match_of. rewrite Hings. cbn [get].
      rewrite calculate_match_eq, Hp. split; [exact Hrange | exact Hing]. }
    destruct Hstep as (events1 & Heq1 & Hev1).
    exists (events1 ++ events2). split.
    + rewrite fold_left_app, <- Heq1. exact Heq2.
    + apply Forall_app. split.
      * eapply Forall_impl; [| exact Hev1]. intros ev [Hh Hin].
        exists r. split; [now left | auto].
      * eapply Forall_impl; [| exact Hev2]. intros ev (r' & Hr' & Hh & Hin).
        exists r'. split; [now right | auto].
Qed.

(** X17 - [query_shopping_suggestions] has one strategy and no fallback.
    Whatever it returns is a ranking (non-increasing [unlock_count], no
    ingredient twice, at most [top_n] entries when [top_n] is not negative,
    every [unlock_count] positive and equal to the number of [recipes]), and
    every suggested ingredient is missing from a cached recipe that passes
    the filters and that the user's pantry matches at 50 percent or more,
    but not fully.  With no such recipe the answer is empty. *)
Theorem query_shopping_suggestions_spec (user_id : string)
  (filters : option Filters.t) (top_n : Z) (_read_db : ReadDb.t)
  (suggestions : list QuerySuggestion.t) :
  let user_ingredients :=
    map PantryItem.name (queries.query_user_pantry user_id _read_db) in
  queries.query_shopping_suggestions user_id filters top_n _read_db = Ok suggestions ->
  sorted_desc QuerySuggestion.unlock_count suggestions
  /\ NoDup (map QuerySuggestion.name suggestions)
  /\ (0 <= top_n -> Z.of_nat (List.length suggestions) <= top_n)
  /\ Forall (fun s =>
               1 <= QuerySuggestion.unlock_count s
               /\ QuerySuggestion.unlock_count s
                  = Z.of_nat (List.length (QuerySuggestion.recipes s))
               /\ exists r,
                    In r (dict_values (ReadDb.recipe_cache _read_db))
                    /\ half_matched user_ingredients (queries.or_empty filters) r = true
                    /\ In (QuerySuggestion.name s)
                          (MatchData.missing (match_of user_ingredients r)))
            suggestions.
Proof.
  intros user. unfold queries.query_shopping_suggestions. fold user.
  destruct (for_each (queries.suggestions_step user (queries.or_empty filters))
                     (dict_values (ReadDb.recipe_cache _read_db)) [])
    as [impact |] eqn:Hloop; [| discriminate].
  cbn [bind]. intros H. inversion H as [Hs]. clear H.
  apply suggestions_loop_count in Hloop as (events & Hsim & Hev).
  pose proof (count_events_inv events) as Hinv. cbn in Hsim. rewrite <- Hsim in Hinv.
  set (sorted := sort_desc QuerySuggestion.unlock_count (dict_values impact)).
  destruct (slice_to_firstn sorted top_n) as (k & Hk).
  assert (Hnames : map QuerySuggestion.name (dict_values impact) = map fst impact).
  { pose proof (impact_names _ _ Hinv) as Hn.
    rewrite dict_values_map, map_map, dict_map_keys in Hn. exact Hn. }
  repeat split.
  - rewrite Hk. apply sorted_desc_firstn, sort_desc_sorted.
  - rewrite Hk, <- firstn_map. apply NoDup_firstn_of.
    eapply Permutation_NoDup.
    + apply Permutation_map. symmetry. apply sort_desc_perm.
    + rewrite Hnames. destruct Hinv as (Hnd & _). now rewrite dict_map_keys in Hnd.
  - intros Hn. unfold slice_to.
    destruct (Z.ltb_spec top_n 0) as [Hneg | _]; [lia|].
    assert (List.length (firstn (Z.to_nat top_n) sorted) <= Z.to_nat top_n)%nat
      by (rewrite length_firstn; lia).
    lia.
  - apply Forall_forall. intros s Hin. apply slice_to_incl in Hin.
    assert (Hin' : In s (dict_values impact))
      by (eapply Permutation_in; [apply sort_desc_perm | exact Hin]).
    assert (Hconv : In (to_suggestion s) (dict_values (dict_map to_suggestion impact)))
      by (rewrite dict_values_map; now apply in_map).
    destruct (impact_counts _ _ _ Hinv Hconv) as [Hpos Hlen]. cbn in Hpos, Hlen.
    split; [exact Hpos | split; [exact Hlen |]].
    assert (Hkey : In (QuerySuggestion.name s) (map snd events)).
    { destruct Hinv as (_ & Hkeys & _). apply Hkeys. rewrite dict_map_keys, <- Hnames.
      now apply in_map. }
    apply in_map_iff in Hkey as (ev & Hev1 & Hev2).
    rewrite Forall_forall in Hev. destruct (Hev ev Hev2) as (r & Hr & Hh & Hm).
    exists r. rewrite <- Hev1. auto.
Qed.

Lemma query_shopping_suggestions_spec_witness :
  let _read_db := db_of three_recipes "u1" [("i1", "rice"); ("i2", "bread")] in
  let user_ingredients :=
    map PantryItem.name (queries.query_user_pantry "u1" _read_db) in
  let suggestions :=
    match queries.query_shopping_suggestions "u1" None 5 _read_db with
    | Ok suggestions => suggestions
    | Raise _ => []
    end in
  queries.query_shopping_suggestions "u1" None 5 _read_db = Ok suggestions
  /\ suggestions <> []
  /\ sorted_desc QuerySuggestion.unlock_count suggestions
  /\ NoDup (map QuerySuggestion.name suggestions)
  /\ (0 <= 5 -> Z.of_nat (List.length suggestions) <= 5)
  /\ Forall (fun s =>
               1 <= QuerySuggestion.unlock_count s
               /\ QuerySuggestion.unlock_count s
                  = Z.of_nat (List.length (QuerySuggestion.recipes s))
               /\ exists r,
                    In r (dict_values (ReadDb.recipe_cache _read_db))
                    /\ half_matched user_ingredients (queries.or_empty None) r = true
                    /\ In (QuerySuggestion.name s)
                          (MatchData.missing (match_of user_ingredients r)))
            suggestions.
Proof.
  intros _read_db user_ingredients suggestions.
  assert (H1 : queries.query_shopping_suggestions "u1" None 5 _read_db = Ok suggestions)
    by (vm_compute; reflexivity).
  assert (H2 : suggestions <> []) by (vm_compute; discriminate).
  split; [exact H1 | split; [exact H2 |]].
  exact (query_shopping_suggestions_spec "u1" None 5 _read_db suggestions H1).
Defined.

(** Where [generate_shopping_suggestions] falls back to the recipes matched
    at 25 percent, the query suggests nothing. *)
Example query_shopping_suggestions_has_no_fallback :
  queries.query_shopping_suggestions "u1" None 5 (db_of [omelette] "u1" [("i1", "milk")])
  = Ok []
  /\ recipe_search.generate_shopping_suggestions ["milk"] [omelette] None 5 true None
     = Ok [ {| Suggestion.name := "egg"; Suggestion.unlock_count := 2;
               Suggestion.recipe_names := ["Omelette"; "Omelette"] |} ].
Proof. split; vm_compute; reflexivity. Qed.

(** ** Commands, events and consumers *)

Lemma publish_log (event : Event.t) (bus : EventBus.t) (db : ReadDb.t) :
  EventBus._event_log (fst (EventBus.publish event bus db))
  = EventBus._event_log bus ++ [event]
  /\ EventBus._subscribers (fst (EventBus.publish event bus db))
     = EventBus._subscribers bus.
Proof.
  unfold EventBus.publish. cbn.
  destruct (dict_get (Event.event_type event) (EventBus._subscribers bus)); cbn; auto.
Qed.

Lemma commands_publish_log (event : Event.t) (write_db : WriteDb.t) (world : World.t) :
  EventBus._event_log (World._event_bus (commands.publish event write_db world))
  = EventBus._event_log (World._event_bus world) ++ [event]
  /\ EventBus._subscribers (World._event_bus (commands.publish event write_db world))
     = EventBus._subscribers (World._event_bus world)
  /\ World._write_db (commands.publish event write_db world) = write_db.
Proof.
  unfold commands.publish.
  pose proof (publish_log event (World._event_bus world) (World._read_db world)) as H.
  destruct (EventBus.publish event (World._event_bus world) (World._read_db world))
    as [bus db]. cbn in *. tauto.
Qed.

Ltac published :=
  cbn [fst snd Response.success Response.failure Response.done];
  match goal with
  | |- context [commands.publish (new_event ?data ?now) ?wdb ?w] =>
      destruct (commands_publish_log (new_event data now) wdb w) as (Hlog & Hsub & _);
      split; [exists data; exact Hlog | exact Hsub]
  end.

(** X18 - A command either is rejected and changes nothing, or is accepted
    and publishes exactly one event.  For each of the eight handlers: if
    the response has [success] false, then the write database, the read
    model and the event bus are as before the call; if it has [success]
    true, the event log has grown by one event, stamped with the time of the
    call, and the subscriptions are as before. *)
Theorem command_is_rejected_or_publishes_one_event (uuid4 now : string)
  (c : command) (world : World.t) :
  let response := fst (handle uuid4 now c world) in
  let world' := snd (handle uuid4 now c world) in
  if Response.success response then
    (exists data,
        EventBus._event_log (World._event_bus world')
        = EventBus._event_log (World._event_bus world) ++ [new_event data now])
    /\ EventBus._subscribers (World._event_bus world')
       = EventBus._subscribers (World._event_bus world)
  else world' = world.
Proof.
  cbv zeta. destruct c; cbn [handle].
  - unfold commands.handle_create_user.
    destruct (negb (truthy_str username) || negb (truthy_str password));
      [reflexivity|].
    destruct (existsb _ _); [reflexivity|]. published.
  - unfold commands.handle_update_user_profile.
    destruct (dict_get user_id _) as [user |]; [| reflexivity].
    destruct (commands.apply_updates updates user) as [user' [| kv fields]];
      [reflexivity|]. published.
  - unfold commands.handle_add_ingredient.
    destruct (negb (dict_mem user_id _)); [reflexivity|].
    destruct (negb (truthy_str ingredient_name)); [reflexivity|]. published.
  - unfold commands.handle_remove_ingredient.
    destruct (negb (dict_mem user_id _)); [reflexivity|].
    destruct (dict_get user_id _) as [pantry |]; [| reflexivity].
    destruct (negb (dict_mem ingredient_id pantry)); [reflexivity|]. published.
  - unfold commands.handle_favorite_recipe.
    destruct (negb (dict_mem user_id (WriteDb.users _))); [reflexivity|].
    destruct (dict_mem user_id (WriteDb.favorites (World._write_db world))) eqn:Hm;
      cbn [negb].
    + destruct (contains _ recipe_id); [| published].
      cbn. destruct world; reflexivity.
    + cbn [WriteDb.favorites commands.set_favorites].
      rewrite dict_get_set, String.eqb_refl. cbn [get contains existsb]. published.
  - unfold commands.handle_unfavorite_recipe.
    destruct (negb (dict_mem user_id _)); [reflexivity|].
    destruct (dict_get user_id _) as [favorites |]; [| reflexivity].
    destruct (negb (contains favorites recipe_id)); [reflexivity|]. published.
  - unfold commands.handle_update_appliances.
    destruct (negb (dict_mem user_id _)); [reflexivity|]. published.
  - unfold commands.handle_log_recipe_search. published.
Qed.

(** *** The read model follows the write database *)

Lemma dict_get_adjust {V} (k k' : string) (f : V -> V) (d : dict V) :
  dict_get k' (dict_adjust k f d)
  = if String.eqb k k' then option_map f (dict_get k' d) else dict_get k' d.
Proof.
  induction d as [| [k0 v0] d IH]; cbn.
  - now destruct (String.eqb k k').
  - destruct (String.eqb_spec k0 k) as [-> | Hne]; cbn.
    + destruct (String.eqb k k'); reflexivity.
    + destruct (String.eqb_spec k0 k') as [-> | Hne'].
      * destruct (String.eqb_spec k k'); [congruence | reflexivity].
      * exact IH.
Qed.

Lemma dict_get_none {V} (k : string) (d : dict V) :
  dict_mem k d = false -> dict_get k d = None.
Proof. rewrite dict_get_mem. now destruct (dict_get k d). Qed.

Lemma dict_get_some {V} (k : string) (d : dict V) :
  dict_mem k d = true -> exists v, dict_get k d = Some v.
Proof. rewrite dict_get_mem. destruct (dict_get k d); [eauto | discriminate]. Qed.

(** [if k not in d: d[k] = e] followed by an update in place of [d[k]] *)
Lemma upsert_view {V} (k k' : string) (f : V -> V) (e : V) (d : dict V) :
  get (dict_get k'
         (dict_adjust k f
            (if negb (dict_mem k d) then dict_set k e d else d))) e
  = if String.eqb k k' then f (get (dict_get k d) e) else get (dict_get k' d) e.
Proof.
  rewrite dict_get_adjust.
  destruct (String.eqb_spec k k') as [<- | Hne].
  - destruct (dict_mem k d) eqn:Hm; cbn [negb].
    + destruct (dict_get_some k d Hm) as (v & ->). reflexivity.
    + rewrite dict_get_set, String.eqb_refl, (dict_get_none k d Hm). reflexivity.
  - destruct (dict_mem k d); cbn [negb]; [reflexivity|].
    rewrite dict_get_set. destruct (String.eqb_spec k k'); [congruence | reflexivity].
Qed.

Lemma adjust_view {V} (k k' : string) (f : V -> V) (e : V) (d : dict V) :
  f e = e ->
  get (dict_get k' (dict_adjust k f d)) e
  = if String.eqb k k' then f (get (dict_get k d) e) else get (dict_get k' d) e.
Proof.
  intros Hf. rewrite dict_get_adjust.
  destruct (String.eqb_spec k k') as [<- | Hne]; [| reflexivity].
  destruct (dict_get k d); cbn; [reflexivity | now rewrite Hf].
Qed.

Lemma set_discard_in (x y : string) (s : list string) :
  In y (consumers.set_discard x s) <-> y <> x /\ In y s.
Proof.
  unfold consumers.set_discard. rewrite filter_In. split.
  - intros [Hin Hne]. split; [| assumption].
    apply negb_true_iff in Hne. now apply String.eqb_neq in Hne.
  - intros [Hne Hin]. split; [assumption|].
    apply negb_true_iff. now apply String.eqb_neq.
Qed.

(** The profile with two fields replaced. *)
Lemma dict_update_profile (fields : dict value) :
  NoDup (map fst fields) ->
  (forall k, In k (map fst fields) -> In k commands.allowed_fields) ->
  forall user_id username dietary skill,
    consumers.dict_update fields
      [("user_id", user_id); ("username", username);
       ("dietary_restrictions", dietary); ("skill_level", skill)]
    = [("user_id", user_id); ("username", username);
       ("dietary_restrictions", get (dict_get "dietary_restrictions" fields) dietary);
       ("skill_level", get (dict_get "skill_level" fields) skill)].
Proof.
  unfold consumers.dict_update.
  induction fields as [| [k v] fields IH]; intros Hnd Hkeys uid uname d s.
  - reflexivity.
  - cbn [fold_left fst snd]. inversion Hnd as [| ? ? Hnotin Hnd']; subst.
    assert (Hnone : dict_get k fields = None).
    { destruct (dict_get k fields) eqn:Hg; [| reflexivity].
      exfalso. apply Hnotin. apply dict_get_in in Hg.
      apply in_map_iff. exists (k, v0). auto. }
    assert (Hk : In k commands.allowed_fields) by (apply Hkeys; now left).
    assert (Hkeys' : forall k', In k' (map fst fields) -> In k' commands.allowed_fields)
      by (intros k' Hk'; apply Hkeys; now right).
    destruct Hk as [<- | [<- | []]]; cbn [dict_set String.eqb Ascii.eqb Bool.eqb];
      cbn; rewrite IH by assumption; rewrite Hnone; reflexivity.
Qed.

Lemma apply_updates_loop (user : User.t) (updates : dict value) :
  forall user0 fields0,
    (NoDup (map fst fields0)
     /\ (forall k, In k (map fst fields0) -> In k commands.allowed_fields)
     /\ User.user_id user0 = User.user_id user
     /\ User.username user0 = User.username user
     /\ User.password user0 = User.password user
     /\ User.dietary_restrictions user0
        = get (dict_get "dietary_restrictions" fields0) (User.dietary_restrictions user)
     /\ User.skill_level user0
        = get (dict_get "skill_level" fields0) (User.skill_level user)) ->
    let '(user', updated_fields) :=
      fold_left
        (fun '(user, updated_fields) '(field, v) =>
           if contains commands.allowed_fields field
           then (commands.set_field field v user, dict_set field v updated_fields)
           else (user, updated_fields))
        updates (user0, fields0) in
    NoDup (map fst updated_fields)
    /\ (forall k, In k (map fst updated_fields) -> In k commands.allowed_fields)
    /\ User.user_id user' = User.user_id user
    /\ User.username user' = User.username user
    /\ User.password user' = User.password user
    /\ User.dietary_restrictions user'
       = get (dict_get "dietary_restrictions" updated_fields)
             (User.dietary_restrictions user)
    /\ User.skill_level user'
       = get (dict_get "skill_level" updated_fields) (User.skill_level user).
Proof.
  induction updates as [| [field v] updates IH]; intros user0 fields0 HJ.
  - exact HJ.
  - cbn [fold_left]. destruct HJ as (Hnd & Hkeys & Hid & Hname & Hpw & Hd & Hs).
    destruct (contains commands.allowed_fields field) eqn:Hc; apply IH; clear IH.
    + apply contains_in in Hc.
      assert (Hset : forall k, In k (map fst (dict_set field v fields0)) ->
                               In k commands.allowed_fields).
      { intros k Hk. rewrite dict_set_keys in Hk.
        destruct (dict_mem field fields0); [auto|].
        apply in_app_iff in Hk as [Hk | [<- | []]]; auto. }
      destruct Hc as [<- | [<- | []]]; cbn; rewrite !dict_get_set; cbn;
        repeat split; try assumption; now apply dict_set_nodup.
    + repeat split; assumption.
Qed.

Lemma apply_updates_spec (updates : dict value) (user : User.t) :
  let '(user', updated_fields) := commands.apply_updates updates user in
  NoDup (map fst updated_fields)
  /\ (forall k, In k (map fst updated_fields) -> In k commands.allowed_fields)
  /\ User.user_id user' = User.user_id user
  /\ User.username user' = User.username user
  /\ User.password user' = User.password user
  /\ User.dietary_restrictions user'
     = get (dict_get "dietary_restrictions" updated_fields)
           (User.dietary_restrictions user)
  /\ User.skill_level user'
     = get (dict_get "skill_level" updated_fields) (User.skill_level user).
Proof.
  unfold commands.apply_updates. apply apply_updates_loop.
  cbn. repeat split; auto. constructor.
Qed.

Lemma setup_subscribers :
  EventBus._subscribers (consumers.setup_event_consumers EventBus.new)
  = [("USER_CREATED", [consumers.on_user_created]);
     ("USER_PROFILE_UPDATED", [consumers.on_user_profile_updated]);
     ("INGREDIENT_ADDED", [consumers.on_ingredient_added]);
     ("INGREDIENT_REMOVED", [consumers.on_ingredient_removed]);
     ("RECIPE_FAVORITED", [consumers.on_recipe_favorited]);
     ("RECIPE_UNFAVORITED", [consumers.on_recipe_unfavorited]);
     ("RECIPE_SEARCH_PERFORMED", [consumers.on_recipe_search_performed])].
Proof. reflexivity. Qed.

(** On the bus of the program, publishing an event of one of the eight
    classes runs the one consumer of its type, or none. *)
Lemma publish_wired (data : event_data) (now : string) (world : World.t)
  (write_db : WriteDb.t) :
  wired world ->
  let world' := commands.publish (new_event data now) write_db world in
  World._write_db world' = write_db
  /\ World._read_db world' = consumed (new_event data now) (World._read_db world)
  /\ wired world'.
Proof.
  unfold wired, commands.publish, EventBus.publish. intros Hw. cbn [EventBus._subscribers].
  rewrite Hw, setup_subscribers.
  destruct data; cbn; rewrite ?Hw; repeat split; try reflexivity;
    apply setup_subscribers.
Qed.

Ltac fields :=
  cbn [WriteDb.users WriteDb.user_ingredients WriteDb.favorites WriteDb.appliances
       commands.set_users commands.set_user_ingredients commands.set_favorites
       commands.set_appliances
       ReadDb.user_profiles ReadDb.user_pantries ReadDb.user_favorites
       ReadDb.recipe_cache ReadDb.user_analytics
       consumers.set_user_profiles consumers.set_user_pantries
       consumers.set_user_favorites consumers.set_user_analytics
       World._write_db World._read_db World._event_bus
       Event.data Event.event_type Event.timestamp new_event
       user_id_of ingredient_id_of recipe_id_of consumed fst snd].

Lemma dict_mem_set {V} (k k' : string) (v : V) (d : dict V) :
  dict_mem k' (dict_set k v d) = String.eqb k k' || dict_mem k' d.
Proof.
  rewrite !dict_get_mem, dict_get_set.
  destruct (String.eqb k k'); reflexivity.
Qed.

Lemma dict_mem_adjust {V} (k k' : string) (f : V -> V) (d : dict V) :
  dict_mem k' (dict_adjust k f d) = dict_mem k' d.
Proof.
  rewrite !dict_get_mem, dict_get_adjust.
  destruct (String.eqb k k'); [| reflexivity]. now destruct (dict_get k' d).
Qed.

Lemma user_created_consistent (world world' : World.t) (uuid4 now username password : string)
  (dietary_restrictions : list string) :
  consistent world -> keyed world ->
  dict_mem uuid4 (WriteDb.users (World._write_db world)) = false ->
  World._write_db world'
  = commands.set_users
      (dict_set uuid4
         {| User.user_id := uuid4; User.username := username;
            User.password := password;
            User.dietary_restrictions := VList dietary_restrictions;
            User.skill_level := VStr "beginner" |}
         (WriteDb.users (World._write_db world)))
      (World._write_db world) ->
  World._read_db world'
  = consumed (new_event (UserCreated uuid4 username dietary_restrictions) now)
             (World._read_db world) ->
  consistent world' /\ keyed world'.
Proof.
  intros Hc (Hk1 & Hk2 & Hk3) Hfresh Hw Hr. split.
  - unfold consistent. rewrite Hw, Hr. cbn. intros u.
    destruct (Hc u) as (Hp & Hpan & Hfav).
    rewrite !dict_get_set.
    destruct (String.eqb_spec uuid4 u) as [<- | Hne]; cbn.
    + split; [reflexivity|].
      assert (Hi : dict_get uuid4 (WriteDb.user_ingredients (World._write_db world)) = None).
      { apply dict_get_none. destruct (dict_mem uuid4 (WriteDb.user_ingredients _)) eqn:Hm;
          [| reflexivity]. apply Hk2 in Hm. congruence. }
      assert (Hf : dict_get uuid4 (WriteDb.favorites (World._write_db world)) = None).
      { apply dict_get_none. destruct (dict_mem uuid4 (WriteDb.favorites _)) eqn:Hm;
          [| reflexivity]. apply Hk3 in Hm. congruence. }
      rewrite Hi, Hf. cbn. split; [reflexivity | tauto].
    + auto.
  - unfold keyed. rewrite Hw. fields. repeat split.
    + intros u user. rewrite dict_get_set.
      destruct (String.eqb_spec uuid4 u) as [<- | Hne].
      * intros H. now inversion H.
      * apply Hk1.
    + intros u Hm. rewrite dict_mem_set. apply Hk2 in Hm. rewrite Hm. apply orb_true_r.
    + intros u Hm. rewrite dict_mem_set. apply Hk3 in Hm. rewrite Hm. apply orb_true_r.
Qed.

Lemma user_profile_updated_consistent (world world' : World.t) (now user_id : string)
  (updates : dict value) (user : User.t) :
  consistent world -> keyed world ->
  dict_get user_id (WriteDb.users (World._write_db world)) = Some user ->
  World._write_db world'
  = commands.set_users
      (dict_set user_id (fst (commands.apply_updates updates user))
                (WriteDb.users (World._write_db world)))
      (World._write_db world) ->
  World._read_db world'
  = consumed (new_event (UserProfileUpdated user_id
                           (snd (commands.apply_updates updates user))) now)
             (World._read_db world) ->
  consistent world' /\ keyed world'.
Proof.
  intros Hc (Hk1 & Hk2 & Hk3) Huser Hw Hr.
  pose proof (apply_updates_spec updates user) as Hspec.
  destruct (commands.apply_updates updates user) as [user' fields]. cbn [fst snd] in *.
  destruct Hspec as (Hnd & Hkeys & Hid & Hname & Hpw & Hd & Hs).
  split.
  - unfold consistent. rewrite Hw, Hr. cbn. intros u.
    destruct (Hc u) as (Hp & Hpan & Hfav).
    unfold consumers.on_user_profile_updated. cbn [Event.data new_event user_id_of].
    destruct (Hc user_id) as (Hp' & _). rewrite Huser in Hp'. cbn in Hp'.
    rewrite dict_get_mem, Hp'. cbn.
    rewrite dict_get_set, dict_get_adjust.
    destruct (String.eqb_spec user_id u) as [<- | Hne]; cbn.
    + rewrite Hp'. cbn. split; [| auto]. f_equal. unfold public_profile.
      rewrite dict_update_profile by assumption.
      now rewrite Hid, Hname, Hd, Hs.
    + auto.
  - unfold keyed. rewrite Hw. fields. repeat split.
    + intros u usr. rewrite dict_get_set.
      destruct (String.eqb_spec user_id u) as [<- | Hne].
      * intros H. inversion H; subst. rewrite Hid. now apply Hk1.
      * apply Hk1.
    + intros u Hm. rewrite dict_mem_set. apply Hk2 in Hm. rewrite Hm. apply orb_true_r.
    + intros u Hm. rewrite dict_mem_set. apply Hk3 in Hm. rewrite Hm. apply orb_true_r.
Qed.

Lemma keyed_same_users (world world' : World.t) :
  keyed world ->
  WriteDb.users (World._write_db world') = WriteDb.users (World._write_db world) ->
  (forall u, dict_mem u (WriteDb.user_ingredients (World._write_db world')) = true ->
             dict_mem u (WriteDb.user_ingredients (World._write_db world)) = true
             \/ dict_mem u (WriteDb.users (World._write_db world)) = true) ->
  (forall u, dict_mem u (WriteDb.favorites (World._write_db world')) = true ->
             dict_mem u (WriteDb.favorites (World._write_db world)) = true
             \/ dict_mem u (WriteDb.users (World._write_db world)) = true) ->
  keyed world'.
Proof.
  intros (Hk1 & Hk2 & Hk3) Hu Hi Hf. unfold keyed. rewrite Hu. repeat split.
  - exact Hk1.
  - intros u Hm. destruct (Hi u Hm); auto.
  - intros u Hm. destruct (Hf u Hm); auto.
Qed.

Lemma ingredient_added_consistent (world world' : World.t)
  (now user_id ingredient_id ingredient_name : string) (amount : spec_float)
  (exp_date : option string) :
  consistent world -> keyed world ->
  dict_mem user_id (WriteDb.users (World._write_db world)) = true ->
  World._write_db world'
  = (let _write_db :=
       if negb (dict_mem user_id (WriteDb.user_ingredients (World._write_db world)))
       then commands.set_user_ingredients
              (dict_set user_id [] (WriteDb.user_ingredients (World._write_db world)))
              (World._write_db world)
       else World._write_db world in
     commands.set_user_ingredients
       (dict_adjust user_id
          (dict_set ingredient_id
             {| PantryItem.ingredient_id := ingredient_id;
                PantryItem.name := lower ingredient_name;
                PantryItem.amount := amount;
                PantryItem.exp_date := exp_date |})
          (WriteDb.user_ingredients _write_db))
       _write_db) ->
  World._read_db world'
  = consumed (new_event (IngredientAdded user_id ingredient_id ingredient_name amount
                           exp_date) now)
             (World._read_db world) ->
  consistent world' /\ keyed world'.
Proof.
  intros Hc Hk Huser Hw Hr. cbv zeta in Hw.
  assert (Hwi : WriteDb.user_ingredients (World._write_db world')
                = dict_adjust user_id
                    (dict_set ingredient_id
                       {| PantryItem.ingredient_id := ingredient_id;
                          PantryItem.name := lower ingredient_name;
                          PantryItem.amount := amount;
                          PantryItem.exp_date := exp_date |})
                    (if negb (dict_mem user_id
                                (WriteDb.user_ingredients (World._write_db world)))
                     then dict_set user_id []
                            (WriteDb.user_ingredients (World._write_db world))
                     else WriteDb.user_ingredients (World._write_db world))).
  { rewrite Hw.
    destruct (dict_mem user_id (WriteDb.user_ingredients (World._write_db world)));
      reflexivity. }
  assert (Hwu : WriteDb.users (World._write_db world')
                = WriteDb.users (World._write_db world)).
  { rewrite Hw.
    destruct (dict_mem user_id (WriteDb.user_ingredients (World._write_db world)));
      reflexivity. }
  assert (Hwf : WriteDb.favorites (World._write_db world')
                = WriteDb.favorites (World._write_db world)).
  { rewrite Hw.
    destruct (dict_mem user_id (WriteDb.user_ingredients (World._write_db world)));
      reflexivity. }
  assert (Hrp : ReadDb.user_profiles (World._read_db world')
                = ReadDb.user_profiles (World._read_db world)).
  { rewrite Hr. fields. unfold consumers.on_ingredient_added. fields.
    destruct (dict_mem user_id (ReadDb.user_pantries (World._read_db world)));
      reflexivity. }
  assert (Hrf : ReadDb.user_favorites (World._read_db world')
                = ReadDb.user_favorites (World._read_db world)).
  { rewrite Hr. fields. unfold consumers.on_ingredient_added. fields.
    destruct (dict_mem user_id (ReadDb.user_pantries (World._read_db world)));
      reflexivity. }
  assert (Hri : ReadDb.user_pantries (World._read_db world')
                = dict_adjust user_id
                    (dict_set ingredient_id
                       {| PantryItem.ingredient_id := ingredient_id;
                          PantryItem.name := lower ingredient_name;
                          PantryItem.amount := amount;
                          PantryItem.exp_date := exp_date |})
                    (if negb (dict_mem user_id
                                (ReadDb.user_pantries (World._read_db world)))
                     then dict_set user_id []
                            (ReadDb.user_pantries (World._read_db world))
                     else ReadDb.user_pantries (World._read_db world))).
  { rewrite Hr. fields. unfold consumers.on_ingredient_added. fields.
    destruct (dict_mem user_id (ReadDb.user_pantries (World._read_db world)));
      reflexivity. }
  split.
  - unfold consistent. rewrite Hwu, Hwf, Hrp, Hrf, Hwi, Hri. intros u.
    destruct (Hc u) as (Hp & Hpan & Hfav). split; [exact Hp | split; [| exact Hfav]].
    rewrite !upsert_view. destruct (Hc user_id) as (_ & Hpan' & _).
    destruct (String.eqb user_id u); [now rewrite Hpan' | exact Hpan].
  - apply (keyed_same_users world); auto.
    + intros u. rewrite Hwi, dict_mem_adjust.
      destruct (dict_mem user_id (WriteDb.user_ingredients (World._write_db world)));
        cbn [negb]; [auto|].
      rewrite dict_mem_set. destruct (String.eqb_spec user_id u) as [<- | _]; cbn; auto.
    + intros u. rewrite Hwf. auto.
Qed.

Lemma ingredient_removed_consistent (world world' : World.t)
  (now user_id ingredient_id : string) (pantry : dict PantryItem.t) :
  consistent world -> keyed world ->
  dict_get user_id (WriteDb.user_ingredients (World._write_db world)) = Some pantry ->
  dict_mem ingredient_id pantry = true ->
  World._write_db world'
  = commands.set_user_ingredients
      (dict_adjust user_id (dict_del ingredient_id)
                   (WriteDb.user_ingredients (World._write_db world)))
      (World._write_db world) ->
  World._read_db world'
  = consumed (new_event (IngredientRemoved user_id ingredient_id) now)
             (World._read_db world) ->
  consistent world' /\ keyed world'.
Proof.
  intros Hc Hk Hpantry Hmem Hw Hr.
  assert (Hread : dict_get user_id (ReadDb.user_pantries (World._read_db world))
                  = Some pantry).
  { destruct (Hc user_id) as (_ & Hpan & _). rewrite Hpantry in Hpan. cbn in Hpan.
    destruct (dict_get user_id (ReadDb.user_pantries _)) as [p |]; cbn in Hpan.
    - now subst.
    - subst pantry. discriminate. }
  split.
  - unfold consistent. rewrite Hw, Hr. fields.
    unfold consumers.on_ingredient_removed. fields. rewrite Hread, Hmem. fields.
    intros u. destruct (Hc u) as (Hp & Hpan & Hfav).
    split; [exact Hp | split; [| exact Hfav]].
    rewrite !adjust_view by reflexivity.
    destruct (Hc user_id) as (_ & Hpan' & _).
    destruct (String.eqb user_id u); [now rewrite Hpan' | exact Hpan].
  - apply (keyed_same_users world); auto; rewrite Hw; fields; auto.
    intros u. rewrite dict_mem_adjust. auto.
Qed.

Lemma recipe_favorited_consistent (world world' : World.t)
  (now user_id recipe_id recipe_name : string) :
  consistent world -> keyed world ->
  dict_mem user_id (WriteDb.users (World._write_db world)) = true ->
  World._write_db world'
  = (let _write_db :=
       if negb (dict_mem user_id (WriteDb.favorites (World._write_db world)))
       then commands.set_favorites
              (dict_set user_id [] (WriteDb.favorites (World._write_db world)))
              (World._write_db world)
       else World._write_db world in
     commands.set_favorites
       (dict_adjust user_id (set_add recipe_id) (WriteDb.favorites _write_db))
       _write_db) ->
  World._read_db world'
  = consumed (new_event (RecipeFavorited user_id recipe_id recipe_name) now)
             (World._read_db world) ->
  consistent world' /\ keyed world'.
Proof.
  intros Hc Hk Huser Hw Hr. cbv zeta in Hw.
  assert (Hwf : WriteDb.favorites (World._write_db world')
                = dict_adjust user_id (set_add recipe_id)
                    (if negb (dict_mem user_id (WriteDb.favorites (World._write_db world)))
                     then dict_set user_id [] (WriteDb.favorites (World._write_db world))
                     else WriteDb.favorites (World._write_db world))).
  { rewrite Hw.
    destruct (dict_mem user_id (WriteDb.favorites (World._write_db world)));
      reflexivity. }
  assert (Hwu : WriteDb.users (World._write_db world')
                = WriteDb.users (World._write_db world)).
  { rewrite Hw.
    destruct (dict_mem user_id (WriteDb.favorites (World._write_db world)));
      reflexivity. }
  assert (Hwi : WriteDb.user_ingredients (World._write_db world')
                = WriteDb.user_ingredients (World._write_db world)).
  { rewrite Hw.
    destruct (dict_mem user_id (WriteDb.favorites (World._write_db world)));
      reflexivity. }
  assert (Hrp : ReadDb.user_profiles (World._read_db world')
                = ReadDb.user_profiles (World._read_db world)).
  { rewrite Hr. fields. unfold consumers.on_recipe_favorited. fields.
    destruct (dict_mem user_id (ReadDb.user_favorites (World._read_db world)));
      reflexivity. }
  assert (Hri : ReadDb.user_pantries (World._read_db world')
                = ReadDb.user_pantries (World._read_db world)).
  { rewrite Hr. fields. unfold consumers.on_recipe_favorited. fields.
    destruct (dict_mem user_id (ReadDb.user_favorites (World._read_db world)));
      reflexivity. }
  assert (Hrf : ReadDb.user_favorites (World._read_db world')
                = dict_adjust user_id (set_add recipe_id)
                    (if negb (dict_mem user_id
                                (ReadDb.user_favorites (World._read_db world)))
                     then dict_set user_id []
                            (ReadDb.user_favorites (World._read_db world))
                     else ReadDb.user_favorites (World._read_db world))).
  { rewrite Hr. fields. unfold consumers.on_recipe_favorited. fields.
    destruct (dict_mem user_id (ReadDb.user_favorites (World._read_db world)));
      reflexivity. }
  split.
  - unfold consistent. rewrite Hwu, Hwi, Hrp, Hri, Hwf, Hrf. intros u.
    destruct (Hc u) as (Hp & Hpan & Hfav). split; [exact Hp | split; [exact Hpan |]].
    intros x. rewrite !upsert_view. destruct (Hc user_id) as (_ & _ & Hfav').
    destruct (String.eqb user_id u); [| apply Hfav].
    rewrite !set_add_in, (Hfav' x). tauto.
  - apply (keyed_same_users world); auto.
    + intros u. rewrite Hwi. auto.
    + intros u. rewrite Hwf, dict_mem_adjust.
      destruct (dict_mem user_id (WriteDb.favorites (World._write_db world)));
        cbn [negb]; [auto|].
      rewrite dict_mem_set. destruct (String.eqb_spec user_id u) as [<- | _]; cbn; auto.
Qed.

Lemma recipe_unfavorited_consistent (world world' : World.t)
  (now user_id recipe_id : string) :
  consistent world -> keyed world ->
  World._write_db world'
  = commands.set_favorites
      (dict_adjust user_id (consumers.set_discard recipe_id)
                   (WriteDb.favorites (World._write_db world)))
      (World._write_db world) ->
  World._read_db world'
  = consumed (new_event (RecipeUnfavorited user_id recipe_id) now)
             (World._read_db world) ->
  consistent world' /\ keyed world'.
Proof.
  intros Hc Hk Hw Hr.
  assert (Hrf : forall u,
             get (dict_get u (ReadDb.user_favorites (World._read_db world'))) []
             = if String.eqb user_id u
               then consumers.set_discard recipe_id
                      (get (dict_get user_id
                              (ReadDb.user_favorites (World._read_db world))) [])
               else get (dict_get u (ReadDb.user_favorites (World._read_db world))) []).
  { intros u. rewrite Hr. fields. unfold consumers.on_recipe_unfavorited. fields.
    destruct (dict_mem user_id (ReadDb.user_favorites (World._read_db world))) eqn:Hm;
      fields.
    - now rewrite adjust_view.
    - destruct (String.eqb_spec user_id u) as [<- | _]; [| reflexivity].
      now rewrite (dict_get_none _ _ Hm). }
  assert (Hrest : ReadDb.user_profiles (World._read_db world')
                  = ReadDb.user_profiles (World._read_db world)
                  /\ ReadDb.user_pantries (World._read_db world')
                     = ReadDb.user_pantries (World._read_db world)).
  { rewrite Hr. fields. unfold consumers.on_recipe_unfavorited. fields.
    destruct (dict_mem user_id _); split; reflexivity. }
  destruct Hrest as [Hrp Hri].
  split.
  - unfold consistent. rewrite Hrp, Hri. intros u. rewrite Hrf. rewrite Hw. fields.
    destruct (Hc u) as (Hp & Hpan & Hfav). split; [exact Hp | split; [exact Hpan |]].
    intros x. rewrite adjust_view by reflexivity.
    destruct (Hc user_id) as (_ & _ & Hfav').
    destruct (String.eqb user_id u); [| apply Hfav].
    rewrite !set_discard_in, (Hfav' x). tauto.
  - apply (keyed_same_users world); auto; rewrite Hw; fields; auto.
    intros u. rewrite dict_mem_adjust. auto.
Qed.

Lemma read_only_consistent (world world' : World.t) :
  consistent world -> keyed world ->
  WriteDb.users (World._write_db world') = WriteDb.users (World._write_db world) ->
  WriteDb.user_ingredients (World._write_db world')
  = WriteDb.user_ingredients (World._write_db world) ->
  WriteDb.favorites (World._write_db world') = WriteDb.favorites (World._write_db world) ->
  ReadDb.user_profiles (World._read_db world')
  = ReadDb.user_profiles (World._read_db world) ->
  ReadDb.user_pantries (World._read_db world')
  = ReadDb.user_pantries (World._read_db world) ->
  ReadDb.user_favorites (World._read_db world')
  = ReadDb.user_favorites (World._read_db world) ->
  consistent world' /\ keyed world'.
Proof.
  intros Hc Hk Hu Hi Hf Hp Hpan Hfav. split.
  - unfold consistent. rewrite Hu, Hi, Hf, Hp, Hpan, Hfav. exact Hc.
  - unfold keyed. rewrite Hu, Hi, Hf. exact Hk.
Qed.

Ltac unchanged := cbn [snd]; split; [assumption | split; assumption].

Ltac after_publish Hwired :=
  cbn [snd];
  match goal with
  | |- context [commands.publish (new_event ?data ?now) ?wdb ?w] =>
      destruct (publish_wired data now w wdb Hwired) as (Hw' & Hr' & Hwired');
      cbv zeta in Hw', Hr', Hwired';
      set (world' := commands.publish (new_event data now) wdb w) in *
  end.

(** Every command keeps the read model consistent with the write database. *)
Lemma handle_preserves (uuid4 now : string) (c : command) (world : World.t) :
  consistent world -> keyed world -> wired world -> fresh_for uuid4 c world ->
  consistent (snd (handle uuid4 now c world))
  /\ keyed (snd (handle uuid4 now c world))
  /\ wired (snd (handle uuid4 now c world)).
Proof.
  intros Hc Hk Hwired Hfresh. destruct c; cbn [handle fresh_for] in *.
  - unfold commands.handle_create_user.
    destruct (negb (truthy_str username) || negb (truthy_str password)); [unchanged|].
    destruct (existsb _ _); [unchanged|].
    after_publish Hwired.
    destruct (user_created_consistent world world' uuid4 now username password
                (get dietary_restrictions []) Hc Hk Hfresh Hw' Hr'); auto.
  - unfold commands.handle_update_user_profile.
    destruct (dict_get user_id (WriteDb.users (World._write_db world)))
      as [user |] eqn:Huser; [| unchanged].
    destruct (commands.apply_updates updates user) as [user' fields] eqn:Hap.
    destruct fields as [| kv fields]; [unchanged|].
    after_publish Hwired.
    destruct (user_profile_updated_consistent world world' now user_id updates user
                Hc Hk Huser); rewrite ?Hap; auto.
  - unfold commands.handle_add_ingredient.
    destruct (dict_mem user_id (WriteDb.users (World._write_db world))) eqn:Huser;
      cbn [negb]; [| unchanged].
    destruct (negb (truthy_str ingredient_name)); [unchanged|].
    after_publish Hwired.
    destruct (ingredient_added_consistent world world' now user_id uuid4
                ingredient_name amount exp_date Hc Hk Huser Hw' Hr'); auto.
  - unfold commands.handle_remove_ingredient.
    destruct (negb (dict_mem user_id (WriteDb.users (World._write_db world))));
      [unchanged|].
    destruct (dict_get user_id (WriteDb.user_ingredients (World._write_db world)))
      as [pantry |] eqn:Hpantry; [| unchanged].
    destruct (dict_mem ingredient_id pantry) eqn:Hmem; cbn [negb]; [| unchanged].
    after_publish Hwired.
    destruct (ingredient_removed_consistent world world' now user_id ingredient_id
                pantry Hc Hk Hpantry Hmem Hw' Hr'); auto.
  - unfold commands.handle_favorite_recipe.
    destruct (dict_mem user_id (WriteDb.users (World._write_db world))) eqn:Huser;
      cbn [negb]; [| unchanged].
    destruct (contains _ recipe_id) eqn:Hin.
    + cbn [snd].
      assert (Hsame : (if negb (dict_mem user_id
                                  (WriteDb.favorites (World._write_db world)))
                       then commands.set_favorites
                              (dict_set user_id []
                                 (WriteDb.favorites (World._write_db world)))
                              (World._write_db world)
                       else World._write_db world) = World._write_db world).
      { destruct (dict_mem user_id (WriteDb.favorites (World._write_db world)));
          cbn [negb] in *; [reflexivity|].
        cbn [WriteDb.favorites commands.set_favorites] in Hin.
        rewrite dict_get_set, String.eqb_refl in Hin. discriminate. }
      rewrite Hsame. destruct world. cbn [World._write_db World._read_db World._event_bus] in *.
      split; [assumption | split; assumption].
    + after_publish Hwired.
      destruct (recipe_favorited_consistent world world' now user_id recipe_id
                  recipe_name Hc Hk Huser Hw' Hr'); auto.
  - unfold commands.handle_unfavorite_recipe.
    destruct (negb (dict_mem user_id (WriteDb.users (World._write_db world))));
      [unchanged|].
    destruct (dict_get user_id (WriteDb.favorites (World._write_db world)))
      as [favorites |]; [| unchanged].
    destruct (negb (contains favorites recipe_id)); [unchanged|].
    after_publish Hwired.
    destruct (recipe_unfavorited_consistent world world' now user_id recipe_id
                Hc Hk Hw' Hr'); auto.
  - unfold commands.handle_update_appliances.
    destruct (negb (dict_mem user_id (WriteDb.users (World._write_db world))));
      [unchanged|].
    after_publish Hwired.
    destruct (read_only_consistent world world' Hc Hk); auto;
      rewrite ?Hw', ?Hr'; reflexivity.
  - unfold commands.handle_log_recipe_search.
    after_publish Hwired.
    destruct (read_only_consistent world world' Hc Hk); auto;
      rewrite ?Hw', ?Hr'; try reflexivity; fields;
      unfold consumers.on_recipe_search_performed; fields;
      destruct (dict_mem user_id (ReadDb.user_analytics (World._read_db world)));
      reflexivity.
Qed.

Lemma started_invariant (recipe_cache : dict Recipe.t) :
  consistent (started recipe_cache) /\ keyed (started recipe_cache)
  /\ wired (started recipe_cache).
Proof.
  repeat split; cbn; try discriminate; tauto.
Qed.

Lemma reachable_invariant (world : World.t) :
  reachable world -> consistent world /\ keyed world /\ wired world.
Proof.
  induction 1 as [cache | world uuid4 now c _ (Hc & Hk & Hw) Hfresh].
  - apply started_invariant.
  - now apply handle_preserves.
Qed.

(** X19 - The read model mirrors the write database.  In every state the
    program reaches from its start by calls of the command handlers (the
    identifier drawn for a new user being new), the queries answer from
    what the commands have written: [query_user_profile] returns the user's
    record without the password, or [None] for an unknown user;
    [query_user_pantry] returns the entries of the user's pantry in the
    write database, in the same order; and the user's favourites are the
    same set on both sides. *)
Theorem read_model_mirrors_write_database (world : World.t) :
  reachable world ->
  let write_db := World._write_db world in
  let read_db := World._read_db world in
  forall user_id,
    queries.query_user_profile user_id read_db
    = option_map public_profile (dict_get user_id (WriteDb.users write_db))
    /\ queries.query_user_pantry user_id read_db
       = dict_values (get (dict_get user_id (WriteDb.user_ingredients write_db)) [])
    /\ forall recipe_id,
         In recipe_id (get (dict_get user_id (ReadDb.user_favorites read_db)) [])
         <-> In recipe_id (get (dict_get user_id (WriteDb.favorites write_db)) []).
Proof.
  intros Hreach. destruct (reachable_invariant world Hreach) as (Hc & _ & _).
  cbv zeta. intros u. destruct (Hc u) as (Hp & Hpan & Hfav).
  split; [exact Hp | split; [| exact Hfav]].
  unfold queries.query_user_pantry. rewrite <- Hpan.
  now destruct (dict_get u (ReadDb.user_pantries (World._read_db world))).
Qed.

Lemma ann_with_eggs_reachable : reachable ann_with_eggs.
Proof.
  unfold ann_with_eggs. apply reachable_handle; [| exact I].
  apply reachable_handle; [apply reachable_started | reflexivity].
Qed.

Lemma read_model_mirrors_write_database_witness :
  reachable ann_with_eggs
  /\ queries.query_user_profile "u-1" (World._read_db ann_with_eggs)
     = option_map public_profile
         (dict_get "u-1" (WriteDb.users (World._write_db ann_with_eggs)))
  /\ queries.query_user_pantry "u-1" (World._read_db ann_with_eggs)
     = dict_values
         (get (dict_get "u-1" (WriteDb.user_ingredients (World._write_db ann_with_eggs)))
              []).
Proof.
  split; [exact ann_with_eggs_reachable |].
  pose proof (read_model_mirrors_write_database ann_with_eggs ann_with_eggs_reachable
                "u-1") as (H1 & H2 & _).
  split; [exact H1 | exact H2].
Defined.

(** the pantry the query shows after the two commands *)
Example ann_with_eggs_pantry :
  map PantryItem.name (queries.query_user_pantry "u-1" (World._read_db ann_with_eggs))
  = ["eggs"].
Proof. vm_compute. reflexivity. Qed.

(** *** Usernames *)

Lemma dict_set_values_same {V W} (g : V -> W) (k : string) (v old : V) (d : dict V) :
  dict_get k d = Some old -> g v = g old ->
  map g (dict_values (dict_set k v d)) = map g (dict_values d).
Proof.
  unfold dict_values. induction d as [| [k0 v0] d IH]; cbn; [discriminate|].
  destruct (String.eqb k0 k); cbn.
  - intros H Hg. inversion H; subst. now rewrite Hg.
  - intros H Hg. now rewrite IH.
Qed.

Lemma dict_set_values_nodup {V W} (g : V -> W) (k : string) (v : V) (d : dict V) :
  NoDup (map g (dict_values d)) -> ~ In (g v) (map g (dict_values d)) ->
  NoDup (map g (dict_values (dict_set k v d))).
Proof.
  unfold dict_values. induction d as [| [k0 v0] d IH]; cbn; intros Hnd Hnot.
  - constructor; [auto | constructor].
  - inversion Hnd as [| ? ? Hn0 Hnd']; subst.
    destruct (String.eqb k0 k); cbn.
    + constructor; [tauto | assumption].
    + constructor.
      * intros Hin. apply in_map_iff in Hin as (w & Hw & Hin).
        apply in_map_iff in Hin as ([k1 v1] & Heq & Hin). cbn in Heq. subst w.
        assert (Hcases : In (k1, v1) d \/ v1 = v).
        { clear -Hin. induction d as [| [k2 v2] d IHd]; cbn in Hin.
          - destruct Hin as [H | []]. inversion H. now right.
          - destruct (String.eqb k2 k); cbn in Hin.
            + destruct Hin as [H | H]; [inversion H; now right | left; now right].
            + destruct Hin as [H | H]; [left; now left |].
              destruct (IHd H); [left; now right | now right]. }
        destruct Hcases as [Hd | ->].
        -- apply Hn0. rewrite <- Hw. apply in_map_iff. exists v1. split; [reflexivity|].
           apply in_map_iff. exists (k1, v1). auto.
        -- apply Hnot. left. now symmetry.
      * apply IH; [assumption | tauto].
Qed.

Lemma username_taken (username : string) (users : dict User.t) :
  existsb (fun user => String.eqb (User.username user) username) (dict_values users)
  = false ->
  ~ In username (map User.username (dict_values users)).
Proof.
  intros Hex Hin. apply in_map_iff in Hin as (user & Hname & Hin).
  assert (Hex' : existsb (fun user => String.eqb (User.username user) username)
                         (dict_values users) = true).
  { apply existsb_exists. exists user. split; [assumption|].
    rewrite Hname. apply String.eqb_refl. }
  congruence.
Qed.

(** X20 - Usernames stay unique.  If no two users of the write database
    share a username, no call of a command handler makes two users share
    one: a registration under a taken username is rejected (and a profile
    update cannot change a username), whatever identifier is drawn. *)
Theorem usernames_stay_unique (uuid4 now : string) (c : command) (world : World.t) :
  NoDup (usernames world) ->
  NoDup (usernames (snd (handle uuid4 now c world))).
Proof.
  unfold usernames. intros Hnd. destruct c; cbn [handle].
  - unfold commands.handle_create_user.
    destruct (negb (truthy_str username) || negb (truthy_str password)); [exact Hnd|].
    destruct (existsb _ _) eqn:Hex; [exact Hnd|].
    cbn [snd]. destruct (commands_publish_log
                           (new_event (UserCreated uuid4 username
                                         (get dietary_restrictions [])) now)
                           (commands.set_users
                              (dict_set uuid4
                                 {| User.user_id := uuid4;
                                    User.username := username;
                                    User.password := password;
                                    User.dietary_restrictions :=
                                      VList (get dietary_restrictions []);
                                    User.skill_level := VStr "beginner" |}
                                 (WriteDb.users (World._write_db world)))
                              (World._write_db world)) world) as (_ & _ & ->).
    cbn [WriteDb.users commands.set_users].
    apply dict_set_values_nodup; [exact Hnd|]. cbn [User.username].
    now apply username_taken.
  - unfold commands.handle_update_user_profile.
    destruct (dict_get user_id (WriteDb.users (World._write_db world)))
      as [user |] eqn:Huser; [| exact Hnd].
    pose proof (apply_updates_spec updates user) as Hspec.
    destruct (commands.apply_updates updates user) as [user' fields].
    destruct Hspec as (_ & _ & _ & Hname & _).
    destruct fields as [| kv fields]; [exact Hnd|].
    cbn [snd]. destruct (commands_publish_log
                           (new_event (UserProfileUpdated user_id (kv :: fields)) now)
                           (commands.set_users
                              (dict_set user_id user'
                                 (WriteDb.users (World._write_db world)))
                              (World._write_db world)) world) as (_ & _ & ->).
    cbn [WriteDb.users commands.set_users].
    now rewrite (dict_set_values_same User.username user_id user' user).
  - unfold commands.handle_add_ingredient.
    destruct (negb (dict_mem user_id (WriteDb.users (World._write_db world))));
      [exact Hnd|].
    destruct (negb (truthy_str ingredient_name)); [exact Hnd|].
    cbn [snd].
    match goal with
    | |- context [commands.publish ?e ?wdb ?w] =>
        destruct (commands_publish_log e wdb w) as (_ & _ & ->)
    end.
    destruct (negb (dict_mem user_id (WriteDb.user_ingredients (World._write_db world))));
      exact Hnd.
  - unfold commands.handle_remove_ingredient.
    destruct (negb (dict_mem user_id (WriteDb.users (World._write_db world))));
      [exact Hnd|].
    destruct (dict_get user_id (WriteDb.user_ingredients (World._write_db world)))
      as [pantry |]; [| exact Hnd].
    destruct (negb (dict_mem ingredient_id pantry)); [exact Hnd|].
    cbn [snd].
    match goal with
    | |- context [commands.publish ?e ?wdb ?w] =>
        destruct (commands_publish_log e wdb w) as (_ & _ & ->)
    end.
    exact Hnd.
  - unfold commands.handle_favorite_recipe.
    destruct (negb (dict_mem user_id (WriteDb.users (World._write_db world))));
      [exact Hnd|].
    destruct (contains _ recipe_id).
    + cbn [snd World._write_db].
      destruct (negb (dict_mem user_id (WriteDb.favorites (World._write_db world))));
        exact Hnd.
    + cbn [snd].
      match goal with
      | |- context [commands.publish ?e ?wdb ?w] =>
          destruct (commands_publish_log e wdb w) as (_ & _ & ->)
      end.
      destruct (negb (dict_mem user_id (WriteDb.favorites (World._write_db world))));
        exact Hnd.
  - unfold commands.handle_unfavorite_recipe.
    destruct (negb (dict_mem user_id (WriteDb.users (World._write_db world))));
      [exact Hnd|].
    destruct (dict_get user_id (WriteDb.favorites (World._write_db world)))
      as [favorites |]; [| exact Hnd].
    destruct (negb (contains favorites recipe_id)); [exact Hnd|].
    cbn [snd].
    match goal with
    | |- context [commands.publish ?e ?wdb ?w] =>
        destruct (commands_publish_log e wdb w) as (_ & _ & ->)
    end.
    exact Hnd.
  - unfold commands.handle_update_appliances.
    destruct (negb (dict_mem user_id (WriteDb.users (World._write_db world))));
      [exact Hnd|].
    cbn [snd].
    match goal with
    | |- context [commands.publish ?e ?wdb ?w] =>
        destruct (commands_publish_log e wdb w) as (_ & _ & ->)
    end.
    exact Hnd.
  - unfold commands.handle_log_recipe_search. cbn [snd].
    match goal with
    | |- context [commands.publish ?e ?wdb ?w] =>
        destruct (commands_publish_log e wdb w) as (_ & _ & ->)
    end.
    exact Hnd.
Qed.

Lemma usernames_stay_unique_witness :
  NoDup (usernames ann_with_eggs)
  /\ NoDup (usernames
              (snd (handle "u-2" "2024-01-03T09:00:00" (CreateUser "ann" "other" None)
                      ann_with_eggs)))
  /\ NoDup (usernames
              (snd (handle "u-2" "2024-01-03T09:00:00" (CreateUser "bob" "other" None)
                      ann_with_eggs))).
Proof.
  assert (H : NoDup (usernames ann_with_eggs)) by (repeat constructor; cbn; tauto).
  split; [exact H | split].
  - exact (usernames_stay_unique "u-2" "2024-01-03T09:00:00"
             (CreateUser "ann" "other" None) ann_with_eggs H).
  - exact (usernames_stay_unique "u-2" "2024-01-03T09:00:00"
             (CreateUser "bob" "other" None) ann_with_eggs H).
Defined.

(** a second registration as ann is rejected, one as bob is accepted *)
Example registration_under_a_taken_username :
  Response.success
    (fst (handle "u-2" "2024-01-03T09:00:00" (CreateUser "ann" "other" None)
            ann_with_eggs)) = false
  /\ usernames
       (snd (handle "u-2" "2024-01-03T09:00:00" (CreateUser "bob" "other" None)
               ann_with_eggs))
     = ["ann"; "bob"].
Proof. split; vm_compute; reflexivity. Qed.

(** *** The search history *)

Lemma dict_adjust_adjust {V} (k : string) (f g : V -> V) (d : dict V) :
  dict_adjust k f (dict_adjust k g d) = dict_adjust k (fun v => f (g v)) d.
Proof.
  induction d as [| [k0 v0] d IH]; cbn; [reflexivity|].
  destruct (String.eqb k0 k) eqn:He; cbn; rewrite ?He; [reflexivity | now rewrite IH].
Qed.

Lemma last_n_short {A} (n : nat) (l : list A) :
  (List.length l <= n)%nat -> last_n n l = l.
Proof.
  intros H. unfold last_n. replace (List.length l - n)%nat with 0%nat by lia.
  reflexivity.
Qed.

Lemma last_n_length {A} (n : nat) (l : list A) :
  (List.length (last_n n l) <= n)%nat.
Proof. unfold last_n. rewrite length_skipn. lia. Qed.

Lemma last_n_snoc {A} (n : nat) (l : list A) (x : A) :
  (1 <= n)%nat -> last_n n (last_n n l ++ [x]) = last_n n (l ++ [x]).
Proof.
  intros Hn. destruct (Nat.le_gt_cases (List.length l) n) as [Hle | Hgt].
  - now rewrite (last_n_short n l Hle).
  - unfold last_n. rewrite !length_app, length_skipn. cbn [List.length].
    replace (List.length l - (List.length l - n) + 1 - n)%nat with 1%nat by lia.
    rewrite !skipn_app, length_skipn.
    replace (1 - (List.length l - (List.length l - n)))%nat with 0%nat by lia.
    replace (List.length l + 1 - n - List.length l)%nat with 0%nat by lia.
    rewrite skipn_skipn. f_equal. f_equal. lia.
Qed.

Lemma last_n_app {A} (n : nat) (a b : list A) :
  (1 <= n)%nat -> last_n n (last_n n a ++ b) = last_n n (a ++ b).
Proof.
  intros Hn. induction b as [| x b IH] using rev_ind.
  - rewrite !app_nil_r. apply last_n_short, last_n_length.
  - rewrite !app_assoc, <- (last_n_snoc n (last_n n a ++ b)) by assumption.
    rewrite IH. now apply last_n_snoc.
Qed.

Lemma pop_is_last_n {A} (l : list A) (x : A) :
  (List.length l <= 10)%nat ->
  (if (10 <? List.length (l ++ [x]))%nat then consumers.pop_first (l ++ [x])
   else l ++ [x])
  = last_n 10 (l ++ [x]).
Proof.
  intros Hlen. rewrite length_app. cbn [List.length].
  destruct (Nat.ltb_spec 10 (List.length l + 1)) as [Hlt | Hge].
  - unfold last_n. rewrite length_app. cbn [List.length].
    replace (List.length l + 1 - 10)%nat with 1%nat by lia.
    destruct l; [cbn in Hlt; lia | reflexivity].
  - symmetry. apply last_n_short. rewrite length_app. cbn. lia.
Qed.

(** One logged search, seen from the user's analytics. *)
Lemma search_performed_analytics (world : World.t) (now user_id : string)
  (ingredients : list string) (filters : option Filters.t) (result_count : Z) :
  wired world ->
  (List.length (Analytics.recent_searches (analytics_of user_id world)) <= 10)%nat ->
  let world' :=
    snd (commands.handle_log_recipe_search now user_id ingredients filters
           result_count world) in
  wired world'
  /\ dict_get user_id (ReadDb.user_analytics (World._read_db world'))
     = Some {| Analytics.search_count :=
                 Analytics.search_count (analytics_of user_id world) + 1;
               Analytics.recent_searches :=
                 last_n 10
                   (Analytics.recent_searches (analytics_of user_id world)
                    ++ [analytics_entry (now, ingredients, filters, result_count)]) |}.
Proof.
  intros Hwired Hlen. cbv zeta. unfold commands.handle_log_recipe_search. cbn [snd].
  destruct (publish_wired
              (RecipeSearchPerformed user_id ingredients filters result_count) now
              world (World._write_db world) Hwired) as (_ & Hr & Hw').
  cbv zeta in Hr, Hw'. split; [exact Hw'|]. rewrite Hr. fields.
  unfold consumers.on_recipe_search_performed. fields.
  set (analytics := ReadDb.user_analytics (World._read_db world)) in *.
  assert (Hfold : forall d : dict Analytics.t,
             ReadDb.user_analytics
               (consumers.set_user_analytics d
                  (if negb (dict_mem user_id analytics)
                   then consumers.set_user_analytics
                          (dict_set user_id no_analytics analytics)
                          (World._read_db world)
                   else World._read_db world)) = d) by reflexivity.
  assert (Hbase : ReadDb.user_analytics
                    (if negb (dict_mem user_id analytics)
                     then consumers.set_user_analytics
                            (dict_set user_id no_analytics analytics)
                            (World._read_db world)
                     else World._read_db world)
                  = if negb (dict_mem user_id analytics)
                    then dict_set user_id no_analytics analytics else analytics).
  { destruct (dict_mem user_id analytics); reflexivity. }
  unfold no_analytics in *. rewrite Hbase. rewrite !dict_adjust_adjust.
  rewrite dict_get_adjust, String.eqb_refl.
  assert (Hprev : dict_get user_id
                    (if negb (dict_mem user_id analytics)
                     then dict_set user_id
                            {| Analytics.search_count := 0;
                               Analytics.recent_searches := [] |} analytics
                     else analytics)
                  = Some (analytics_of user_id world)).
  { unfold analytics_of, no_analytics. fold analytics.
    destruct (dict_mem user_id analytics) eqn:Hm; cbn [negb].
    - destruct (dict_get_some _ _ Hm) as (a & ->). reflexivity.
    - rewrite dict_get_set, String.eqb_refl, (dict_get_none _ _ Hm). reflexivity. }
  rewrite Hprev. cbn [option_map Analytics.recent_searches Analytics.search_count].
  f_equal.
  rewrite <- (pop_is_last_n _ _ Hlen).
  unfold analytics_entry.
  destruct (10 <? _)%nat; reflexivity.
Qed.

Lemma log_searches_analytics (user_id : string) (searches : list logged_search) :
  forall world,
    wired world ->
    (List.length (Analytics.recent_searches (analytics_of user_id world)) <= 10)%nat ->
    searches <> [] ->
    dict_get user_id
      (ReadDb.user_analytics (World._read_db (log_searches user_id searches world)))
    = Some {| Analytics.search_count :=
                Analytics.search_count (analytics_of user_id world)
                + Z.of_nat (List.length searches);
              Analytics.recent_searches :=
                last_n 10
                  (Analytics.recent_searches (analytics_of user_id world)
                   ++ map analytics_entry searches) |}.
Proof.
  induction searches as [| [[[now ings] filters] count] rest IH];
    intros world Hwired Hlen Hne; [congruence|].
  change (log_searches user_id ((now, ings, filters, count) :: rest) world)
    with (log_searches user_id rest
            (snd (commands.handle_log_recipe_search now user_id ings filters count
                    world))).
  destruct (search_performed_analytics world now user_id ings filters count Hwired Hlen)
    as (Hw' & Hget).
  cbv zeta in Hw', Hget.
  set (world' := snd (commands.handle_log_recipe_search now user_id ings filters count
                        world)) in *.
  destruct rest as [| s rest'].
  - change (log_searches user_id [] world') with world'. rewrite Hget. reflexivity.
  - assert (Hof : analytics_of user_id world'
                  = {| Analytics.search_count :=
                         Analytics.search_count (analytics_of user_id world) + 1;
                       Analytics.recent_searches :=
                         last_n 10
                           (Analytics.recent_searches (analytics_of user_id world)
                            ++ [analytics_entry (now, ings, filters, count)]) |}).
    { unfold analytics_of at 1. now rewrite Hget. }
    rewrite IH; [| exact Hw' | rewrite Hof; apply last_n_length | discriminate].
    rewrite Hof. cbn [Analytics.search_count Analytics.recent_searches].
    f_equal. f_equal.
    + cbn [List.length]. lia.
    + rewrite last_n_app by lia. now rewrite <- app_assoc.
Qed.

(** X21 - The search history keeps the last ten searches.  On the bus of
    the program, after any non-empty sequence of calls of
    [handle_log_recipe_search] for a user, the user's [search_count] has
    grown by the number of calls, and [recent_searches] holds the last ten
    of the searches recorded so far, oldest first, each with its time
    stamp, its ingredients and its result count. *)
Theorem search_history_keeps_the_last_ten (user_id : string)
  (searches : list logged_search) (world : World.t) :
  wired world ->
  (List.length (Analytics.recent_searches (analytics_of user_id world)) <= 10)%nat ->
  searches <> [] ->
  let previous := analytics_of user_id world in
  let world' := log_searches user_id searches world in
  dict_get user_id (ReadDb.user_analytics (World._read_db world'))
  = Some {| Analytics.search_count :=
              Analytics.search_count previous + Z.of_nat (List.length searches);
            Analytics.recent_searches :=
              last_n 10 (Analytics.recent_searches previous
                         ++ map analytics_entry searches) |}
  /\ (List.length (Analytics.recent_searches (analytics_of user_id world')) <= 10)%nat.
Proof.
  intros Hwired Hlen Hne. cbv zeta.
  pose proof (log_searches_analytics user_id searches world Hwired Hlen Hne) as H.
  split; [exact H|].
  unfold analytics_of at 1. rewrite H. cbn [get Analytics.recent_searches].
  apply last_n_length.
Qed.

Lemma search_history_keeps_the_last_ten_witness :
  wired ann_with_eggs
  /\ (List.length (Analytics.recent_searches (analytics_of "u-1" ann_with_eggs)) <= 10)%nat
  /\ eleven_searches <> []
  /\ dict_get "u-1"
       (ReadDb.user_analytics
          (World._read_db (log_searches "u-1" eleven_searches ann_with_eggs)))
     = Some {| Analytics.search_count :=
                 Analytics.search_count (analytics_of "u-1" ann_with_eggs)
                 + Z.of_nat (List.length eleven_searches);
               Analytics.recent_searches :=
                 last_n 10 (Analytics.recent_searches (analytics_of "u-1" ann_with_eggs)
                            ++ map analytics_entry eleven_searches) |}.
Proof.
  assert (H1 : wired ann_with_eggs)
    by (apply reachable_invariant, ann_with_eggs_reachable).
  assert (H2 : (List.length (Analytics.recent_searches (analytics_of "u-1" ann_with_eggs))
                <= 10)%nat) by (cbn; lia).
  assert (H3 : eleven_searches <> []) by discriminate.
  split; [exact H1 | split; [exact H2 | split; [exact H3 |]]].
  exact (proj1 (search_history_keeps_the_last_ten "u-1" eleven_searches ann_with_eggs
                  H1 H2 H3)).
Defined.

(** after eleven searches the first one has left the history *)
Example eleven_searches_history :
  option_map
    (fun a => (Analytics.search_count a,
               map Analytics.timestamp (Analytics.recent_searches a)))
    (dict_get "u-1"
       (ReadDb.user_analytics
          (World._read_db (log_searches "u-1" eleven_searches ann_with_eggs))))
  = Some (11, ["02"; "03"; "04"; "05"; "06"; "07"; "08"; "09"; "10"; "11"]).
Proof. vm_compute. reflexivity. Qed.

(** *** Adding and removing an ingredient *)

Lemma dict_del_set_fresh {V} (k : string) (v : V) (d : dict V) :
  dict_mem k d = false -> dict_del k (dict_set k v d) = d.
Proof.
  unfold dict_mem. induction d as [| [k0 v0] d IH]; cbn.
  - now rewrite String.eqb_refl.
  - destruct (String.eqb k0 k) eqn:He; cbn; [discriminate|].
    intros H. rewrite He. now rewrite IH.
Qed.

(** X22 - Adding an ingredient and removing it again is a round trip.  In a
    reachable state, for a registered user and a non-empty name, with a
    drawn identifier that is not yet in the user's pantry: the addition
    succeeds and returns the identifier, the pantry query then shows the new
    entry under its lower-cased name, the removal by that identifier
    succeeds, and afterwards the pantry query answers as before the two
    calls. *)
Theorem add_then_remove_ingredient_is_a_round_trip (world : World.t)
  (uuid4 now1 now2 user_id ingredient_name : string) (amount : spec_float)
  (exp_date : option string) :
  reachable world ->
  dict_mem user_id (WriteDb.users (World._write_db world)) = true ->
  ingredient_name <> "" ->
  dict_mem uuid4
    (get (dict_get user_id (WriteDb.user_ingredients (World._write_db world))) [])
  = false ->
  let added :=
    commands.handle_add_ingredient uuid4 now1 user_id ingredient_name amount exp_date
      world in
  let removed := commands.handle_remove_ingredient now2 user_id uuid4 (snd added) in
  Response.success (fst added) = true
  /\ Response.ingredient_id (fst added) = Some uuid4
  /\ In {| PantryItem.ingredient_id := uuid4;
           PantryItem.name := lower ingredient_name;
           PantryItem.amount := amount;
           PantryItem.exp_date := exp_date |}
        (queries.query_user_pantry user_id (World._read_db (snd added)))
  /\ Response.success (fst removed) = true
  /\ queries.query_user_pantry user_id (World._read_db (snd removed))
     = queries.query_user_pantry user_id (World._read_db world).
Proof.
  intros Hreach Huser Hname Hfresh added removed.
  assert (Hreach1 : reachable (snd added)).
  { apply (reachable_handle world uuid4 now1
             (AddIngredient user_id ingredient_name amount exp_date) Hreach I). }
  assert (Hreach2 : reachable (snd removed)).
  { apply (reachable_handle (snd added) uuid4 now2 (RemoveIngredient user_id uuid4)
             Hreach1 I). }
  destruct (reachable_invariant _ Hreach) as (Hc & _ & Hwired).
  destruct (reachable_invariant _ Hreach1) as (Hc1 & _ & Hwired1).
  destruct (reachable_invariant _ Hreach2) as (Hc2 & _ & _).
  assert (Hq : forall w, consistent w ->
             queries.query_user_pantry user_id (World._read_db w)
             = dict_values
                 (get (dict_get user_id (WriteDb.user_ingredients (World._write_db w)))
                      [])).
  { intros w Hw. destruct (Hw user_id) as (_ & Hpan & _).
    unfold queries.query_user_pantry. rewrite <- Hpan.
    now destruct (dict_get user_id (ReadDb.user_pantries (World._read_db w))). }
  apply truthy_str_spec in Hname.
  set (item := {| PantryItem.ingredient_id := uuid4;
                  PantryItem.name := lower ingredient_name;
                  PantryItem.amount := amount;
                  PantryItem.exp_date := exp_date |}).
  set (before := get (dict_get user_id
                        (WriteDb.user_ingredients (World._write_db world))) []) in *.
  (* the write database after the addition *)
  assert (Hadded : Response.success (fst added) = true
                   /\ Response.ingredient_id (fst added) = Some uuid4
                   /\ dict_get user_id
                        (WriteDb.user_ingredients (World._write_db (snd added)))
                      = Some (dict_set uuid4 item before)
                   /\ WriteDb.users (World._write_db (snd added))
                      = WriteDb.users (World._write_db world)).
  { unfold added, commands.handle_add_ingredient. rewrite Huser, Hname. cbn [negb fst snd].
    match goal with
    | |- context [commands.publish ?e ?wdb ?w] =>
        destruct (commands_publish_log e wdb w) as (_ & _ & ->)
    end.
    cbn [Response.success Response.ingredient_id]. split; [reflexivity |].
    split; [reflexivity |].
    unfold before.
    destruct (dict_mem user_id (WriteDb.user_ingredients (World._write_db world)))
      eqn:Hm; cbn [negb]; fields; rewrite dict_get_adjust, String.eqb_refl.
    - destruct (dict_get_some _ _ Hm) as (p & ->). split; reflexivity.
    - rewrite dict_get_set, String.eqb_refl, (dict_get_none _ _ Hm). split; reflexivity. }
  destruct Hadded as (Hs1 & Hid1 & Hw1 & Hu1).
  assert (Hremoved : Response.success (fst removed) = true
                     /\ get (dict_get user_id
                               (WriteDb.user_ingredients (World._write_db (snd removed))))
                            []
                        = before).
  { unfold removed, commands.handle_remove_ingredient. rewrite Hu1, Huser, Hw1.
    rewrite dict_mem_set, String.eqb_refl. cbn [negb orb fst snd].
    match goal with
    | |- context [commands.publish ?e ?wdb ?w] =>
        destruct (commands_publish_log e wdb w) as (_ & _ & ->)
    end.
    split; [reflexivity |]. fields.
    rewrite dict_get_adjust, String.eqb_refl, Hw1. cbn [option_map get].
    now apply dict_del_set_fresh. }
  destruct Hremoved as (Hs2 & Hw2).
  split; [exact Hs1 | split; [exact Hid1 | split; [| split; [exact Hs2 |]]]].
  - rewrite (Hq _ Hc1), Hw1. cbn [get]. unfold dict_values. apply in_map_iff.
    exists (uuid4, item). split; [reflexivity|].
    apply dict_get_in. now rewrite dict_get_set, String.eqb_refl.
  - rewrite (Hq _ Hc2), (Hq _ Hc), Hw2. reflexivity.
Qed.

Lemma add_then_remove_ingredient_is_a_round_trip_witness :
  let added :=
    commands.handle_add_ingredient "i-2" "2024-01-03T09:00:00" "u-1" "Milk"
      (Float64.float_of_int 2) None ann_with_eggs in
  let removed :=
    commands.handle_remove_ingredient "2024-01-04T09:00:00" "u-1" "i-2" (snd added) in
  reachable ann_with_eggs
  /\ dict_mem "u-1" (WriteDb.users (World._write_db ann_with_eggs)) = true
  /\ "Milk" <> ""
  /\ dict_mem "i-2"
       (get (dict_get "u-1" (WriteDb.user_ingredients (World._write_db ann_with_eggs)))
            []) = false
  /\ Response.success (fst added) = true
  /\ Response.ingredient_id (fst added) = Some "i-2"
  /\ In {| PantryItem.ingredient_id := "i-2";
           PantryItem.name := lower "Milk";
           PantryItem.amount := Float64.float_of_int 2;
           PantryItem.exp_date := None |}
        (queries.query_user_pantry "u-1" (World._read_db (snd added)))
  /\ Response.success (fst removed) = true
  /\ queries.query_user_pantry "u-1" (World._read_db (snd removed))
     = queries.query_user_pantry "u-1" (World._read_db ann_with_eggs).
Proof.
  intros added removed.
  assert (H1 : reachable ann_with_eggs) by exact ann_with_eggs_reachable.
  assert (H2 : dict_mem "u-1" (WriteDb.users (World._write_db ann_with_eggs)) = true)
    by reflexivity.
  assert (H3 : "Milk" <> "") by discriminate.
  assert (H4 : dict_mem "i-2"
                 (get (dict_get "u-1"
                         (WriteDb.user_ingredients (World._write_db ann_with_eggs))) [])
               = false) by reflexivity.
  split; [exact H1 | split; [exact H2 | split; [exact H3 | split; [exact H4 |]]]].
  exact (add_then_remove_ingredient_is_a_round_trip ann_with_eggs "i-2"
           "2024-01-03T09:00:00" "2024-01-04T09:00:00" "u-1" "Milk"
           (Float64.float_of_int 2) None H1 H2 H3 H4).
Defined.

(** *** Appliances *)

(** X23 - The appliances never reach the read model.  On the bus of the
    program no consumer is subscribed to [USER_APPLIANCES_UPDATED]: a call
    of [handle_update_appliances] that succeeds stores the appliances in
    the write database and logs its event, and leaves the read model, which
    is all the queries see, exactly as it was. *)
Theorem appliances_never_reach_the_read_model (now user_id : string)
  (appliances : list string) (world : World.t) :
  wired world ->
  dict_mem user_id (WriteDb.users (World._write_db world)) = true ->
  let response := fst (commands.handle_update_appliances now user_id appliances world) in
  let world' := snd (commands.handle_update_appliances now user_id appliances world) in
  Response.success response = true
  /\ dict_get user_id (WriteDb.appliances (World._write_db world')) = Some appliances
  /\ EventBus._event_log (World._event_bus world')
     = EventBus._event_log (World._event_bus world)
       ++ [new_event (UserAppliancesUpdated user_id appliances) now]
  /\ World._read_db world' = World._read_db world.
Proof.
  intros Hwired Huser. cbv zeta. unfold commands.handle_update_appliances.
  rewrite Huser. cbn [negb fst snd Response.success Response.done].
  destruct (publish_wired (UserAppliancesUpdated user_id appliances) now world
              (commands.set_appliances
                 (dict_set user_id appliances
                    (WriteDb.appliances (World._write_db world)))
                 (World._write_db world)) Hwired) as (Hw & Hr & _).
  cbv zeta in Hw, Hr.
  destruct (commands_publish_log
              (new_event (UserAppliancesUpdated user_id appliances) now)
              (commands.set_appliances
                 (dict_set user_id appliances
                    (WriteDb.appliances (World._write_db world)))
                 (World._write_db world)) world) as (Hlog & _ & _).
  split; [reflexivity | split; [| split; [exact Hlog | exact Hr]]].
  rewrite Hw. cbn [WriteDb.appliances commands.set_appliances].
  now rewrite dict_get_set, String.eqb_refl.
Qed.

Lemma appliances_never_reach_the_read_model_witness :
  let world' :=
    snd (commands.handle_update_appliances "2024-01-05T09:00:00" "u-1" ["oven"; "pan"]
           ann_with_eggs) in
  wired ann_with_eggs
  /\ dict_mem "u-1" (WriteDb.users (World._write_db ann_with_eggs)) = true
  /\ Response.success
       (fst (commands.handle_update_appliances "2024-01-05T09:00:00" "u-1"
               ["oven"; "pan"] ann_with_eggs)) = true
  /\ dict_get "u-1" (WriteDb.appliances (World._write_db world')) = Some ["oven"; "pan"]
  /\ EventBus._event_log (World._event_bus world')
     = EventBus._event_log (World._event_bus ann_with_eggs)
       ++ [new_event (UserAppliancesUpdated "u-1" ["oven"; "pan"]) "2024-01-05T09:00:00"]
  /\ World._read_db world' = World._read_db ann_with_eggs.
Proof.
  intros world'.
  assert (H1 : wired ann_with_eggs)
    by (apply reachable_invariant, ann_with_eggs_reachable).
  assert (H2 : dict_mem "u-1" (WriteDb.users (World._write_db ann_with_eggs)) = true)
    by reflexivity.
  split; [exact H1 | split; [exact H2 |]].
  exact (appliances_never_reach_the_read_model "2024-01-05T09:00:00" "u-1"
           ["oven"; "pan"] ann_with_eggs H1 H2).
Defined.

(** *** The event bus *)

Lemma notify_snoc (callbacks : list callback) (cb : callback) (event : Event.t)
  (db : ReadDb.t) :
  EventBus.notify (callbacks ++ [cb]) event db
  = fst (cb event (EventBus.notify callbacks event db)).
Proof. unfold EventBus.notify. now rewrite fold_left_app. Qed.

(** X24 - Subscribing and publishing.  After [subscribe(event_type,
    callback)], publishing an event of that type runs the earlier
    subscribers of the type and then the new callback, on the read model
    they have left; publishing an event of another type runs exactly what
    it ran before.  Whether or not the callback raises, the event is logged
    and the publisher goes on: the exception is dropped, and what the
    callback has done to the read model stays. *)
Theorem publish_after_subscribe (event_type : string) (cb : callback)
  (event : Event.t) (bus : EventBus.t) (read_db : ReadDb.t) :
  let before := EventBus.publish event bus read_db in
  let after := EventBus.publish event (EventBus.subscribe event_type cb bus) read_db in
  EventBus._event_log (fst after) = EventBus._event_log bus ++ [event]
  /\ snd after
     = if String.eqb event_type (Event.event_type event)
       then fst (cb event (snd before))
       else snd before.
Proof.
  cbv zeta. unfold EventBus.publish, EventBus.subscribe.
  cbn [EventBus._subscribers EventBus._event_log].
  set (subs := EventBus._subscribers bus).
  rewrite dict_get_adjust.
  assert (Hget : dict_get (Event.event_type event)
                   (if dict_mem event_type subs then subs
                    else dict_set event_type [] subs)
                 = if String.eqb event_type (Event.event_type event)
                   then Some (get (dict_get event_type subs) [])
                   else dict_get (Event.event_type event) subs).
  { destruct (dict_mem event_type subs) eqn:Hm.
    - destruct (String.eqb_spec event_type (Event.event_type event)) as [<- | _];
        [| reflexivity].
      destruct (dict_get_some _ _ Hm) as (l & ->). reflexivity.
    - rewrite dict_get_set.
      destruct (String.eqb_spec event_type (Event.event_type event)) as [_ | _];
        [| reflexivity].
      now rewrite (dict_get_none _ _ Hm). }
  rewrite Hget.
  destruct (String.eqb_spec event_type (Event.event_type event)) as [<- | Hne].
  - cbn [option_map fst snd EventBus._event_log]. split; [reflexivity|].
    rewrite notify_snoc.
    destruct (dict_get event_type subs); reflexivity.
  - destruct (dict_get (Event.event_type event) subs); cbn; split; reflexivity.
Qed.

(** a subscriber that raises does not keep the consumer before it, nor the
    publisher, from their work: the search is recorded for ann, and the
    subscriber's own count stays *)
Example failing_subscriber_is_isolated :
  let world :=
    snd (commands.handle_log_recipe_search "2024-01-06T09:00:00" "u-1" ["eggs"] None 2
           {| World._write_db := World._write_db ann_with_eggs;
              World._read_db := World._read_db ann_with_eggs;
              World._event_bus :=
                EventBus.subscribe "RECIPE_SEARCH_PERFORMED" failing_subscriber
                  (World._event_bus ann_with_eggs) |}) in
  map (fun kv => (fst kv, Analytics.search_count (snd kv)))
      (ReadDb.user_analytics (World._read_db world))
  = [("u-1", 1); ("audit", 1)]
  /\ List.length (EventBus.get_event_log (World._event_bus world)) = 3%nat.
Proof. vm_compute. split; reflexivity. Qed.

(** *** From a command to a query *)

(** X25 - A favourite shows up in the query.  In a reachable state, when a
    registered user favours a recipe that is not yet a favourite and that the
    cache holds as a non-empty recipe, [handle_favorite_recipe] succeeds, and
    whatever list [query_user_favorites] then returns has an entry for that
    recipe, with its id and name and its match against the user's pantry. *)
Theorem favorite_recipe_shows_in_query (world : World.t)
  (now user_id recipe_id recipe_name : string) (recipe : Recipe.t) :
  reachable world ->
  dict_mem user_id (WriteDb.users (World._write_db world)) = true ->
  contains (get (dict_get user_id (WriteDb.favorites (World._write_db world))) [])
           recipe_id = false ->
  dict_get recipe_id (ReadDb.recipe_cache (World._read_db world)) = Some recipe ->
  truthy_recipe recipe = true ->
  let favored := commands.handle_favorite_recipe now user_id recipe_id recipe_name world in
  let read_db := World._read_db (snd favored) in
  Response.success (fst favored) = true
  /\ forall favorites,
       queries.query_user_favorites user_id read_db = Ok favorites ->
       exists f,
         In f favorites
         /\ favorite_entry_of (ReadDb.recipe_cache read_db)
              (map PantryItem.name (queries.query_user_pantry user_id read_db))
              recipe_id f.
Proof.
  intros Hreach Huser Hnew Hcache Htruthy favored read_db.
  assert (Hreach' : reachable (snd favored)).
  { apply (reachable_handle world "" now (FavoriteRecipe user_id recipe_id recipe_name)
             Hreach I). }
  destruct (reachable_invariant _ Hreach) as (_ & _ & Hwired).
  destruct (reachable_invariant _ Hreach') as (Hc' & _ & _).
  assert (Hcontains : contains
                        (get (dict_get user_id
                                (WriteDb.favorites
                                   (if negb (dict_mem user_id
                                               (WriteDb.favorites (World._write_db world)))
                                    then commands.set_favorites
                                           (dict_set user_id []
                                              (WriteDb.favorites (World._write_db world)))
                                           (World._write_db world)
                                    else World._write_db world))) [])
                        recipe_id = false).
  { destruct (dict_mem user_id (WriteDb.favorites (World._write_db world))) eqn:Hm;
      cbn [negb]; [exact Hnew|].
    cbn [WriteDb.favorites commands.set_favorites].
    now rewrite dict_get_set, String.eqb_refl. }
  assert (Hfav : Response.success (fst favored) = true
                 /\ In recipe_id
                      (get (dict_get user_id
                              (WriteDb.favorites (World._write_db (snd favored)))) [])
                 /\ ReadDb.recipe_cache (World._read_db (snd favored))
                    = ReadDb.recipe_cache (World._read_db world)).
  { unfold favored, commands.handle_favorite_recipe. rewrite Huser. cbn [negb].
    rewrite Hcontains. cbn [fst snd Response.success Response.done].
    split; [reflexivity|].
    match goal with
    | |- context [commands.publish (new_event ?data ?n) ?wdb ?w] =>
        destruct (publish_wired data n w wdb Hwired) as (Hw' & Hr' & _);
        cbv zeta in Hw', Hr'; rewrite Hw', Hr'
    end.
    split.
    - assert (Hup : forall d : dict (list string),
                 In recipe_id
                   (get (dict_get user_id
                           (dict_adjust user_id (set_add recipe_id)
                              (if negb (dict_mem user_id d)
                               then dict_set user_id [] d else d))) [])).
      { intros d. rewrite upsert_view, String.eqb_refl. apply set_add_in. now left. }
      destruct (dict_mem user_id (WriteDb.favorites (World._write_db world))) eqn:Hm;
        cbn [negb]; fields.
      + specialize (Hup (WriteDb.favorites (World._write_db world))).
        rewrite Hm in Hup. exact Hup.
      + specialize (Hup (WriteDb.favorites (World._write_db world))).
        rewrite Hm in Hup. exact Hup.
    - fields. unfold consumers.on_recipe_favorited. fields.
      destruct (dict_mem user_id (ReadDb.user_favorites (World._read_db world)));
        reflexivity. }
  destruct Hfav as (Hs & Hin & Hsame). split; [exact Hs|].
  intros favorites Hq.
  pose proof (Hc' user_id) as (_ & _ & Hfavs). apply Hfavs in Hin.
  fold read_db in Hin, Hsame.
  unfold queries.query_user_favorites in Hq.
  destruct (dict_get user_id (ReadDb.user_favorites read_db)) as [ids |] eqn:Hids;
    [| destruct Hin].
  cbn [get] in Hin.
  pose proof (favorites_loop_returns _ _ _ _ _ Hq) as Hall.
  destruct (favorites_loop_spec (ReadDb.recipe_cache read_db)
              (map PantryItem.name (queries.query_user_pantry user_id read_db))
              ids Hall []) as (es & Hloop & Hes).
  rewrite Hq in Hloop. inversion Hloop; subst es.
  assert (Hkept : In recipe_id (filter (cached (ReadDb.recipe_cache read_db)) ids)).
  { apply filter_In. split; [exact Hin|]. unfold cached. now rewrite Hsame, Hcache. }
  destruct (Forall2_in_left _ _ _ recipe_id Hes Hkept) as (f & Hf & Hentry).
  exists f. auto.
Qed.

Lemma favorite_recipe_shows_in_query_witness :
  let favored :=
    commands.handle_favorite_recipe "2024-01-02T09:00:00" "u-1" "2" "Grilled Cheese"
      ann_with_catalog in
  let read_db := World._read_db (snd favored) in
  reachable ann_with_catalog
  /\ dict_mem "u-1" (WriteDb.users (World._write_db ann_with_catalog)) = true
  /\ contains
       (get (dict_get "u-1" (WriteDb.favorites (World._write_db ann_with_catalog))) [])
       "2" = false
  /\ dict_get "2" (ReadDb.recipe_cache (World._read_db ann_with_catalog))
     = Some (mk_recipe 2 "Grilled Cheese" ["bread"; "cheese"; "butter"] 10 "beginner"
               "American" ["vegetarian"])
  /\ Response.success (fst favored) = true
  /\ forall favorites,
       queries.query_user_favorites "u-1" read_db = Ok favorites ->
       exists f,
         In f favorites
         /\ favorite_entry_of (ReadDb.recipe_cache read_db)
              (map PantryItem.name (queries.query_user_pantry "u-1" read_db)) "2" f.
Proof.
  intros favored read_db.
  assert (H1 : reachable ann_with_catalog).
  { unfold ann_with_catalog. apply reachable_handle; [apply reachable_started |].
    reflexivity. }
  assert (H2 : dict_mem "u-1" (WriteDb.users (World._write_db ann_with_catalog)) = true)
    by reflexivity.
  assert (H3 : contains
                 (get (dict_get "u-1"
                         (WriteDb.favorites (World._write_db ann_with_catalog))) [])
                 "2" = false) by reflexivity.
  assert (H4 : dict_get "2" (ReadDb.recipe_cache (World._read_db ann_with_catalog))
               = Some (mk_recipe 2 "Grilled Cheese" ["bread"; "cheese"; "butter"] 10
                         "beginner" "American" ["vegetarian"])) by reflexivity.
  assert (H5 : truthy_recipe
                 (mk_recipe 2 "Grilled Cheese" ["bread"; "cheese"; "butter"] 10
                    "beginner" "American" ["vegetarian"]) = true) by reflexivity.
  split; [exact H1 | split; [exact H2 | split; [exact H3 | split; [exact H4 |]]]].
  exact (favorite_recipe_shows_in_query ann_with_catalog "2024-01-02T09:00:00" "u-1"
           "2" "Grilled Cheese" _ H1 H2 H3 H4 H5).
Defined.

(** the favourite as the query returns it *)
Example favorite_recipe_in_query :
  queries.query_user_favorites "u-1"
    (World._read_db
       (snd (commands.handle_favorite_recipe "2024-01-02T09:00:00" "u-1" "2"
               "Grilled Cheese" ann_with_catalog)))
  = Ok [ {| Favorite.id := 2; Favorite.name := "Grilled Cheese";
            Favorite.match_percentage := 0;
            Favorite.matched_ingredients := [];
            Favorite.missing_ingredients := ["bread"; "cheese"; "butter"] |} ].
Proof. vm_compute. reflexivity. Qed.
